(* ===== verification/_CoqProject ===== *)
-Q . S2P
Prelude.v
HashTable.v
Uapi.v
NetUid.v
FreeAsync.v
Kernel.v
Frozen.v
Token.v
BinderHooks.v
Signal.v
Netfilter.v
Binder.v
BinderAlloc.v
BinderKp.v
BinderKpSpec.v
BinderKpRun.v
Nla.v
Genl.v
Jni.v
Resolve.v
Transport.v
Client.v
Lifecycle.v
System.v
