(* ===== verification/Prelude.v ===== *)
(** * ReKernel-X: a verification library

    ReKernel-X is a Linux kernel module for Android (LKM-Source/) and a client
    library for it (Develop/rekernel_x/src/main/cpp/).  The module watches
    frozen applications: vendor hooks on binder, signals and a netfilter hook
    report what happens to them, over generic netlink, and a kprobe on
    binder_proc_transaction drops queued one-way transactions that a newer one
    supersedes.  The client receives the events, calls a Java callback, and
    sends requests that set which uids and which binder interfaces the module
    looks at.

    ** Parts, files and sources

    - Prelude.v: machine integers, bytes, C strings, shared tactics.
    - HashTable.v: the kernel's hashtable.h as a list of buckets, with its walks;
      the bucket function is the class [HashFn].
    - Uapi.v: rkx.h and rkx_uapi.h, constants, enumerations, events, and when an
      event is well formed ([event_wf]).
    - NetUid.v: rkx_netuid.c, the monitored uids; [UidMonitor] is what the
      netfilter hook may assume about them.
    - FreeAsync.v: rkx_free_async.c, the rules (interface, code) to strategy.
    - Kernel.v: services of Linux the hooks call, as classes; Demo holds
      concrete instances to evaluate on.
    - Frozen.v: rkx_frozen.c.
    - Token.v: the reference for reading an interface name from a parcel.
    - BinderHooks.v: the three hooks of rkx_binder.c.
    - Signal.v: the hook of rkx_signal.c.
    - Netfilter.v: the hook and the two parsers of rkx_netfilter.c.
    - Binder.v: the part of binder's state the probe touches, and a state and
      failure monad over it: using an object that is not there, or taking a
      lock twice, is a failure.
    - BinderAlloc.v: rkx_binder_alloc.c, copying from a buffer over pages; it
      implements the interface [BinderCopy] the probe is written against.
    - BinderKp.v: the probe and the worker of rkx_binder_kp.c.
    - BinderKpSpec.v: what the probe does as one function on the state, and the
      proofs that the code does that.
    - BinderKpRun.v: probe, worker and binder interleaved.
    - Nla.v: rkx_nla.h, attribute parser and message builder, on byte lists.
    - Genl.v: rkx_genl.c, the four requests and [rkx_send_message]; what becomes
      of its buffer is a value ([skb_fate]), so that a leak or a double free
      shows.
    - Jni.v: rkx_jni.cpp, decoding events and building requests.
    - Resolve.v: rkx_jni.cpp, [resolve_family_group].
    - Transport.v: Genl.v and Jni.v joined, both directions; the class [GenlCore]
      is the kernel's dispatch of a request on its family id and command byte.
    - Client.v: rkx_jni.cpp, the connection, [pollEvent], the callback, and the
      machine any number of threads form that run the API calls in steps.
    - Lifecycle.v: rkx.c and the register and unregister functions of the other
      files.
    - System.v: hooks, transport and client joined.

    Definitions carry the names of the C functions they translate.  A loop is a
    [Fixpoint]; a read or write outside its array, a dead object, or a loop
    that outruns its fuel is [None], and the theorems show that [None] does not
    happen.  An array keeps its size: [arr_set] and [into_array] fail outside it.
    Arrays of attribute pointers, whose index the code checks first, are finite
    maps.  An operation the code runs under a mutex or inside an RCU section is
    one step.

    ** What the theorems show

    - Tables: after any history of calls the monitored uids are a finite set and
      the rules a finite map with a wildcard fallback; entries are neither
      leaked nor freed twice.
    - Hooks: memory safety and totality on every input, what is reported and
      what is not, thresholds and uid ranges, payload lengths of TCP segments.
    - Probe: it refines a specification function, drops exactly the first
      superseded transaction, leaves the state alone otherwise, and the worker
      balances every counter; in any interleaving with binder every queued work
      item finds what it frees.
    - Transport: builder and parser are inverse, parsing arbitrary bytes is safe
      and ends, every event becomes the callback with the same fields, every
      request reaches the handler of its command and changes the tables as it
      means; a message buffer is multicast or freed, once.
    - Client: connecting is all or nothing and finds the module's family; in
      every interleaving of the threads' steps no descriptor and no global
      reference leaks; as long as one thread at a time is in [pollEvent] it
      waits on open descriptors and a disconnect is never lost, and a second
      one can be left behind.
    - Lifecycle: loading is all or nothing, unloading releases everything in an
      order that stops the producers before what they use; the one case of an
      unbalanced unregistration while loading is stated exactly.
    - System: what any hook reports arrives at the callback; the trace hook and
      the probe name an interface alike.

    Some theorems state what the code does where that is not what it means to
    do: the names end in _overflow, _overreaches, _new_namespace, _reads_stale,
    _negative_length, _never_applies, _truncated, _overreads and
    _left_behind.

    ** Bounds and fuel

    The extraction loops have the size of the name array, 140, plus one as fuel,
    and stop at most 62 characters in.  Attribute loops have the remaining
    length as fuel, an attribute takes at least 4 bytes of it.  The receive
    loop has the length of the buffer, a message takes at least 16.  The copy
    loop has the number of bytes left.  In each case the theorem about the loop
    shows the fuel suffices.

    ** Assumptions

    Services of Linux, of the C library and of the Java machine are classes or
    records of answers; the laws of a class state documented behaviour, and a
    concrete instance of every class is given, most of them in Demo modules.  All targets
    are little endian.  Datagrams on the event socket are padded to four bytes,
    as the module's are.  The decoding of the controller's answer is shown safe
    for answers as [reply_readable] of Resolve.v describes them.

    ** Not modelled

    Log output; memory ordering below the granularity of a critical section,
    such as an RCU reader that walks a bucket while a writer changes it; local
    JNI references and exceptions raised by the callback; the Java classes,
    which only declare; build files and installation scripts.  rkx_binder_alloc.c
    is modelled as it is compiled before Linux 6.0, the only versions that
    compile it. *)

From Stdlib Require Import ZArith Strings.Byte Strings.String.
From stdpp Require Export base gmap numbers option list.
Export String.StringSyntax.

#[global] Open Scope Z_scope.
#[global] Unset Program Cases.

(** ** Scopes and automation *)

Declare Scope rkx_scope.
Delimit Scope rkx_scope with rkx.
#[global] Open Scope rkx_scope.

Create HintDb rkx discriminated.
Create Rewrite HintDb rkx.

(** ** Machine integers

    A [w]-bit C integer is a [Z]; every place where the source stores or
    converts a value at its width goes through one of these functions. *)

Definition uwrap (w z : Z) : Z := z mod 2 ^ w.

Definition swrap (w z : Z) : Z := (z + 2 ^ (w - 1)) mod 2 ^ w - 2 ^ (w - 1).

Abbreviation u8 := (uwrap 8).
Abbreviation u16 := (uwrap 16).
Abbreviation u32 := (uwrap 32).
Abbreviation u64 := (uwrap 64).
Abbreviation s32 := (swrap 32).

Definition in_u (w z : Z) : Prop := 0 <= z < 2 ^ w.
Definition in_s (w z : Z) : Prop := - 2 ^ (w - 1) <= z < 2 ^ (w - 1).

#[export] Instance in_u_dec w z : Decision (in_u w z).
Proof. unfold in_u; apply _. Defined.
#[export] Instance in_s_dec w z : Decision (in_s w z).
Proof. unfold in_s; apply _. Defined.

Lemma pow2_pos w : 0 <= w -> 0 < 2 ^ w.
Proof. intros; apply Z.pow_pos_nonneg; lia. Qed.

Lemma pow2_half w : 1 <= w -> 2 ^ w = 2 * 2 ^ (w - 1).
Proof. intros. rewrite <- Z.pow_succ_r by lia. f_equal; lia. Qed.

Lemma uwrap_range w z : 0 <= w -> in_u w (uwrap w z).
Proof. intros; apply Z.mod_pos_bound, pow2_pos; done. Qed.

Lemma uwrap_small w z : in_u w z -> uwrap w z = z.
Proof. apply Z.mod_small. Qed.

Lemma swrap_range w z : 1 <= w -> in_s w (swrap w z).
Proof.
  intros Hw. unfold in_s, swrap.
  pose proof (Z.mod_pos_bound (z + 2 ^ (w - 1)) (2 ^ w) (pow2_pos w ltac:(lia))).
  rewrite (pow2_half w Hw) in *. lia.
Qed.

Lemma swrap_small w z : 1 <= w -> in_s w z -> swrap w z = z.
Proof.
  intros Hw [??]. unfold swrap. rewrite Z.mod_small; [lia|].
  rewrite (pow2_half w Hw). lia.
Qed.

Lemma swrap_uwrap w z : 1 <= w -> swrap w (uwrap w z) = swrap w z.
Proof.
  intros Hw. unfold swrap, uwrap. rewrite Z.add_mod_idemp_l; [done|].
  pose proof (pow2_pos w). lia.
Qed.

Lemma uwrap_swrap w z : 1 <= w -> uwrap w (swrap w z) = uwrap w z.
Proof.
  intros Hw. unfold swrap, uwrap. rewrite Zminus_mod_idemp_l.
  f_equal; lia.
Qed.

Lemma swrap_add_l w a d : swrap w (swrap w a + d) = swrap w (a + d).
Proof.
  unfold swrap.
  replace ((a + 2 ^ (w - 1)) mod 2 ^ w - 2 ^ (w - 1) + d + 2 ^ (w - 1))
    with ((a + 2 ^ (w - 1)) mod 2 ^ w + d) by lia.
  rewrite Zplus_mod_idemp_l. do 2 f_equal. lia.
Qed.

#[export] Hint Resolve pow2_pos uwrap_range swrap_range : rkx.

(** ** Bytes *)

Abbreviation byte := Byte.byte.
Abbreviation NUL := Byte.x00.

#[export] Instance byte_eq_decision : EqDecision byte := Byte.byte_eq_dec.
#[export] Instance byte_countable : Countable byte :=
  inj_countable Byte.to_N Byte.of_N Byte.of_to_N.

Definition byte_Z (b : byte) : Z := Z.of_N (Byte.to_N b).
Definition Z_byte (z : Z) : byte := default NUL (Byte.of_N (Z.to_N (uwrap 8 z))).

Lemma byte_Z_range b : 0 <= byte_Z b < 256.
Proof. unfold byte_Z. pose proof (Byte.to_N_bounded b). lia. Qed.

Lemma byte_Z_of_Z z : byte_Z (Z_byte z) = uwrap 8 z.
Proof.
  unfold byte_Z, Z_byte. pose proof (uwrap_range 8 z ltac:(lia)) as [Hl Hu].
  change (2 ^ 8) with 256 in Hu.
  destruct (Byte.of_N (Z.to_N (uwrap 8 z))) eqn:E; simpl.
  - apply Byte.to_of_N in E. lia.
  - apply Byte.of_N_None_iff in E. lia.
Qed.

Lemma byte_Z_inj b1 b2 : byte_Z b1 = byte_Z b2 -> b1 = b2.
Proof.
  unfold byte_Z. intros H%N2Z.inj. apply (f_equal Byte.of_N) in H.
  rewrite !Byte.of_to_N in H. congruence.
Qed.

Lemma Z_byte_Z b : Z_byte (byte_Z b) = b.
Proof.
  apply byte_Z_inj. rewrite byte_Z_of_Z. apply uwrap_small, byte_Z_range.
Qed.

(** Little-endian encodings: every target of the module is little-endian
    AArch64, and netlink integers travel in host byte order. *)

Fixpoint le_bytes (n : nat) (z : Z) : list byte :=
  match n with
  | O => []
  | S n => Z_byte z :: le_bytes n (z / 256)
  end.

Fixpoint le_Z (bs : list byte) : Z :=
  match bs with
  | [] => 0
  | b :: bs => byte_Z b + 256 * le_Z bs
  end.

Lemma length_le_bytes n z : length (le_bytes n z) = n.
Proof. revert z; induction n; simpl; auto. Qed.

Lemma le_Z_bytes n z : le_Z (le_bytes n z) = uwrap (8 * Z.of_nat n) z.
Proof.
  revert z; induction n as [|n IH]; intros z; cbn [le_bytes le_Z].
  { unfold uwrap. rewrite Z.mul_0_r, Z.mod_1_r. done. }
  rewrite IH, byte_Z_of_Z. unfold uwrap.
  replace (8 * Z.of_nat (S n)) with (8 + 8 * Z.of_nat n) by lia.
  rewrite Z.pow_add_r by lia. change (2 ^ 8) with 256.
  rewrite Z.rem_mul_r; [lia|lia|]. apply pow2_pos; lia.
Qed.

Lemma le_Z_range bs : 0 <= le_Z bs < 2 ^ (8 * Z.of_nat (length bs)).
Proof.
  induction bs as [|b bs IH]; simpl length; cbn [le_Z]; [lia|].
  pose proof (byte_Z_range b).
  replace (8 * Z.of_nat (S (length bs))) with (8 + 8 * Z.of_nat (length bs)) by lia.
  rewrite Z.pow_add_r by lia. change (2 ^ 8) with 256. lia.
Qed.

Lemma le_bytes_mod n z w : w = 8 * Z.of_nat n -> le_bytes n (uwrap w z) = le_bytes n z.
Proof.
  intros ->. revert z. induction n as [|n IH]; intros z; [done|].
  cbn [le_bytes]. unfold uwrap.
  replace (8 * Z.of_nat (S n)) with (8 + 8 * Z.of_nat n) by lia.
  rewrite Z.pow_add_r by lia. change (2 ^ 8) with 256.
  pose proof (pow2_pos (8 * Z.of_nat n) ltac:(lia)).
  f_equal.
  - apply byte_Z_inj. rewrite !byte_Z_of_Z. unfold uwrap. change (2 ^ 8) with 256.
    rewrite Z.rem_mul_r by lia.
    rewrite Z.mul_comm, Z_mod_plus_full, Z.mod_mod; lia.
  - rewrite Z.rem_mul_r by lia.
    rewrite Z.mul_comm, Z_div_plus_full by lia.
    rewrite (Z.div_small (z mod 256)) by (apply Z.mod_pos_bound; lia).
    rewrite Z.add_0_l. apply IH.
Qed.

#[export] Hint Rewrite length_le_bytes le_Z_bytes : rkx.

(** ** C strings

    A [const char *] that points at a C string is its list of characters,
    without the terminating NUL.  [c_string] reads one from a buffer and is
    [None] when the buffer ends before a NUL: the C code would run past it. *)

Fixpoint c_string (buf : list byte) : option (list byte) :=
  match buf with
  | [] => None
  | b :: buf => if bool_decide (b = NUL) then Some [] else (b ::.) <$> c_string buf
  end.

Definition no_nul (s : list byte) : Prop := Forall (.≠ NUL) s.

#[export] Instance no_nul_dec s : Decision (no_nul s).
Proof. unfold no_nul; apply _. Defined.

Lemma c_string_app s rest : no_nul s -> c_string (s ++ NUL :: rest) = Some s.
Proof.
  induction 1 as [|b s Hb Hs IH]; cbn [app c_string]; [done|].
  rewrite bool_decide_eq_false_2, IH by done. done.
Qed.

Lemma c_string_spec buf s :
  c_string buf = Some s <-> no_nul s /\ exists rest, buf = s ++ NUL :: rest.
Proof.
  split; [|intros [Hs [rest ->]]; by apply c_string_app].
  revert s; induction buf as [|b buf IH]; intros s H; cbn [c_string] in H; [done|].
  case_bool_decide as Hb; simplify_eq.
  - split; [constructor|by exists buf].
  - destruct (c_string buf) as [s'|]; simplify_eq/=.
    destruct (IH s' eq_refl) as [Hs [rest ->]].
    split; [by constructor|by exists rest].
Qed.

Lemma c_string_no_nul buf s : c_string buf = Some s -> no_nul s.
Proof. intros H. by apply c_string_spec in H as [??]. Qed.

(** [strnlen] and [strscpy] on the characters of a C string: [strscpy]
    copies what fits before a terminator it always writes. *)
Definition strnlen (s : list byte) (maxlen : nat) : nat := length s `min` maxlen.
Definition strscpy (count : nat) (s : list byte) : list byte := take (count - 1) s.

Lemma strscpy_fits count s : (length s < count)%nat -> strscpy count s = s.
Proof. intros. apply take_ge. lia. Qed.

Lemma strscpy_no_nul count s : no_nul s -> no_nul (strscpy count s).
Proof. apply Forall_take. Qed.

Definition str (s : string) : list byte := list_byte_of_string s.
Arguments str s%_string.

#[export] Hint Resolve c_string_no_nul strscpy_no_nul : rkx.

(** ** Arrays

    Writing an element outside an array, or copying more bytes into it than it
    has, is [None]. *)

Definition arr_set {A} (i : nat) (x : A) (a : list A) : option (list A) :=
  if (i <? length a)%nat then Some (<[i := x]> a) else None.

(** The copy [m] of [n] bytes to the start of an array of [cap] bytes. *)
Definition into_array {A} (cap n : Z) (m : option A) : option A :=
  if n <=? cap then m else None.

Lemma arr_set_Some {A} i (x : A) a : (i < length a)%nat -> arr_set i x a = Some (<[i := x]> a).
Proof. intros Hi. unfold arr_set. by rewrite (proj2 (Nat.ltb_lt _ _)). Qed.

Lemma into_array_fits {A} cap n (m : option A) : n <= cap -> into_array cap n m = m.
Proof. intros Hn. unfold into_array. by rewrite (proj2 (Z.leb_le _ _)). Qed.

(** ** Tactics *)

(** Splits the boolean tests of a handler and keeps what they decided. *)
Ltac split_guard :=
  match goal with
  | |- context [if ?b then _ else _] =>
      let E := fresh "E" in destruct b eqn:E
  | H : context [if ?b then _ else _] |- _ =>
      let E := fresh "E" in destruct b eqn:E
  end.

(** Turns [andb]/[orb]/[negb] facts into propositions. *)
Ltac bool_facts :=
  repeat match goal with
  | H : _ && _ = true |- _ => apply andb_prop in H as [??]
  | H : _ || _ = false |- _ => apply orb_false_elim in H as [??]
  | H : negb _ = true |- _ => apply negb_true_iff in H
  | H : negb _ = false |- _ => apply negb_false_iff in H
  | H : Nat.ltb _ _ = true |- _ => apply Nat.ltb_lt in H
  | H : Nat.ltb _ _ = false |- _ => apply Nat.ltb_ge in H
  | H : Nat.leb _ _ = true |- _ => apply Nat.leb_le in H
  | H : Nat.leb _ _ = false |- _ => apply Nat.leb_gt in H
  | H : bool_decide _ = true |- _ => apply bool_decide_eq_true in H
  | H : bool_decide _ = false |- _ => apply bool_decide_eq_false in H
  end.
