(* ===== verification/HashTable.v ===== *)
(** The kernel's fixed-size chained hash table, as rkx_netuid.c and
    rkx_free_async.c use it.

    [linux/hashtable.h] is not part of the repository: which bucket a key
    falls in ([hash_min]) is a parameter, constrained only by what
    [DEFINE_HASHTABLE(_, 6)] needs, an index below 64.  The operations follow
    the documented meaning of the macros the sources call: [hash_add_rcu] puts
    the object at the head of its key's bucket, [hash_for_each_possible] walks
    the bucket of a key in order, [hash_del_rcu] unlinks one object.

    The second half relates a table to the finite map it represents; the two
    components prove their refinement theorems through these lemmas. *)

From S2P Require Import Prelude.

(** ** Tables and their operations *)

Class HashFn := {
  hash_min : Z -> nat;
  hash_min_lt k : (hash_min k < 64)%nat;
}.

Section Ops.
Context `{HashFn} {A : Type}.
Implicit Types (t : list (list A)) (p : A -> bool).

Definition hash_init : list (list A) := replicate 64 [].

(** The objects [hash_for_each_possible(t, _, _, key)] visits, in order. *)
Definition hash_bucket (key : Z) t : list A := t !!! hash_min key.

Definition hash_add_rcu (x : A) (key : Z) t : list (list A) :=
  alter (x ::.) (hash_min key) t.

(** A walk that stops at the first object satisfying [p]. *)
Fixpoint walk_find p (b : list A) : option A :=
  match b with
  | [] => None
  | x :: b => if p x then Some x else walk_find p b
  end.

(** A walk whose body rewrites the first such object and breaks. *)
Fixpoint walk_update p (f : A -> A) (b : list A) : list A :=
  match b with
  | [] => []
  | x :: b => if p x then f x :: b else x :: walk_update p f b
  end.

(** A walk whose body unlinks the first such object and breaks. *)
Fixpoint walk_del p (b : list A) : list A :=
  match b with
  | [] => []
  | x :: b => if p x then b else x :: walk_del p b
  end.

Definition hash_find p key t : option A := walk_find p (hash_bucket key t).
Definition hash_update p f key t : list (list A) :=
  alter (walk_update p f) (hash_min key) t.
Definition hash_del p key t : list (list A) := alter (walk_del p) (hash_min key) t.

(** [hash_for_each_safe] with a body that unlinks every object it visits:
    the objects in the order they were unlinked, and the table left. *)
Fixpoint hash_drain t : list A * list (list A) :=
  match t with
  | [] => ([], [])
  | b :: t => let '(out, t') := hash_drain t in (b ++ out, [] :: t')
  end.
End Ops.

(** ** Walks *)

Section Walks.
Context {A : Type}.
Implicit Types (p : A -> bool) (l : list A).

Lemma walk_find_Some p l x : walk_find p l = Some x -> x ∈ l /\ p x = true.
Proof.
  induction l as [|y l IH]; cbn [walk_find]; [done|].
  destruct (p y) eqn:E; intros Hf; [set_solver|].
  destruct (IH Hf); set_solver.
Qed.

Lemma walk_find_None p l : walk_find p l = None <-> Forall (fun x => p x = false) l.
Proof.
  induction l as [|y l IH]; cbn [walk_find]; [done|].
  rewrite Forall_cons_iff, <- IH. destruct (p y); naive_solver.
Qed.

(** Elements a walk does not match can be put in front or behind. *)
Lemma walk_find_skip p l1 l l2 :
  Forall (fun x => p x = false) l1 -> Forall (fun x => p x = false) l2 ->
  walk_find p (l1 ++ l ++ l2) = walk_find p l.
Proof.
  intros H1 H2. induction H1 as [|x l1 Hx _ IH]; cbn [app walk_find]; [|by rewrite Hx].
  induction l as [|y l IH]; cbn [app walk_find].
  - by apply walk_find_None.
  - by rewrite IH.
Qed.

Lemma walk_update_id p f l : Forall (fun x => p x = false) l -> walk_update p f l = l.
Proof. induction 1 as [|x l Hx _ IH]; cbn [walk_update]; [done|]. by rewrite Hx, IH. Qed.

Lemma walk_update_skip p f l1 l l2 :
  Forall (fun x => p x = false) l1 -> Forall (fun x => p x = false) l2 ->
  walk_update p f (l1 ++ l ++ l2) = l1 ++ walk_update p f l ++ l2.
Proof.
  intros H1 H2.
  induction H1 as [|x l1 Hx _ IH]; cbn [app walk_update]; [|by rewrite Hx, IH].
  induction l as [|y l IH]; cbn [app walk_update]; [by apply walk_update_id|].
  destruct (p y); [done|]. by rewrite IH.
Qed.

Lemma walk_del_id p l : Forall (fun x => p x = false) l -> walk_del p l = l.
Proof. induction 1 as [|x l Hx _ IH]; cbn [walk_del]; [done|]. by rewrite Hx, IH. Qed.

Lemma walk_del_skip p l1 l l2 :
  Forall (fun x => p x = false) l1 -> Forall (fun x => p x = false) l2 ->
  walk_del p (l1 ++ l ++ l2) = l1 ++ walk_del p l ++ l2.
Proof.
  intros H1 H2.
  induction H1 as [|x l1 Hx _ IH]; cbn [app walk_del]; [|by rewrite Hx, IH].
  induction l as [|y l IH]; cbn [app walk_del]; [by apply walk_del_id|].
  destruct (p y); [done|]. by rewrite IH.
Qed.

Lemma walk_del_Permutation p l x :
  walk_find p l = Some x -> l ≡ₚ x :: walk_del p l.
Proof.
  induction l as [|y l IH]; cbn [walk_find walk_del]; [done|].
  destruct (p y); intros Hf; simplify_eq; [done|].
  rewrite (IH Hf) at 1. apply Permutation_swap.
Qed.

Lemma walk_update_Permutation p f l x :
  walk_find p l = Some x -> exists rest, l ≡ₚ x :: rest /\ walk_update p f l ≡ₚ f x :: rest.
Proof.
  induction l as [|y l IH]; cbn [walk_find walk_update]; [done|]. destruct (p y).
  - intros [= ->]. by exists l.
  - intros Hf. destruct (IH Hf) as (rest & H1 & H2). exists (y :: rest). split.
    + rewrite H1. apply Permutation_swap.
    + rewrite H2. apply Permutation_swap.
Qed.

Lemma walk_del_sublist p l : walk_del p l `sublist_of` l.
Proof.
  induction l as [|y l IH]; cbn [walk_del]; [done|].
  destruct (p y); by constructor.
Qed.

Lemma walk_update_fmap {B} (g : A -> B) p f l :
  (forall x, g (f x) = g x) -> g <$> walk_update p f l = g <$> l.
Proof.
  intros Hg. induction l as [|y l IH]; cbn [walk_update]; [done|].
  destruct (p y); rewrite !fmap_cons, ?Hg; congruence.
Qed.

Lemma length_walk_update p f l : length (walk_update p f l) = length l.
Proof.
  induction l as [|y l IH]; cbn [walk_update]; [done|].
  destruct (p y); cbn [length]; congruence.
Qed.

Lemma Forall_walk_update (P : A -> Prop) p f l :
  Forall P l -> (forall x, P x -> P (f x)) -> Forall P (walk_update p f l).
Proof.
  intros Hl Hf. induction Hl as [|x l Hx Hl IH]; cbn [walk_update]; [constructor|].
  destruct (p x); constructor; auto.
Qed.

(** The walks depend on the test only through the answers it gives. *)
#[global] Instance walk_find_proper :
  Proper (pointwise_relation A (=) ==> (=) ==> (=)) (@walk_find A).
Proof.
  intros p q Hpq l _ <-. induction l as [|x l IH]; cbn [walk_find]; [done|].
  by rewrite Hpq, IH.
Qed.

#[global] Instance walk_del_proper :
  Proper (pointwise_relation A (=) ==> (=) ==> (=)) (@walk_del A).
Proof.
  intros p q Hpq l _ <-. induction l as [|x l IH]; cbn [walk_del]; [done|].
  by rewrite Hpq, IH.
Qed.

#[global] Instance walk_update_proper :
  Proper (pointwise_relation A (=) ==> (=) ==> (=) ==> (=)) (@walk_update A).
Proof.
  intros p q Hpq f _ <- l _ <-. induction l as [|x l IH]; cbn [walk_update]; [done|].
  by rewrite Hpq, IH.
Qed.

#[global] Instance hash_find_proper `{HashFn} :
  Proper (pointwise_relation A (=) ==> (=) ==> (=) ==> (=)) (hash_find (A := A)).
Proof. intros p q Hpq k _ <- t _ <-. unfold hash_find. by rewrite Hpq. Qed.

#[global] Instance hash_del_proper `{HashFn} :
  Proper (pointwise_relation A (=) ==> (=) ==> (=) ==> (=)) (hash_del (A := A)).
Proof.
  intros p q Hpq k _ <- t _ <-. unfold hash_del.
  apply list_alter_ext; [|done]. intros b _. by rewrite Hpq.
Qed.

#[global] Instance hash_update_proper `{HashFn} :
  Proper (pointwise_relation A (=) ==> (=) ==> (=) ==> (=) ==> (=)) (hash_update (A := A)).
Proof.
  intros p q Hpq f _ <- k _ <- t _ <-. unfold hash_update.
  apply list_alter_ext; [|done]. intros b _. by rewrite Hpq.
Qed.
End Walks.

(** ** Keyed tables

    [key] is what identifies an object, [hk] the value its key hashes to. *)

Section Keyed.
Context `{HashFn} {A K : Type} `{Countable K} (key : A -> K) (hk : K -> Z).
Implicit Types (t : list (list A)) (k : K) (x : A).

Definition is_key k x : bool := bool_decide (key x = k).

(** The table invariant: 64 buckets, each object in the bucket of its key,
    and at most one object per key. *)
Record table_wf t : Prop := {
  wf_size : length t = 64%nat;
  wf_place : forall i b x, t !! i = Some b -> x ∈ b -> hash_min (hk (key x)) = i;
  wf_nodup : NoDup (key <$> concat t);
}.

(** The finite map the table represents. *)
Definition to_map t : gmap K A := list_to_map ((fun x => (key x, x)) <$> concat t).

Lemma concat_replicate_nil n : concat (replicate n (@nil A)) = [].
Proof. by induction n. Qed.

Lemma elem_of_concat (t : list (list A)) x :
  x ∈ concat t <-> exists i b, t !! i = Some b /\ x ∈ b.
Proof.
  rewrite list_elem_of_In, in_concat. setoid_rewrite <- list_elem_of_In.
  setoid_rewrite list_elem_of_lookup at 1. naive_solver.
Qed.

(** The table seen from one bucket: the rest holds no object of its keys. *)
Lemma table_split t k :
  table_wf t ->
  exists t1 b t2, t = t1 ++ b :: t2 /\ length t1 = hash_min (hk k) /\
    hash_bucket (hk k) t = b /\
    Forall (fun x => is_key k x = false) (concat t1) /\
    Forall (fun x => is_key k x = false) (concat t2).
Proof.
  intros Hwf. pose proof (hash_min_lt (hk k)) as Hlt.
  destruct (lookup_lt_is_Some_2 t (hash_min (hk k))) as [b Hb];
    [rewrite (wf_size t Hwf); done|].
  assert (Hrest : forall i b' x, t !! i = Some b' -> x ∈ b' ->
      i <> hash_min (hk k) -> is_key k x = false).
  { intros i b' x Hi Hx Hne. apply bool_decide_eq_false. intros <-.
    by apply (wf_place t Hwf) with (x := x) in Hi. }
  exists (take (hash_min (hk k)) t), b, (drop (S (hash_min (hk k))) t).
  split_and!.
  - by rewrite take_drop_middle.
  - apply length_take_le. rewrite (wf_size t Hwf). lia.
  - by apply list_lookup_total_correct.
  - apply Forall_forall. intros x (i & b' & Hi & Hx)%elem_of_concat.
    apply lookup_take_Some in Hi as [Hi ?]. eapply Hrest; [done..|lia].
  - apply Forall_forall. intros x (i & b' & Hi & Hx)%elem_of_concat.
    rewrite lookup_drop in Hi. eapply Hrest; [done..|lia].
Qed.

Lemma concat_split (t1 t2 : list (list A)) b :
  concat (t1 ++ b :: t2) = concat t1 ++ b ++ concat t2.
Proof. by rewrite concat_app. Qed.

Lemma alter_split (f : list A -> list A) t1 b t2 i :
  length t1 = i -> alter f i (t1 ++ b :: t2) = t1 ++ f b :: t2.
Proof. intros <-. by rewrite alter_app_r_alt, Nat.sub_diag by lia. Qed.

Lemma hash_find_concat t k :
  table_wf t -> hash_find (is_key k) (hk k) t = walk_find (is_key k) (concat t).
Proof.
  intros Hwf. destruct (table_split t k Hwf) as (t1 & b & t2 & -> & Hl & Hb & H1 & H2).
  unfold hash_find. rewrite Hb, concat_split. symmetry. by apply walk_find_skip.
Qed.

Lemma hash_del_concat t k :
  table_wf t -> concat (hash_del (is_key k) (hk k) t) = walk_del (is_key k) (concat t).
Proof.
  intros Hwf. destruct (table_split t k Hwf) as (t1 & b & t2 & -> & Hl & Hb & H1 & H2).
  unfold hash_del. rewrite alter_split by done. rewrite !concat_split.
  symmetry. by apply walk_del_skip.
Qed.

Lemma hash_update_concat f t k :
  table_wf t ->
  concat (hash_update (is_key k) f (hk k) t) = walk_update (is_key k) f (concat t).
Proof.
  intros Hwf. destruct (table_split t k Hwf) as (t1 & b & t2 & -> & Hl & Hb & H1 & H2).
  unfold hash_update. rewrite alter_split by done. rewrite !concat_split.
  symmetry. by apply walk_update_skip.
Qed.

Lemma hash_add_concat x t :
  table_wf t -> concat (hash_add_rcu x (hk (key x)) t) ≡ₚ x :: concat t.
Proof.
  intros Hwf.
  destruct (table_split t (key x) Hwf) as (t1 & b & t2 & -> & Hl & _ & _ & _).
  unfold hash_add_rcu. rewrite alter_split by done. rewrite !concat_split.
  cbn [app]. symmetry. apply Permutation_middle.
Qed.

Lemma hash_drain_spec t : hash_drain t = (concat t, replicate (length t) []).
Proof. induction t as [|b t IH]; cbn [hash_drain]; [done|]. by rewrite IH. Qed.

(** *** The represented map *)

Lemma lookup_keyed (l : list A) k :
  NoDup (key <$> l) ->
  (list_to_map ((fun x => (key x, x)) <$> l) : gmap K A) !! k = walk_find (is_key k) l.
Proof.
  intros _. induction l as [|x l IH]; [done|].
  rewrite fmap_cons. cbn [list_to_map foldr walk_find fst snd].
  unfold is_key at 1. case_bool_decide as E.
  - subst. apply lookup_insert_eq.
  - rewrite lookup_insert_ne by done. apply IH.
Qed.

Lemma to_map_lookup t k :
  table_wf t -> to_map t !! k = hash_find (is_key k) (hk k) t.
Proof.
  intros Hwf. rewrite hash_find_concat by done.
  apply lookup_keyed, (wf_nodup t Hwf).
Qed.

Lemma to_map_Some t k x :
  table_wf t -> to_map t !! k = Some x <-> x ∈ concat t /\ key x = k.
Proof.
  intros Hwf. unfold to_map. rewrite <- elem_of_list_to_map.
  - rewrite list_elem_of_fmap. naive_solver.
  - rewrite <- list_fmap_compose. exact (wf_nodup t Hwf).
Qed.

Lemma to_map_perm l1 l2 :
  l1 ≡ₚ l2 -> NoDup (key <$> l1) ->
  (list_to_map ((fun x => (key x, x)) <$> l1) : gmap K A)
  = list_to_map ((fun x => (key x, x)) <$> l2).
Proof.
  intros Hp Hnd. apply list_to_map_proper; [|by rewrite Hp].
  by rewrite <- list_fmap_compose.
Qed.

(** Preservation of the invariant and the effect on the represented map. *)

Lemma table_wf_init : table_wf hash_init.
Proof.
  split; [done| |].
  - intros i b x Hi Hx. apply lookup_replicate in Hi as [-> _]. set_solver.
  - unfold hash_init. rewrite concat_replicate_nil. constructor.
Qed.

Lemma to_map_init : to_map hash_init = ∅.
Proof. unfold to_map, hash_init. by rewrite concat_replicate_nil. Qed.

(** An alteration of one bucket keeps the placement if what it leaves there
    belongs there. *)
Lemma wf_place_alter (f : list A -> list A) t i0 :
  table_wf t ->
  (forall b x, t !! i0 = Some b -> x ∈ f b -> hash_min (hk (key x)) = i0) ->
  forall i b x, alter f i0 t !! i = Some b -> x ∈ b -> hash_min (hk (key x)) = i.
Proof.
  intros Hwf Hf i b x Hi Hx. rewrite list_lookup_alter in Hi.
  destruct (decide (i0 = i)) as [->|Hne]; [|by eapply (wf_place t Hwf)].
  destruct (t !! i) as [b'|] eqn:E; simplify_eq/=. by eapply Hf.
Qed.

Lemma table_wf_add x t :
  table_wf t -> to_map t !! key x = None -> table_wf (hash_add_rcu x (hk (key x)) t).
Proof.
  intros Hwf Hnew. split.
  - unfold hash_add_rcu. by rewrite length_alter, (wf_size t Hwf).
  - apply wf_place_alter; [done|]. intros b y Hb [->|Hy]%elem_of_cons; [done|].
    by eapply (wf_place t Hwf).
  - rewrite (hash_add_concat x t Hwf), fmap_cons. constructor; [|apply (wf_nodup t Hwf)].
    intros (y & Hy & Hin)%list_elem_of_fmap.
    assert (to_map t !! key x = Some y) by (by apply to_map_Some). congruence.
Qed.

Lemma to_map_add x t :
  table_wf t -> to_map t !! key x = None ->
  to_map (hash_add_rcu x (hk (key x)) t) = <[key x := x]> (to_map t).
Proof.
  intros Hwf Hnew. pose proof (table_wf_add x t Hwf Hnew) as Hwf'.
  unfold to_map. rewrite (to_map_perm _ (x :: concat t)); [done| |apply (wf_nodup _ Hwf')].
  by apply hash_add_concat.
Qed.

Lemma table_wf_del k t : table_wf t -> table_wf (hash_del (is_key k) (hk k) t).
Proof.
  intros Hwf. split.
  - unfold hash_del. by rewrite length_alter, (wf_size t Hwf).
  - apply wf_place_alter; [done|]. intros b y Hb Hy. eapply (wf_place t Hwf); [done|].
    eapply elem_of_sublist; [done|apply walk_del_sublist].
  - rewrite hash_del_concat by done. eapply sublist_NoDup; [apply (wf_nodup t Hwf)|].
    apply fmap_sublist, walk_del_sublist.
Qed.

Lemma to_map_del k t :
  table_wf t -> to_map (hash_del (is_key k) (hk k) t) = delete k (to_map t).
Proof.
  intros Hwf. unfold to_map. rewrite hash_del_concat by done.
  destruct (walk_find (is_key k) (concat t)) as [x|] eqn:E.
  - pose proof (walk_del_Permutation _ _ _ E) as Hp.
    apply walk_find_Some in E as [_ E%bool_decide_eq_true].
    pose proof (wf_nodup t Hwf) as Hnd.
    rewrite (to_map_perm _ _ Hp Hnd), fmap_cons. cbn [list_to_map foldr fst snd].
    rewrite E, delete_insert_id; [done|].
    rewrite Hp, fmap_cons, E in Hnd. apply NoDup_cons in Hnd as [Hnin Hnd].
    apply not_elem_of_list_to_map_1. by rewrite <- list_fmap_compose.
  - assert (Hl := E). apply walk_find_None in E. rewrite walk_del_id by done.
    symmetry. apply delete_id. by rewrite lookup_keyed by apply (wf_nodup t Hwf).
Qed.

Lemma table_wf_update f k t :
  (forall x, key (f x) = key x) ->
  table_wf t -> table_wf (hash_update (is_key k) f (hk k) t).
Proof.
  intros Hf Hwf. split.
  - unfold hash_update. by rewrite length_alter, (wf_size t Hwf).
  - apply wf_place_alter; [done|]. intros b y Hb Hy.
    apply (list_elem_of_fmap_2 key) in Hy. rewrite walk_update_fmap in Hy by done.
    apply list_elem_of_fmap in Hy as (z & -> & Hz). by eapply (wf_place t Hwf).
  - rewrite hash_update_concat, walk_update_fmap by done. apply (wf_nodup t Hwf).
Qed.

Lemma walk_find_update f k k' (l : list A) :
  (forall x, key (f x) = key x) -> NoDup (key <$> l) ->
  walk_find (is_key k') (walk_update (is_key k) f l)
  = (if decide (k' = k) then f else id) <$> walk_find (is_key k') l.
Proof.
  intros Hf. induction l as [|x l IH]; intros Hnd; cbn [walk_update walk_find]; [done|].
  rewrite fmap_cons in Hnd. apply NoDup_cons in Hnd as [Hx Hnd].
  destruct (is_key k x) eqn:Hk; cbn [walk_find].
  - replace (is_key k' (f x)) with (is_key k' x) by (unfold is_key; by rewrite Hf).
    apply bool_decide_eq_true in Hk as <-.
    destruct (is_key k' x) eqn:Hk'; unfold is_key in Hk'; bool_facts.
    + by rewrite decide_True.
    + rewrite decide_False by done. by destruct (walk_find _ l).
  - rewrite IH by done. destruct (is_key k' x) eqn:Hk'; [|done].
    unfold is_key in *; bool_facts. subst. by rewrite decide_False.
Qed.

Lemma to_map_update f k t :
  (forall x, key (f x) = key x) -> table_wf t ->
  to_map (hash_update (is_key k) f (hk k) t) = alter f k (to_map t).
Proof.
  intros Hf Hwf. pose proof (wf_nodup t Hwf) as Hnd. apply map_eq. intros k'.
  rewrite to_map_lookup by (by apply table_wf_update).
  rewrite hash_find_concat by (by apply table_wf_update).
  rewrite hash_update_concat, walk_find_update, <- hash_find_concat by done.
  rewrite lookup_alter.
  destruct (decide (k' = k)) as [->|].
  - by rewrite decide_True, to_map_lookup.
  - by rewrite decide_False, to_map_lookup, option_fmap_id.
Qed.

(** The number of live objects, as the table and as its map count them. *)
Lemma to_map_size t : table_wf t -> size (to_map t) = length (concat t).
Proof.
  intros Hwf. unfold to_map. rewrite <- length_map_to_list.
  rewrite map_to_list_to_map; [by rewrite length_fmap|].
  rewrite <- list_fmap_compose. apply (wf_nodup t Hwf).
Qed.
End Keyed.

#[export] Hint Resolve table_wf_init table_wf_add table_wf_del table_wf_update : rkx.
#[export] Hint Rewrite @to_map_init : rkx.

(** A concrete bucket function, for evaluating the operations. *)
Lemma mod64_lt k : (Z.to_nat (k mod 64) < 64)%nat.
Proof. pose proof (Z.mod_pos_bound k 64). lia. Qed.

Definition mod64 : HashFn := {| hash_min k := Z.to_nat (k mod 64); hash_min_lt := mod64_lt |}.
