(* ===== verification/Uapi.v ===== *)
(** The ABI of ReKernel-X: constants, enumerations and event structures of
    LKM-Source/rkx.h, and the same enumerations as the client library's
    rkx_uapi.h declares them. *)

From S2P Require Import Prelude.

(** ** Constants of rkx.h *)

Definition RKX_ERROR : Z := -1.
Definition RKX_SUCCESS : Z := 0.

Definition RKX_MAX_SYSTEM_UID : Z := 2000.
Definition RKX_MIN_APP_UID : Z := 10000.
Definition RKX_RESERVE_ORDER : Z := 17.
Definition RKX_WARN_AHEAD_SPACE : Z := Z.shiftl 1 RKX_RESERVE_ORDER.
Definition RKX_INTERFACETOKEN_BUFF_SIZE : nat := 140.
Definition RKX_PARCEL_OFFSET : nat := 16.

Definition RKX_GENL_FAMILY_NAME : list byte := str "rekernel_x2".
Definition RKX_GENL_VERSION : Z := 1.
Definition RKX_GENL_MCGRP_NAME : list byte := str "events".

(** errno values the sources return or test, and the kernel's answer to a command
    without operation. *)
Definition EINVAL : Z := 22.
Definition ENOMEM : Z := 12.
Definition EFAULT : Z := 14.
Definition ESRCH : Z := 3.
Definition EOPNOTSUPP : Z := 95.

(** ** Enumerations *)

Inductive rkx_genl_cmd :=
  | RKX_C_UNSPEC | RKX_C_EVENT
  | RKX_C_ADD_MONITOR_NET | RKX_C_DEL_MONITOR_NET
  | RKX_C_ADD_FREE_ASYNC | RKX_C_DEL_FREE_ASYNC.

Inductive rkx_genl_attr :=
  | RKX_A_UNSPEC | RKX_A_EVENT
  | RKX_A_BINDER | RKX_A_BINDER_TYPE | RKX_A_BINDER_ONEWAY
  | RKX_A_BINDER_FROM_PID | RKX_A_BINDER_FROM_UID
  | RKX_A_BINDER_TARGET_PID | RKX_A_BINDER_TARGET_UID
  | RKX_A_BINDER_CODE | RKX_A_BINDER_RPC_NAME
  | RKX_A_SIGNAL | RKX_A_SIGNAL_SIGNAL | RKX_A_SIGNAL_KILLER_PID
  | RKX_A_SIGNAL_KILLER_UID | RKX_A_SIGNAL_DST_PID | RKX_A_SIGNAL_DST_UID
  | RKX_A_NETWORK | RKX_A_NETWORK_PROTO | RKX_A_NETWORK_TARGET_UID
  | RKX_A_NETWORK_DATA_LEN
  | RKX_A_UID
  | RKX_A_FREE_ASYNC_STRATEGY | RKX_A_FREE_ASYNC_RPC_NAME | RKX_A_FREE_ASYNC_CODE.

#[export] Instance rkx_genl_cmd_eq_dec : EqDecision rkx_genl_cmd.
Proof. solve_decision. Defined.
#[export] Instance rkx_genl_attr_eq_dec : EqDecision rkx_genl_attr.
Proof. solve_decision. Defined.

(** The numbers rkx.h gives them. *)
Definition cmd_no (c : rkx_genl_cmd) : Z :=
  match c with
  | RKX_C_UNSPEC => 0 | RKX_C_EVENT => 1
  | RKX_C_ADD_MONITOR_NET => 2 | RKX_C_DEL_MONITOR_NET => 3
  | RKX_C_ADD_FREE_ASYNC => 4 | RKX_C_DEL_FREE_ASYNC => 5
  end.

Definition attr_no (a : rkx_genl_attr) : Z :=
  match a with
  | RKX_A_UNSPEC => 0 | RKX_A_EVENT => 1
  | RKX_A_BINDER => 10 | RKX_A_BINDER_TYPE => 11 | RKX_A_BINDER_ONEWAY => 12
  | RKX_A_BINDER_FROM_PID => 13 | RKX_A_BINDER_FROM_UID => 14
  | RKX_A_BINDER_TARGET_PID => 15 | RKX_A_BINDER_TARGET_UID => 16
  | RKX_A_BINDER_CODE => 17 | RKX_A_BINDER_RPC_NAME => 18
  | RKX_A_SIGNAL => 20 | RKX_A_SIGNAL_SIGNAL => 21 | RKX_A_SIGNAL_KILLER_PID => 22
  | RKX_A_SIGNAL_KILLER_UID => 23 | RKX_A_SIGNAL_DST_PID => 24
  | RKX_A_SIGNAL_DST_UID => 25
  | RKX_A_NETWORK => 30 | RKX_A_NETWORK_PROTO => 31 | RKX_A_NETWORK_TARGET_UID => 32
  | RKX_A_NETWORK_DATA_LEN => 33
  | RKX_A_UID => 40
  | RKX_A_FREE_ASYNC_STRATEGY => 41 | RKX_A_FREE_ASYNC_RPC_NAME => 42
  | RKX_A_FREE_ASYNC_CODE => 43
  end.

Definition RKX_A_MAX : Z := 49.

(** The numbers rkx_uapi.h gives them. *)
Definition user_cmd_no (c : rkx_genl_cmd) : Z :=
  match c with
  | RKX_C_UNSPEC => 0 | RKX_C_EVENT => 1
  | RKX_C_ADD_MONITOR_NET => 2 | RKX_C_DEL_MONITOR_NET => 3
  | RKX_C_ADD_FREE_ASYNC => 4 | RKX_C_DEL_FREE_ASYNC => 5
  end.

Definition user_attr_no (a : rkx_genl_attr) : Z :=
  match a with
  | RKX_A_UNSPEC => 0 | RKX_A_EVENT => 1
  | RKX_A_BINDER => 10 | RKX_A_BINDER_TYPE => 11 | RKX_A_BINDER_ONEWAY => 12
  | RKX_A_BINDER_FROM_PID => 13 | RKX_A_BINDER_FROM_UID => 14
  | RKX_A_BINDER_TARGET_PID => 15 | RKX_A_BINDER_TARGET_UID => 16
  | RKX_A_BINDER_CODE => 17 | RKX_A_BINDER_RPC_NAME => 18
  | RKX_A_SIGNAL => 20 | RKX_A_SIGNAL_SIGNAL => 21 | RKX_A_SIGNAL_KILLER_PID => 22
  | RKX_A_SIGNAL_KILLER_UID => 23 | RKX_A_SIGNAL_DST_PID => 24
  | RKX_A_SIGNAL_DST_UID => 25
  | RKX_A_NETWORK => 30 | RKX_A_NETWORK_PROTO => 31 | RKX_A_NETWORK_TARGET_UID => 32
  | RKX_A_NETWORK_DATA_LEN => 33
  | RKX_A_UID => 40
  | RKX_A_FREE_ASYNC_STRATEGY => 41 | RKX_A_FREE_ASYNC_RPC_NAME => 42
  | RKX_A_FREE_ASYNC_CODE => 43
  end.

Definition RKX_RPC_NAME_LEN : nat := 140.

(** Free-async strategies, event types, binder types and protocols are stored
    in [u8] fields and compared as numbers. *)
Definition RKX_FREE_ASYNC_SKIP : Z := 1.
Definition RKX_FREE_ASYNC_BY_CODE : Z := 2.
Definition RKX_FREE_ASYNC_BY_DATA : Z := 3.

Definition RKX_EVT_BINDER : Z := 1.
Definition RKX_EVT_SIGNAL : Z := 2.
Definition RKX_EVT_NETWORK : Z := 3.

Definition RKX_BINDER_TRANSACTION : Z := 1.
Definition RKX_BINDER_REPLY : Z := 2.
Definition RKX_BINDER_FREE_BUFFER_FULL : Z := 3.

Definition RKX_NET_PROTO_IPV4 : Z := 4.
Definition RKX_NET_PROTO_IPV6 : Z := 6.

(** ** Events *)

Record rkx_binder_event := {
  be_binder_type : Z;
  be_oneway : Z;
  be_from_pid : Z;
  be_from_uid : Z;
  be_target_pid : Z;
  be_target_uid : Z;
  be_code : Z;
  be_rpc_name : list byte;
}.

Record rkx_signal_event := {
  se_signal : Z;
  se_killer_pid : Z;
  se_killer_uid : Z;
  se_dst_pid : Z;
  se_dst_uid : Z;
}.

Record rkx_network_event := {
  ne_proto : Z;
  ne_target_uid : Z;
  ne_data_len : Z;
}.

(** The union [u] of struct rkx_event remembers which member was stored. *)
Inductive rkx_event_u :=
  | U_binder (b : rkx_binder_event)
  | U_signal (s : rkx_signal_event)
  | U_network (n : rkx_network_event).

Record rkx_event := { ev_type : Z; ev_u : rkx_event_u }.

#[export] Instance rkx_binder_event_eq_dec : EqDecision rkx_binder_event.
Proof. solve_decision. Defined.
#[export] Instance rkx_signal_event_eq_dec : EqDecision rkx_signal_event.
Proof. solve_decision. Defined.
#[export] Instance rkx_network_event_eq_dec : EqDecision rkx_network_event.
Proof. solve_decision. Defined.
#[export] Instance rkx_event_u_eq_dec : EqDecision rkx_event_u.
Proof. solve_decision. Defined.
#[export] Instance rkx_event_eq_dec : EqDecision rkx_event.
Proof. solve_decision. Defined.

(** [char name[n] = "s"]: the characters and zero fill up to [n] bytes. *)
Definition char_array (n : nat) (s : list byte) : list byte :=
  take n (s ++ replicate n NUL).

Lemma length_char_array n s : length (char_array n s) = n.
Proof. unfold char_array. rewrite length_take, length_app, length_replicate. lia. Qed.

Lemma char_array_split n s :
  (length s <= n)%nat -> char_array n s = s ++ replicate (n - length s) NUL.
Proof.
  intros. unfold char_array. rewrite take_app_ge, take_replicate by done.
  f_equal; f_equal; lia.
Qed.

Lemma c_string_char_array n s :
  no_nul s -> (length s < n)%nat -> c_string (char_array n s) = Some s.
Proof.
  intros Hs Hn. rewrite char_array_split by lia.
  destruct (n - length s)%nat as [|m] eqn:E; [lia|]. by apply c_string_app.
Qed.

(** Both sides must agree on every command and attribute number, and every
    attribute must fit the [RKX_A_MAX + 1] slot tables the parsers index. *)
Lemma user_attr_agrees a : user_attr_no a = attr_no a.
Proof. by destruct a. Qed.

Lemma user_cmd_agrees c : user_cmd_no c = cmd_no c.
Proof. by destruct c. Qed.

Lemma attr_no_range a : 0 <= attr_no a <= RKX_A_MAX.
Proof. destruct a; unfold RKX_A_MAX; cbn; lia. Qed.

#[export] Instance attr_no_inj : Inj (=) (=) attr_no.
Proof. intros [] [] H; cbn in H; congruence || lia. Qed.

#[export] Hint Resolve attr_no_range : rkx.
#[export] Hint Rewrite user_attr_agrees user_cmd_agrees length_char_array : rkx.

(** ** Well-formed events

    The tag names the stored member, every field is in the range of its C type
    and the name array holds a terminated string. *)

Definition name_array_wf (a : list byte) : Prop :=
  exists s, no_nul s /\ (length s < RKX_INTERFACETOKEN_BUFF_SIZE)%nat
            /\ a = char_array RKX_INTERFACETOKEN_BUFF_SIZE s.

Record binder_event_wf (b : rkx_binder_event) : Prop := {
  bwf_type : in_u 8 (be_binder_type b);
  bwf_oneway : in_u 8 (be_oneway b);
  bwf_from_pid : in_s 32 (be_from_pid b);
  bwf_from_uid : in_u 32 (be_from_uid b);
  bwf_target_pid : in_s 32 (be_target_pid b);
  bwf_target_uid : in_u 32 (be_target_uid b);
  bwf_code : in_s 32 (be_code b);
  bwf_name : name_array_wf (be_rpc_name b);
}.

Record signal_event_wf (s : rkx_signal_event) : Prop := {
  swf_signal : in_s 32 (se_signal s);
  swf_killer_pid : in_s 32 (se_killer_pid s);
  swf_killer_uid : in_u 32 (se_killer_uid s);
  swf_dst_pid : in_s 32 (se_dst_pid s);
  swf_dst_uid : in_u 32 (se_dst_uid s);
}.

Record network_event_wf (n : rkx_network_event) : Prop := {
  nwf_proto : in_u 8 (ne_proto n);
  nwf_target_uid : in_u 32 (ne_target_uid n);
  nwf_data_len : in_s 32 (ne_data_len n);
}.

Definition event_wf (e : rkx_event) : Prop :=
  match ev_u e with
  | U_binder b => ev_type e = RKX_EVT_BINDER /\ binder_event_wf b
  | U_signal s => ev_type e = RKX_EVT_SIGNAL /\ signal_event_wf s
  | U_network n => ev_type e = RKX_EVT_NETWORK /\ network_event_wf n
  end.

Lemma name_array_wf_intro s :
  no_nul s -> (length s < RKX_INTERFACETOKEN_BUFF_SIZE)%nat ->
  name_array_wf (char_array RKX_INTERFACETOKEN_BUFF_SIZE s).
Proof. by exists s. Qed.

#[export] Hint Resolve name_array_wf_intro : rkx.
