(* ===== verification/NetUid.v ===== *)
(** rkx_netuid.c: the set of uids whose inbound traffic is reported.

    The writers take [rkx_net_uid_mutex] around their whole body and the reader
    runs in an RCU section, so each operation is one step on the state.
    [kmalloc] may fail at any call: its outcome is an argument of the operation
    that calls it.  Entries handed to [kfree_rcu] move to [nu_retired]. *)

From S2P Require Import Prelude HashTable.

Record rkx_uid_info := { ui_uid : Z }.

Record net_uid_state := {
  rkx_net_uid_map : list (list rkx_uid_info);
  nu_retired : list rkx_uid_info;
}.

(** What the monitored set promises to its clients: membership of a set. *)
Class UidMonitor (S : Type) := {
  um_monitored : Z -> S -> bool;
  um_wf : S -> Prop;
  um_set : S -> gset Z;
  um_monitored_spec s uid :
    um_wf s -> um_monitored uid s = bool_decide (uid ∈ um_set s);
}.

Section NetUid.
Context `{HashFn}.
Implicit Types (s : net_uid_state) (uid : Z).

Definition uid_is uid (entry : rkx_uid_info) : bool := ui_uid entry =? uid.

Definition rkx_init_net_uid s : net_uid_state :=
  {| rkx_net_uid_map := hash_init; nu_retired := nu_retired s |}.

Definition rkx_net_uid_monitored_rcu uid s : bool :=
  match hash_find (uid_is uid) uid (rkx_net_uid_map s) with
  | Some _ => true
  | None => false
  end.

Definition rkx_add_net_uid (kmalloc_ok : bool) uid s : net_uid_state :=
  match hash_find (uid_is uid) uid (rkx_net_uid_map s) with
  | Some _ => s
  | None =>
      if kmalloc_ok then
        {| rkx_net_uid_map :=
             hash_add_rcu {| ui_uid := uid |} uid (rkx_net_uid_map s);
           nu_retired := nu_retired s |}
      else s
  end.

Definition rkx_del_net_uid uid s : net_uid_state :=
  match hash_find (uid_is uid) uid (rkx_net_uid_map s) with
  | Some entry =>
      {| rkx_net_uid_map := hash_del (uid_is uid) uid (rkx_net_uid_map s);
         nu_retired := nu_retired s ++ [entry] |}
  | None => s
  end.

Definition rkx_destroy_net_uid s : net_uid_state :=
  let '(out, map') := hash_drain (rkx_net_uid_map s) in
  {| rkx_net_uid_map := map'; nu_retired := nu_retired s ++ out |}.

(** ** Invariant and represented set *)

Definition net_uid_wf s : Prop := table_wf ui_uid id (rkx_net_uid_map s).

Definition net_uid_set s : gset Z := dom (to_map ui_uid (rkx_net_uid_map s)).

Lemma uid_is_key uid : pointwise_relation _ (=) (uid_is uid) (is_key ui_uid uid).
Proof. intros e. unfold uid_is, is_key. by destruct (Z.eqb_spec (ui_uid e) uid); case_bool_decide. Qed.

Lemma find_to_map s uid :
  net_uid_wf s ->
  hash_find (uid_is uid) uid (rkx_net_uid_map s)
  = to_map ui_uid (rkx_net_uid_map s) !! uid.
Proof. intros Hwf. by rewrite uid_is_key, (to_map_lookup ui_uid id). Qed.

Lemma monitored_spec s uid :
  net_uid_wf s -> rkx_net_uid_monitored_rcu uid s = bool_decide (uid ∈ net_uid_set s).
Proof.
  intros Hwf. unfold rkx_net_uid_monitored_rcu, net_uid_set.
  rewrite find_to_map by done. symmetry.
  destruct (_ !! uid) eqn:E; [apply bool_decide_eq_true|apply bool_decide_eq_false];
    rewrite elem_of_dom, E; [done|]. by intros [].
Qed.

#[global] Instance net_uid_monitor : UidMonitor net_uid_state := {
  um_monitored := rkx_net_uid_monitored_rcu;
  um_wf := net_uid_wf;
  um_set := net_uid_set;
  um_monitored_spec := monitored_spec;
}.

(** Entries the module owns: linked in the table, or waiting in RCU. *)
Definition net_uid_ledger s : list rkx_uid_info :=
  concat (rkx_net_uid_map s) ++ nu_retired s.

(** The set after each operation. *)

Lemma init_wf s : net_uid_wf (rkx_init_net_uid s).
Proof. apply table_wf_init. Qed.

Lemma init_set s : net_uid_set (rkx_init_net_uid s) = ∅.
Proof. unfold net_uid_set; cbn [rkx_net_uid_map rkx_init_net_uid]. by rewrite to_map_init, dom_empty_L. Qed.

Lemma add_spec ok uid s :
  net_uid_wf s ->
  net_uid_wf (rkx_add_net_uid ok uid s) /\
  net_uid_set (rkx_add_net_uid ok uid s)
  = if ok then {[uid]} ∪ net_uid_set s else net_uid_set s.
Proof.
  intros Hwf. unfold rkx_add_net_uid. rewrite find_to_map by done.
  destruct (_ !! uid) as [e|] eqn:E.
  - split; [done|]. destruct ok; [|done].
    assert (uid ∈ net_uid_set s) by (apply elem_of_dom; eauto). set_solver.
  - destruct ok; [|done]. split.
    + by apply (table_wf_add ui_uid id {| ui_uid := uid |}).
    + unfold net_uid_set; cbn [rkx_net_uid_map].
      rewrite (to_map_add ui_uid id {| ui_uid := uid |}) by done.
      apply dom_insert_L.
Qed.

Lemma del_spec uid s :
  net_uid_wf s ->
  net_uid_wf (rkx_del_net_uid uid s) /\
  net_uid_set (rkx_del_net_uid uid s) = net_uid_set s ∖ {[uid]}.
Proof.
  intros Hwf. unfold rkx_del_net_uid. rewrite find_to_map by done.
  destruct (_ !! uid) as [e|] eqn:E.
  - unfold net_uid_wf, net_uid_set; cbn [rkx_net_uid_map]. rewrite uid_is_key. split.
    + by apply (table_wf_del ui_uid id).
    + rewrite (to_map_del ui_uid id uid) by done. apply dom_delete_L.
  - split; [done|]. apply not_elem_of_dom in E. unfold net_uid_set. set_solver.
Qed.

Lemma destroy_spec s :
  net_uid_wf s ->
  net_uid_wf (rkx_destroy_net_uid s) /\ net_uid_set (rkx_destroy_net_uid s) = ∅.
Proof.
  intros Hwf. unfold rkx_destroy_net_uid, net_uid_wf, net_uid_set.
  rewrite hash_drain_spec; cbn [rkx_net_uid_map].
  rewrite (wf_size _ _ _ Hwf). split; [apply table_wf_init|].
  by rewrite (to_map_init ui_uid), dom_empty_L.
Qed.

(** ** Histories *)

Inductive net_uid_op :=
  | OpAddUid (kmalloc_ok : bool) (uid : Z)
  | OpDelUid (uid : Z)
  | OpDestroyUid.

Definition net_uid_step (op : net_uid_op) s : net_uid_state :=
  match op with
  | OpAddUid ok uid => rkx_add_net_uid ok uid s
  | OpDelUid uid => rkx_del_net_uid uid s
  | OpDestroyUid => rkx_destroy_net_uid s
  end.

(** The specification: a set of uids and nothing else. *)
Definition net_uid_step_spec (op : net_uid_op) (m : gset Z) : gset Z :=
  match op with
  | OpAddUid ok uid => if ok then {[uid]} ∪ m else m
  | OpDelUid uid => m ∖ {[uid]}
  | OpDestroyUid => ∅
  end.

Lemma step_refines op s :
  net_uid_wf s ->
  net_uid_wf (net_uid_step op s) /\
  net_uid_set (net_uid_step op s) = net_uid_step_spec op (net_uid_set s).
Proof. destruct op; [apply add_spec|apply del_spec|apply destroy_spec]. Qed.

Lemma history_refines ops s :
  net_uid_wf s ->
  net_uid_wf (foldl (flip net_uid_step) s ops) /\
  net_uid_set (foldl (flip net_uid_step) s ops)
  = foldl (flip net_uid_step_spec) (net_uid_set s) ops.
Proof.
  revert s; induction ops as [|op ops IH]; intros s Hwf; [done|]. cbn [foldl].
  destruct (step_refines op s Hwf) as [Hwf' Hset]. unfold flip at 2 4 6.
  rewrite <- Hset. by apply IH.
Qed.

(** C9: after any history of additions (with [kmalloc] failing at will),
    deletions and teardowns, [rkx_net_uid_monitored_rcu] answers exactly the
    membership in the set the same history builds. *)
Theorem net_uid_history_refines_set s0 ops uid :
  rkx_net_uid_monitored_rcu uid (foldl (flip net_uid_step) (rkx_init_net_uid s0) ops)
  = bool_decide (uid ∈ foldl (flip net_uid_step_spec) (∅ : gset Z) ops).
Proof.
  destruct (history_refines ops _ (init_wf s0)) as [Hwf Hset].
  by rewrite monitored_spec, Hset, init_set.
Qed.

(** C29: no entry is leaked or freed twice: an addition adds at most the one
    entry it allocated to what the module owns, a deletion and the teardown
    only move entries from the table to RCU, and the teardown leaves none in
    the table. *)
Theorem net_uid_ledger_preserved s uid ok :
  net_uid_wf s ->
  net_uid_ledger (rkx_add_net_uid ok uid s)
    ≡ₚ (if ok && negb (rkx_net_uid_monitored_rcu uid s)
        then [{| ui_uid := uid |}] else []) ++ net_uid_ledger s
  /\ net_uid_ledger (rkx_del_net_uid uid s) ≡ₚ net_uid_ledger s
  /\ net_uid_ledger (rkx_destroy_net_uid s) ≡ₚ net_uid_ledger s
  /\ concat (rkx_net_uid_map (rkx_destroy_net_uid s)) = [].
Proof.
  intros Hwf. unfold net_uid_ledger, rkx_add_net_uid, rkx_net_uid_monitored_rcu,
    rkx_del_net_uid, rkx_destroy_net_uid.
  rewrite hash_drain_spec; cbn [rkx_net_uid_map nu_retired]. split_and!.
  - destruct (hash_find _ _ _); [by rewrite andb_false_r|].
    destruct ok; [|done]. cbn [rkx_net_uid_map nu_retired negb andb].
    by rewrite (hash_add_concat ui_uid id {| ui_uid := uid |} _ Hwf).
  - destruct (hash_find _ _ _) as [e|] eqn:E; [|done]. cbn [rkx_net_uid_map nu_retired].
    rewrite uid_is_key in *. rewrite (hash_find_concat ui_uid id) in E by done.
    rewrite (hash_del_concat ui_uid id) by done.
    rewrite (walk_del_Permutation _ _ _ E) at 2.
    rewrite (Permutation_app_comm (nu_retired s)); cbn [app]. by rewrite <- Permutation_middle.
  - rewrite concat_replicate_nil. cbn [app]. apply Permutation_app_comm.
  - apply concat_replicate_nil.
Qed.
End NetUid.

(** Two uids that share a bucket, one deleted, one addition failing. *)
Lemma net_uid_history_refines_set_witness :
  let s := foldl (flip (@net_uid_step mod64))
             (rkx_init_net_uid {| rkx_net_uid_map := []; nu_retired := [] |})
             [OpAddUid true 10010; OpAddUid true 10074; OpDelUid 10010; OpAddUid false 10011] in
  @rkx_net_uid_monitored_rcu mod64 10074 s = true
  /\ @rkx_net_uid_monitored_rcu mod64 10010 s = false
  /\ @rkx_net_uid_monitored_rcu mod64 10011 s = false.
Proof.
  cbv zeta. rewrite !net_uid_history_refines_set. split_and!; vm_compute; reflexivity.
Defined.

Lemma net_uid_ledger_preserved_witness :
  let s := {| rkx_net_uid_map := hash_init; nu_retired := [] |} in
  net_uid_ledger (@rkx_add_net_uid mod64 true 10010 s) ≡ₚ [{| ui_uid := 10010 |}].
Proof.
  cbv zeta.
  destruct (@net_uid_ledger_preserved mod64 {| rkx_net_uid_map := hash_init; nu_retired := [] |}
              10010 true (init_wf {| rkx_net_uid_map := []; nu_retired := [] |})) as [Hp _].
  exact Hp.
Defined.
