(* ===== verification/FreeAsync.v ===== *)
(** rkx_free_async.c: the rules that say what to do with a queued one-way
    transaction when a newer one of the same interface and code arrives.

    As in NetUid.v, each operation is one step: writers hold
    [rkx_free_async_mutex], the lookup runs in an RCU section.  [jhash] is the
    kernel's and stays a parameter.  A [const char *] argument is [None] for
    NULL and otherwise the characters of the C string; [*strategy_out] is
    passed and returned. *)

From S2P Require Import Prelude HashTable Uapi.

Class Jhash := jhash : list byte -> Z -> Z.

Record rkx_free_async_entry := {
  fe_rpc_name : list byte;
  fe_code : Z;
  fe_strategy : Z;
}.

Record free_async_state := {
  rkx_free_async_map : list (list rkx_free_async_entry);
  rkx_free_async_count : Z;
  fa_retired : list rkx_free_async_entry;
}.

Section FreeAsync.
Context `{HashFn} `{Jhash}.
Implicit Types (s : free_async_state) (name : list byte) (code : Z).

Definition rkx_free_async_hash name : Z := jhash name 0.

Definition rkx_free_async_strategy_valid (strategy : Z) : bool :=
  (strategy =? RKX_FREE_ASYNC_SKIP) || (strategy =? RKX_FREE_ASYNC_BY_CODE)
  || (strategy =? RKX_FREE_ASYNC_BY_DATA).

Definition rkx_free_async_has_entries s : bool := rkx_free_async_count s >? 0.

Definition rkx_init_free_async s : free_async_state :=
  {| rkx_free_async_map := hash_init; rkx_free_async_count := 0;
     fa_retired := fa_retired s |}.

(** The walk of the lookup: it returns [exact_strategy] and
    [wild_strategy], both 0 when nothing set them. *)
Fixpoint lookup_walk name code (wild : Z) (b : list rkx_free_async_entry) : Z * Z :=
  match b with
  | [] => (0, wild)
  | entry :: b =>
      if negb (bool_decide (fe_rpc_name entry = name)) then lookup_walk name code wild b
      else if fe_code entry =? code then (fe_strategy entry, wild)
      else if fe_code entry =? -1 then lookup_walk name code (fe_strategy entry) b
      else lookup_walk name code wild b
  end.

Definition rkx_free_async_lookup_rcu (rpc_name : option (list byte)) code
    (strategy_out : option Z) s : bool * option Z :=
  match rpc_name, strategy_out with
  | Some name, Some _ =>
      if negb (rkx_free_async_has_entries s) then (false, strategy_out) else
      let key := rkx_free_async_hash name in
      let '(exact_strategy, wild_strategy) :=
        lookup_walk name code 0 (hash_bucket key (rkx_free_async_map s)) in
      if negb (exact_strategy =? 0) then (true, Some exact_strategy)
      else if negb (wild_strategy =? 0) then (true, Some wild_strategy)
      else (false, strategy_out)
  | _, _ => (false, strategy_out)
  end.

(** The test both writers walk with. *)
Definition rule_is name code (entry : rkx_free_async_entry) : bool :=
  (fe_code entry =? code) && bool_decide (fe_rpc_name entry = name).

Definition write_strategy (strategy : Z) (entry : rkx_free_async_entry) :=
  {| fe_rpc_name := fe_rpc_name entry; fe_code := fe_code entry;
     fe_strategy := strategy |}.

Definition rkx_add_free_async (kmalloc_ok : bool) (rpc_name : option (list byte))
    code (strategy : Z) s : Z * free_async_state :=
  match rpc_name with
  | None => (- EINVAL, s)
  | Some name =>
      if bool_decide (name = []) || (code <? -1)
         || negb (rkx_free_async_strategy_valid strategy)
      then (- EINVAL, s) else
      let len := strnlen name RKX_INTERFACETOKEN_BUFF_SIZE in
      if (Nat.eqb len 0) || (RKX_INTERFACETOKEN_BUFF_SIZE <=? len)%nat
      then (- EINVAL, s) else
      let key := rkx_free_async_hash name in
      match hash_find (rule_is name code) key (rkx_free_async_map s) with
      | Some _ =>
          (0, {| rkx_free_async_map :=
                   hash_update (rule_is name code) (write_strategy strategy) key
                     (rkx_free_async_map s);
                 rkx_free_async_count := rkx_free_async_count s;
                 fa_retired := fa_retired s |})
      | None =>
          if kmalloc_ok then
            let entry := {| fe_rpc_name := strscpy RKX_INTERFACETOKEN_BUFF_SIZE name;
                            fe_code := code; fe_strategy := strategy |} in
            (0, {| rkx_free_async_map :=
                     hash_add_rcu entry key (rkx_free_async_map s);
                   rkx_free_async_count := s32 (rkx_free_async_count s + 1);
                   fa_retired := fa_retired s |})
          else (- ENOMEM, s)
      end
  end.

Definition rkx_del_free_async (rpc_name : option (list byte)) code s
  : Z * free_async_state :=
  match rpc_name with
  | None => (- EINVAL, s)
  | Some name =>
      if bool_decide (name = []) || (code <? -1) then (- EINVAL, s) else
      let key := rkx_free_async_hash name in
      match hash_find (rule_is name code) key (rkx_free_async_map s) with
      | Some entry =>
          (0, {| rkx_free_async_map :=
                   hash_del (rule_is name code) key (rkx_free_async_map s);
                 rkx_free_async_count := s32 (rkx_free_async_count s - 1);
                 fa_retired := fa_retired s ++ [entry] |})
      | None => (0, s)
      end
  end.

Definition rkx_destroy_free_async s : free_async_state :=
  let '(out, map') := hash_drain (rkx_free_async_map s) in
  {| rkx_free_async_map := map'; rkx_free_async_count := 0;
     fa_retired := fa_retired s ++ out |}.

(** ** Invariant and represented rules *)

Abbreviation rule_key := (prod (list byte) Z).

Definition entry_key (e : rkx_free_async_entry) : rule_key := (fe_rpc_name e, fe_code e).

Definition rule_hash (k : rule_key) : Z := rkx_free_async_hash k.1.

(** Entries are placed by the hash of their name, unique per name and code,
    carry a valid strategy and a name that fits the array, and the counter is
    their number at the width of [atomic_t]. *)
Record free_async_wf s : Prop := {
  fa_table : table_wf entry_key rule_hash (rkx_free_async_map s);
  fa_entries : Forall (fun e => rkx_free_async_strategy_valid (fe_strategy e) = true
                 /\ (0 < length (fe_rpc_name e) < RKX_INTERFACETOKEN_BUFF_SIZE)%nat)
                 (concat (rkx_free_async_map s));
  fa_counted : rkx_free_async_count s = s32 (Z.of_nat (length (concat (rkx_free_async_map s))));
}.

Definition rules s : gmap rule_key Z :=
  fe_strategy <$> to_map entry_key (rkx_free_async_map s).

(** What a lookup should answer: the rule of the code, else the wildcard. *)
Definition rule_lookup (m : gmap rule_key Z) name code : option Z :=
  match m !! (name, code) with
  | Some st => Some st
  | None => m !! (name, -1)
  end.

(** ** Lemmas on the walks *)

Lemma rule_is_key name code :
  pointwise_relation _ (=) (rule_is name code) (is_key entry_key (name, code)).
Proof.
  intros e. unfold rule_is, is_key, entry_key.
  destruct (Z.eqb_spec (fe_code e) code); repeat case_bool_decide; naive_solver.
Qed.

Lemma lookup_walk_spec name code wild (b : list rkx_free_async_entry) :
  NoDup (entry_key <$> b) ->
  (lookup_walk name code wild b).1
    = default 0 (fe_strategy <$> walk_find (is_key entry_key (name, code)) b)
  /\ (walk_find (is_key entry_key (name, code)) b = None ->
      (lookup_walk name code wild b).2
      = default wild (fe_strategy <$> walk_find (is_key entry_key (name, -1)) b)).
Proof.
  revert wild; induction b as [|e b IH]; intros wild Hnd; [done|].
  rewrite fmap_cons in Hnd. apply NoDup_cons in Hnd as [Hnin Hnd].
  cbn [lookup_walk walk_find].
  rewrite <- (rule_is_key name code e), <- (rule_is_key name (-1) e). unfold rule_is.
  destruct (decide (fe_rpc_name e = name)) as [Hn|Hn];
    [rewrite bool_decide_eq_true_2 by done|rewrite bool_decide_eq_false_2 by done];
    rewrite ?andb_true_r, ?andb_false_r; cbn [negb]; [|by apply IH].
  destruct (fe_code e =? code); [done|].
  destruct (Z.eqb_spec (fe_code e) (-1)) as [Hc|Hc]; [|by apply IH].
  destruct (IH (fe_strategy e) Hnd) as [-> Hwild]. split; [done|].
  intros Hnone. rewrite (Hwild Hnone).
  rewrite (proj2 (walk_find_None _ b)); [done|].
  apply Forall_forall. intros x Hx. apply bool_decide_eq_false. intros Hk.
  apply Hnin, list_elem_of_fmap. exists x. split; [|done].
  unfold entry_key at 1. by rewrite Hn, Hc.
Qed.

Lemma find_rules s name code :
  free_async_wf s ->
  hash_find (rule_is name code) (rkx_free_async_hash name) (rkx_free_async_map s)
  = to_map entry_key (rkx_free_async_map s) !! (name, code).
Proof.
  intros Hwf. rewrite rule_is_key.
  by rewrite (to_map_lookup entry_key rule_hash _ _ (fa_table s Hwf)).
Qed.

Lemma bucket_nodup s name :
  free_async_wf s ->
  NoDup (entry_key <$> hash_bucket (rkx_free_async_hash name) (rkx_free_async_map s)).
Proof.
  intros Hwf.
  destruct (table_split entry_key rule_hash _ (name, 0) (fa_table s Hwf))
    as (t1 & b & t2 & Ht & _ & Hb & _).
  pose proof (wf_nodup _ _ _ (fa_table s Hwf)) as Hnd.
  rewrite Ht, concat_split, !fmap_app in Hnd.
  apply NoDup_app in Hnd as (_ & _ & (? & _)%NoDup_app).
  unfold rule_hash in Hb; cbn [fst] in Hb. by rewrite Hb.
Qed.

Lemma rules_valid s k st :
  free_async_wf s -> rules s !! k = Some st -> rkx_free_async_strategy_valid st = true.
Proof.
  intros Hwf. unfold rules. rewrite lookup_fmap.
  destruct (_ !! k) as [e|] eqn:E; [|done]. intros [= <-].
  apply (to_map_Some _ _ _ _ _ (fa_table s Hwf)) in E as [Hin _].
  by eapply (proj1 (Forall_forall _ _) (fa_entries s Hwf)).
Qed.

Lemma valid_strategy_cases st :
  rkx_free_async_strategy_valid st = true ->
  st = RKX_FREE_ASYNC_SKIP \/ st = RKX_FREE_ASYNC_BY_CODE \/ st = RKX_FREE_ASYNC_BY_DATA.
Proof. unfold rkx_free_async_strategy_valid. lia. Qed.

Lemma valid_strategy_nonzero st : rkx_free_async_strategy_valid st = true -> (st =? 0) = false.
Proof. unfold rkx_free_async_strategy_valid, RKX_FREE_ASYNC_SKIP,
  RKX_FREE_ASYNC_BY_CODE, RKX_FREE_ASYNC_BY_DATA. lia. Qed.

Lemma rules_size s : free_async_wf s -> size (rules s) = length (concat (rkx_free_async_map s)).
Proof.
  intros Hwf. unfold rules. rewrite map_size_fmap. eapply to_map_size, fa_table, Hwf.
Qed.

Lemma has_entries_spec s :
  free_async_wf s -> Z.of_nat (size (rules s)) < 2 ^ 31 ->
  rkx_free_async_has_entries s = negb (bool_decide (rules s = ∅)).
Proof.
  intros Hwf Hsz. unfold rkx_free_async_has_entries.
  rewrite (fa_counted s Hwf), <- rules_size, swrap_small by (done || unfold in_s; lia).
  case_bool_decide as E; [by rewrite E, map_size_empty|].
  apply map_size_non_empty_iff in E. lia.
Qed.

Lemma lookup_spec s name code out :
  free_async_wf s -> Z.of_nat (size (rules s)) < 2 ^ 31 ->
  rkx_free_async_lookup_rcu (Some name) code (Some out) s
  = match rule_lookup (rules s) name code with
    | Some st => (true, Some st)
    | None => (false, Some out)
    end.
Proof.
  intros Hwf Hsz. unfold rkx_free_async_lookup_rcu. rewrite has_entries_spec by done.
  rewrite negb_involutive. case_bool_decide as Hemp.
  { unfold rule_lookup. by rewrite Hemp, !lookup_empty. }
  destruct (lookup_walk_spec name code 0 _ (bucket_nodup s name Hwf)) as [He Hw].
  destruct (lookup_walk _ _ _ _) as [ex wild]; cbn [fst snd] in *.
  assert (Hf : forall c, fe_strategy <$> walk_find (is_key entry_key (name, c))
             (hash_bucket (rkx_free_async_hash name) (rkx_free_async_map s)) = rules s !! (name, c)).
  { intros c. unfold rules. rewrite lookup_fmap, <- find_rules by done.
    by rewrite rule_is_key. }
  rewrite Hf in He, Hw. unfold rule_lookup. subst ex.
  destruct (rules s !! (name, code)) as [st|] eqn:E; simpl.
  - apply rules_valid, valid_strategy_nonzero in E; [|done]. by rewrite E.
  - rewrite Hw by (apply (fmap_None fe_strategy); by rewrite Hf).
    destruct (rules s !! (name, -1)) as [st|] eqn:E'; simpl; [|done].
    apply rules_valid, valid_strategy_nonzero in E'; [|done]. by rewrite E'.
Qed.

(** ** The operations on the represented rules *)

Definition rule_args_ok name code (strategy : Z) : bool :=
  negb (bool_decide (name = [])) && (length name <? RKX_INTERFACETOKEN_BUFF_SIZE)%nat
  && (-1 <=? code) && rkx_free_async_strategy_valid strategy.

(** The guards of [rkx_add_free_async] are exactly [rule_args_ok]. *)
Lemma add_rejected ok name code st s :
  rule_args_ok name code st = false ->
  rkx_add_free_async ok (Some name) code st s = (- EINVAL, s).
Proof.
  unfold rule_args_ok, rkx_add_free_async, strnlen. intros E.
  destruct (bool_decide (name = [])) eqn:E1; [done|].
  destruct (code <? -1) eqn:E2; [done|].
  destruct (rkx_free_async_strategy_valid st) eqn:E3; [|done].
  assert ((length name <? RKX_INTERFACETOKEN_BUFF_SIZE)%nat = false) as Hlen.
  { destruct (length name <? _)%nat; [|done].
    replace (-1 <=? code) with true in E by lia. done. }
  cbn [orb negb]. apply Nat.ltb_ge in Hlen.
  rewrite Nat.min_r by done. by rewrite (proj2 (Nat.leb_le _ _)), orb_true_r by done.
Qed.

Lemma rule_args_len name code st :
  rule_args_ok name code st = true ->
  (0 < length name < RKX_INTERFACETOKEN_BUFF_SIZE)%nat
  /\ rkx_free_async_strategy_valid st = true.
Proof.
  unfold rule_args_ok. intros E; bool_facts. split; [|done].
  destruct name; [done|]. cbn [length] in *. lia.
Qed.

Lemma add_accepted ok name code st s :
  free_async_wf s -> rule_args_ok name code st = true ->
  rkx_add_free_async ok (Some name) code st s
  = let map := rkx_free_async_map s in
    let key := rkx_free_async_hash name in
    match to_map entry_key map !! (name, code) with
    | Some _ =>
        (0, {| rkx_free_async_map :=
                 hash_update (is_key entry_key (name, code)) (write_strategy st) key map;
               rkx_free_async_count := rkx_free_async_count s;
               fa_retired := fa_retired s |})
    | None =>
        if ok then
          (0, {| rkx_free_async_map :=
                   hash_add_rcu {| fe_rpc_name := name; fe_code := code; fe_strategy := st |}
                     key map;
                 rkx_free_async_count := s32 (rkx_free_async_count s + 1);
                 fa_retired := fa_retired s |})
        else (- ENOMEM, s)
    end.
Proof.
  intros Hwf E. pose proof (rule_args_len _ _ _ E) as [Hlen _].
  unfold rule_args_ok in E; bool_facts.
  unfold rkx_add_free_async, strnlen. rewrite bool_decide_eq_false_2 by done.
  replace (code <? -1) with false by lia.
  replace (rkx_free_async_strategy_valid st) with true by done. cbn [orb negb].
  rewrite Nat.min_l by lia.
  replace (_ || _) with false
    by (symmetry; apply orb_false_intro; [apply Nat.eqb_neq|apply Nat.leb_gt]; lia).
  rewrite strscpy_fits, find_rules by (done || lia). cbv zeta.
  destruct (to_map _ _ !! _); [|done]. by rewrite rule_is_key.
Qed.


Lemma count_step s n (d : Z) :
  free_async_wf s ->
  Z.of_nat n = Z.of_nat (length (concat (rkx_free_async_map s))) + d ->
  s32 (rkx_free_async_count s + d) = s32 (Z.of_nat n).
Proof. intros Hwf ->. rewrite (fa_counted s Hwf). by apply swrap_add_l. Qed.

(** What adding a rule does to the represented rules, on every path. *)
Definition add_rule_spec (ok : bool) name code (st : Z) (m : gmap rule_key Z)
  : Z * gmap rule_key Z :=
  if rule_args_ok name code st then
    match m !! (name, code), ok with
    | None, false => (- ENOMEM, m)
    | _, _ => (0, <[(name, code) := st]> m)
    end
  else (- EINVAL, m).

Lemma add_refines ok name code st s :
  free_async_wf s ->
  let '(rc, s') := rkx_add_free_async ok (Some name) code st s in
  free_async_wf s' /\ (rc, rules s') = add_rule_spec ok name code st (rules s).
Proof.
  intros Hwf. unfold add_rule_spec.
  destruct (rule_args_ok name code st) eqn:Eok; [|by rewrite add_rejected].
  rewrite add_accepted by done. cbv zeta.
  assert (Hr : rules s !! (name, code)
    = fe_strategy <$> to_map entry_key (rkx_free_async_map s) !! (name, code))
    by apply lookup_fmap.
  destruct (rule_args_len _ _ _ Eok) as [Hlen Hst].
  pose proof (fa_table s Hwf) as Htab.
  destruct (to_map entry_key _ !! (name, code)) as [e|] eqn:E;
    rewrite Hr; simpl.
  - split.
    + split; cbn [rkx_free_async_map rkx_free_async_count].
      * by apply (table_wf_update entry_key rule_hash).
      * rewrite (hash_update_concat entry_key rule_hash _ _ (name, code)) by done.
        apply Forall_walk_update; [apply Hwf|]. by intros x [_ ?].
      * rewrite (hash_update_concat entry_key rule_hash _ _ (name, code)) by done.
        rewrite length_walk_update. apply Hwf.
    + f_equal. unfold rules; cbn [rkx_free_async_map].
      rewrite (to_map_update entry_key rule_hash _ (name, code)) by done.
      apply map_eq. intros k. rewrite lookup_fmap, lookup_alter, lookup_insert.
      destruct (decide ((name, code) = k)) as [<-|]; [by rewrite E|by rewrite lookup_fmap].
  - destruct ok; [|done].
    set (new := {| fe_rpc_name := name; fe_code := code; fe_strategy := st |}).
    change (rkx_free_async_hash name) with (rule_hash (entry_key new)). split.
    + split; cbn [rkx_free_async_map rkx_free_async_count].
      * by apply (table_wf_add entry_key rule_hash new).
      * rewrite (hash_add_concat entry_key rule_hash new) by done.
        constructor; [done|]. apply Hwf.
      * apply count_step; [done|]. rewrite (hash_add_concat entry_key rule_hash new) by done.
        cbn [length]. lia.
    + f_equal. unfold rules; cbn [rkx_free_async_map].
      by rewrite (to_map_add entry_key rule_hash new), fmap_insert.
Qed.

Definition del_rule_spec name code (m : gmap rule_key Z) : Z * gmap rule_key Z :=
  if bool_decide (name = []) || (code <? -1) then (- EINVAL, m)
  else (0, delete (name, code) m).

Lemma del_refines name code s :
  free_async_wf s ->
  let '(rc, s') := rkx_del_free_async (Some name) code s in
  free_async_wf s' /\ (rc, rules s') = del_rule_spec name code (rules s).
Proof.
  intros Hwf. unfold rkx_del_free_async, del_rule_spec.
  destruct (bool_decide (name = []) || (code <? -1)); [done|].
  cbv zeta. rewrite find_rules by done. pose proof (fa_table s Hwf) as Htab.
  change (rkx_free_async_hash name) with (rule_hash (name, code)).
  destruct (to_map entry_key _ !! (name, code)) as [e|] eqn:E.
  - rewrite rule_is_key. rewrite (to_map_lookup _ rule_hash), (hash_find_concat entry_key) in E by done.
    pose proof (walk_del_Permutation _ _ _ E) as Hp. split.
    + split; cbn [rkx_free_async_map rkx_free_async_count].
      * by apply (table_wf_del entry_key rule_hash).
      * rewrite (hash_del_concat entry_key rule_hash) by done.
        pose proof (fa_entries s Hwf) as Hall. rewrite Hp in Hall.
        by apply Forall_cons in Hall as [_ ?].
      * apply (count_step s _ (-1)); [done|].
        rewrite (hash_del_concat entry_key rule_hash) by done.
        rewrite Hp at 2. cbn [length]. lia.
    + f_equal. unfold rules; cbn [rkx_free_async_map].
      by rewrite (to_map_del entry_key rule_hash (name, code)), fmap_delete.
  - split; [done|]. f_equal. symmetry. apply delete_id. unfold rules.
    by rewrite lookup_fmap, E.
Qed.

Lemma init_rules_wf s : free_async_wf (rkx_init_free_async s).
Proof.
  split; cbn [rkx_free_async_map rkx_free_async_count rkx_init_free_async].
  - apply table_wf_init.
  - unfold hash_init. rewrite concat_replicate_nil. constructor.
  - unfold hash_init. by rewrite concat_replicate_nil.
Qed.

Lemma init_rules s : rules (rkx_init_free_async s) = ∅.
Proof.
  unfold rules; cbn [rkx_free_async_map rkx_init_free_async].
  by rewrite to_map_init, fmap_empty.
Qed.

Lemma destroy_refines s :
  free_async_wf s ->
  free_async_wf (rkx_destroy_free_async s) /\ rules (rkx_destroy_free_async s) = ∅.
Proof.
  intros Hwf.
  assert (rkx_destroy_free_async s
    = rkx_init_free_async {| rkx_free_async_map := []; rkx_free_async_count := 0;
        fa_retired := fa_retired s ++ concat (rkx_free_async_map s) |}) as ->.
  { unfold rkx_destroy_free_async.
    by rewrite hash_drain_spec, (wf_size _ _ _ (fa_table s Hwf)). }
  split; [apply init_rules_wf|apply init_rules].
Qed.

(** ** Histories *)

Inductive rule_op :=
  | OpAddRule (kmalloc_ok : bool) (name : list byte) (code strategy : Z)
  | OpDelRule (name : list byte) (code : Z)
  | OpDestroyRules.

Definition rule_step s (op : rule_op) : Z * free_async_state :=
  match op with
  | OpAddRule ok name code st => rkx_add_free_async ok (Some name) code st s
  | OpDelRule name code => rkx_del_free_async (Some name) code s
  | OpDestroyRules => (0, rkx_destroy_free_async s)
  end.

Definition rule_step_spec (m : gmap rule_key Z) (op : rule_op) : Z * gmap rule_key Z :=
  match op with
  | OpAddRule ok name code st => add_rule_spec ok name code st m
  | OpDelRule name code => del_rule_spec name code m
  | OpDestroyRules => (0, ∅)
  end.

(** A history gives the return codes and the final state. *)
Fixpoint run {S} (step : S -> rule_op -> Z * S) (s : S) (ops : list rule_op) : list Z * S :=
  match ops with
  | [] => ([], s)
  | op :: ops =>
      let '(rc, s) := step s op in
      let '(rcs, s) := run step s ops in (rc :: rcs, s)
  end.

Lemma rule_step_refines s op :
  free_async_wf s ->
  free_async_wf (rule_step s op).2 /\
  ((rule_step s op).1, rules (rule_step s op).2) = rule_step_spec (rules s) op.
Proof.
  intros Hwf. destruct op as [ok name code st|name code|].
  - pose proof (add_refines ok name code st s Hwf). cbn [rule_step].
    by destruct (rkx_add_free_async _ _ _ _ _).
  - pose proof (del_refines name code s Hwf). cbn [rule_step].
    by destruct (rkx_del_free_async _ _ _).
  - cbn. destruct (destroy_refines s Hwf) as [? ->]. done.
Qed.

Lemma run_refines s ops :
  free_async_wf s ->
  free_async_wf (run rule_step s ops).2 /\
  ((run rule_step s ops).1, rules (run rule_step s ops).2)
  = run rule_step_spec (rules s) ops.
Proof.
  revert s; induction ops as [|op ops IH]; intros s Hwf; [done|].
  destruct (rule_step_refines s op Hwf) as [Hwf' Heq]. cbn [run]. rewrite <- Heq.
  destruct (rule_step s op) as [rc s1]; cbn [fst snd] in *.
  destruct (IH s1 Hwf') as [Hwf2 Heq2]. rewrite <- Heq2.
  by destruct (run rule_step s1 ops).
Qed.

(** A history of [n] operations leaves at most [n] more rules. *)
Lemma run_spec_size m ops :
  (size (run rule_step_spec m ops).2 <= size m + length ops)%nat.
Proof.
  revert m; induction ops as [|op ops IH]; intros m; [cbn; lia|]. cbn [run].
  destruct (rule_step_spec m op) as [rc m1] eqn:E.
  specialize (IH m1). destruct (run rule_step_spec m1 ops); cbn [snd length] in *.
  enough (size m1 <= size m + 1)%nat by lia. clear IH.
  assert (Hins : forall k (st : Z), (size (<[k := st]> m) <= size m + 1)%nat).
  { intros k st. rewrite map_size_insert. destruct (m !! k); simpl; lia. }
  destruct op; cbn in E; unfold add_rule_spec, del_rule_spec in E;
    repeat case_match; simplify_eq; try lia; try apply Hins.
  - rewrite map_size_delete. destruct (m !! _); simpl; lia.
  - rewrite map_size_empty. lia.
Qed.

(** C3: after any history of rule additions, updates, deletions and
    teardowns, every operation returned the code its specification gives and a
    lookup answers from the map the history builds: the rule of the exact
    code, else the wildcard rule of code -1, else nothing with
    [*strategy_out] untouched. *)
Theorem free_async_history_refines_map s0 ops name code out :
  Z.of_nat (length ops) < 2 ^ 31 ->
  let '(rcs, s) := run rule_step (rkx_init_free_async s0) ops in
  let '(rcs_spec, m) := run rule_step_spec ∅ ops in
  rcs = rcs_spec /\
  rkx_free_async_lookup_rcu (Some name) code (Some out) s
  = match rule_lookup m name code with
    | Some st => (true, Some st)
    | None => (false, Some out)
    end.
Proof.
  intros Hn. destruct (run_refines _ ops (init_rules_wf s0)) as [Hwf Heq].
  rewrite init_rules in Heq. pose proof (run_spec_size ∅ ops) as Hsz.
  destruct (run rule_step _ ops) as [rcs s], (run rule_step_spec ∅ ops) as [rcs' m].
  cbn [fst snd] in *. simplify_eq. split; [done|]. rewrite map_size_empty in Hsz.
  apply lookup_spec; [done|lia].
Qed.

(** Whatever holds of every accepted addition holds of every rule. *)
Lemma run_spec_Forall (P : rule_key -> Z -> Prop) m ops :
  map_Forall P m ->
  (forall ok name code st, OpAddRule ok name code st ∈ ops ->
     rule_args_ok name code st = true -> P (name, code) st) ->
  map_Forall P (run rule_step_spec m ops).2.
Proof.
  revert m; induction ops as [|op ops IH]; intros m Hm Hadd; [done|]. cbn [run].
  destruct (rule_step_spec m op) as [rc m1] eqn:E. specialize (IH m1).
  destruct (run rule_step_spec m1 ops); cbn [snd] in *. apply IH.
  2:{ intros ok name code st Hin. apply (Hadd ok). by right. }
  destruct op as [ok name code st|name code|]; cbn in E.
  - unfold add_rule_spec in E. destruct (rule_args_ok name code st) eqn:Eok; [|by simplify_eq].
    assert (map_Forall P (<[(name, code) := st]> m)).
    { apply map_Forall_insert_2; [|done]. apply (Hadd ok); [by left|done]. }
    by destruct (m !! (name, code)), ok; simplify_eq.
  - unfold del_rule_spec in E. destruct (_ || _); simplify_eq; [done|].
    by apply map_Forall_delete.
  - simplify_eq. apply map_Forall_empty.
Qed.

(** C27: after any history of additions (accepted or not), deletions and
    teardowns, a lookup never hands out a strategy the probe does not know, nor
    one nobody asked for: when it succeeds, what it stored is 1, 2 or 3 and was
    given by an addition of this history for the same name and the same code or
    the wildcard; when it fails the caller's default is still there. *)
Theorem free_async_lookup_valid s0 ops name code out :
  Z.of_nat (length ops) < 2 ^ 31 ->
  let s := (run rule_step (rkx_init_free_async s0) ops).2 in
  let '(found, st) := rkx_free_async_lookup_rcu (Some name) code (Some out) s in
  if found
  then exists v ok c, st = Some v /\ (v = 1 \/ v = 2 \/ v = 3)
    /\ OpAddRule ok name c v ∈ ops /\ (c = code \/ c = -1)
  else st = Some out.
Proof.
  intros Hn. cbv zeta. destruct (run_refines _ ops (init_rules_wf s0)) as [Hwf Heq].
  rewrite init_rules in Heq. pose proof (run_spec_size ∅ ops) as Hsz.
  assert (Hall : map_Forall (fun k v => (v = 1 \/ v = 2 \/ v = 3)
    /\ exists ok, OpAddRule ok k.1 k.2 v ∈ ops) (run rule_step_spec ∅ ops).2).
  { apply run_spec_Forall; [apply map_Forall_empty|]. intros ok n c v Hin Hok.
    split; [|by exists ok]. by apply rule_args_len in Hok as [_ ?%valid_strategy_cases]. }
  rewrite map_size_empty in Hsz. rewrite <- Heq in Hsz, Hall. cbn [snd] in Hsz, Hall.
  rewrite lookup_spec by (done || lia). unfold rule_lookup.
  destruct (rules _ !! (name, code)) as [v|] eqn:E.
  - destruct (Hall _ _ E) as [? [ok ?]]. exists v, ok, code. cbn in *. auto.
  - destruct (rules _ !! (name, -1)) as [v|] eqn:E'; [|done].
    destruct (Hall _ _ E') as [? [ok ?]]. exists v, ok, (-1). cbn in *. auto.
Qed.

Definition free_async_ledger s : list rkx_free_async_entry :=
  concat (rkx_free_async_map s) ++ fa_retired s.

Lemma add_ledger s (name : option (list byte)) code ok st :
  free_async_wf s ->
  let '(rc, s') := rkx_add_free_async ok name code st s in
  (rc <> 0 -> s' = s)
  /\ (rc = 0 -> exists n, name = Some n /\
       let entry v := {| fe_rpc_name := n; fe_code := code; fe_strategy := v |} in
       match rules s !! (n, code) with
       | None => free_async_ledger s' ≡ₚ entry st :: free_async_ledger s
       | Some old => exists rest, free_async_ledger s ≡ₚ entry old :: rest
           /\ free_async_ledger s' ≡ₚ entry st :: rest
       end).
Proof.
  intros Hwf. destruct name as [name|]; [|done].
  destruct (rule_args_ok name code st) eqn:Eok; [|by rewrite add_rejected].
  rewrite add_accepted by done. cbv zeta. pose proof (fa_table s Hwf) as Htab.
  change (rkx_free_async_hash name) with (rule_hash (name, code)).
  assert (Hr : rules s !! (name, code)
    = fe_strategy <$> to_map entry_key (rkx_free_async_map s) !! (name, code)) by apply lookup_fmap.
  destruct (to_map entry_key _ !! (name, code)) as [e|] eqn:E; cbn in Hr.
  - split; [done|]. intros _. exists name. split; [done|]. rewrite Hr.
    rewrite (to_map_lookup _ rule_hash), (hash_find_concat entry_key) in E by done.
    unfold free_async_ledger. cbn [rkx_free_async_map fa_retired].
    rewrite (hash_update_concat entry_key rule_hash _ _ (name, code)) by done.
    destruct (walk_update_Permutation _ (write_strategy st) _ _ E) as (rest & H1 & H2).
    apply walk_find_Some in E as [_ E%bool_decide_eq_true].
    destruct e as [n c v]. injection E as -> ->.
    exists (rest ++ fa_retired s). split; [by rewrite H1|by rewrite H2].
  - destruct ok; [|done]. split; [done|]. intros _. exists name. split; [done|]. rewrite Hr.
    unfold free_async_ledger. cbn [rkx_free_async_map fa_retired].
    set (new := {| fe_rpc_name := name; fe_code := code; fe_strategy := st |}).
    change (rule_hash (name, code)) with (rule_hash (entry_key new)).
    by rewrite (hash_add_concat entry_key rule_hash new).
Qed.

(** C28: rule entries are neither leaked nor freed twice.  A successful addition
    of a new rule adds exactly the entry it allocated to what the module owns, a
    successful addition for an existing rule replaces the strategy of that entry
    and keeps every other one, and a rejected or failed addition changes nothing
    at all; deletion and teardown only move entries to RCU, and teardown empties
    the table and sets the counter to zero. *)
Theorem free_async_ledger_preserved s (name : option (list byte)) code ok st :
  free_async_wf s ->
  (let '(rc, s') := rkx_add_free_async ok name code st s in
   (rc <> 0 -> s' = s)
   /\ (rc = 0 -> exists n, name = Some n /\
        let entry v := {| fe_rpc_name := n; fe_code := code; fe_strategy := v |} in
        match rules s !! (n, code) with
        | None => free_async_ledger s' ≡ₚ entry st :: free_async_ledger s
        | Some old => exists rest, free_async_ledger s ≡ₚ entry old :: rest
            /\ free_async_ledger s' ≡ₚ entry st :: rest
        end))
  /\ free_async_ledger (rkx_del_free_async name code s).2 ≡ₚ free_async_ledger s
  /\ free_async_ledger (rkx_destroy_free_async s) ≡ₚ free_async_ledger s
  /\ concat (rkx_free_async_map (rkx_destroy_free_async s)) = []
  /\ rkx_free_async_count (rkx_destroy_free_async s) = 0.
Proof.
  intros Hwf. split; [by apply add_ledger|]. pose proof (fa_table s Hwf) as Htab.
  unfold free_async_ledger, rkx_destroy_free_async. rewrite hash_drain_spec.
  cbn [rkx_free_async_map fa_retired]. rewrite concat_replicate_nil. split_and!; try done.
  - destruct name as [name|]; [|done]. unfold rkx_del_free_async.
    destruct (_ || _); [done|]. cbv zeta.
    change (rkx_free_async_hash name) with (rule_hash (name, code)).
    destruct (hash_find _ _ _) as [e|] eqn:E; [|done].
    cbn [snd rkx_free_async_map fa_retired]. rewrite rule_is_key in *.
    rewrite (hash_find_concat entry_key) in E by done.
    rewrite (hash_del_concat entry_key rule_hash) by done.
    rewrite (walk_del_Permutation _ _ _ E) at 2.
    rewrite (Permutation_app_comm (fa_retired s)); cbn [app]. by rewrite <- Permutation_middle.
  - cbn [app]. apply Permutation_app_comm.
Qed.
End FreeAsync.

(** A concrete hash, for evaluating the operations. *)
Definition sum_hash : Jhash := fun s seed => u32 (seed + le_Z (take 4 s)).

Definition demo_rules : list rule_op :=
  [OpAddRule true (str "android.os.IMessenger") (-1) RKX_FREE_ASYNC_SKIP;
   OpAddRule true (str "android.os.IMessenger") 7 RKX_FREE_ASYNC_BY_DATA;
   OpAddRule true (str "android.os.IMessenger") 7 9;
   OpAddRule false (str "android.app.IWindow") 1 RKX_FREE_ASYNC_BY_CODE;
   OpDelRule (str "android.os.IMessenger") 8].

Definition demo_state : free_async_state :=
  (run (@rule_step mod64 sum_hash)
     (rkx_init_free_async {| rkx_free_async_map := []; rkx_free_async_count := 0;
        fa_retired := [] |}) demo_rules).2.

Lemma free_async_history_refines_map_witness :
  let '(rcs, s) := run (@rule_step mod64 sum_hash)
    (rkx_init_free_async {| rkx_free_async_map := []; rkx_free_async_count := 0;
       fa_retired := [] |}) demo_rules in
  rcs = [0; 0; - EINVAL; - ENOMEM; 0] /\
  @rkx_free_async_lookup_rcu mod64 sum_hash (Some (str "android.os.IMessenger")) 12 (Some 2) s
  = (true, Some RKX_FREE_ASYNC_SKIP).
Proof.
  pose proof (@free_async_history_refines_map mod64 sum_hash
    {| rkx_free_async_map := []; rkx_free_async_count := 0; fa_retired := [] |}
    demo_rules (str "android.os.IMessenger") 12 2 ltac:(vm_compute; reflexivity)) as T.
  destruct (run rule_step _ demo_rules) as [rcs s].
  assert (Hr : (run rule_step_spec ∅ demo_rules).1 = [0; 0; - EINVAL; - ENOMEM; 0])
    by (vm_compute; reflexivity).
  assert (Hm : rule_lookup (run rule_step_spec ∅ demo_rules).2 (str "android.os.IMessenger") 12
    = Some RKX_FREE_ASYNC_SKIP) by (vm_compute; reflexivity).
  destruct (run rule_step_spec ∅ demo_rules) as [r m]; cbn [fst snd] in Hr, Hm.
  destruct T as [-> ->]. by rewrite Hm.
Defined.

Lemma demo_state_wf : @free_async_wf mod64 sum_hash demo_state.
Proof. apply run_refines, init_rules_wf. Qed.

Lemma free_async_lookup_valid_witness :
  exists v, (@rkx_free_async_lookup_rcu mod64 sum_hash
    (Some (str "android.os.IMessenger")) 7 (Some 2) demo_state).2 = Some v
  /\ (v = 1 \/ v = 2 \/ v = 3).
Proof.
  pose proof (@free_async_lookup_valid mod64 sum_hash
    {| rkx_free_async_map := []; rkx_free_async_count := 0; fa_retired := [] |}
    demo_rules (str "android.os.IMessenger") 7 2 ltac:(vm_compute; reflexivity)) as T.
  cbv zeta in T. fold demo_state in T.
  destruct (rkx_free_async_lookup_rcu _ _ _ _) as [[] o] eqn:E.
  - destruct T as (v & ok & c & H1 & H2 & _). exists v. split; [exact H1|exact H2].
  - vm_compute in E. discriminate E.
Defined.

Lemma free_async_ledger_preserved_witness :
  free_async_ledger (@rkx_add_free_async mod64 sum_hash true
    (Some (str "android.os.IMessenger")) 9 2 demo_state).2
  ≡ₚ {| fe_rpc_name := str "android.os.IMessenger"; fe_code := 9; fe_strategy := 2 |}
     :: free_async_ledger demo_state.
Proof.
  destruct (@free_async_ledger_preserved mod64 sum_hash demo_state
    (Some (str "android.os.IMessenger")) 9 true 2 demo_state_wf) as [T _].
  assert (Hrc : (@rkx_add_free_async mod64 sum_hash true
    (Some (str "android.os.IMessenger")) 9 2 demo_state).1 = 0) by (vm_compute; reflexivity).
  assert (Hn : rules demo_state !! (str "android.os.IMessenger", 9) = None)
    by (vm_compute; reflexivity).
  destruct (rkx_add_free_async _ _ _ _ _) as [rc s']. cbn in Hrc. destruct T as [_ T].
  destruct (T Hrc) as (n & Hname & Hp). injection Hname as <-. cbn [snd].
  rewrite Hn in Hp. exact Hp.
Defined.
