(* ===== verification/Kernel.v ===== *)
(** The Linux services the module calls, as interfaces.

    None of this code is in the repository.  Each class lists the functions,
    fields and macros a component uses; the laws state documented behaviour
    only.  [LINUX_VERSION_CODE] is a parameter too, so that the definitions
    keep every [#if] of the sources. *)

From S2P Require Import Prelude.

(** [KERNEL_VERSION(a, b, c)] of linux/version.h. *)
Definition KERNEL_VERSION (a b c : Z) : Z :=
  Z.shiftl a 16 + Z.shiftl b 8 + Z.min c 255.

Class Version := LINUX_VERSION_CODE : Z.

(** ** Tasks *)

Class TaskApi (task : Type) := {
  task_tgid_nr : task -> Z;
  task_uid : task -> Z;
  task_group_leader : task -> option task;
  task_state : task -> Z;
  task_jobctl : task -> Z;
  cgroup_task_frozen : task -> bool;
  cgroup_task_freeze : task -> bool;
  frozen : task -> bool;
  freezing : task -> bool;
  TASK_FROZEN : Z;
  JOBCTL_TRAP_FREEZE : Z;
  task_tgid_nr_range t : in_s 32 (task_tgid_nr t);
  task_uid_range t : in_u 32 (task_uid t);
}.

(** [find_task_by_vpid] in the caller's pid namespace. *)
Class PidTable (task : Type) := find_task_by_vpid : Z -> option task.

(** ** User memory

    A copy returns the number of bytes it could not copy and the destination;
    a copy that reports 0 has filled the [size] bytes it was asked for. *)
Class UserMem := {
  access_ok : Z -> nat -> bool;
  copy_from_user_inatomic : Z -> nat -> Z * list byte;
  copy_from_user : Z -> nat -> Z * list byte;
  copy_inatomic_full src n :
    (copy_from_user_inatomic src n).1 = 0 -> length (copy_from_user_inatomic src n).2 = n;
  copy_from_user_full src n :
    (copy_from_user src n).1 = 0 -> length (copy_from_user src n).2 = n;
}.

(** [TF_ONE_WAY] of uapi/linux/android/binder.h. *)
Definition TF_ONE_WAY : Z := 1.

(** Sizes of kernel structures the module compares against. *)
Class StructSizes := {
  sizeof_binder_buffer : Z;
  sizeof_binder_buffer_pos : 0 < sizeof_binder_buffer < 2 ^ 32;
}.

#[export] Hint Resolve task_tgid_nr_range task_uid_range : rkx.

(** ** Concrete instances

    A kernel of plain records, to evaluate the handlers on. *)

Module Demo.
Record task := { pid : Z; uid : Z; jobctl : Z; cg_frozen : bool }.

Definition version_6_6 : Version := KERNEL_VERSION 6 6 0.
Definition version_5_10 : Version := KERNEL_VERSION 5 10 0.

#[refine] Definition tasks : TaskApi task := {|
  task_tgid_nr t := s32 (pid t);
  task_uid t := u32 (uid t);
  task_group_leader t := Some t;
  task_state _ := 0;
  task_jobctl t := jobctl t;
  cgroup_task_frozen t := cg_frozen t;
  cgroup_task_freeze _ := false;
  frozen _ := false;
  freezing _ := false;
  TASK_FROZEN := Z.shiftl 1 15;
  JOBCTL_TRAP_FREEZE := Z.shiftl 1 23;
|}.
Proof.
  - intros t. apply swrap_range. lia.
  - intros t. apply uwrap_range. lia.
Defined.

(** User memory that holds [data] at every address, zero filled. *)
#[refine] Definition user_mem (data : list byte) : UserMem := {|
  access_ok _ _ := true;
  copy_from_user_inatomic _ n := (0, take n (data ++ replicate n NUL));
  copy_from_user _ n := (0, take n (data ++ replicate n NUL));
|}.
Proof.
  all: intros _ n _; cbn [snd]; rewrite length_take, length_app, length_replicate; lia.
Defined.

Definition struct_sizes : StructSizes := {|
  sizeof_binder_buffer := 104;
  sizeof_binder_buffer_pos := conj eq_refl eq_refl;
|}.

Definition app : task := {| pid := 4321; uid := 10123; jobctl := 0; cg_frozen := true |}.
Definition system_server : task := {| pid := 1500; uid := 1000; jobctl := 0; cg_frozen := false |}.
End Demo.
