(* ===== verification/Frozen.v ===== *)
(** rkx_frozen.c: is a task frozen, by cgroup v2, by its job control bits or by
    the freezer, across kernel versions. *)

From S2P Require Import Prelude Kernel.

Section Frozen.
Context `{Version} {task : Type} `{TaskApi task}.
Implicit Types t : task.

Definition rkx_is_frozen_state_compatible t : bool :=
  if KERNEL_VERSION 6 1 0 <=? LINUX_VERSION_CODE
  then negb (Z.land (task_state t) TASK_FROZEN =? 0)
  else frozen t.

Definition rkx_is_jobctl_frozen_compatible t : bool :=
  if LINUX_VERSION_CODE <? KERNEL_VERSION 5 15 0
  then cgroup_task_freeze t
  else negb (Z.land (task_jobctl t) JOBCTL_TRAP_FREEZE =? 0).

Definition rkx_is_frozen t : bool :=
  if cgroup_task_frozen t || rkx_is_jobctl_frozen_compatible t then true
  else match task_group_leader t with
       | None => false
       | Some leader => rkx_is_frozen_state_compatible leader || freezing leader
       end.

(** A mask of one bit selects that bit of the word. *)
Lemma land_bit (x n : Z) : 0 <= n -> negb (Z.land x (2 ^ n) =? 0) = Z.testbit x n.
Proof.
  intros Hn. destruct (Z.testbit x n) eqn:E.
  - apply negb_true_iff, Z.eqb_neq. intros Hz.
    apply (f_equal (fun z => Z.testbit z n)) in Hz.
    by rewrite Z.land_spec, Z.pow2_bits_true, E, Z.bits_0 in Hz.
  - apply negb_false_iff, Z.eqb_eq, Z.bits_inj'. intros m Hm.
    rewrite Z.land_spec, Z.bits_0. destruct (decide (m = n)) as [->|Hne].
    + by rewrite E.
    + by rewrite Z.pow2_bits_false, andb_false_r.
Qed.
End Frozen.
