(* ===== verification/Token.v ===== *)
(** The interface token at the head of a binder transaction: a 16 byte parcel
    header followed by the interface name in UTF-16LE.

    Two places of the module extract the name, the trace hook in rkx_binder.c
    and [rkx_parse_interface_token] in rkx_binder_kp.c, each with its own loop.
    This file holds the reference both are proved equal to and what it recovers
    from a token. *)

From S2P Require Import Prelude Uapi.

(** The low bytes of the complete UTF-16 units before the first one whose low
    byte is zero. *)
Fixpoint low_bytes (l : list byte) : list byte :=
  match l with
  | lo :: _ :: l => if bool_decide (lo = NUL) then [] else lo :: low_bytes l
  | _ => []
  end.

Definition token_name (data : list byte) : list byte :=
  low_bytes (drop RKX_PARCEL_OFFSET (take RKX_INTERFACETOKEN_BUFF_SIZE data)).

(** The longest name that survives the 140 byte window. *)
Definition token_max : nat := 62.

Lemma low_bytes_length l : (2 * length (low_bytes l) <= length l)%nat.
Proof.
  enough (forall n l, (length l <= n)%nat -> (2 * length (low_bytes l) <= length l)%nat) by eauto.
  clear l. induction n as [|n IH]; intros [|lo [|hi l]] Hn; cbn [low_bytes length] in *; try lia.
  case_bool_decide; cbn [length]; [lia|]. specialize (IH l ltac:(lia)). lia.
Qed.

Lemma token_name_length data : (length (token_name data) <= token_max)%nat.
Proof.
  unfold token_name, token_max. pose proof (low_bytes_length
    (drop RKX_PARCEL_OFFSET (take RKX_INTERFACETOKEN_BUFF_SIZE data))) as Hl.
  rewrite length_drop, length_take in Hl.
  unfold RKX_PARCEL_OFFSET, RKX_INTERFACETOKEN_BUFF_SIZE in *. lia.
Qed.

Lemma low_bytes_no_nul l : no_nul (low_bytes l).
Proof.
  enough (forall n l, (length l <= n)%nat -> no_nul (low_bytes l)) by eauto.
  clear l. induction n as [|n IH]; intros [|lo [|hi l]] Hn; cbn [low_bytes length] in *;
    try lia; try constructor.
  case_bool_decide; constructor; [done|]. apply IH. lia.
Qed.

Lemma token_name_no_nul data : no_nul (token_name data).
Proof. apply low_bytes_no_nul. Qed.

(** UTF-16LE of a name whose characters fit one byte. *)
Definition utf16le (name : list byte) : list byte := name ≫= (fun c => [c; NUL]).

Lemma length_utf16le name : length (utf16le name) = (2 * length name)%nat.
Proof. induction name as [|c name IH]; cbn [utf16le mbind list_bind app length] in *; [done|]. fold (utf16le name) in *. lia. Qed.

Lemma low_bytes_utf16le name rest :
  no_nul name -> low_bytes (utf16le name ++ NUL :: NUL :: rest) = name.
Proof.
  induction 1 as [|c name Hc Hn IH]; [done|].
  cbn [utf16le mbind list_bind app low_bytes]. rewrite bool_decide_eq_false_2 by done.
  f_equal. exact IH.
Qed.

Lemma low_bytes_utf16le_cut name : no_nul name -> low_bytes (utf16le name) = name.
Proof.
  induction 1 as [|c name Hc Hn IH]; [done|].
  cbn [utf16le mbind list_bind app low_bytes]. rewrite bool_decide_eq_false_2 by done.
  f_equal. exact IH.
Qed.

Lemma take_utf16le n name : take (2 * n) (utf16le name) = utf16le (take n name).
Proof.
  revert name; induction n as [|n IH]; intros [|c name]; try done.
  replace (2 * S n)%nat with (S (S (2 * n))) by lia.
  cbn [utf16le mbind list_bind app take]. do 2 f_equal. apply IH.
Qed.

(** What the window recovers from a token: the first 62 characters. *)
Lemma token_name_of_token hdr name rest :
  length hdr = RKX_PARCEL_OFFSET -> no_nul name ->
  token_name (hdr ++ utf16le name ++ NUL :: NUL :: rest) = take token_max name.
Proof.
  intros Hh Hn. unfold token_name.
  rewrite take_app_ge by (rewrite Hh; unfold RKX_PARCEL_OFFSET, RKX_INTERFACETOKEN_BUFF_SIZE; lia).
  rewrite <- Hh at 1. rewrite drop_app_length, Hh.
  change (RKX_INTERFACETOKEN_BUFF_SIZE - RKX_PARCEL_OFFSET)%nat with (2 * token_max)%nat.
  destruct (decide (token_max <= length name)%nat) as [Hlong|Hshort].
  - rewrite take_app_le by (rewrite length_utf16le; lia).
    rewrite take_utf16le. apply low_bytes_utf16le_cut. by apply Forall_take.
  - rewrite take_app_ge by (rewrite length_utf16le; lia).
    rewrite (take_ge name) by lia. rewrite length_utf16le.
    destruct (2 * token_max - 2 * length name)%nat as [|[|m]] eqn:E; [lia|lia|].
    cbn [take]. by apply low_bytes_utf16le.
Qed.

(** ** One iteration of an extraction loop

    A loop that reads unit [p] when [p + 1] is below [size] sees the window
    [drop p (take size buf)] one unit at a time. *)

Lemma window_next (buf : list byte) size p :
  (size <= length buf)%nat -> (p + 1 < size)%nat ->
  exists lo hi, buf !! p = Some lo /\
    drop p (take size buf) = lo :: hi :: drop (p + 2) (take size buf).
Proof.
  intros Hs Hp.
  destruct (lookup_lt_is_Some_2 (take size buf) p) as [lo Hlo]; [rewrite length_take; lia|].
  destruct (lookup_lt_is_Some_2 (take size buf) (S p)) as [hi Hhi]; [rewrite length_take; lia|].
  exists lo, hi. split; [by apply lookup_take_Some in Hlo as [? _]|].
  rewrite (drop_S _ _ _ Hlo), (drop_S _ _ _ Hhi). do 3 f_equal. lia.
Qed.

Lemma window_end (buf : list byte) size p :
  (size <= p + 1)%nat -> low_bytes (drop p (take size buf)) = [].
Proof.
  intros Hs. assert (length (drop p (take size buf)) <= 1)%nat as Hl
    by (rewrite length_drop, length_take; lia).
  destruct (drop p (take size buf)) as [|a [|b l]]; [done..|]. cbn [length] in Hl. lia.
Qed.

(** Writing a name character by character into a zeroed array. *)
Lemma arr_set_after_prefix (pre : list byte) c n :
  (0 < n)%nat ->
  arr_set (length pre) c (pre ++ replicate n NUL) = Some ((pre ++ [c]) ++ replicate (n - 1) NUL).
Proof.
  intros Hn. destruct n as [|n]; [lia|]. rewrite arr_set_Some by (rewrite length_app, length_replicate; lia).
  f_equal. cbn [replicate].
  rewrite insert_app_r_alt, Nat.sub_diag by lia. cbn.
  by rewrite Nat.sub_0_r, <- app_assoc.
Qed.

Lemma window_take (data : list byte) :
  token_name (take RKX_INTERFACETOKEN_BUFF_SIZE data) = token_name data.
Proof. unfold token_name. by rewrite take_take, Nat.min_id. Qed.
