(* ===== verification/BinderHooks.v ===== *)
(** rkx_binder.c: the vendor hooks on binder transactions, replies and buffer
    allocation; Lifecycle.v registers them.

    A hook's effect is the list of events it passes to [rkx_send_message], whose
    result it ignores.  Reading a byte outside what was copied, copying more than
    [buf_data] holds, writing outside [rpc_name], or running the extraction loop
    past its fuel, makes the result [None]. *)

From S2P Require Import Prelude Uapi Kernel Frozen Token.

(** The fields of binder's structures the hooks read. *)
Record binder_proc_view (task : Type) := { bp_pid : Z; bp_tsk : option task }.
Arguments bp_pid {task} _.
Arguments bp_tsk {task} _.

Record binder_transaction_data := {
  tr_flags : Z;
  tr_code : Z;
  tr_data_size : Z;
  tr_buffer : Z;
}.

Record binder_alloc_view := { ba_free_async_space : Z; ba_pid : Z }.

Section BinderHooks.
Context `{Version} {task : Type} `{TaskApi task} `{PidTable task} `{UserMem} `{StructSizes}.

(** ** Buffer allocation *)

Definition rkx_binder_alloc_new_buf_locked_vh (ready : bool) (current : task)
    (size : Z) (alloc : binder_alloc_view) (is_async : Z) : list rkx_event :=
  if negb (is_async =? 0)
     && ((ba_free_async_space alloc <? u64 (3 * u64 (size + sizeof_binder_buffer)))
         || (ba_free_async_space alloc <? RKX_WARN_AHEAD_SPACE))
  then
    match find_task_by_vpid (ba_pid alloc) with
    | Some p =>
        if rkx_is_frozen p then
          if ready then
            [{| ev_type := RKX_EVT_BINDER;
                ev_u := U_binder {|
                  be_binder_type := RKX_BINDER_FREE_BUFFER_FULL;
                  be_oneway := 1;
                  be_from_pid := task_tgid_nr current;
                  be_from_uid := task_uid current;
                  be_target_pid := task_tgid_nr p;
                  be_target_uid := task_uid p;
                  be_code := -1;
                  be_rpc_name := char_array RKX_INTERFACETOKEN_BUFF_SIZE
                                   (str "FREE_BUFFER_FULL") |} |}]
          else []
        else []
    | None => []
    end
  else [].

(** ** Replies *)

Definition rkx_binder_reply_vh (ready : bool)
    (target_proc : option (binder_proc_view task)) (proc : binder_proc_view task)
    : list rkx_event :=
  match target_proc with
  | None => []
  | Some target =>
      match bp_tsk target, bp_tsk proc with
      | Some target_tsk, Some tsk =>
          if (task_uid target_tsk <=? RKX_MAX_SYSTEM_UID)
             && negb (bp_pid proc =? bp_pid target)
             && rkx_is_frozen target_tsk
          then
            if ready then
              [{| ev_type := RKX_EVT_BINDER;
                  ev_u := U_binder {|
                    be_binder_type := RKX_BINDER_REPLY;
                    be_oneway := 0;
                    be_from_pid := task_tgid_nr tsk;
                    be_from_uid := task_uid tsk;
                    be_target_pid := task_tgid_nr target_tsk;
                    be_target_uid := task_uid target_tsk;
                    be_code := -1;
                    be_rpc_name := char_array RKX_INTERFACETOKEN_BUFF_SIZE
                                     (str "SYNC_BINDER_REPLY") |} |}]
            else []
          else []
      | _, _ => []
      end
  end.

(** ** User copies *)

Definition rk_copy_from_user_nofault (src : Z) (size : nat) : Z * list byte :=
  if access_ok src size then
    let '(ret, dst) := copy_from_user_inatomic src size in
    if negb (ret =? 0) then (- EFAULT, dst) else (0, dst)
  else (- EFAULT, []).

Definition rk_copy_from_user (src : Z) (size : nat) : Z * list byte :=
  if KERNEL_VERSION 6 1 0 <=? LINUX_VERSION_CODE
  then rk_copy_from_user_nofault src size
  else copy_from_user src size.

(** ** Transactions *)

(** The [while] of the hook over [i], [j] and the offset of [p] in [buf_data],
    writing [rpc_name]. *)
Fixpoint trans_token_loop (fuel : nat) (buf_data : list byte) (buf_data_size : nat)
    (i j p : nat) (rpc_name : list byte) : option (nat * list byte) :=
  match fuel with
  | O => None
  | S fuel =>
      if (i <? RKX_INTERFACETOKEN_BUFF_SIZE)%nat && (j <? buf_data_size)%nat then
        match buf_data !! p with
        | None => None
        | Some c =>
            if bool_decide (c = NUL) then Some (i, rpc_name)
            else
              rpc_name ← arr_set i c rpc_name;
              trans_token_loop fuel buf_data buf_data_size (i + 1) (j + 2) (p + 2) rpc_name
        end
      else Some (i, rpc_name)
  end.

Definition trans_token (buf_data : list byte) (buf_data_size : nat) : option (list byte) :=
  let rpc_name := replicate RKX_INTERFACETOKEN_BUFF_SIZE NUL in
  if (RKX_PARCEL_OFFSET <? buf_data_size)%nat then
    '(i, rpc_name) ←
      trans_token_loop (S RKX_INTERFACETOKEN_BUFF_SIZE) buf_data buf_data_size
        0 (RKX_PARCEL_OFFSET + 1) RKX_PARCEL_OFFSET rpc_name;
    if (i =? RKX_INTERFACETOKEN_BUFF_SIZE)%nat then arr_set (i - 1) NUL rpc_name else Some rpc_name
  else Some rpc_name.

(** The conditions both halves of the hook test after the one-way flag. *)
Definition trans_target (target_proc : option (binder_proc_view task))
    (proc : binder_proc_view task) : option (task * task) :=
  match target_proc with
  | None => None
  | Some target =>
      match bp_tsk target, bp_tsk proc with
      | Some target_tsk, Some tsk =>
          if (task_uid target_tsk >? RKX_MIN_APP_UID)
             && negb (bp_pid proc =? bp_pid target)
             && rkx_is_frozen target_tsk
          then Some (target_tsk, tsk) else None
      | _, _ => None
      end
  end.

Definition trans_sync (ready : bool) (target_tsk tsk : task) : list rkx_event :=
  if ready then
    [{| ev_type := RKX_EVT_BINDER;
        ev_u := U_binder {|
          be_binder_type := RKX_BINDER_TRANSACTION;
          be_oneway := 0;
          be_from_pid := task_tgid_nr tsk;
          be_from_uid := task_uid tsk;
          be_target_pid := task_tgid_nr target_tsk;
          be_target_uid := task_uid target_tsk;
          be_code := -1;
          be_rpc_name := char_array RKX_INTERFACETOKEN_BUFF_SIZE (str "SYNC_BINDER") |} |}]
  else [].

Definition buf_data_size (data_size : Z) : nat :=
  if data_size >? Z.of_nat RKX_INTERFACETOKEN_BUFF_SIZE
  then RKX_INTERFACETOKEN_BUFF_SIZE else Z.to_nat data_size.

Definition trans_async (ready : bool) (target_tsk tsk : task)
    (tr : binder_transaction_data) : option (list rkx_event) :=
  let buf_data_size := buf_data_size (tr_data_size tr) in
  '(ret, buf_data) ← into_array (Z.of_nat RKX_INTERFACETOKEN_BUFF_SIZE) (Z.of_nat buf_data_size)
                       (Some (rk_copy_from_user (tr_buffer tr) buf_data_size));
  if ret =? 0 then
    rpc_name ← trans_token buf_data buf_data_size;
    if ready then
      name ← c_string rpc_name;
      Some [{| ev_type := RKX_EVT_BINDER;
               ev_u := U_binder {|
                 be_binder_type := RKX_BINDER_TRANSACTION;
                 be_oneway := 1;
                 be_from_pid := task_tgid_nr tsk;
                 be_from_uid := task_uid tsk;
                 be_target_pid := task_tgid_nr target_tsk;
                 be_target_uid := task_uid target_tsk;
                 be_code := s32 (tr_code tr);
                 be_rpc_name := char_array RKX_INTERFACETOKEN_BUFF_SIZE
                   (strscpy RKX_INTERFACETOKEN_BUFF_SIZE name) |} |}]
    else Some []
  else Some [].

Definition rkx_binder_trans_vh (ready : bool)
    (target_proc : option (binder_proc_view task)) (proc : binder_proc_view task)
    (tr : binder_transaction_data) : option (list rkx_event) :=
  let oneway := negb (Z.land (tr_flags tr) TF_ONE_WAY =? 0) in
  let sync_events :=
    match negb oneway, trans_target target_proc proc with
    | true, Some (target_tsk, tsk) => trans_sync ready target_tsk tsk
    | _, _ => []
    end in
  async_events ←
    match oneway, trans_target target_proc proc with
    | true, Some (target_tsk, tsk) => trans_async ready target_tsk tsk tr
    | _, _ => Some []
    end;
  Some (sync_events ++ async_events).

(** ** The extraction loop *)

Lemma trans_token_loop_spec fuel buf size pre n p :
  (size <= length buf)%nat ->
  (length (low_bytes (drop p (take size buf))) < fuel)%nat ->
  (length (low_bytes (drop p (take size buf))) < n)%nat ->
  (length pre + n = RKX_INTERFACETOKEN_BUFF_SIZE)%nat ->
  trans_token_loop fuel buf size (length pre) (p + 1) p (pre ++ replicate n NUL)
  = Some ((length pre + length (low_bytes (drop p (take size buf))))%nat,
          char_array RKX_INTERFACETOKEN_BUFF_SIZE (pre ++ low_bytes (drop p (take size buf)))).
Proof.
  intros Hs. revert pre n p. induction fuel as [|fuel IH]; intros pre n p Hf Hn Hpre; [lia|].
  cbn [trans_token_loop].
  assert (Hstop : low_bytes (drop p (take size buf)) = [] ->
    Some (length pre, pre ++ replicate n NUL)
    = Some ((length pre + length (low_bytes (drop p (take size buf))))%nat,
            char_array RKX_INTERFACETOKEN_BUFF_SIZE (pre ++ low_bytes (drop p (take size buf))))).
  { intros ->. rewrite app_nil_r, char_array_split by lia. cbn [length].
    do 3 f_equal; [lia|]. f_equal. lia. }
  rewrite (proj2 (Nat.ltb_lt (length pre) _)) by lia. cbn [andb].
  destruct (Nat.ltb_spec (p + 1) size) as [Hj|Hj]; [|apply Hstop, window_end; lia].
  destruct (window_next buf size p Hs Hj) as (lo & hi & -> & Hw).
  rewrite Hw in *. cbn [low_bytes] in *. case_bool_decide as Hlo; [by apply Hstop|].
  cbn [length] in *. rewrite arr_set_after_prefix by lia. cbn [mbind option_bind].
  replace (length pre + 1)%nat with (length (pre ++ [lo])) by (rewrite length_app; done).
  replace (p + 1 + 2)%nat with (p + 2 + 1)%nat by lia.
  rewrite IH by (rewrite ?length_app; cbn [length]; lia).
  rewrite <- app_assoc, length_app. cbn [app length]. do 2 f_equal. lia.
Qed.

Lemma trans_token_spec buf size :
  length buf = size -> (size <= RKX_INTERFACETOKEN_BUFF_SIZE)%nat ->
  trans_token buf size
  = Some (char_array RKX_INTERFACETOKEN_BUFF_SIZE (token_name buf)).
Proof.
  intros Hl Hs. unfold trans_token.
  assert (Hw : low_bytes (drop RKX_PARCEL_OFFSET (take size buf)) = token_name buf).
  { unfold token_name. by rewrite !take_ge by lia. }
  pose proof (token_name_length buf) as Hmax. unfold token_max in Hmax.
  destruct (Nat.ltb_spec RKX_PARCEL_OFFSET size) as [Hp|Hp].
  - pose proof (trans_token_loop_spec (S RKX_INTERFACETOKEN_BUFF_SIZE) buf size []
      RKX_INTERFACETOKEN_BUFF_SIZE RKX_PARCEL_OFFSET) as Hloop.
    rewrite Hw in Hloop. cbn [length app] in Hloop.
    change (0 + length (token_name buf))%nat with (length (token_name buf)) in Hloop.
    rewrite Hloop by (unfold RKX_INTERFACETOKEN_BUFF_SIZE in *; lia). cbn [mbind option_bind].
    by rewrite (proj2 (Nat.eqb_neq _ _)) by (unfold RKX_INTERFACETOKEN_BUFF_SIZE; lia).
  - rewrite <- Hw, window_end by lia. done.
Qed.

Lemma rk_copy_from_user_full src n :
  (rk_copy_from_user src n).1 = 0 -> length (rk_copy_from_user src n).2 = n.
Proof.
  unfold rk_copy_from_user, rk_copy_from_user_nofault. split_guard.
  - destruct (access_ok src n); [|done].
    pose proof (copy_inatomic_full src n) as Hc.
    destruct (copy_from_user_inatomic src n) as [ret dst]; cbn [fst snd] in *.
    destruct (Z.eqb_spec ret 0); cbn [negb fst snd]; [auto|done].
  - apply copy_from_user_full.
Qed.

(** The bytes the one-way half asks for. *)
Definition trans_copy (tr : binder_transaction_data) : Z * list byte :=
  rk_copy_from_user (tr_buffer tr)
    (Z.to_nat (tr_data_size tr) `min` RKX_INTERFACETOKEN_BUFF_SIZE).

Definition async_event (target_tsk tsk : task) (code : Z) (name : list byte) : rkx_event :=
  {| ev_type := RKX_EVT_BINDER;
     ev_u := U_binder {|
       be_binder_type := RKX_BINDER_TRANSACTION; be_oneway := 1;
       be_from_pid := task_tgid_nr tsk; be_from_uid := task_uid tsk;
       be_target_pid := task_tgid_nr target_tsk; be_target_uid := task_uid target_tsk;
       be_code := s32 code;
       be_rpc_name := char_array RKX_INTERFACETOKEN_BUFF_SIZE name |} |}.

Lemma buf_data_size_min n : buf_data_size n = (Z.to_nat n `min` RKX_INTERFACETOKEN_BUFF_SIZE)%nat.
Proof. unfold buf_data_size. destruct (n >? _) eqn:E; lia. Qed.

Lemma trans_async_spec ready target_tsk tsk tr :
  0 <= tr_data_size tr ->
  trans_async ready target_tsk tsk tr
  = Some (if ((trans_copy tr).1 =? 0) && ready
          then [async_event target_tsk tsk (tr_code tr) (token_name (trans_copy tr).2)]
          else []).
Proof.
  intros Hds. unfold trans_async, trans_copy. rewrite buf_data_size_min.
  set (size := (_ `min` _)%nat).
  assert (Hsize : (size <= RKX_INTERFACETOKEN_BUFF_SIZE)%nat) by lia.
  rewrite into_array_fits by lia. cbn [mbind option_bind].
  pose proof (rk_copy_from_user_full (tr_buffer tr) size) as Hfull.
  destruct (rk_copy_from_user (tr_buffer tr) size) as [ret data]; cbn [fst snd] in *.
  destruct (Z.eqb_spec ret 0) as [->|]; [|done]. cbn [andb].
  rewrite trans_token_spec by auto. cbn [mbind option_bind]. destruct ready; [|done].
  pose proof (token_name_length data) as Hlen. unfold token_max in Hlen.
  assert (length (token_name data) < RKX_INTERFACETOKEN_BUFF_SIZE)%nat
    by (unfold RKX_INTERFACETOKEN_BUFF_SIZE; lia).
  rewrite c_string_char_array by (done || apply token_name_no_nul).
  cbn [mbind option_bind]. by rewrite strscpy_fits.
Qed.

(** What the hook reports, without loops or buffers. *)
Definition trans_report (ready : bool) (target_proc : option (binder_proc_view task))
    (proc : binder_proc_view task) (tr : binder_transaction_data) : list rkx_event :=
  match trans_target target_proc proc with
  | None => []
  | Some (target_tsk, tsk) =>
      if Z.land (tr_flags tr) TF_ONE_WAY =? 0 then trans_sync ready target_tsk tsk
      else if ((trans_copy tr).1 =? 0) && ready
           then [async_event target_tsk tsk (tr_code tr) (token_name (trans_copy tr).2)]
           else []
  end.

Lemma trans_vh_report ready target_proc proc tr :
  0 <= tr_data_size tr ->
  rkx_binder_trans_vh ready target_proc proc tr
  = Some (trans_report ready target_proc proc tr).
Proof.
  intros Hds. unfold rkx_binder_trans_vh, trans_report.
  destruct (trans_target target_proc proc) as [[target_tsk tsk]|].
  - destruct (Z.land (tr_flags tr) TF_ONE_WAY =? 0); cbn [negb mbind option_bind].
    + by rewrite app_nil_r.
    + by rewrite trans_async_spec.
  - by destruct (Z.land (tr_flags tr) TF_ONE_WAY =? 0).
Qed.

(** ** Well-formedness of what the hooks emit *)

Lemma name_literal_wf (s : list byte) :
  bool_decide (no_nul s) = true -> (length s <? RKX_INTERFACETOKEN_BUFF_SIZE)%nat = true ->
  name_array_wf (char_array RKX_INTERFACETOKEN_BUFF_SIZE s).
Proof. intros Hs%bool_decide_eq_true Hl%Nat.ltb_lt. by apply name_array_wf_intro. Qed.

Lemma binder_event_wf_intro ty oneway (from target : task) code name :
  in_u 8 ty -> in_u 8 oneway -> in_s 32 code -> name_array_wf name ->
  event_wf {| ev_type := RKX_EVT_BINDER; ev_u := U_binder {|
    be_binder_type := ty; be_oneway := oneway;
    be_from_pid := task_tgid_nr from; be_from_uid := task_uid from;
    be_target_pid := task_tgid_nr target; be_target_uid := task_uid target;
    be_code := code; be_rpc_name := name |} |}.
Proof. intros. split; [done|]. split; cbn; auto with rkx. Qed.

Lemma async_event_wf target_tsk tsk code data :
  event_wf (async_event target_tsk tsk code (token_name data)).
Proof.
  apply binder_event_wf_intro; [done..| |].
  - apply swrap_range. lia.
  - apply name_array_wf_intro; [apply token_name_no_nul|].
    pose proof (token_name_length data). unfold token_max, RKX_INTERFACETOKEN_BUFF_SIZE in *. lia.
Qed.

(** Everything any of the three hooks passes to [rkx_send_message]. *)
Inductive binder_emits (ready : bool) : rkx_event -> Prop :=
  | emits_alloc current size alloc is_async e :
      e ∈ rkx_binder_alloc_new_buf_locked_vh ready current size alloc is_async ->
      binder_emits ready e
  | emits_reply target_proc proc e :
      e ∈ rkx_binder_reply_vh ready target_proc proc -> binder_emits ready e
  | emits_trans target_proc proc tr evs e :
      0 <= tr_data_size tr ->
      rkx_binder_trans_vh ready target_proc proc tr = Some evs -> e ∈ evs ->
      binder_emits ready e.

(** The target an event of the hooks may name: frozen, and in the uid range
    the hook watches. *)
Definition watched_target (b : rkx_binder_event) (p : task) : Prop :=
  rkx_is_frozen p = true /\ be_target_pid b = task_tgid_nr p /\ be_target_uid b = task_uid p
  /\ (be_binder_type b = RKX_BINDER_FREE_BUFFER_FULL
      \/ be_binder_type b = RKX_BINDER_REPLY /\ task_uid p <= RKX_MAX_SYSTEM_UID
      \/ be_binder_type b = RKX_BINDER_TRANSACTION /\ RKX_MIN_APP_UID < task_uid p).

Lemma trans_target_spec target_proc proc target_tsk tsk :
  trans_target target_proc proc = Some (target_tsk, tsk) ->
  exists target, target_proc = Some target /\ bp_tsk target = Some target_tsk
    /\ bp_tsk proc = Some tsk /\ bp_pid proc <> bp_pid target
    /\ RKX_MIN_APP_UID < task_uid target_tsk /\ rkx_is_frozen target_tsk = true.
Proof.
  unfold trans_target. destruct target_proc as [target|]; [|done].
  destruct (bp_tsk target) eqn:E1; [|done]. destruct (bp_tsk proc) eqn:E2; [|done].
  split_guard; [|done]. intros [= -> ->]. bool_facts. exists target.
  split_and!; try done; lia.
Qed.

(** C20: the transaction hook is memory safe and total for every transaction
    size: it copies no more than [buf_data] holds, reads only bytes that were
    copied from the sender, writes only inside the name array, and reports at
    most one event, which is well formed. *)
Theorem trans_vh_safe ready target_proc proc tr :
  0 <= tr_data_size tr ->
  exists evs, rkx_binder_trans_vh ready target_proc proc tr = Some evs
    /\ (length evs <= 1)%nat /\ Forall event_wf evs.
Proof.
  intros Hds. rewrite trans_vh_report by done. eexists; split; [done|].
  unfold trans_report, trans_sync.
  destruct (trans_target target_proc proc) as [[target_tsk tsk]|]; [|by split; [cbn; lia|]].
  repeat split_guard; (split; [cbn; lia|]); try done; constructor; try done.
  - apply binder_event_wf_intro; [done..|]. by apply name_literal_wf.
  - apply async_event_wf.
Qed.

(** C21: a one-way transaction to a frozen application carries the interface
    name of its token: the reported name is the token's name, cut at 62
    characters, and the code is the transaction's. *)
Theorem trans_vh_reports_interface target_proc proc tr target_tsk tsk hdr name rest :
  trans_target target_proc proc = Some (target_tsk, tsk) ->
  Z.land (tr_flags tr) TF_ONE_WAY <> 0 ->
  length hdr = RKX_PARCEL_OFFSET -> no_nul name ->
  let data := hdr ++ utf16le name ++ NUL :: NUL :: rest in
  tr_data_size tr = Z.of_nat (length data) ->
  trans_copy tr = (0, take RKX_INTERFACETOKEN_BUFF_SIZE data) ->
  rkx_binder_trans_vh true target_proc proc tr
  = Some [async_event target_tsk tsk (tr_code tr) (take token_max name)].
Proof.
  intros Htgt Hflag Hh Hn data Hds Hcopy. rewrite trans_vh_report by lia.
  unfold trans_report. rewrite Htgt, Hcopy. cbn [fst snd Z.eqb andb].
  rewrite window_take. subst data. rewrite token_name_of_token by done.
  by rewrite (proj2 (Z.eqb_neq _ _) Hflag).
Qed.

Lemma binder_emits_sound ready e :
  binder_emits ready e ->
  ready = true /\ event_wf e
  /\ exists b p, ev_u e = U_binder b /\ watched_target b p.
Proof.
  unfold watched_target. destruct 1 as [current size alloc is_async e Hin|target_proc proc e Hin
    |target_proc proc tr evs e Hds Hevs Hin].
  - unfold rkx_binder_alloc_new_buf_locked_vh in Hin. split_guard; [|set_solver].
    destruct (find_task_by_vpid _) as [p|]; [|set_solver].
    repeat split_guard; try set_solver. apply list_elem_of_singleton in Hin as ->.
    split; [done|]. split; [apply binder_event_wf_intro; [done..|by apply name_literal_wf]|].
    do 2 eexists. split_and!; try done. by left.
  - unfold rkx_binder_reply_vh in Hin. destruct target_proc as [target|]; [|set_solver].
    destruct (bp_tsk target) as [p|]; [|set_solver]. destruct (bp_tsk proc); [|set_solver].
    repeat split_guard; try set_solver. apply list_elem_of_singleton in Hin as ->.
    bool_facts.
    split; [done|]. split; [apply binder_event_wf_intro; [done..|by apply name_literal_wf]|].
    do 2 eexists. split_and!; try done. right; left. cbn. lia.
  - rewrite trans_vh_report in Hevs by done. simplify_eq.
    unfold trans_report, trans_sync in Hin.
    destruct (trans_target target_proc proc) as [[p tsk]|] eqn:E; [|set_solver].
    apply trans_target_spec in E as (target & _ & _ & _ & _ & Huid & Hfr).
    repeat split_guard; try set_solver; apply list_elem_of_singleton in Hin as ->; bool_facts.
    + split; [done|]. split; [apply binder_event_wf_intro; [done..|by apply name_literal_wf]|].
      do 2 eexists. split_and!; try done. right; right. done.
    + split; [done|]. split; [apply async_event_wf|].
      do 2 eexists. split_and!; try done. right; right. done.
Qed.

(** C25: no hook of this file reports anything but a frozen process that the
    hook is meant to watch, nor before the netlink family is registered, and
    every event is well-formed. *)
Theorem binder_hooks_sound ready e :
  binder_emits ready e ->
  ready = true /\ event_wf e
  /\ exists b p, ev_u e = U_binder b /\ watched_target b p.
Proof. apply binder_emits_sound. Qed.

(** C30: the space warning is sent exactly when a one-way buffer is requested
    for a frozen process whose free async space is below the larger of three
    times the request (with its header) and 128 KiB; the product does not wrap
    for any request binder can make. *)
Theorem alloc_vh_threshold current size alloc is_async p :
  0 <= size < 2 ^ 61 -> 0 <= ba_free_async_space alloc ->
  find_task_by_vpid (ba_pid alloc) = Some p -> rkx_is_frozen p = true ->
  rkx_binder_alloc_new_buf_locked_vh true current size alloc is_async <> []
  <-> is_async <> 0 /\
      ba_free_async_space alloc < Z.max (3 * (size + sizeof_binder_buffer)) (128 * 1024).
Proof.
  intros Hsz Hsp Hp Hfr. unfold rkx_binder_alloc_new_buf_locked_vh. rewrite Hp, Hfr.
  pose proof sizeof_binder_buffer_pos.
  rewrite !(uwrap_small 64) by (rewrite ?(uwrap_small 64); unfold in_u; lia).
  change RKX_WARN_AHEAD_SPACE with 131072.
  split_guard.
  - split; [|done]. intros _. lia.
  - split; [done|]. intros [??]. exfalso. lia.
Qed.
End BinderHooks.

(** ** Evaluations *)

Definition demo_token : list byte :=
  replicate 16 Byte.xff ++ utf16le (str "android.os.IMessenger") ++ [NUL; NUL].

Definition demo_tr : binder_transaction_data :=
  {| tr_flags := 1; tr_code := 3; tr_data_size := Z.of_nat (length demo_token); tr_buffer := 4096 |}.

Definition demo_target : binder_proc_view Demo.task :=
  {| bp_pid := 4321; bp_tsk := Some Demo.app |}.
Definition demo_sender : binder_proc_view Demo.task :=
  {| bp_pid := 1500; bp_tsk := Some Demo.system_server |}.

#[local] Existing Instance Demo.version_6_6.
#[local] Existing Instance Demo.tasks.
#[local] Existing Instance Demo.struct_sizes.
#[local] Instance demo_mem : UserMem := Demo.user_mem demo_token.
#[local] Instance demo_pids : PidTable Demo.task := fun _ => Some Demo.app.

Lemma trans_vh_safe_witness :
  exists evs, rkx_binder_trans_vh true (Some demo_target) demo_sender demo_tr = Some evs
    /\ (length evs <= 1)%nat /\ Forall event_wf evs.
Proof. apply trans_vh_safe. vm_compute; discriminate. Defined.

Lemma trans_vh_reports_interface_witness :
  rkx_binder_trans_vh true (Some demo_target) demo_sender demo_tr
  = Some [async_event Demo.app Demo.system_server 3 (str "android.os.IMessenger")].
Proof.
  apply (trans_vh_reports_interface (Some demo_target) demo_sender demo_tr Demo.app
           Demo.system_server (replicate 16 Byte.xff) (str "android.os.IMessenger") []);
    try (vm_compute; reflexivity).
  - vm_compute; discriminate.
  - apply (bool_decide_unpack _). vm_compute. exact I.
Defined.

Lemma binder_hooks_sound_witness :
  exists e, binder_emits (task := Demo.task) true e /\ event_wf e.
Proof.
  eexists. split.
  - eapply (emits_reply true (Some {| bp_pid := 2; bp_tsk := Some
      {| Demo.pid := 2; Demo.uid := 1000; Demo.jobctl := 0; Demo.cg_frozen := true |} |})
      demo_sender). by left.
  - eapply binder_hooks_sound.
    eapply (emits_reply true (Some {| bp_pid := 2; bp_tsk := Some
      {| Demo.pid := 2; Demo.uid := 1000; Demo.jobctl := 0; Demo.cg_frozen := true |} |})
      demo_sender). by left.
Defined.

Lemma alloc_vh_threshold_witness :
  rkx_binder_alloc_new_buf_locked_vh true Demo.system_server 4096
    {| ba_free_async_space := 100000; ba_pid := 4321 |} 1 <> [].
Proof.
  apply (alloc_vh_threshold Demo.system_server 4096
    {| ba_free_async_space := 100000; ba_pid := 4321 |} 1 Demo.app); done.
Defined.
