(* ===== verification/Signal.v ===== *)
(** rkx_signal.c: the vendor hook on signal delivery. *)

From S2P Require Import Prelude Uapi Kernel Frozen.

Definition SIGQUIT : Z := 3.
Definition SIGABRT : Z := 6.
Definition SIGKILL : Z := 9.
Definition SIGTERM : Z := 15.

Section Signal.
Context `{Version} {task : Type} `{TaskApi task}.

Definition rkx_do_send_sig_info_vh (ready : bool) (sig : Z) (killer dst : option task)
    : list rkx_event :=
  match dst, killer with
  | Some dst, Some killer =>
      if rkx_is_frozen dst
         && ((sig =? SIGKILL) || (sig =? SIGTERM) || (sig =? SIGABRT) || (sig =? SIGQUIT))
      then
        if ready then
          [{| ev_type := RKX_EVT_SIGNAL;
              ev_u := U_signal {|
                se_signal := sig;
                se_killer_pid := task_tgid_nr killer;
                se_killer_uid := task_uid killer;
                se_dst_pid := task_tgid_nr dst;
                se_dst_uid := task_uid dst |} |}]
        else []
      else []
  | _, _ => []
  end.

Definition fatal_signal (sig : Z) : Prop := sig ∈ [SIGKILL; SIGTERM; SIGABRT; SIGQUIT].

(** C26: once the family is registered, a signal is reported exactly when it is
    one of SIGKILL, SIGTERM, SIGABRT, SIGQUIT and the destination is frozen, and
    the event names killer and destination, in well-formed fields. *)
Theorem signal_hook_exact sig (killer dst : task) e :
  e ∈ rkx_do_send_sig_info_vh true sig (Some killer) (Some dst)
  <-> fatal_signal sig /\ rkx_is_frozen dst = true /\ event_wf e
      /\ ev_u e = U_signal {| se_signal := sig;
           se_killer_pid := task_tgid_nr killer; se_killer_uid := task_uid killer;
           se_dst_pid := task_tgid_nr dst; se_dst_uid := task_uid dst |}.
Proof.
  unfold rkx_do_send_sig_info_vh, fatal_signal. rewrite !elem_of_cons, elem_of_nil.
  split_guard.
  - rewrite list_elem_of_singleton. split.
    + intros ->. bool_facts. split_and!; try done; [lia|]. split; [done|].
      split; cbn; auto with rkx.
      assert (0 <= sig < 16) by (unfold SIGKILL, SIGTERM, SIGABRT, SIGQUIT in *; lia).
      unfold in_s. lia.
    + destruct e as [ty u]. unfold event_wf; cbn. intros (_ & _ & Hwf & ->).
      by destruct Hwf as [-> _].
  - rewrite elem_of_nil. split; [done|]. intros (? & Hf & _). rewrite Hf in *.
    cbn [andb] in *. lia.
Qed.

Lemma signal_events_wf ready sig (killer dst : option task) e :
  e ∈ rkx_do_send_sig_info_vh ready sig killer dst -> ready = true /\ event_wf e.
Proof.
  unfold rkx_do_send_sig_info_vh. destruct dst as [dst|]; [|set_solver].
  destruct killer as [killer|]; [|set_solver]. split_guard; [|set_solver].
  destruct ready; [|set_solver]. intros ->%list_elem_of_singleton. split; [done|]. split; [done|].
  split; cbn; auto with rkx. bool_facts. unfold in_s, SIGKILL, SIGTERM, SIGABRT, SIGQUIT in *. lia.
Qed.

(** Nothing is sent before registration or for a missing task. *)
Lemma signal_hook_silent ready sig (killer dst : option task) :
  ready = false \/ killer = None \/ dst = None ->
  rkx_do_send_sig_info_vh ready sig killer dst = [].
Proof.
  unfold rkx_do_send_sig_info_vh.
  intros [->|[->| ->]]; repeat case_match; done.
Qed.
End Signal.

(** A frozen application is killed by the system server. *)
Example signal_hook_demo :
  @rkx_do_send_sig_info_vh Demo.version_6_6 Demo.task Demo.tasks true SIGKILL
    (Some Demo.system_server) (Some Demo.app)
  = [{| ev_type := RKX_EVT_SIGNAL; ev_u := U_signal {| se_signal := 9;
        se_killer_pid := 1500; se_killer_uid := 1000;
        se_dst_pid := 4321; se_dst_uid := 10123 |} |}].
Proof. reflexivity. Qed.
