(* ===== verification/Netfilter.v ===== *)
(** rkx_netfilter.c: the LOCAL_IN hook that reports inbound TCP traffic of
    monitored uids.

    A packet is the list of its bytes from the network header on.
    [skb_linear] counts the bytes that may be read through a header pointer;
    [pskb_may_pull] extends it when it succeeds.  A read beyond it is [None].
    The header fields are read from their wire positions. *)

From S2P Require Import Prelude Uapi HashTable NetUid.

Definition NF_ACCEPT : Z := 1.
Definition NF_INET_LOCAL_IN : Z := 1.
Definition IPPROTO_TCP : Z := 6.
Definition sizeof_iphdr : nat := 20.
Definition sizeof_ipv6hdr : nat := 40.
Definition sizeof_tcphdr : nat := 20.

(** A socket as [skb_to_full_sk] finds it, with the uid of its inode. *)
Record sock := { sk_fullsock : bool; sk_socket_uid : option Z }.

Record sk_buff := {
  skb_pkt : list byte;
  skb_linear : nat;
  skb_sk : option sock;
}.

Record nf_hook_state := { st_hook : Z; st_in : bool }.

(** [pskb_may_pull] may fail for want of memory but never succeeds beyond the
    packet; [ipv6_find_hdr(skb, &thoff, -1, ...)] gives the last header's
    protocol and its offset. *)
Class SkbApi := {
  pskb_pull_ok : sk_buff -> nat -> bool;
  pskb_pull_ok_len skb n : pskb_pull_ok skb n = true -> (n <= length (skb_pkt skb))%nat;
  ipv6_find_hdr : sk_buff -> Z * nat;
}.

(** Reading one byte, or a big-endian half word, through a header pointer. *)
Definition rd8 (skb : sk_buff) (off : nat) : option Z :=
  if (off <? skb_linear skb)%nat then byte_Z <$> skb_pkt skb !! off else None.

Definition rd16 (skb : sk_buff) (off : nat) : option Z :=
  hi ← rd8 skb off; lo ← rd8 skb (off + 1); Some (256 * hi + lo).

Section Netfilter.
Context `{SkbApi} {S : Type} `{UidMonitor S} (CONFIG_IPV6 : bool).
Implicit Types skb : sk_buff.

Definition pskb_may_pull skb (n : nat) : option sk_buff :=
  if pskb_pull_ok skb n
  then Some {| skb_pkt := skb_pkt skb; skb_linear := skb_linear skb `max` n;
               skb_sk := skb_sk skb |}
  else None.

Definition rkx_sock_to_uid (sk : option sock) : Z :=
  match sk with
  | Some sk => match sk_socket_uid sk with Some uid => uid | None => 0 end
  | None => 0
  end.

(** [doff], [fin], [syn] and [rst] of the TCP header at [off]. *)
Definition tcp_doff skb off : option Z := b ← rd8 skb (off + 12); Some (Z.shiftr b 4).
Definition tcp_ctl skb off : option bool :=
  b ← rd8 skb (off + 13);
  Some (Z.testbit b 1 || Z.testbit b 0 || Z.testbit b 2).

(** Both parsers return [Some None] for -1 (pass the packet through) and
    [Some (Some (proto, data_len))] for 0. *)
Definition rkx_parse_tcp_ipv4 skb : option (option (Z * Z)) :=
  match pskb_may_pull skb sizeof_iphdr with
  | None => Some None
  | Some skb =>
      protocol ← rd8 skb 9;
      if negb (protocol =? IPPROTO_TCP) then Some None else
      vihl ← rd8 skb 0;
      let ip_hdr_len := Z.to_nat (Z.shiftl (Z.land vihl 15) 2) in
      match pskb_may_pull skb (ip_hdr_len + sizeof_tcphdr) with
      | None => Some None
      | Some skb =>
          tot_len ← rd16 skb 2;
          doff ← tcp_doff skb ip_hdr_len;
          ctl ← tcp_ctl skb ip_hdr_len;
          let data_len := s32 (tot_len - Z.of_nat ip_hdr_len - Z.shiftl doff 2) in
          if (data_len <=? 0) && negb ctl then Some None
          else Some (Some (RKX_NET_PROTO_IPV4, data_len))
      end
  end.

Definition rkx_parse_tcp_ipv6 skb : option (option (Z * Z)) :=
  match pskb_may_pull skb sizeof_ipv6hdr with
  | None => Some None
  | Some skb =>
      let '(proto, thoff) := ipv6_find_hdr skb in
      if negb (proto =? IPPROTO_TCP) then Some None else
      match pskb_may_pull skb (thoff + sizeof_tcphdr) with
      | None => Some None
      | Some skb =>
          payload_len ← rd16 skb 4;
          doff ← tcp_doff skb thoff;
          ctl ← tcp_ctl skb thoff;
          let data_len :=
            s32 (payload_len - (Z.of_nat thoff - Z.of_nat sizeof_ipv6hdr) - Z.shiftl doff 2) in
          if (data_len <=? 0) && negb ctl then Some None
          else Some (Some (RKX_NET_PROTO_IPV6, data_len))
      end
  end.

(** The verdict and the events sent. *)
Definition rkx_nf_local_in (ready : bool) (st : S) (skb : option sk_buff)
    (state : option nf_hook_state) : option (Z * list rkx_event) :=
  let accept := Some (NF_ACCEPT, []) in
  match skb, state with
  | Some skb, Some state =>
      if (length (skb_pkt skb) =? 0)%nat then accept else
      if negb (st_hook state =? NF_INET_LOCAL_IN) || negb (st_in state) then accept else
      match skb_sk skb with
      | None => accept
      | Some sk =>
          if negb (sk_fullsock sk) then accept else
          let uid := rkx_sock_to_uid (Some sk) in
          if uid <? RKX_MIN_APP_UID then accept else
          if negb (um_monitored uid st) then accept else
          vihl ← rd8 skb 0;
          let version := Z.shiftr vihl 4 in
          parsed ←
            (if version =? 4 then rkx_parse_tcp_ipv4 skb
             else if CONFIG_IPV6 && (version =? 6) then rkx_parse_tcp_ipv6 skb
             else Some None);
          match parsed with
          | None => accept
          | Some (proto, data_len) =>
              Some (NF_ACCEPT,
                if ready then
                  [{| ev_type := RKX_EVT_NETWORK;
                      ev_u := U_network {| ne_proto := proto; ne_target_uid := uid;
                                           ne_data_len := data_len |} |}]
                else [])
          end
      end
  | _, _ => accept
  end.

(** ** Reads stay inside what was pulled *)

Definition skb_wf skb : Prop := (skb_linear skb <= length (skb_pkt skb))%nat.

Lemma rd8_ok skb off :
  skb_wf skb -> (off < skb_linear skb)%nat ->
  exists b, skb_pkt skb !! off = Some b /\ rd8 skb off = Some (byte_Z b).
Proof.
  intros Hwf Hoff. unfold rd8. rewrite (proj2 (Nat.ltb_lt _ _) Hoff).
  destruct (lookup_lt_is_Some_2 (skb_pkt skb) off) as [b Hb]; [unfold skb_wf in Hwf; lia|].
  exists b. by rewrite Hb.
Qed.

Lemma rd8_total skb off :
  skb_wf skb -> (off < skb_linear skb)%nat -> exists z, rd8 skb off = Some z /\ 0 <= z < 256.
Proof.
  intros Hwf Hoff. destruct (rd8_ok skb off Hwf Hoff) as (b & _ & ->).
  eexists; split; [done|apply byte_Z_range].
Qed.

Lemma pull_spec skb n skb' :
  skb_wf skb -> pskb_may_pull skb n = Some skb' ->
  skb_wf skb' /\ (n <= skb_linear skb')%nat /\ skb_pkt skb' = skb_pkt skb
  /\ (skb_linear skb <= skb_linear skb')%nat.
Proof.
  unfold pskb_may_pull, skb_wf. intros Hwf. destruct (pskb_pull_ok skb n) eqn:E; [|done].
  intros [= <-]. apply pskb_pull_ok_len in E. cbn. split_and!; done || lia.
Qed.

(** What a successful parse reports: its protocol and a length that, when it is
    not positive, came with SYN, FIN or RST. *)
Definition parsed_ok (proto : Z) (r : option (option (Z * Z))) : Prop :=
  r = Some None \/ exists len, r = Some (Some (proto, len)) /\ in_s 32 len.

Lemma tcp_tail_ok proto skb off (total base : Z) :
  skb_wf skb -> (off + sizeof_tcphdr <= skb_linear skb)%nat ->
  parsed_ok proto (
    doff ← tcp_doff skb off;
    ctl ← tcp_ctl skb off;
    let data_len := s32 (total - base - Z.shiftl doff 2) in
    if (data_len <=? 0) && negb ctl then Some None else Some (Some (proto, data_len))).
Proof.
  intros Hwf Hoff. unfold tcp_doff, tcp_ctl, sizeof_tcphdr in *.
  destruct (rd8_total skb (off + 12) Hwf ltac:(lia)) as (b12 & -> & _).
  destruct (rd8_total skb (off + 13) Hwf ltac:(lia)) as (b13 & -> & _).
  cbn [mbind option_bind]. cbv zeta. split_guard; [by left|right].
  eexists; split; [done|]. apply swrap_range. lia.
Qed.

Lemma rd16_total skb off :
  skb_wf skb -> (off + 1 < skb_linear skb)%nat -> exists z, rd16 skb off = Some z.
Proof.
  intros Hwf Hoff. unfold rd16.
  destruct (rd8_total skb off Hwf ltac:(lia)) as (hi & -> & _).
  destruct (rd8_total skb (off + 1) Hwf Hoff) as (lo & -> & _). by eexists.
Qed.

Lemma parse_ipv4_ok skb :
  skb_wf skb -> parsed_ok RKX_NET_PROTO_IPV4 (rkx_parse_tcp_ipv4 skb).
Proof.
  intros Hwf. unfold rkx_parse_tcp_ipv4.
  destruct (pskb_may_pull skb sizeof_iphdr) as [skb1|] eqn:E1; [|by left].
  destruct (pull_spec _ _ _ Hwf E1) as (Hwf1 & Hl1 & _ & _). unfold sizeof_iphdr in Hl1.
  destruct (rd8_total skb1 9 Hwf1 ltac:(lia)) as (pr & -> & _). cbn [mbind option_bind].
  split_guard; [by left|].
  destruct (rd8_total skb1 0 Hwf1 ltac:(lia)) as (v & -> & _). cbn [mbind option_bind]. cbv zeta.
  destruct (pskb_may_pull skb1 _) as [skb2|] eqn:E2; [|by left].
  destruct (pull_spec _ _ _ Hwf1 E2) as (Hwf2 & Hl2 & _ & Hm).
  destruct (rd16_total skb2 2 Hwf2 ltac:(lia)) as (tl & ->). cbn [mbind option_bind].
  by apply tcp_tail_ok.
Qed.

Lemma parse_ipv6_ok skb :
  skb_wf skb -> parsed_ok RKX_NET_PROTO_IPV6 (rkx_parse_tcp_ipv6 skb).
Proof.
  intros Hwf. unfold rkx_parse_tcp_ipv6.
  destruct (pskb_may_pull skb sizeof_ipv6hdr) as [skb1|] eqn:E1; [|by left].
  destruct (pull_spec _ _ _ Hwf E1) as (Hwf1 & Hl1 & _ & _). unfold sizeof_ipv6hdr in Hl1.
  destruct (ipv6_find_hdr skb1) as [proto thoff]. split_guard; [by left|].
  destruct (pskb_may_pull skb1 _) as [skb2|] eqn:E2; [|by left].
  destruct (pull_spec _ _ _ Hwf1 E2) as (Hwf2 & Hl2 & _ & Hm).
  destruct (rd16_total skb2 4 Hwf2 ltac:(lia)) as (tl & ->). cbn [mbind option_bind].
  by apply tcp_tail_ok.
Qed.

Lemma nf_local_in_sound ready st (skb : option sk_buff) state :
  um_wf st ->
  (forall b, skb = Some b -> skb_wf b /\ (skb_pkt b = [] \/ (1 <= skb_linear b)%nat)
     /\ forall sk uid, skb_sk b = Some sk -> sk_socket_uid sk = Some uid -> in_u 32 uid) ->
  exists evs, rkx_nf_local_in ready st skb state = Some (NF_ACCEPT, evs)
    /\ (length evs <= 1)%nat
    /\ forall e, e ∈ evs -> ready = true /\ event_wf e /\
         exists b sk uid n, skb = Some b /\ skb_sk b = Some sk /\ sk_socket_uid sk = Some uid
           /\ ev_u e = U_network n /\ ne_target_uid n = uid
           /\ uid ∈ um_set st /\ RKX_MIN_APP_UID <= uid.
Proof.
  intros Hst Hskb. unfold rkx_nf_local_in.
  assert (Hacc : exists evs, Some (NF_ACCEPT, []) = Some (NF_ACCEPT, evs)
    /\ (length evs <= 1)%nat
    /\ forall e, e ∈ evs -> ready = true /\ event_wf e /\
         exists b sk uid n, skb = Some b /\ skb_sk b = Some sk /\ sk_socket_uid sk = Some uid
           /\ ev_u e = U_network n /\ ne_target_uid n = uid
           /\ uid ∈ um_set st /\ RKX_MIN_APP_UID <= uid).
  { exists []. split_and!; [done|cbn; lia|set_solver]. }
  destruct skb as [b|]; [|done]. destruct state as [state|]; [|done].
  destruct (Hskb b eq_refl) as (Hwf & Hlin & Huid).
  destruct (Nat.eqb_spec (length (skb_pkt b)) 0) as [|Hne]; [done|].
  split_guard; [done|]. destruct (skb_sk b) as [sk|] eqn:Esk; [|done].
  split_guard; [done|]. cbv zeta. split_guard; [done|].
  unfold rkx_sock_to_uid in *.
  destruct (sk_socket_uid sk) as [uid|] eqn:Eu; [|unfold RKX_MIN_APP_UID in *; lia].
  rewrite um_monitored_spec in * by done. split_guard; [done|]. bool_facts.
  destruct Hlin as [Hnil|Hlin]; [by rewrite Hnil in Hne|].
  destruct (rd8_total b 0 Hwf ltac:(lia)) as (v & -> & _). cbn [mbind option_bind]. cbv zeta.
  assert (Hp : exists proto, (proto = RKX_NET_PROTO_IPV4 \/ proto = RKX_NET_PROTO_IPV6)
    /\ parsed_ok proto (if Z.shiftr v 4 =? 4 then rkx_parse_tcp_ipv4 b
         else if CONFIG_IPV6 && (Z.shiftr v 4 =? 6) then rkx_parse_tcp_ipv6 b else Some None)).
  { repeat split_guard; [eexists; split; [by left|by apply parse_ipv4_ok]
      |eexists; split; [by right|by apply parse_ipv6_ok]|eexists; split; [by left|by left]]. }
  destruct Hp as (proto & Hproto & [->|(len & -> & Hlen)]); cbn [mbind option_bind]; [done|].
  eexists; split; [done|]. destruct ready; [|split; [cbn; lia|set_solver]].
  split; [cbn; lia|]. intros e ->%list_elem_of_singleton.
  split; [done|]. split.
  - split; [done|]. split; cbn; [|by eapply Huid|done].
    destruct Hproto as [-> | ->]; done.
  - exists b, sk, uid. eexists. split_and!; try done. lia.
Qed.

(** C24: the hook never drops, never faults and tells only what it should: for
    every packet whose first byte is readable the verdict is NF_ACCEPT, and at
    most one event is sent, well-formed, for the uid of the receiving socket,
    which is monitored and not below RKX_MIN_APP_UID. *)
Theorem nf_local_in_accepts ready st (skb : option sk_buff) state :
  um_wf st ->
  (forall b, skb = Some b -> skb_wf b /\ (skb_pkt b = [] \/ (1 <= skb_linear b)%nat)
     /\ forall sk uid, skb_sk b = Some sk -> sk_socket_uid sk = Some uid -> in_u 32 uid) ->
  exists evs, rkx_nf_local_in ready st skb state = Some (NF_ACCEPT, evs)
    /\ (length evs <= 1)%nat
    /\ forall e, e ∈ evs -> ready = true /\ event_wf e /\
         exists b sk uid n, skb = Some b /\ skb_sk b = Some sk /\ sk_socket_uid sk = Some uid
           /\ ev_u e = U_network n /\ ne_target_uid n = uid
           /\ uid ∈ um_set st /\ RKX_MIN_APP_UID <= uid.
Proof. apply nf_local_in_sound. Qed.

(** ** IPv4 TCP segments

    A segment by its parts: IP and TCP options in words, and the fields the
    parser ignores as opaque bytes. *)
Record segment := {
  seg_tos : byte;
  seg_id_ttl : list byte;   (* identification, fragment word, ttl *)
  seg_cksum_addr : list byte;
  seg_ip_opts : list byte;
  seg_ports_seq : list byte;
  seg_flags : byte;
  seg_win_urg : list byte;
  seg_tcp_opts : list byte;
  seg_payload : list byte;
  seg_ip_words : nat;
  seg_tcp_words : nat;
}.

Definition seg_total (g : segment) : Z :=
  4 * Z.of_nat (seg_ip_words g) + 4 * Z.of_nat (seg_tcp_words g)
  + Z.of_nat (length (seg_payload g)).

Record segment_wf (g : segment) : Prop := {
  sg_id_ttl : length (seg_id_ttl g) = 5%nat;
  sg_cksum : length (seg_cksum_addr g) = 10%nat;
  sg_ihl : (5 <= seg_ip_words g <= 15)%nat;
  sg_ip_opts : (20 + length (seg_ip_opts g) = 4 * seg_ip_words g)%nat;
  sg_ports : length (seg_ports_seq g) = 12%nat;
  sg_win : length (seg_win_urg g) = 6%nat;
  sg_doff : (5 <= seg_tcp_words g <= 15)%nat;
  sg_tcp_opts : (20 + length (seg_tcp_opts g) = 4 * seg_tcp_words g)%nat;
  sg_total : seg_total g < 65536;
}.

Definition ip_header (g : segment) : list byte :=
  Z_byte (64 + Z.of_nat (seg_ip_words g)) :: seg_tos g
  :: Z_byte (seg_total g / 256) :: Z_byte (seg_total g)
  :: seg_id_ttl g ++ Z_byte IPPROTO_TCP :: seg_cksum_addr g ++ seg_ip_opts g.

Definition tcp_header (g : segment) : list byte :=
  seg_ports_seq g
  ++ Z_byte (16 * Z.of_nat (seg_tcp_words g)) :: seg_flags g :: seg_win_urg g
  ++ seg_tcp_opts g.

Definition segment_bytes (g : segment) : list byte :=
  ip_header g ++ tcp_header g ++ seg_payload g.

Definition seg_ctl (g : segment) : bool :=
  Z.testbit (byte_Z (seg_flags g)) 1 || Z.testbit (byte_Z (seg_flags g)) 0
  || Z.testbit (byte_Z (seg_flags g)) 2.

Lemma length_ip_header g : segment_wf g -> length (ip_header g) = (4 * seg_ip_words g)%nat.
Proof.
  intros Hwf. destruct Hwf. unfold ip_header. cbn [length].
  rewrite length_app. cbn [length]. rewrite length_app. lia.
Qed.

Lemma length_tcp_header g : segment_wf g -> length (tcp_header g) = (4 * seg_tcp_words g)%nat.
Proof.
  intros Hwf. destruct Hwf. unfold tcp_header. rewrite length_app. cbn [length].
  rewrite length_app. lia.
Qed.

Lemma segment_lookup_ip g i b :
  segment_wf g -> ip_header g !! i = Some b -> segment_bytes g !! i = Some b.
Proof. intros _ Hi. unfold segment_bytes. by apply lookup_app_l_Some. Qed.

Lemma segment_lookup_tcp g i b :
  segment_wf g -> tcp_header g !! i = Some b ->
  segment_bytes g !! (4 * seg_ip_words g + i)%nat = Some b.
Proof.
  intros Hwf Hi. unfold segment_bytes.
  rewrite lookup_app_r by (rewrite length_ip_header by done; lia).
  rewrite length_ip_header by done.
  replace (4 * seg_ip_words g + i - 4 * seg_ip_words g)%nat with i by lia.
  by apply lookup_app_l_Some.
Qed.

Lemma rd8_pkt skb off b :
  skb_wf skb -> (off < skb_linear skb)%nat -> skb_pkt skb !! off = Some b ->
  rd8 skb off = Some (byte_Z b).
Proof.
  intros Hwf Hoff Hb. destruct (rd8_ok skb off Hwf Hoff) as (b' & Hb' & ->). congruence.
Qed.

Lemma byte_Z_small z : 0 <= z < 256 -> byte_Z (Z_byte z) = z.
Proof. intros. rewrite byte_Z_of_Z. apply uwrap_small. done. Qed.

(** The fields of a segment, as the parser's reads find them. *)

Lemma ip_header_9 g : segment_wf g -> ip_header g !! 9%nat = Some (Z_byte IPPROTO_TCP).
Proof.
  intros Hg. change (ip_header g !! 9%nat)
    with ((seg_id_ttl g ++ Z_byte IPPROTO_TCP :: seg_cksum_addr g ++ seg_ip_opts g) !! 5%nat).
  apply list_lookup_middle. by rewrite (sg_id_ttl g Hg).
Qed.

Lemma tcp_header_12 g :
  segment_wf g -> tcp_header g !! 12%nat = Some (Z_byte (16 * Z.of_nat (seg_tcp_words g))).
Proof. intros Hg. apply list_lookup_middle. by rewrite (sg_ports g Hg). Qed.

Lemma tcp_header_13 g : segment_wf g -> tcp_header g !! 13%nat = Some (seg_flags g).
Proof.
  intros Hg. unfold tcp_header. rewrite cons_middle, app_assoc. apply list_lookup_middle.
  rewrite length_app, (sg_ports g Hg). done.
Qed.

(** What an IPv4 header's first byte says about version and header length. *)
Lemma first_byte v ihl :
  v = 64 + Z.of_nat ihl -> (ihl < 16)%nat ->
  Z.shiftr v 4 = 4 /\ Z.to_nat (Z.shiftl (Z.land v 15) 2) = (4 * ihl)%nat.
Proof.
  intros -> Hi. split.
  - rewrite Z.shiftr_div_pow2 by lia. change (2 ^ 4) with 16.
    symmetry. apply (Z.div_unique _ _ _ (Z.of_nat ihl)); lia.
  - change 15 with (Z.ones 4). rewrite Z.land_ones, Z.shiftl_mul_pow2 by lia.
    change (2 ^ 4) with 16. change (2 ^ 2) with 4.
    rewrite <- (Z.mod_unique _ _ 4 (Z.of_nat ihl)) by lia. lia.
Qed.

Section SegmentReads.
Context (skb : sk_buff) (g : segment).
Context (Hwf : skb_wf skb) (Hpkt : skb_pkt skb = segment_bytes g) (Hg : segment_wf g).

Lemma read_ip i b :
  (i < skb_linear skb)%nat -> ip_header g !! i = Some b -> rd8 skb i = Some (byte_Z b).
Proof. intros Hi Hb. apply rd8_pkt; [done|done|]. rewrite Hpkt. by apply segment_lookup_ip. Qed.

Lemma read_tcp i b :
  (4 * seg_ip_words g + i < skb_linear skb)%nat -> tcp_header g !! i = Some b ->
  rd8 skb (4 * seg_ip_words g + i) = Some (byte_Z b).
Proof. intros Hi Hb. apply rd8_pkt; [done|done|]. rewrite Hpkt. by apply segment_lookup_tcp. Qed.

Lemma read_total : (4 <= skb_linear skb)%nat -> rd16 skb 2 = Some (seg_total g).
Proof.
  intros Hl. unfold rd16. pose proof (sg_total g Hg).
  assert (0 <= seg_total g) by (unfold seg_total; lia).
  rewrite (read_ip 2 (Z_byte (seg_total g / 256))), (read_ip (2 + 1) (Z_byte (seg_total g)))
    by (done || lia).
  cbn [mbind option_bind]. rewrite !byte_Z_of_Z.
  rewrite (uwrap_small 8 (seg_total g / 256))
    by (split; [apply Z.div_pos; lia|apply Z.div_lt_upper_bound; lia]).
  unfold uwrap. change (2 ^ 8) with 256.
  pose proof (Z.div_mod (seg_total g) 256). f_equal. lia.
Qed.

Lemma read_doff :
  (4 * seg_ip_words g + 20 <= skb_linear skb)%nat ->
  tcp_doff skb (4 * seg_ip_words g) = Some (Z.of_nat (seg_tcp_words g)).
Proof.
  intros Hl. unfold tcp_doff. pose proof (sg_doff g Hg).
  rewrite (read_tcp 12 _ ltac:(lia) (tcp_header_12 g Hg)). cbn [mbind option_bind].
  rewrite byte_Z_small, Z.shiftr_div_pow2 by lia. change (2 ^ 4) with 16.
  by rewrite Z.mul_comm, Z.div_mul by lia.
Qed.

Lemma read_ctl :
  (4 * seg_ip_words g + 20 <= skb_linear skb)%nat ->
  tcp_ctl skb (4 * seg_ip_words g) = Some (seg_ctl g).
Proof.
  intros Hl. unfold tcp_ctl.
  by rewrite (read_tcp 13 _ ltac:(lia) (tcp_header_13 g Hg)).
Qed.

Lemma read_ihl :
  (1 <= skb_linear skb)%nat ->
  exists v, rd8 skb 0 = Some v /\ Z.shiftr v 4 = 4 /\
    Z.to_nat (Z.shiftl (Z.land v 15) 2) = (4 * seg_ip_words g)%nat.
Proof.
  intros Hl. pose proof (sg_ihl g Hg). eexists. split; [by apply read_ip|].
  apply first_byte; [apply byte_Z_small|]; lia.
Qed.
End SegmentReads.

(** C23: on a well-formed TCP segment over IPv4, with options of either header,
    the parser reports exactly the payload length, and passes the packet
    through exactly when the payload is empty and none of SYN, FIN, RST is set. *)
Theorem parse_ipv4_payload_length skb g :
  skb_wf skb -> skb_pkt skb = segment_bytes g -> segment_wf g ->
  (forall s n, skb_pkt s = skb_pkt skb -> (n <= length (skb_pkt skb))%nat ->
     pskb_pull_ok s n = true) ->
  rkx_parse_tcp_ipv4 skb
  = Some (if (length (seg_payload g) =? 0)%nat && negb (seg_ctl g) then None
          else Some (RKX_NET_PROTO_IPV4, Z.of_nat (length (seg_payload g)))).
Proof.
  intros Hwf Hpkt Hg Hpull.
  pose proof (sg_ihl g Hg) as Hihl. pose proof (sg_doff g Hg) as Hdoff.
  assert (Hlen : length (skb_pkt skb)
    = (4 * seg_ip_words g + 4 * seg_tcp_words g + length (seg_payload g))%nat).
  { rewrite Hpkt. unfold segment_bytes. rewrite !length_app.
    rewrite length_ip_header, length_tcp_header by done. lia. }
  unfold rkx_parse_tcp_ipv4.
  destruct (pskb_may_pull skb sizeof_iphdr) as [skb1|] eqn:E1.
  2:{ unfold pskb_may_pull, sizeof_iphdr in E1. by rewrite Hpull in E1 by (done || lia). }
  destruct (pull_spec _ _ _ Hwf E1) as (Hwf1 & Hl1 & Hp1 & _). unfold sizeof_iphdr in Hl1.
  rewrite (read_ip skb1 g Hwf1 ltac:(congruence) Hg 9 _ ltac:(lia) (ip_header_9 g Hg)).
  cbn [mbind option_bind]. rewrite byte_Z_small by (unfold IPPROTO_TCP; lia).
  rewrite Z.eqb_refl; cbn [negb].
  destruct (read_ihl skb1 g Hwf1 ltac:(congruence) Hg ltac:(lia)) as (v & -> & _ & Hv).
  cbn [mbind option_bind]. cbv zeta. rewrite Hv.
  destruct (pskb_may_pull skb1 _) as [skb2|] eqn:E2.
  2:{ unfold pskb_may_pull, sizeof_tcphdr in E2. by rewrite Hpull in E2 by (done || lia). }
  destruct (pull_spec _ _ _ Hwf1 E2) as (Hwf2 & Hl2 & Hp2 & _). unfold sizeof_tcphdr in Hl2.
  rewrite (read_total skb2 g) by (congruence || lia). cbn [mbind option_bind].
  rewrite (read_doff skb2 g), (read_ctl skb2 g) by (congruence || lia). cbn [mbind option_bind].
  cbv zeta. rewrite Z.shiftl_mul_pow2 by lia. change (2 ^ 2) with 4. rewrite swrap_small.
  2:{ lia. } 2:{ pose proof (sg_total g Hg). unfold seg_total, in_s in *. lia. }
  replace (seg_total g - _ - _) with (Z.of_nat (length (seg_payload g)))
    by (unfold seg_total; lia).
  replace (Z.of_nat (length (seg_payload g)) <=? 0) with (length (seg_payload g) =? 0)%nat
    by (destruct (Nat.eqb_spec (length (seg_payload g)) 0), (Z.leb_spec (Z.of_nat (length (seg_payload g))) 0); done || lia).
  by destruct (_ && _).
Qed.

(** C31: uids below RKX_MIN_APP_UID are never reported, whatever was asked to be
    monitored: in particular monitoring uid 1000 has no effect. *)
Theorem nf_local_in_ignores_system_uids ready st skb state sk :
  skb_sk skb = Some sk -> rkx_sock_to_uid (Some sk) < RKX_MIN_APP_UID ->
  rkx_nf_local_in ready st (Some skb) state = Some (NF_ACCEPT, []).
Proof.
  intros Hsk Huid. unfold rkx_nf_local_in. rewrite Hsk.
  replace (rkx_sock_to_uid (Some sk) <? RKX_MIN_APP_UID) with true by lia.
  repeat case_match; done.
Qed.

(** ** Header lengths beyond the packet *)

(** The IPv4 packet [pkt] has [ihl] words of IP header, a TCP header with [doff]
    words behind it, [tot] as its total length, and SYN, FIN or RST set. *)
Record raw_tcp (pkt : list byte) (ihl doff : nat) (tot : Z) : Prop := {
  rt_first : exists b, pkt !! 0%nat = Some b /\ byte_Z b = 64 + Z.of_nat ihl /\ (ihl < 16)%nat;
  rt_proto : exists b, pkt !! 9%nat = Some b /\ byte_Z b = 6;
  rt_total : exists hi lo, pkt !! 2%nat = Some hi /\ pkt !! 3%nat = Some lo
    /\ tot = 256 * byte_Z hi + byte_Z lo;
  rt_doff : exists b, pkt !! (4 * ihl + 12)%nat = Some b /\ Z.of_nat doff = byte_Z b / 16;
  rt_ctl : exists b, pkt !! (4 * ihl + 13)%nat = Some b
    /\ (Z.testbit (byte_Z b) 0 = true \/ Z.testbit (byte_Z b) 1 = true
        \/ Z.testbit (byte_Z b) 2 = true);
  rt_room : (20 <= length pkt)%nat /\ (4 * ihl + 20 <= length pkt)%nat;
}.

Lemma parse_raw_tcp skb ihl doff tot :
  skb_wf skb -> raw_tcp (skb_pkt skb) ihl doff tot ->
  (forall s n, skb_pkt s = skb_pkt skb -> (n <= length (skb_pkt skb))%nat ->
     pskb_pull_ok s n = true) ->
  rkx_parse_tcp_ipv4 skb
  = Some (Some (RKX_NET_PROTO_IPV4, tot - 4 * Z.of_nat ihl - 4 * Z.of_nat doff)).
Proof.
  intros Hwf [(b0 & Hb0 & Hv & Hi) (b9 & H9 & Hp) (hi & lo & H2 & H3 & ->) (b12 & H12 & Hd)
    (b13 & H13 & Hc) [Hr1 Hr2]] Hpull.
  assert (HP : forall s n, skb_wf s -> skb_pkt s = skb_pkt skb -> (n <= length (skb_pkt skb))%nat ->
    exists s', pskb_may_pull s n = Some s').
  { intros s n _ Hs Hn. unfold pskb_may_pull. rewrite Hpull by done. by eexists. }
  unfold rkx_parse_tcp_ipv4, sizeof_iphdr.
  destruct (HP skb 20%nat) as [skb1 E1]; [done..|]. rewrite E1.
  destruct (pull_spec _ _ _ Hwf E1) as (Hwf1 & Hl1 & Hp1 & _). rewrite <- Hp1 in Hb0, H9.
  rewrite (rd8_pkt skb1 9 b9 Hwf1 ltac:(lia) H9), (rd8_pkt skb1 0 b0 Hwf1 ltac:(lia) Hb0).
  cbn [mbind option_bind]. rewrite Hp. cbn [Z.eqb IPPROTO_TCP Pos.eqb negb].
  destruct (first_byte _ _ Hv Hi) as [_ ->]. cbv zeta. unfold sizeof_tcphdr.
  destruct (HP skb1 (4 * ihl + 20)%nat) as [skb2 E2]; [done..|]. rewrite E2.
  destruct (pull_spec _ _ _ Hwf1 E2) as (Hwf2 & Hl2 & Hp2 & Hm).
  rewrite <- Hp1, <- Hp2 in H2, H3, H12, H13. unfold rd16, tcp_doff, tcp_ctl.
  rewrite (rd8_pkt skb2 2 hi Hwf2 ltac:(lia) H2), (rd8_pkt skb2 (2 + 1) lo Hwf2 ltac:(lia) H3).
  rewrite (rd8_pkt skb2 (4 * ihl + 12) b12 Hwf2 ltac:(lia) H12).
  rewrite (rd8_pkt skb2 (4 * ihl + 13) b13 Hwf2 ltac:(lia) H13).
  cbn [mbind option_bind]. replace (_ || _ || _) with true
    by (destruct Hc as [-> | [-> | ->]]; by rewrite ?orb_true_r).
  rewrite andb_false_r, Z.shiftr_div_pow2, Z.shiftl_mul_pow2 by lia.
  change (2 ^ 4) with 16. change (2 ^ 2) with 4. rewrite <- Hd.
  pose proof (byte_Z_range hi). pose proof (byte_Z_range lo). pose proof (byte_Z_range b12).
  assert (0 <= byte_Z b12 / 16 < 16) by (split; [apply Z.div_pos|apply Z.div_lt_upper_bound]; lia).
  rewrite swrap_small; [|lia|unfold in_s; lia]. do 4 f_equal; lia.
Qed.

(** C32: the reported length is not always a length: for every IPv4 packet to a
    monitored application whose TCP header has SYN, FIN or RST set and whose two
    header lengths together exceed the packet's total length, the hook reports
    the negative difference. *)
Theorem nf_local_in_negative_length st skb state sk uid ihl doff tot :
  um_wf st -> skb_wf skb -> (1 <= skb_linear skb)%nat ->
  (forall s n, skb_pkt s = skb_pkt skb -> (n <= length (skb_pkt skb))%nat ->
     pskb_pull_ok s n = true) ->
  st_hook state = NF_INET_LOCAL_IN -> st_in state = true ->
  skb_sk skb = Some sk -> sk_fullsock sk = true -> sk_socket_uid sk = Some uid ->
  uid ∈ um_set st -> RKX_MIN_APP_UID <= uid ->
  raw_tcp (skb_pkt skb) ihl doff tot -> tot < 4 * Z.of_nat ihl + 4 * Z.of_nat doff ->
  exists len, len < 0 /\ len = tot - 4 * Z.of_nat ihl - 4 * Z.of_nat doff
    /\ rkx_nf_local_in true st (Some skb) (Some state)
       = Some (NF_ACCEPT, [{| ev_type := RKX_EVT_NETWORK;
           ev_u := U_network {| ne_proto := RKX_NET_PROTO_IPV4; ne_target_uid := uid;
                                ne_data_len := len |} |}]).
Proof.
  intros Hst Hwf Hlin Hpull Hh Hin Hsk Hfull Hu Hmon Hmin Hraw Hneg.
  eexists. split; [|split; [done|]]; [lia|].
  pose proof (parse_raw_tcp skb ihl doff tot Hwf Hraw Hpull) as Hparse.
  destruct Hraw as [(b0 & Hb0 & Hv & Hi) _ _ _ _ [Hr _]].
  unfold rkx_nf_local_in. rewrite (proj2 (Nat.eqb_neq _ 0)) by lia.
  rewrite Hh, Hin, Hsk, Hfull. rewrite Z.eqb_refl. cbn [negb orb rkx_sock_to_uid]. rewrite Hu.
  rewrite (proj2 (Z.ltb_ge _ _)), um_monitored_spec, bool_decide_eq_true_2 by done. cbn [negb].
  rewrite (rd8_pkt skb 0 b0 Hwf ltac:(lia) Hb0). cbn [mbind option_bind]. cbv zeta.
  destruct (first_byte _ _ Hv Hi) as [-> _]. rewrite Z.eqb_refl, Hparse. done.
Qed.
End Netfilter.

(** ** Evaluations *)

Module DemoNet.
#[refine] Definition skb_api : SkbApi := {|
  pskb_pull_ok skb n := (n <=? length (skb_pkt skb))%nat;
  ipv6_find_hdr skb := (match skb_pkt skb !! 6%nat with Some b => byte_Z b | None => -1 end, 40%nat);
|}.
Proof. intros skb n Hn. by apply Nat.leb_le. Defined.

(** A push of three bytes, IP options and TCP options present. *)
Definition seg : segment := {|
  seg_tos := NUL; seg_id_ttl := replicate 5 NUL; seg_cksum_addr := replicate 10 NUL;
  seg_ip_opts := replicate 4 NUL; seg_ports_seq := replicate 12 NUL;
  seg_flags := Byte.x18; seg_win_urg := replicate 6 NUL; seg_tcp_opts := replicate 12 NUL;
  seg_payload := str "msg"; seg_ip_words := 6; seg_tcp_words := 8 |}.

Lemma seg_wf : segment_wf seg.
Proof. split; first [reflexivity | cbn; lia]. Qed.

Definition skb_of (pkt : list byte) (uid : Z) : sk_buff :=
  {| skb_pkt := pkt; skb_linear := length pkt;
     skb_sk := Some {| sk_fullsock := true; sk_socket_uid := Some uid |} |}.

Definition monitored : net_uid_state :=
  @rkx_add_net_uid mod64 true 10123
    (rkx_init_net_uid {| rkx_net_uid_map := []; nu_retired := [] |}).

(** A reset whose data offset points past the packet. *)
Definition short_reset : list byte :=
  [Z_byte 69; NUL; NUL; Z_byte 40] ++ replicate 5 NUL ++ [Z_byte 6] ++ replicate 10 NUL
  ++ replicate 12 NUL ++ [Z_byte 240; Z_byte 4] ++ replicate 6 NUL.
End DemoNet.

#[local] Existing Instance DemoNet.skb_api.
#[local] Existing Instance mod64.

Lemma nf_local_in_accepts_witness :
  exists evs, rkx_nf_local_in true true DemoNet.monitored
      (Some (DemoNet.skb_of (segment_bytes DemoNet.seg) 10123))
      (Some {| st_hook := 1; st_in := true |}) = Some (NF_ACCEPT, evs)
    /\ (length evs <= 1)%nat.
Proof.
  destruct (nf_local_in_accepts true true DemoNet.monitored
    (Some (DemoNet.skb_of (segment_bytes DemoNet.seg) 10123))
    (Some {| st_hook := 1; st_in := true |})) as (evs & Hr & Hl & _).
  - apply (add_spec true 10123), init_wf.
  - intros b [= <-]. split; [by unfold skb_wf|]. split; [right; vm_compute; lia|].
    intros sk uid [= <-] [= <-]. vm_compute. split; [discriminate|reflexivity].
  - exists evs. exact (conj Hr Hl).
Defined.

Lemma parse_ipv4_payload_length_witness :
  rkx_parse_tcp_ipv4 (DemoNet.skb_of (segment_bytes DemoNet.seg) 10123)
  = Some (Some (RKX_NET_PROTO_IPV4, 3)).
Proof.
  apply (parse_ipv4_payload_length (DemoNet.skb_of (segment_bytes DemoNet.seg) 10123)
    DemoNet.seg).
  - by unfold skb_wf.
  - reflexivity.
  - apply DemoNet.seg_wf.
  - intros s n Hs Hn. apply Nat.leb_le. by rewrite Hs.
Defined.

Lemma nf_local_in_ignores_system_uids_witness :
  rkx_nf_local_in true true DemoNet.monitored
    (Some (DemoNet.skb_of (segment_bytes DemoNet.seg) 1000))
    (Some {| st_hook := 1; st_in := true |}) = Some (NF_ACCEPT, []).
Proof. by eapply (nf_local_in_ignores_system_uids true true). Defined.

Lemma nf_local_in_negative_length_witness :
  exists len, len < 0 /\ rkx_nf_local_in true true DemoNet.monitored
    (Some (DemoNet.skb_of DemoNet.short_reset 10123)) (Some {| st_hook := 1; st_in := true |})
  = Some (NF_ACCEPT, [{| ev_type := RKX_EVT_NETWORK;
      ev_u := U_network {| ne_proto := RKX_NET_PROTO_IPV4; ne_target_uid := 10123;
                           ne_data_len := len |} |}]).
Proof.
  destruct (nf_local_in_negative_length true DemoNet.monitored
    (DemoNet.skb_of DemoNet.short_reset 10123) {| st_hook := 1; st_in := true |}
    {| sk_fullsock := true; sk_socket_uid := Some 10123 |} 10123 5 15 40)
    as (len & Hneg & _ & Hr); try reflexivity.
  - apply (add_spec true 10123), init_wf.
  - by unfold skb_wf.
  - apply Nat.leb_le. reflexivity.
  - intros s n Hs Hn. apply Nat.leb_le. by rewrite Hs.
  - apply (bool_decide_unpack _). vm_compute. exact I.
  - split; [exists (Z_byte 69)|exists (Z_byte 6)|exists NUL, (Z_byte 40)|exists (Z_byte 240)
      |exists (Z_byte 4)|]; (split_and!; try (vm_compute; reflexivity)).
    + apply Nat.ltb_lt. reflexivity.
    + right; right. vm_compute. reflexivity.
    + apply Nat.leb_le. reflexivity.
  - exists len. exact (conj Hneg Hr).
Defined.
