(* ===== verification/Binder.v ===== *)
(** The binder structures rkx_binder_alloc.c and rkx_binder_kp.c work on, and
    the memory they live in.

    Objects are in finite maps from addresses, so pointers can be shared and
    dangle: reading an address that holds no live object, taking a held
    spinlock or releasing a free one makes a computation [None].  Programs are
    written in the state and failure monad [M] with stdpp's notation. *)

From S2P Require Import Prelude.

Abbreviation loc := positive.

Definition BINDER_WORK_TRANSACTION : Z := 1.

(** ** Objects: the fields the module reads or writes *)

Record binder_work := { bw_type : Z; bw_owner : loc }.

Record binder_node := {
  bn_ptr : Z;
  bn_cookie : Z;
  bn_has_async_transaction : bool;
  bn_async_todo : list binder_work;
  bn_locked : bool;
}.

Record binder_buffer := {
  bb_user_data : Z;
  bb_free : bool;
  bb_allow_user_free : bool;
  bb_transaction : option loc;
  bb_target_node : option loc;
  bb_data_size : Z;
  bb_offsets_size : Z;
  bb_pid : Z;
}.

Record binder_transaction := {
  bt_flags : Z;
  bt_code : Z;
  bt_to_proc : option loc;
  bt_buffer : option loc;
}.

(** A page slot of the buffer space holds no page until binder faults one in. *)
Record binder_alloc := {
  al_buffer : Z;
  al_buffer_size : Z;
  al_buffers : list loc;
  al_pages : list (option (list byte));
}.

Record binder_proc := {
  pr_tsk : loc;
  pr_is_dead : bool;
  pr_is_frozen : bool;
  pr_threads_empty : bool;
  pr_tmp_ref : Z;
  pr_outstanding_txns : Z;
  pr_alloc : binder_alloc;
  pr_inner_locked : bool;
}.

Record free_txn_work := { fw_proc : loc; fw_buffer : loc; fw_t : loc }.

Record bstate := {
  b_txns : gmap loc binder_transaction;
  b_bufs : gmap loc binder_buffer;
  b_nodes : gmap loc binder_node;
  b_procs : gmap loc binder_proc;
  b_wq : list free_txn_work;
  b_txns_deleted : Z;
}.

(** ** The monad *)

Definition M (A : Type) : Type := bstate -> option (A * bstate).

#[export] Instance M_ret : MRet M := fun A x s => Some (x, s).
#[export] Instance M_bind : MBind M := fun A B k m s =>
  match m s with
  | Some (x, s) => k x s
  | None => None
  end.

Definition fail {A} : M A := fun _ => None.
Definition get : M bstate := fun s => Some (s, s).
Definition modify (f : bstate -> bstate) : M unit := fun s => Some (tt, f s).
Definition from_opt {A} (o : option A) : M A := fun s => (fun x => (x, s)) <$> o.

Definition set_txns f s := {| b_txns := f (b_txns s); b_bufs := b_bufs s;
  b_nodes := b_nodes s; b_procs := b_procs s; b_wq := b_wq s;
  b_txns_deleted := b_txns_deleted s |}.
Definition set_bufs f s := {| b_txns := b_txns s; b_bufs := f (b_bufs s);
  b_nodes := b_nodes s; b_procs := b_procs s; b_wq := b_wq s;
  b_txns_deleted := b_txns_deleted s |}.
Definition set_nodes f s := {| b_txns := b_txns s; b_bufs := b_bufs s;
  b_nodes := f (b_nodes s); b_procs := b_procs s; b_wq := b_wq s;
  b_txns_deleted := b_txns_deleted s |}.
Definition set_procs f s := {| b_txns := b_txns s; b_bufs := b_bufs s;
  b_nodes := b_nodes s; b_procs := f (b_procs s); b_wq := b_wq s;
  b_txns_deleted := b_txns_deleted s |}.
Definition set_wq f s := {| b_txns := b_txns s; b_bufs := b_bufs s;
  b_nodes := b_nodes s; b_procs := b_procs s; b_wq := f (b_wq s);
  b_txns_deleted := b_txns_deleted s |}.
Definition set_deleted f s := {| b_txns := b_txns s; b_bufs := b_bufs s;
  b_nodes := b_nodes s; b_procs := b_procs s; b_wq := b_wq s;
  b_txns_deleted := f (b_txns_deleted s) |}.

(** Dereferencing, and storing through, a pointer to a live object. *)
Definition load_txn (l : loc) : M binder_transaction := fun s =>
  (fun x => (x, s)) <$> b_txns s !! l.
Definition load_buf (l : loc) : M binder_buffer := fun s =>
  (fun x => (x, s)) <$> b_bufs s !! l.
Definition load_node (l : loc) : M binder_node := fun s =>
  (fun x => (x, s)) <$> b_nodes s !! l.
Definition load_proc (l : loc) : M binder_proc := fun s =>
  (fun x => (x, s)) <$> b_procs s !! l.

Definition store_txn (l : loc) (f : binder_transaction -> binder_transaction) : M unit :=
  x ← load_txn l; modify (set_txns <[l := f x]>).
Definition store_buf (l : loc) (f : binder_buffer -> binder_buffer) : M unit :=
  x ← load_buf l; modify (set_bufs <[l := f x]>).
Definition store_node (l : loc) (f : binder_node -> binder_node) : M unit :=
  x ← load_node l; modify (set_nodes <[l := f x]>).
Definition store_proc (l : loc) (f : binder_proc -> binder_proc) : M unit :=
  x ← load_proc l; modify (set_procs <[l := f x]>).

(** Field updates *)
Definition node_locked (b : bool) (n : binder_node) : binder_node :=
  {| bn_ptr := bn_ptr n; bn_cookie := bn_cookie n;
     bn_has_async_transaction := bn_has_async_transaction n;
     bn_async_todo := bn_async_todo n; bn_locked := b |}.
Definition node_todo (q : list binder_work) (n : binder_node) : binder_node :=
  {| bn_ptr := bn_ptr n; bn_cookie := bn_cookie n;
     bn_has_async_transaction := bn_has_async_transaction n;
     bn_async_todo := q; bn_locked := bn_locked n |}.
Definition proc_counts (tmp out : Z) (p : binder_proc) : binder_proc :=
  {| pr_tsk := pr_tsk p; pr_is_dead := pr_is_dead p; pr_is_frozen := pr_is_frozen p;
     pr_threads_empty := pr_threads_empty p; pr_tmp_ref := tmp;
     pr_outstanding_txns := out; pr_alloc := pr_alloc p;
     pr_inner_locked := pr_inner_locked p |}.
Definition proc_locked (b : bool) (p : binder_proc) : binder_proc :=
  {| pr_tsk := pr_tsk p; pr_is_dead := pr_is_dead p; pr_is_frozen := pr_is_frozen p;
     pr_threads_empty := pr_threads_empty p; pr_tmp_ref := pr_tmp_ref p;
     pr_outstanding_txns := pr_outstanding_txns p; pr_alloc := pr_alloc p;
     pr_inner_locked := b |}.
Definition proc_alloc (al : binder_alloc) (p : binder_proc) : binder_proc :=
  {| pr_tsk := pr_tsk p; pr_is_dead := pr_is_dead p; pr_is_frozen := pr_is_frozen p;
     pr_threads_empty := pr_threads_empty p; pr_tmp_ref := pr_tmp_ref p;
     pr_outstanding_txns := pr_outstanding_txns p; pr_alloc := al;
     pr_inner_locked := pr_inner_locked p |}.
Definition txn_buffer (b : option loc) (t : binder_transaction) : binder_transaction :=
  {| bt_flags := bt_flags t; bt_code := bt_code t; bt_to_proc := bt_to_proc t;
     bt_buffer := b |}.
Definition buf_transaction (t : option loc) (b : binder_buffer) : binder_buffer :=
  {| bb_user_data := bb_user_data b; bb_free := bb_free b;
     bb_allow_user_free := bb_allow_user_free b; bb_transaction := t;
     bb_target_node := bb_target_node b; bb_data_size := bb_data_size b;
     bb_offsets_size := bb_offsets_size b; bb_pid := bb_pid b |}.

(** ** Copying out of a buffer

    What [k_binder_alloc_copy_from_buffer] promises, whether it is the kernel's
    function (6.0 and later) or the module's own: [bc_data] is the data of a
    live buffer, and a copy inside it from a word-aligned offset succeeds and
    returns those bytes. *)
Class BinderCopy := {
  bc_copy : binder_alloc -> gmap loc binder_buffer -> loc -> Z -> Z -> option (Z * list byte);
  bc_data : binder_alloc -> gmap loc binder_buffer -> loc -> option (list byte);
  bc_data_size al bufs b d :
    bc_data al bufs b = Some d ->
    exists buffer, bufs !! b = Some buffer /\ bb_data_size buffer = Z.of_nat (length d)
      /\ Z.of_nat (length d) < 2 ^ 63;
  bc_copy_ok al bufs b d off n :
    bc_data al bufs b = Some d -> 0 <= off -> 0 <= n -> off + n <= Z.of_nat (length d) ->
    off mod 4 = 0 ->
    bc_copy al bufs b off n = Some (0, take (Z.to_nat n) (drop (Z.to_nat off) d));
}.

(** ** Running programs *)

Section Run.
Context {B : Type}.

Lemma bind_step {A} (m : M A) (k : A -> M B) s x s' :
  m s = Some (x, s') -> (m ≫= k) s = k x s'.
Proof. intros Hm. unfold mbind, M_bind. by rewrite Hm. Qed.

Lemma bind_ret {A} (x : A) (k : A -> M B) s : (mret x ≫= k) s = k x s.
Proof. done. Qed.

Lemma bind_assoc {A C} (m : M A) (k : A -> M C) (k' : C -> M B) s :
  ((m ≫= k) ≫= k') s = (m ≫= (fun x => k x ≫= k')) s.
Proof. unfold mbind, M_bind. by destruct (m s) as [[x s']|]. Qed.

Lemma bind_load_txn l (k : binder_transaction -> M B) s x :
  b_txns s !! l = Some x -> (load_txn l ≫= k) s = k x s.
Proof. intros Hl. apply bind_step. unfold load_txn. by rewrite Hl. Qed.

Lemma bind_load_buf l (k : binder_buffer -> M B) s x :
  b_bufs s !! l = Some x -> (load_buf l ≫= k) s = k x s.
Proof. intros Hl. apply bind_step. unfold load_buf. by rewrite Hl. Qed.

Lemma bind_load_node l (k : binder_node -> M B) s x :
  b_nodes s !! l = Some x -> (load_node l ≫= k) s = k x s.
Proof. intros Hl. apply bind_step. unfold load_node. by rewrite Hl. Qed.

Lemma bind_load_proc l (k : binder_proc -> M B) s x :
  b_procs s !! l = Some x -> (load_proc l ≫= k) s = k x s.
Proof. intros Hl. apply bind_step. unfold load_proc. by rewrite Hl. Qed.

Lemma bind_from_opt {A} (o : option A) (k : A -> M B) s x :
  o = Some x -> (from_opt o ≫= k) s = k x s.
Proof. by intros ->. Qed.

Lemma bind_get (k : bstate -> M B) s : (get ≫= k) s = k s s.
Proof. done. Qed.

Lemma bind_modify f (k : unit -> M B) s : (modify f ≫= k) s = k tt (f s).
Proof. done. Qed.
End Run.

Lemma run_store_txn l f s x :
  b_txns s !! l = Some x -> store_txn l f s = Some (tt, set_txns <[l := f x]> s).
Proof. intros Hl. unfold store_txn. by rewrite (bind_load_txn _ _ _ _ Hl). Qed.
Lemma run_store_buf l f s x :
  b_bufs s !! l = Some x -> store_buf l f s = Some (tt, set_bufs <[l := f x]> s).
Proof. intros Hl. unfold store_buf. by rewrite (bind_load_buf _ _ _ _ Hl). Qed.
Lemma run_store_node l f s x :
  b_nodes s !! l = Some x -> store_node l f s = Some (tt, set_nodes <[l := f x]> s).
Proof. intros Hl. unfold store_node. by rewrite (bind_load_node _ _ _ _ Hl). Qed.
Lemma run_store_proc l f s x :
  b_procs s !! l = Some x -> store_proc l f s = Some (tt, set_procs <[l := f x]> s).
Proof. intros Hl. unfold store_proc. by rewrite (bind_load_proc _ _ _ _ Hl). Qed.

(** Runs a program over facts in the context: loads of known objects, stores,
    pure steps and tests already decided. *)
Ltac mstep :=
  first
    [ erewrite bind_load_txn by eassumption
    | erewrite bind_load_buf by eassumption
    | erewrite bind_load_node by eassumption
    | erewrite bind_load_proc by eassumption
    | erewrite bind_from_opt by eassumption
    | rewrite bind_get | rewrite bind_modify | rewrite bind_ret
    | erewrite bind_step by (first
        [ eapply run_store_txn; eassumption | eapply run_store_buf; eassumption
        | eapply run_store_node; eassumption | eapply run_store_proc; eassumption ]) ];
  cbn beta iota zeta.

Ltac mrun := cbv zeta; repeat mstep.
