(* ===== verification/BinderAlloc.v ===== *)
(** rkx_binder_alloc.c: copying bytes out of a binder buffer on kernels before
    6.0, page by page.

    The page size is a parameter.  The destination is the list of bytes
    written; a page slot out of range or empty, or a copy past the end of a
    page, is [None]. *)

From S2P Require Import Prelude Uapi Binder.

(** [PAGE_SHIFT] of the architecture. *)
Class PageSize := {
  PAGE_SHIFT : Z;
  PAGE_SHIFT_pos : 2 <= PAGE_SHIFT < 32;
}.

Section BinderAlloc.
Context `{PageSize}.
Implicit Types (al : binder_alloc) (bufs : gmap loc binder_buffer) (b : loc).

Definition PAGE_SIZE : Z := 2 ^ PAGE_SHIFT.

Definition rk_memcpy_from_page (page : list byte) (offset len : Z) : option (list byte) :=
  let bytes := take (Z.to_nat len) (drop (Z.to_nat offset) page) in
  if (length bytes =? Z.to_nat len)%nat then Some bytes else None.

(** The entry after [b] in the list of buffers. *)
Fixpoint next_in (l : list loc) b : option loc :=
  match l with
  | [] => None
  | x :: l => if bool_decide (x = b) then head l else next_in l b
  end.

Definition rk_binder_buffer_next al b : option loc := next_in (al_buffers al) b.

Definition rk_binder_alloc_buffer_size al bufs b : option Z :=
  buffer ← bufs !! b;
  if bool_decide (last (al_buffers al) = Some b)
  then Some (u64 (al_buffer al + al_buffer_size al - bb_user_data buffer))
  else
    nb ← rk_binder_buffer_next al b;
    next ← bufs !! nb;
    Some (u64 (bb_user_data next - bb_user_data buffer)).

Definition rk_check_buffer al bufs b (offset bytes : Z) : option bool :=
  buffer ← bufs !! b;
  buffer_size ← rk_binder_alloc_buffer_size al bufs b;
  Some ((bytes <=? buffer_size) && (offset <=? u64 (buffer_size - bytes))
        && (Z.land offset 3 =? 0) && negb (bb_free buffer)
        && (negb (bb_allow_user_free buffer)
            || bool_decide (bb_transaction buffer = None))).

(** The page and the offset in it. *)
Definition rk_binder_alloc_get_page al bufs b (buffer_offset : Z)
    : option (list byte * Z) :=
  buffer ← bufs !! b;
  let buffer_space_offset := u64 (buffer_offset + u64 (bb_user_data buffer - al_buffer al)) in
  let pgoff := Z.land buffer_space_offset (PAGE_SIZE - 1) in
  let index := Z.shiftr buffer_space_offset PAGE_SHIFT in
  lru_page ← al_pages al !! Z.to_nat index;
  page ← lru_page;
  Some (page, pgoff).

Fixpoint copy_loop (fuel : nat) al bufs b (to_buffer : bool) (buffer_offset bytes : Z)
    (dest : list byte) : option (Z * list byte) :=
  if bytes =? 0 then Some (0, dest) else
  match fuel with
  | O => None
  | S fuel =>
      '(page, pgoff) ← rk_binder_alloc_get_page al bufs b buffer_offset;
      let size := Z.min bytes (PAGE_SIZE - pgoff) in
      if to_buffer then Some (- EINVAL, dest) else
      chunk ← rk_memcpy_from_page page pgoff size;
      copy_loop fuel al bufs b to_buffer (u64 (buffer_offset + size)) (bytes - size)
        (dest ++ chunk)
  end.

Definition rk_binder_alloc_do_buffer_copy al bufs (to_buffer : bool) b
    (buffer_offset bytes : Z) : option (Z * list byte) :=
  ok ← rk_check_buffer al bufs b buffer_offset bytes;
  if negb ok then Some (- EINVAL, [])
  else copy_loop (Z.to_nat bytes) al bufs b to_buffer buffer_offset bytes [].

Definition rk_binder_alloc_copy_from_buffer al bufs b (buffer_offset bytes : Z)
    : option (Z * list byte) :=
  rk_binder_alloc_do_buffer_copy al bufs false b buffer_offset bytes.

(** ** The buffer space as one array of bytes *)

Definition space_byte al (i : Z) : option byte :=
  lru_page ← al_pages al !! Z.to_nat (i / PAGE_SIZE);
  page ← lru_page;
  page !! Z.to_nat (i mod PAGE_SIZE).

Definition space_read al (lo n : Z) : option (list byte) := mapM (space_byte al) (seqZ lo n).

Lemma PAGE_SIZE_pos : 0 < PAGE_SIZE.
Proof. apply pow2_pos. pose proof PAGE_SHIFT_pos. lia. Qed.

Lemma space_read_app al lo n m :
  0 <= n -> 0 <= m ->
  space_read al lo (n + m)
  = l1 ← space_read al lo n; l2 ← space_read al (lo + n) m; Some (l1 ++ l2).
Proof.
  intros Hn Hm. unfold space_read. rewrite seqZ_app by done.
  generalize (seqZ lo n). intros js.
  induction js as [|i js IH]; cbn [app mapM mbind option_bind].
  - by destruct (mapM _ _).
  - destruct (space_byte al i); cbn; [|done]. rewrite IH.
    destruct (mapM (space_byte al) js); cbn; [|done].
    by destruct (mapM (space_byte al) (seqZ (lo + n) m)).
Qed.

Lemma space_read_length al lo n l :
  0 <= n -> space_read al lo n = Some l -> length l = Z.to_nat n.
Proof.
  intros Hn Hr. apply mapM_Some in Hr. apply Forall2_length in Hr.
  by rewrite length_seqZ in Hr.
Qed.

(** A run of bytes that does not cross a page boundary is a run of its page. *)
Lemma space_read_in_page al pg page off n l :
  0 <= pg -> al_pages al !! Z.to_nat pg = Some (Some page) ->
  0 <= off -> 0 <= n -> off + n <= PAGE_SIZE ->
  space_read al (pg * PAGE_SIZE + off) n = Some l ->
  l = take (Z.to_nat n) (drop (Z.to_nat off) page).
Proof.
  intros Hpg Hpage Hoff Hn Hfit Hr. pose proof PAGE_SIZE_pos.
  pose proof (space_read_length _ _ _ _ Hn Hr) as Hlen. apply mapM_Some in Hr.
  apply list_eq. intros i. destruct (decide (i < Z.to_nat n)%nat) as [Hi|Hi].
  - destruct (lookup_lt_is_Some_2 l i) as [x Hx]; [lia|].
    assert (Hs : seqZ (pg * PAGE_SIZE + off) n !! i = Some (pg * PAGE_SIZE + off + Z.of_nat i))
      by (apply lookup_seqZ; lia).
    pose proof (Forall2_lookup_lr _ _ _ _ _ _ Hr Hs Hx) as Hb.
    unfold space_byte in Hb.
    replace ((pg * PAGE_SIZE + off + Z.of_nat i) / PAGE_SIZE) with pg in Hb
      by (apply (Z.div_unique_pos _ _ _ (off + Z.of_nat i)); lia).
    replace ((pg * PAGE_SIZE + off + Z.of_nat i) mod PAGE_SIZE) with (off + Z.of_nat i) in Hb
      by (apply (Z.mod_unique_pos _ _ pg); lia).
    rewrite Hpage in Hb. cbn [mbind option_bind] in Hb.
    rewrite Hx, lookup_take, lookup_drop by done.
    rewrite decide_True by done. rewrite <- Hb. f_equal. lia.
  - rewrite (lookup_ge_None_2 l) by lia. symmetry. apply lookup_ge_None_2.
    rewrite length_take. lia.
Qed.

Lemma space_byte_page al i x :
  space_byte al i = Some x ->
  exists page, al_pages al !! Z.to_nat (i / PAGE_SIZE) = Some (Some page).
Proof.
  unfold space_byte. destruct (al_pages al !! _) as [[page|]|]; [by eexists|done..].
Qed.

Lemma get_page_spec al bufs b buffer delta o x :
  bufs !! b = Some buffer -> u64 (bb_user_data buffer - al_buffer al) = delta ->
  0 <= delta -> 0 <= o -> delta + o < 2 ^ 64 ->
  space_byte al (delta + o) = Some x ->
  exists page,
    rk_binder_alloc_get_page al bufs b o = Some (page, (delta + o) mod PAGE_SIZE)
    /\ al_pages al !! Z.to_nat ((delta + o) / PAGE_SIZE) = Some (Some page).
Proof.
  intros Hb Hd Hd0 Ho Hlt Hx. destruct (space_byte_page _ _ _ Hx) as [page Hp].
  exists page. split; [|done]. unfold rk_binder_alloc_get_page. rewrite Hb; cbn [mbind option_bind].
  rewrite Hd, (Z.add_comm o), (uwrap_small 64) by (unfold in_u; lia).
  pose proof PAGE_SHIFT_pos. rewrite Z.shiftr_div_pow2 by lia. fold PAGE_SIZE.
  cbv zeta. rewrite Hp. cbn [mbind option_bind]. do 2 f_equal.
  replace (PAGE_SIZE - 1) with (Z.ones PAGE_SHIFT) by (rewrite Z.ones_equiv; unfold PAGE_SIZE; lia).
  by rewrite Z.land_ones by lia.
Qed.

Lemma space_read_0 al lo : space_read al lo 0 = Some [].
Proof. done. Qed.

Lemma space_read_first al lo n l :
  0 < n -> space_read al lo n = Some l -> exists x, space_byte al lo = Some x.
Proof.
  intros Hn Hr. unfold space_read in Hr. rewrite seqZ_cons in Hr by done.
  cbn in Hr. destruct (space_byte al lo); [by eexists|done].
Qed.

(** Reading [n] bytes page by page gives the [n] bytes of the space. *)
Lemma copy_loop_spec fuel al bufs b buffer delta o n dest l :
  bufs !! b = Some buffer -> u64 (bb_user_data buffer - al_buffer al) = delta ->
  0 <= delta -> 0 <= o -> 0 <= n -> delta + o + n < 2 ^ 64 -> (Z.to_nat n <= fuel)%nat ->
  space_read al (delta + o) n = Some l ->
  copy_loop fuel al bufs b false o n dest = Some (0, dest ++ l).
Proof.
  intros Hb Hd Hd0. revert o n dest l. pose proof PAGE_SIZE_pos as HP.
  induction fuel as [|fuel IH]; intros o n dest l Ho Hn Hlt Hf Hr; cbn [copy_loop].
  all: destruct (Z.eqb_spec n 0) as [->|Hne];
    [rewrite space_read_0 in Hr; injection Hr as <-; by rewrite app_nil_r|].
  { lia. }
  pose proof (Z.mod_pos_bound (delta + o) PAGE_SIZE HP) as Hm.
  pose proof (Z.div_mod (delta + o) PAGE_SIZE ltac:(lia)) as Hdm.
  assert (Hdiv : 0 <= (delta + o) / PAGE_SIZE) by (apply Z.div_pos; lia).
  set (size := Z.min n (PAGE_SIZE - (delta + o) mod PAGE_SIZE)).
  assert (Hsize : 0 < size <= n /\ (delta + o) mod PAGE_SIZE + size <= PAGE_SIZE) by lia.
  destruct (space_read_first al (delta + o) n l ltac:(lia) Hr) as [x Hx].
  destruct (get_page_spec al bufs b buffer delta o x Hb Hd Hd0 Ho ltac:(lia) Hx)
    as (page & -> & Hpage). cbn [mbind option_bind]. fold size.
  replace n with (size + (n - size)) in Hr by lia.
  rewrite space_read_app in Hr by lia.
  destruct (space_read al (delta + o) size) as [l1|] eqn:E1; [|done].
  destruct (space_read al (delta + o + size) (n - size)) as [l2|] eqn:E2; [|done].
  cbn in Hr. injection Hr as <-. pose proof (space_read_length al _ size l1 ltac:(lia) E1) as Hl1.
  rewrite Hdm, Z.mul_comm in E1.
  apply (space_read_in_page al _ page) in E1; [|done|done|lia..].
  unfold rk_memcpy_from_page. rewrite <- E1, Hl1, Nat.eqb_refl. cbn [mbind option_bind].
  rewrite (uwrap_small 64) by (unfold in_u; lia).
  rewrite (IH (o + size) (n - size) (dest ++ l1) l2); [by rewrite app_assoc|lia..|].
  by rewrite Z.add_assoc.
Qed.

Lemma space_read_slice al lo m l off n :
  space_read al lo m = Some l -> 0 <= off -> 0 <= n -> off + n <= m ->
  space_read al (lo + off) n = Some (take (Z.to_nat n) (drop (Z.to_nat off) l)).
Proof.
  intros Hr Ho Hn Hm. replace m with (off + (n + (m - off - n))) in Hr by lia.
  rewrite !space_read_app in Hr by lia.
  destruct (space_read al lo off) as [l1|] eqn:E1; [|done].
  destruct (space_read al (lo + off) n) as [l2|] eqn:E2; [|done].
  destruct (space_read al (lo + off + n) _) as [l3|] eqn:E3; [|done].
  cbn in Hr. injection Hr as <-.
  pose proof (space_read_length al _ off l1 ltac:(lia) E1) as H1.
  pose proof (space_read_length al _ n l2 ltac:(lia) E2) as H2.
  by rewrite <- H1, drop_app_length, <- H2, take_app_length.
Qed.

Lemma buffer_size_range al bufs b size :
  rk_binder_alloc_buffer_size al bufs b = Some size -> in_u 64 size.
Proof.
  unfold rk_binder_alloc_buffer_size. destruct (bufs !! b); [|done]. cbn [mbind option_bind].
  case_bool_decide; [intros [= <-]; apply uwrap_range; lia|].
  destruct (rk_binder_buffer_next al b); [|done]. cbn [mbind option_bind].
  destruct (bufs !! _); [|done]. intros [= <-]. apply uwrap_range. lia.
Qed.

(** What the check of a copy means, overflow included. *)
Lemma check_buffer_spec al bufs b off n :
  0 <= off -> 0 <= n ->
  rk_check_buffer al bufs b off n = Some true ->
  exists buffer size, bufs !! b = Some buffer
    /\ rk_binder_alloc_buffer_size al bufs b = Some size
    /\ off + n <= size /\ off mod 4 = 0 /\ bb_free buffer = false.
Proof.
  intros Ho Hn. unfold rk_check_buffer. destruct (bufs !! b) as [buffer|] eqn:Eb; [|done].
  cbn [mbind option_bind]. destruct (rk_binder_alloc_buffer_size al bufs b) as [size|] eqn:Es; [|done].
  cbn [mbind option_bind]. intros [= E]. bool_facts. exists buffer, size.
  pose proof (buffer_size_range _ _ _ _ Es) as Hsz.
  unfold in_u in Hsz. rewrite (uwrap_small 64) in * by (unfold in_u; lia).
  split_and!; try done; [lia|]. change 3 with (Z.ones 2) in *.
  rewrite Z.land_ones in * by lia. change (2 ^ 2) with 4 in *. lia.
Qed.

(** C14: on kernels before 6.0 a copy out of a buffer that passes the check
    stays inside the buffer, whatever offset and length are asked for, ends
    after finitely many page steps, and returns exactly the bytes of the buffer
    space it names; one that fails the check returns -EINVAL and copies
    nothing. *)
Theorem copy_from_buffer_exact al bufs b buffer off n :
  bufs !! b = Some buffer -> 0 <= off -> 0 <= n ->
  0 <= bb_user_data buffer - al_buffer al -> bb_user_data buffer - al_buffer al + off + n < 2 ^ 64 ->
  (rk_check_buffer al bufs b off n = Some false ->
     rk_binder_alloc_copy_from_buffer al bufs b off n = Some (- EINVAL, []))
  /\ (rk_check_buffer al bufs b off n = Some true ->
     (exists size, rk_binder_alloc_buffer_size al bufs b = Some size /\ off + n <= size)
     /\ forall l, space_read al (bb_user_data buffer - al_buffer al + off) n = Some l ->
          rk_binder_alloc_copy_from_buffer al bufs b off n = Some (0, l)).
Proof.
  intros Hb Ho Hn Hd Hlt. unfold rk_binder_alloc_copy_from_buffer, rk_binder_alloc_do_buffer_copy.
  split; intros Hc; rewrite Hc; cbn [mbind option_bind negb]; [done|]. split.
  - destruct (check_buffer_spec _ _ _ _ _ Ho Hn Hc) as (? & size & _ & Hs & Hle & _). eauto.
  - intros l Hl. change l with ([] ++ l).
    apply (copy_loop_spec _ _ _ _ buffer (bb_user_data buffer - al_buffer al)); try done.
    apply uwrap_small. unfold in_u. lia.
Qed.

(** ** The module's own copy keeps the promise of [BinderCopy] *)

Definition usable_buffer al (size : Z) (buffer : binder_buffer) : bool :=
  (al_buffer al <=? bb_user_data buffer) && (0 <=? bb_data_size buffer)
  && (bb_user_data buffer - al_buffer al + bb_data_size buffer <? 2 ^ 63)
  && (bb_data_size buffer <=? size) && negb (bb_free buffer)
  && (negb (bb_allow_user_free buffer) || bool_decide (bb_transaction buffer = None)).

(** The data of a buffer that lies in the space and is not owned by user space. *)
Definition buffer_data al bufs b : option (list byte) :=
  buffer ← bufs !! b;
  size ← rk_binder_alloc_buffer_size al bufs b;
  if usable_buffer al size buffer
  then space_read al (bb_user_data buffer - al_buffer al) (bb_data_size buffer)
  else None.

Lemma buffer_data_inv al bufs b d :
  buffer_data al bufs b = Some d ->
  exists buffer size, bufs !! b = Some buffer
    /\ rk_binder_alloc_buffer_size al bufs b = Some size
    /\ usable_buffer al size buffer = true
    /\ space_read al (bb_user_data buffer - al_buffer al) (bb_data_size buffer) = Some d
    /\ Z.of_nat (length d) = bb_data_size buffer.
Proof.
  unfold buffer_data. destruct (bufs !! b) as [buffer|]; [|done]. cbn [mbind option_bind].
  destruct (rk_binder_alloc_buffer_size al bufs b) as [size|]; [|done]. cbn [mbind option_bind].
  split_guard; [|done]. intros Hd. exists buffer, size. split_and!; try done.
  apply space_read_length in Hd; unfold usable_buffer in E; bool_facts; lia.
Qed.

Lemma buffer_copy_ok al bufs b d off n :
  buffer_data al bufs b = Some d -> 0 <= off -> 0 <= n -> off + n <= Z.of_nat (length d) ->
  off mod 4 = 0 ->
  rk_binder_alloc_copy_from_buffer al bufs b off n
  = Some (0, take (Z.to_nat n) (drop (Z.to_nat off) d)).
Proof.
  intros Hd Ho Hn Hle Hal.
  destruct (buffer_data_inv _ _ _ _ Hd) as (buffer & size & Hb & Hs & Hu & Hr & Hlen).
  pose proof (buffer_size_range _ _ _ _ Hs) as Hsz. unfold in_u in Hsz.
  unfold usable_buffer in Hu. bool_facts.
  assert (Hc : rk_check_buffer al bufs b off n = Some true).
  { unfold rk_check_buffer. rewrite Hb, Hs. cbn [mbind option_bind]. f_equal.
    rewrite (uwrap_small 64) by (unfold in_u; lia).
    change 3 with (Z.ones 2). rewrite Z.land_ones by lia. change (2 ^ 2) with 4.
    rewrite Hal. repeat (apply andb_true_intro; split); try done; try lia.
    by apply negb_true_iff. }
  unfold rk_binder_alloc_copy_from_buffer, rk_binder_alloc_do_buffer_copy.
  rewrite Hc. cbn [mbind option_bind negb].
  rewrite (copy_loop_spec _ _ _ _ buffer (bb_user_data buffer - al_buffer al) off n []
    (take (Z.to_nat n) (drop (Z.to_nat off) d))); try done; try lia.
  - apply uwrap_small. unfold in_u. lia.
  - eapply space_read_slice; [done|lia..].
Qed.

#[refine, global] Instance legacy_copy : BinderCopy := {
  bc_copy := rk_binder_alloc_copy_from_buffer;
  bc_data := buffer_data;
}.
Proof.
  - intros al bufs b d Hd.
    destruct (buffer_data_inv _ _ _ _ Hd) as (buffer & size & Hb & _ & Hu & _ & Hlen).
    exists buffer. unfold usable_buffer in Hu. bool_facts. split_and!; try done; lia.
  - apply buffer_copy_ok.
Defined.
End BinderAlloc.

(** ** Evaluations: a copy over a page boundary, with 16 byte pages *)

Module AllocDemo.
#[export] Instance pages : PageSize := {| PAGE_SHIFT := 4; PAGE_SHIFT_pos := ltac:(lia) |}.

Definition alloc : binder_alloc :=
  {| al_buffer := 4096; al_buffer_size := 32; al_buffers := [1; 2]%positive;
     al_pages := [Some (str "0123456789abcdef"); Some (str "ghijklmnopqrstuv")] |}.

Definition buffer (user_data size : Z) : binder_buffer :=
  {| bb_user_data := user_data; bb_free := false; bb_allow_user_free := false;
     bb_transaction := None; bb_target_node := None; bb_data_size := size;
     bb_offsets_size := 0; bb_pid := 1 |}.

Definition bufs : gmap loc binder_buffer :=
  {[ 1%positive := buffer 4104 16; 2%positive := buffer 4120 8 ]}.
End AllocDemo.
Import AllocDemo.

Lemma copy_from_buffer_exact_witness :
  rk_binder_alloc_copy_from_buffer AllocDemo.alloc AllocDemo.bufs 1 4 10
  = Some (0, str "cdefghijkl")
  /\ rk_binder_alloc_copy_from_buffer AllocDemo.alloc AllocDemo.bufs 1 12 8 = Some (- EINVAL, []).
Proof.
  split.
  - apply (copy_from_buffer_exact AllocDemo.alloc AllocDemo.bufs 1 (AllocDemo.buffer 4104 16) 4 10);
      vm_compute; (reflexivity || discriminate).
  - apply (copy_from_buffer_exact AllocDemo.alloc AllocDemo.bufs 1 (AllocDemo.buffer 4104 16) 12 8);
      vm_compute; (reflexivity || discriminate).
Defined.
