(* ===== verification/BinderKp.v ===== *)
(** rkx_binder_kp.c: the kprobe on [binder_proc_transaction] that drops an
    outdated one-way transaction of a frozen process when a newer equivalent one
    arrives, and the work item that releases it.

    The copy out of buffers is used through [BinderCopy]; the rule table through
    FreeAsync.v; binder's own release functions are parameters.  [kzalloc] may
    fail: its outcome is an argument. *)

From S2P Require Import Prelude HashTable Uapi Kernel Frozen FreeAsync Token Binder.

Definition BINDER_STAT_TRANSACTION : Z := 5.

(** Binder functions found through kallsyms; [k_binder_proc_dec_tmpref] is
    [None] where the kernel does not export it. *)
Class BinderKernel := {
  k_binder_transaction_buffer_release : loc -> loc -> Z -> bool -> M unit;
  k_binder_alloc_free_buf : loc -> loc -> M unit;
  k_binder_proc_dec_tmpref : option (loc -> M unit);
  k_binder_free_proc : loc -> M unit;
}.

Section BinderKp.
Context `{Version} {task : Type} `{TaskApi task} (task_at : loc -> task).
Context `{HashFn} `{Jhash} `{BinderCopy} `{BinderKernel}.
(** Whether [k_binder_alloc_copy_from_buffer] was resolved. *)
Context (copy_resolved : bool).
Implicit Types (t proc node : loc) (s : bstate).

(** ** Locks *)

Definition rk_binder_inner_proc_lock proc : M unit :=
  p ← load_proc proc;
  if pr_inner_locked p then fail else store_proc proc (proc_locked true).

Definition rk_binder_inner_proc_unlock proc : M unit :=
  p ← load_proc proc;
  if pr_inner_locked p then store_proc proc (proc_locked false) else fail.

Definition rk_binder_node_lock node : M unit :=
  n ← load_node node;
  if bn_locked n then fail else store_node node (node_locked true).

Definition rk_binder_node_unlock node : M unit :=
  n ← load_node node;
  if bn_locked n then store_node node (node_locked false) else fail.

(** ** Comparing the data of two buffers *)

Fixpoint data_equal_loop (fuel : nat) (al : binder_alloc) (bufs : gmap loc binder_buffer)
    (b1 b2 : loc) (total pos : Z) : option bool :=
  if pos <? total then
    match fuel with
    | O => None
    | S fuel =>
        let chunk := if total - pos >? 64 then 64 else total - pos in
        '(rc1, c1) ← into_array 64 chunk (bc_copy al bufs b1 pos chunk);
        if negb (rc1 =? 0) then Some false else
        '(rc2, c2) ← into_array 64 chunk (bc_copy al bufs b2 pos chunk);
        if negb (rc2 =? 0) then Some false else
        if negb (bool_decide (take (Z.to_nat chunk) c1 = take (Z.to_nat chunk) c2))
        then Some false
        else data_equal_loop fuel al bufs b1 b2 total (pos + chunk)
    end
  else Some true.

Definition rkx_binder_buffer_data_equal (proc b1 b2 : option loc) : M bool :=
  match proc, b1, b2 with
  | Some proc, Some b1, Some b2 =>
      if negb copy_resolved then mret false else
      buf1 ← load_buf b1;
      buf2 ← load_buf b2;
      if negb (bb_data_size buf1 =? bb_data_size buf2) then mret false else
      p ← load_proc proc;
      s ← get;
      from_opt (data_equal_loop (Z.to_nat (bb_data_size buf1)) (pr_alloc p) (b_bufs s)
                  b1 b2 (bb_data_size buf1) 0)
  | _, _, _ => mret false
  end.

(** ** The interface name of a queued transaction *)

Fixpoint kp_token_loop (fuel : nat) (hdr : list byte) (copy_size : Z) (rpc_name_size i : nat)
    (j p : nat) (rpc_name : list byte) : option (nat * list byte) :=
  match fuel with
  | O => None
  | S fuel =>
      if (i + 1 <? rpc_name_size)%nat && (Z.of_nat j <? copy_size) then
        match hdr !! p with
        | None => None
        | Some c =>
            if bool_decide (c = NUL) then Some (i, rpc_name)
            else
              rpc_name ← arr_set i c rpc_name;
              kp_token_loop fuel hdr copy_size rpc_name_size (i + 1) (j + 2) (p + 2) rpc_name
        end
      else Some (i, rpc_name)
  end.

(** The answer and the caller's [rpc_name] array. *)
Definition rkx_parse_interface_token (proc buffer : option loc) (rpc_name : list byte)
    (rpc_name_size : nat) : M (bool * list byte) :=
  match proc, buffer with
  | Some proc, Some buffer =>
      if (rpc_name_size =? 0)%nat || negb copy_resolved then mret (false, rpc_name) else
      rpc_name ← from_opt (arr_set 0 NUL rpc_name);
      buf ← load_buf buffer;
      if bb_data_size buf <=? Z.of_nat RKX_PARCEL_OFFSET then mret (false, rpc_name) else
      let copy_size :=
        if bb_data_size buf >? Z.of_nat RKX_INTERFACETOKEN_BUFF_SIZE
        then Z.of_nat RKX_INTERFACETOKEN_BUFF_SIZE else bb_data_size buf in
      p ← load_proc proc;
      s ← get;
      '(rc, hdr) ← from_opt (into_array (Z.of_nat RKX_INTERFACETOKEN_BUFF_SIZE) copy_size
                                (bc_copy (pr_alloc p) (b_bufs s) buffer 0 copy_size));
      if negb (rc =? 0) then mret (false, rpc_name) else
      '(i, rpc_name) ← from_opt
         (kp_token_loop (S rpc_name_size) hdr copy_size rpc_name_size 0
            (RKX_PARCEL_OFFSET + 1) RKX_PARCEL_OFFSET rpc_name);
      rpc_name ← from_opt (arr_set i NUL rpc_name);
      mret (negb (i =? 0)%nat, rpc_name)
  | _, _ => mret (false, rpc_name)
  end.

(** ** Finding an outdated transaction *)

Definition rk_binder_can_update_transaction (t1 t2 : loc) (strategy : Z) : M bool :=
  x1 ← load_txn t1;
  x2 ← load_txn t2;
  if negb (Z.land (Z.land (bt_flags x1) (bt_flags x2)) TF_ONE_WAY =? TF_ONE_WAY)
  then mret false else
  match bt_to_proc x1, bt_to_proc x2 with
  | Some p1, Some p2 =>
      proc1 ← load_proc p1;
      proc2 ← load_proc p2;
      if negb (bool_decide (pr_tsk proc1 = pr_tsk proc2) && (bt_code x1 =? bt_code x2)
               && (bt_flags x1 =? bt_flags x2))
      then mret false else
      b1 ← from_opt (bt_buffer x1);
      b2 ← from_opt (bt_buffer x2);
      buf1 ← load_buf b1;
      buf2 ← load_buf b2;
      if negb (bb_pid buf1 =? bb_pid buf2) then mret false else
      n1 ← from_opt (bb_target_node buf1);
      n2 ← from_opt (bb_target_node buf2);
      node1 ← load_node n1;
      node2 ← load_node n2;
      if negb ((bn_ptr node1 =? bn_ptr node2) && (bn_cookie node1 =? bn_cookie node2))
      then mret false else
      if negb (bb_offsets_size buf1 =? 0) || negb (bb_offsets_size buf2 =? 0)
      then mret false else
      if strategy =? RKX_FREE_ASYNC_BY_CODE then mret true else
      if strategy =? RKX_FREE_ASYNC_BY_DATA
      then rkx_binder_buffer_data_equal (Some p1) (Some b1) (Some b2)
      else mret false
  | _, _ => mret false
  end.

Fixpoint rk_binder_find_outdated_transaction_ilocked t (target_list : list binder_work)
    (strategy : Z) : M (option loc) :=
  match target_list with
  | [] => mret None
  | w :: target_list =>
      if negb (bw_type w =? BINDER_WORK_TRANSACTION)
      then rk_binder_find_outdated_transaction_ilocked t target_list strategy else
      let t_queued := bw_owner w in
      found ← rk_binder_can_update_transaction t_queued t strategy;
      if (found : bool) then mret (Some t_queued)
      else rk_binder_find_outdated_transaction_ilocked t target_list strategy
  end.

(** ** Releasing a dropped transaction *)

Definition sizeof_ptr : Z := 8.

(** [ALIGN(x, a)] for a power of two, at the width of [binder_size_t]. *)
Definition ALIGN (x a : Z) : Z := Z.land (u64 (x + (a - 1))) (Z.lnot (a - 1)).

Definition rk_binder_release_entire_buffer proc (buffer : loc) (is_failure : bool) : M unit :=
  buf ← load_buf buffer;
  let off_end_offset := u64 (ALIGN (bb_data_size buf) sizeof_ptr + bb_offsets_size buf) in
  k_binder_transaction_buffer_release proc buffer off_end_offset is_failure.

(** Only [obj_deleted[BINDER_STAT_TRANSACTION]] is ever touched. *)
Definition rk_binder_stats_deleted (type : Z) : M unit :=
  if type =? BINDER_STAT_TRANSACTION then modify (set_deleted (fun n => s32 (n + 1))) else fail.

Definition rk_binder_proc_dec_tmpref proc : M unit :=
  match k_binder_proc_dec_tmpref with
  | Some dec => dec proc
  | None =>
      rk_binder_inner_proc_lock proc;;
      store_proc proc (fun p => proc_counts (s32 (pr_tmp_ref p - 1)) (pr_outstanding_txns p) p);;
      p ← load_proc proc;
      if pr_is_dead p && pr_threads_empty p && (pr_tmp_ref p =? 0) then
        rk_binder_inner_proc_unlock proc;;
        k_binder_free_proc proc
      else rk_binder_inner_proc_unlock proc
  end.

Definition kfree_txn t : M unit := load_txn t;; modify (set_txns (delete t)).

Definition rkx_free_txn_func (w : free_txn_work) : M unit :=
  rk_binder_release_entire_buffer (fw_proc w) (fw_buffer w) false;;
  k_binder_alloc_free_buf (fw_proc w) (fw_buffer w);;
  kfree_txn (fw_t w);;
  rk_binder_stats_deleted BINDER_STAT_TRANSACTION;;
  rk_binder_proc_dec_tmpref (fw_proc w).

Definition rkx_queue_free_txn proc t (buffer : loc) : M unit :=
  modify (set_wq (fun q => q ++ [{| fw_proc := proc; fw_buffer := buffer; fw_t := t |}])).

(** [list_del_init(&t->work.entry)] on the list that holds [t]'s work. *)
Definition is_txn_work t (w : binder_work) : bool :=
  (bw_type w =? BINDER_WORK_TRANSACTION) && bool_decide (bw_owner w = t).

Definition list_del_init_work node t : M unit :=
  store_node node (fun n => node_todo (walk_del (is_txn_work t) (bn_async_todo n)) n).

(** ** The probe *)

(** The strategy for a transaction to a frozen process. *)
Definition kp_strategy (fa : free_async_state) proc (buffer : loc) (code : Z) : M Z :=
  let strategy := RKX_FREE_ASYNC_BY_CODE in
  if rkx_free_async_has_entries fa then
    '(parsed, rpc_name) ← rkx_parse_interface_token (Some proc) (Some buffer)
        (replicate RKX_INTERFACETOKEN_BUFF_SIZE NUL) RKX_INTERFACETOKEN_BUFF_SIZE;
    if (parsed : bool) then
      name ← from_opt (c_string rpc_name);
      mret (default strategy
        (rkx_free_async_lookup_rcu (Some name) (s32 code) (Some strategy) fa).2)
    else mret strategy
  else mret strategy.

(** The part under the node and process locks: the transaction taken off the
    queue, if any. *)
Definition kp_take_outdated (kzalloc_ok : bool) t proc node (strategy : Z) : M (option loc) :=
  n ← load_node node;
  t_outdated ← rk_binder_find_outdated_transaction_ilocked t (bn_async_todo n) strategy;
  match t_outdated with
  | Some t_outdated =>
      if kzalloc_ok then
        store_proc proc (fun p =>
          proc_counts (s32 (pr_tmp_ref p + 1)) (pr_outstanding_txns p) p);;
        list_del_init_work node t_outdated;;
        store_proc proc (fun p =>
          proc_counts (pr_tmp_ref p) (s32 (pr_outstanding_txns p - 1)) p);;
        mret (Some t_outdated)
      else mret None
  | None => mret None
  end.

Definition kp_detach proc (t_outdated : loc) : M unit :=
  x ← load_txn t_outdated;
  buffer ← from_opt (bt_buffer x);
  store_txn t_outdated (txn_buffer None);;
  store_buf buffer (buf_transaction None);;
  rkx_queue_free_txn proc t_outdated buffer.

(** From taking the node lock to releasing it; [None] is also what the two
    early returns leave to do after it. *)
Definition kp_locked (kzalloc_ok : bool) t proc node (strategy : Z) : M (option loc) :=
  rk_binder_node_lock node;;
  n ← load_node node;
  if negb (bn_has_async_transaction n) then rk_binder_node_unlock node;; mret None else
  rk_binder_inner_proc_lock proc;;
  p ← load_proc proc;
  if pr_is_dead p || pr_is_frozen p then
    rk_binder_inner_proc_unlock proc;; rk_binder_node_unlock node;; mret None else
  t_outdated ← kp_take_outdated kzalloc_ok t proc node strategy;
  rk_binder_inner_proc_unlock proc;;
  rk_binder_node_unlock node;;
  mret t_outdated.

Definition rkx_binder_proc_transaction_pre (kzalloc_ok : bool) (fa : free_async_state)
    t proc : M Z :=
  x ← load_txn t;
  buffer ← from_opt (bt_buffer x);
  buf ← load_buf buffer;
  if Z.land (bt_flags x) TF_ONE_WAY =? 0 then mret 0 else
  p ← load_proc proc;
  if rkx_is_frozen (task_at (pr_tsk p)) then
    strategy ← kp_strategy fa proc buffer (bt_code x);
    if strategy =? RKX_FREE_ASYNC_SKIP then mret 0 else
    node ← from_opt (bb_target_node buf);
    t_outdated ← kp_locked kzalloc_ok t proc node strategy;
    match t_outdated with
    | Some t_outdated => kp_detach proc t_outdated;; mret 0
    | None => mret 0
    end
  else mret 0.

(** ** The chunked comparison decides equality of the data *)

Lemma take_eq_drop {A} (l1 l2 : list A) n :
  length l1 = length l2 ->
  l1 = l2 <-> take n l1 = take n l2 /\ drop n l1 = drop n l2.
Proof.
  intros _. split; [by intros ->|]. intros [Ht Hd].
  by rewrite <- (take_drop n l1), <- (take_drop n l2), Ht, Hd.
Qed.

Lemma data_equal_loop_spec fuel al bufs b1 b2 d1 d2 pos :
  bc_data al bufs b1 = Some d1 -> bc_data al bufs b2 = Some d2 ->
  length d1 = length d2 -> 0 <= pos -> pos mod 4 = 0 ->
  Z.of_nat (length d1) - pos <= Z.of_nat fuel ->
  data_equal_loop fuel al bufs b1 b2 (Z.of_nat (length d1)) pos
  = Some (bool_decide (drop (Z.to_nat pos) d1 = drop (Z.to_nat pos) d2)).
Proof.
  intros Hd1 Hd2 Hlen. revert pos. induction fuel as [|fuel IH]; intros pos Hpos Hal Hf;
    cbn [data_equal_loop]; destruct (Z.ltb_spec pos (Z.of_nat (length d1))) as [Hlt|Hge].
  { lia. }
  1,3: by rewrite bool_decide_eq_true_2 by (rewrite !drop_ge by lia; done).
  set (chunk := if _ >? 64 then 64 else _).
  assert (Hc : 0 < chunk /\ pos + chunk <= Z.of_nat (length d1)
    /\ (chunk = 64 \/ pos + chunk = Z.of_nat (length d1)))
    by (subst chunk; destruct (_ >? 64) eqn:?; lia).
  assert (Hcap : chunk <= 64) by (subst chunk; destruct (_ >? 64) eqn:?; lia).
  rewrite !into_array_fits by done. rewrite (bc_copy_ok al bufs b1 d1), (bc_copy_ok al bufs b2 d2) by (done || lia).
  cbn [mbind option_bind]. rewrite !Z.eqb_refl; cbn [negb]. rewrite !take_take, !Nat.min_id.
  pose proof (take_eq_drop (drop (Z.to_nat pos) d1) (drop (Z.to_nat pos) d2) (Z.to_nat chunk)
    ltac:(rewrite !length_drop; lia)) as Hsplit. rewrite !drop_drop in Hsplit.
  replace (Z.to_nat pos + Z.to_nat chunk)%nat with (Z.to_nat (pos + chunk)) in Hsplit by lia.
  case_bool_decide as Hchunk; cbn [negb].
  2:{ rewrite bool_decide_eq_false_2; [done|]. by intros [? _]%Hsplit. }
  destruct (Hc) as (_ & _ & [H64|Hend]).
  - rewrite IH; [|lia| |lia].
    + f_equal. apply bool_decide_ext. rewrite Hsplit. naive_solver.
    + rewrite H64. rewrite <- Z.add_mod_idemp_l, Hal by lia. done.
  - assert (Hstop : forall f, data_equal_loop f al bufs b1 b2 (Z.of_nat (length d1)) (pos + chunk)
      = Some true).
    { intros [|f]; cbn [data_equal_loop]; by rewrite (proj2 (Z.ltb_ge _ _)) by lia. }
    rewrite Hstop. symmetry. f_equal. apply bool_decide_eq_true. apply Hsplit.
    split; [done|]. by rewrite !drop_ge by lia.
Qed.

Lemma data_equal_spec s proc p b1 b2 d1 d2 :
  copy_resolved = true -> b_procs s !! proc = Some p ->
  bc_data (pr_alloc p) (b_bufs s) b1 = Some d1 ->
  bc_data (pr_alloc p) (b_bufs s) b2 = Some d2 ->
  rkx_binder_buffer_data_equal (Some proc) (Some b1) (Some b2) s
  = Some (bool_decide (d1 = d2), s).
Proof.
  intros Hr Hp Hd1 Hd2. unfold rkx_binder_buffer_data_equal. rewrite Hr; cbn [negb].
  destruct (bc_data_size _ _ _ _ Hd1) as (buf1 & Hb1 & Hs1 & _).
  destruct (bc_data_size _ _ _ _ Hd2) as (buf2 & Hb2 & Hs2 & _).
  mrun. rewrite Hs1, Hs2. destruct (Z.eqb_spec (Z.of_nat (length d1)) (Z.of_nat (length d2)))
    as [Hlen|Hne]; cbn [negb].
  - mrun. unfold from_opt. rewrite (data_equal_loop_spec _ _ _ _ _ d1 d2); try done; try lia.
  - rewrite bool_decide_eq_false_2; [done|]. intros ->. lia.
Qed.

(** ** The name extraction of the probe *)

Lemma kp_token_loop_spec fuel hdr size n pre k p :
  (size <= length hdr)%nat ->
  (length (low_bytes (drop p (take size hdr))) < fuel)%nat ->
  (length (low_bytes (drop p (take size hdr))) < k)%nat ->
  (length pre + k = n)%nat ->
  kp_token_loop fuel hdr (Z.of_nat size) n (length pre) (p + 1) p (pre ++ replicate k NUL)
  = Some ((length pre + length (low_bytes (drop p (take size hdr))))%nat,
          char_array n (pre ++ low_bytes (drop p (take size hdr)))).
Proof.
  intros Hs. revert pre k p. induction fuel as [|fuel IH]; intros pre k p Hf Hk Hpre; [lia|].
  cbn [kp_token_loop].
  assert (Hstop : low_bytes (drop p (take size hdr)) = [] ->
    Some (length pre, pre ++ replicate k NUL)
    = Some ((length pre + length (low_bytes (drop p (take size hdr))))%nat,
            char_array n (pre ++ low_bytes (drop p (take size hdr))))).
  { intros ->. rewrite app_nil_r, char_array_split by lia. cbn [length].
    do 3 f_equal; [lia|]. f_equal. lia. }
  destruct (Z.ltb_spec (Z.of_nat (p + 1)) (Z.of_nat size)) as [Hj|Hj];
    [|rewrite andb_false_r; apply Hstop, window_end; lia].
  destruct (window_next hdr size p Hs ltac:(lia)) as (lo & hi & Hlo & Hw).
  rewrite Hw in *. cbn [low_bytes] in *.
  destruct (decide (lo = NUL)) as [Hnul|Hnul].
  - rewrite bool_decide_eq_true_2 in * by done. rewrite Hlo.
    destruct (_ && _); [rewrite bool_decide_eq_true_2 by done|]; by apply Hstop.
  - rewrite (bool_decide_eq_false_2 (lo = NUL)) in * by done. cbn [length] in *.
    rewrite (proj2 (Nat.ltb_lt (length pre + 1) n)), Hlo by lia. cbn [andb].
    rewrite (bool_decide_eq_false_2 (lo = NUL)) by done. rewrite arr_set_after_prefix by lia.
    cbn [mbind option_bind].
    replace (length pre + 1)%nat with (length (pre ++ [lo])) by (rewrite length_app; done).
    replace (p + 1 + 2)%nat with (p + 2 + 1)%nat by lia.
    rewrite IH by (rewrite ?length_app; cbn [length]; lia).
    rewrite <- app_assoc, length_app. cbn [app length]. do 2 f_equal. lia.
Qed.

Lemma arr_set_nul_char_array n (l : list byte) i :
  i = length l -> (i < n)%nat -> arr_set i NUL (char_array n l) = Some (char_array n l).
Proof.
  intros -> Hn. rewrite arr_set_Some by (rewrite length_char_array; lia). f_equal. apply list_insert_id. rewrite char_array_split by lia.
  rewrite lookup_app_r, Nat.sub_diag by lia. apply lookup_replicate_2. lia.
Qed.

(** On zeroed arrays of the module's size, the parser leaves the token's name
    in the array and says whether there is one. *)
Lemma parse_interface_token_spec s proc p b d :
  copy_resolved = true -> b_procs s !! proc = Some p ->
  bc_data (pr_alloc p) (b_bufs s) b = Some d ->
  rkx_parse_interface_token (Some proc) (Some b)
    (replicate RKX_INTERFACETOKEN_BUFF_SIZE NUL) RKX_INTERFACETOKEN_BUFF_SIZE s
  = Some ((negb (bool_decide (token_name d = [])),
           char_array RKX_INTERFACETOKEN_BUFF_SIZE (token_name d)), s).
Proof.
  intros Hr Hp Hd. unfold rkx_parse_interface_token. rewrite Hr. cbn [negb orb].
  change (RKX_INTERFACETOKEN_BUFF_SIZE =? 0)%nat with false. cbv iota zeta.
  change (false || false) with false. cbv iota.
  erewrite bind_from_opt by (apply (arr_set_nul_char_array RKX_INTERFACETOKEN_BUFF_SIZE []);
    unfold RKX_INTERFACETOKEN_BUFF_SIZE; cbn; lia).
  destruct (bc_data_size _ _ _ _ Hd) as (buf & Hb & Hsz & _).
  mrun. rewrite Hsz. pose proof (token_name_length d) as Hmax. unfold token_max in Hmax.
  destruct (Z.leb_spec (Z.of_nat (length d)) (Z.of_nat RKX_PARCEL_OFFSET)) as [Hle|Hgt].
  { assert (token_name d = []) as ->; [|done]. unfold token_name.
    by rewrite drop_ge by (rewrite length_take; lia). }
  set (size := (length d `min` RKX_INTERFACETOKEN_BUFF_SIZE)%nat).
  assert (Hsize : (if Z.of_nat (length d) >? Z.of_nat RKX_INTERFACETOKEN_BUFF_SIZE
      then Z.of_nat RKX_INTERFACETOKEN_BUFF_SIZE else Z.of_nat (length d)) = Z.of_nat size)
    by (destruct (_ >? _) eqn:?; lia).
  rewrite Hsize. mrun. erewrite bind_from_opt
    by (rewrite into_array_fits by lia; apply (bc_copy_ok _ _ _ d); [done|lia..|done]).
  cbn beta iota. rewrite Z.eqb_refl; cbn [negb]. rewrite Nat2Z.id, drop_0.
  assert (Hw : low_bytes (drop RKX_PARCEL_OFFSET (take size (take size d))) = token_name d).
  { unfold token_name. rewrite take_take, Nat.min_id. subst size. do 2 f_equal.
    destruct (Nat.min_spec (length d) RKX_INTERFACETOKEN_BUFF_SIZE) as [[? ->]|[? ->]]; [|done].
    by rewrite !take_ge by lia. }
  pose proof (kp_token_loop_spec (S RKX_INTERFACETOKEN_BUFF_SIZE) (take size d) size
    RKX_INTERFACETOKEN_BUFF_SIZE [] RKX_INTERFACETOKEN_BUFF_SIZE RKX_PARCEL_OFFSET) as Hloop.
  rewrite Hw in Hloop. erewrite bind_from_opt
    by (apply Hloop; [rewrite length_take; lia|unfold RKX_INTERFACETOKEN_BUFF_SIZE; lia..|done]).
  cbn [length app]. erewrite bind_from_opt
    by (apply arr_set_nul_char_array; unfold RKX_INTERFACETOKEN_BUFF_SIZE; lia).
  unfold mret, M_ret. do 3 f_equal. by destruct (token_name d).
Qed.
End BinderKp.
