(* ===== verification/BinderKpSpec.v ===== *)
(** What the probe of rkx_binder_kp.c does to binder's state.

    [txn_view] reads off what identifies a queued transaction, [supersedes]
    says when a newer transaction makes a queued one redundant, and
    [kp_pre_spec] is the probe as a function on states; the theorems show that
    the code, locks, loops and copies included, is that function. *)

From S2P Require Import Prelude HashTable Uapi Kernel Frozen FreeAsync Token Binder BinderAlloc BinderKp.

Record txn_view := {
  tv_flags : Z;
  tv_code : Z;
  tv_pid : Z;
  tv_ptr : Z;
  tv_cookie : Z;
  tv_node : loc;
  tv_offsets_size : Z;
  tv_data : list byte;
}.

Section BinderKpSpec.
Context `{Version} {task : Type} `{TaskApi task} (task_at : loc -> task).
Context `{HashFn} `{Jhash} `{BinderCopy} `{BinderKernel}.
Implicit Types (t proc node : loc) (s : bstate) (v w : txn_view).

(** The transaction at [t] when it is live, goes to [proc] and its buffer, its
    node and its data are there. *)
Definition view_of s proc t : option txn_view :=
  x ← b_txns s !! t;
  if bool_decide (bt_to_proc x = Some proc) then
    p ← b_procs s !! proc;
    b ← bt_buffer x;
    buf ← b_bufs s !! b;
    n ← bb_target_node buf;
    nd ← b_nodes s !! n;
    d ← bc_data (pr_alloc p) (b_bufs s) b;
    Some {| tv_flags := bt_flags x; tv_code := bt_code x; tv_pid := bb_pid buf;
            tv_ptr := bn_ptr nd; tv_cookie := bn_cookie nd; tv_node := n;
            tv_offsets_size := bb_offsets_size buf; tv_data := d |}
  else None.

(** The newer transaction [w] makes the queued [v] redundant. *)
Definition supersedes (strategy : Z) w v : bool :=
  negb (Z.land (tv_flags v) TF_ONE_WAY =? 0)
  && (tv_flags v =? tv_flags w) && (tv_code v =? tv_code w) && (tv_pid v =? tv_pid w)
  && (tv_ptr v =? tv_ptr w) && (tv_cookie v =? tv_cookie w)
  && (tv_offsets_size v =? 0) && (tv_offsets_size w =? 0)
  && ((strategy =? RKX_FREE_ASYNC_BY_CODE)
      || (strategy =? RKX_FREE_ASYNC_BY_DATA) && bool_decide (tv_data v = tv_data w)).

Definition outdated s proc (strategy : Z) w (bw : binder_work) : bool :=
  (bw_type bw =? BINDER_WORK_TRANSACTION)
  && match view_of s proc (bw_owner bw) with
     | Some v => supersedes strategy w v
     | None => false
     end.

Definition first_outdated s proc (strategy : Z) w (q : list binder_work) : option loc :=
  bw_owner <$> List.find (outdated s proc strategy w) q.

(** Every transaction in the queue is live and goes to [proc]. *)
Definition queue_ok s proc (q : list binder_work) : Prop :=
  Forall (fun bw => bw_type bw = BINDER_WORK_TRANSACTION ->
    exists v, view_of s proc (bw_owner bw) = Some v) q.

Lemma view_of_inv s proc t v :
  view_of s proc t = Some v ->
  exists x p b buf n nd, b_txns s !! t = Some x /\ bt_to_proc x = Some proc
    /\ b_procs s !! proc = Some p /\ bt_buffer x = Some b /\ b_bufs s !! b = Some buf
    /\ bb_target_node buf = Some n /\ b_nodes s !! n = Some nd
    /\ bc_data (pr_alloc p) (b_bufs s) b = Some (tv_data v)
    /\ tv_flags v = bt_flags x /\ tv_code v = bt_code x /\ tv_pid v = bb_pid buf
    /\ tv_ptr v = bn_ptr nd /\ tv_cookie v = bn_cookie nd
    /\ tv_offsets_size v = bb_offsets_size buf /\ tv_node v = n.
Proof.
  unfold view_of. intros Hv.
  destruct (b_txns s !! t) as [x|] eqn:Ex; [cbn [mbind option_bind] in Hv|done].
  case_bool_decide as Hp; [|done].
  destruct (b_procs s !! proc) as [p|] eqn:Ep; [cbn [mbind option_bind] in Hv|done].
  destruct (bt_buffer x) as [b|] eqn:Eb; [cbn [mbind option_bind] in Hv|done].
  destruct (b_bufs s !! b) as [buf|] eqn:Ebuf; [cbn [mbind option_bind] in Hv|done].
  destruct (bb_target_node buf) as [n|] eqn:En; [cbn [mbind option_bind] in Hv|done].
  destruct (b_nodes s !! n) as [nd|] eqn:End; [cbn [mbind option_bind] in Hv|done].
  destruct (bc_data (pr_alloc p) (b_bufs s) b) as [d|] eqn:Ed; [cbn [mbind option_bind] in Hv|done].
  injection Hv as <-. exists x, p, b, buf, n, nd. by split_and!.
Qed.

Lemma one_way_land f : (Z.land f TF_ONE_WAY =? TF_ONE_WAY) = negb (Z.land f TF_ONE_WAY =? 0).
Proof.
  unfold TF_ONE_WAY. change 1 with (Z.ones 1). rewrite Z.land_ones by lia.
  change (2 ^ 1) with 2. change (Z.ones 1) with 1.
  pose proof (Z.mod_pos_bound f 2 ltac:(lia)). destruct (Z.eqb_spec (f mod 2) 1), (Z.eqb_spec (f mod 2) 0); cbn; lia.
Qed.

Lemma can_update_spec s proc t1 t2 v w strategy :
  view_of s proc t1 = Some v -> view_of s proc t2 = Some w ->
  rk_binder_can_update_transaction true t1 t2 strategy s
  = Some (supersedes strategy w v, s).
Proof.
  intros (x1 & p & b1 & buf1 & n1 & nd1 & Hx1 & Hto1 & Hp & Hb1 & Hbuf1 & Hn1 & Hnd1 & Hd1
    & Hf1 & Hc1 & Hpid1 & Hptr1 & Hck1 & Ho1 & _)%view_of_inv
    (x2 & p2 & b2 & buf2 & n2 & nd2 & Hx2 & Hto2 & Hp2 & Hb2 & Hbuf2 & Hn2 & Hnd2 & Hd2
    & Hf2 & Hc2 & Hpid2 & Hptr2 & Hck2 & Ho2 & _)%view_of_inv.
  rewrite Hp in Hp2. injection Hp2 as <-.
  unfold rk_binder_can_update_transaction, supersedes. mrun. rewrite Hto1, Hto2.
  rewrite Hf1, Hf2, Hc1, Hc2, Hpid1, Hpid2, Hptr1, Hptr2, Hck1, Hck2, Ho1, Ho2.
  destruct (Z.eqb_spec (bt_flags x1) (bt_flags x2)) as [Hfl|Hfl].
  2:{ rewrite !andb_false_r. destruct (negb _); [done|]. mrun. by rewrite andb_false_r. }
  rewrite <- Hfl, Z.land_diag, one_way_land, negb_involutive, andb_true_r.
  destruct (Z.land (bt_flags x1) TF_ONE_WAY =? 0); [done|]. mrun.
  rewrite (bool_decide_eq_true_2 (pr_tsk p = pr_tsk p)) by done. cbn [andb negb].
  destruct (bt_code x1 =? bt_code x2); [|done]. cbn [andb negb]. mrun.
  destruct (bb_pid buf1 =? bb_pid buf2); [|done]. cbn [andb negb]. mrun.
  destruct (bn_ptr nd1 =? bn_ptr nd2); [|done]. cbn [andb negb].
  destruct (bn_cookie nd1 =? bn_cookie nd2); [|done]. cbn [andb negb].
  destruct (bb_offsets_size buf1 =? 0); [|done]. cbn [andb negb orb].
  destruct (bb_offsets_size buf2 =? 0); [|done]. cbn [andb negb orb].
  destruct (strategy =? RKX_FREE_ASYNC_BY_CODE); [done|].
  destruct (strategy =? RKX_FREE_ASYNC_BY_DATA); [|done]. cbn [andb orb].
  by eapply data_equal_spec.
Qed.

Lemma find_outdated_spec s proc t w strategy q :
  view_of s proc t = Some w -> queue_ok s proc q ->
  rk_binder_find_outdated_transaction_ilocked true t q strategy s
  = Some (first_outdated s proc strategy w q, s).
Proof.
  intros Hw. unfold first_outdated.
  induction 1 as [|bw q Hbw Hq IH]; [done|].
  cbn [rk_binder_find_outdated_transaction_ilocked List.find]. unfold outdated at 1.
  destruct (Z.eqb_spec (bw_type bw) BINDER_WORK_TRANSACTION) as [Ht|]; [cbn [negb andb]|done].
  destruct (Hbw Ht) as [v Hv]. rewrite Hv.
  erewrite bind_step by (by eapply can_update_spec).
  by destruct (supersedes strategy w v).
Qed.

(** ** The strategy *)

(** The rule for the transaction's interface and code, or the default. *)
Definition strategy_for (m : gmap (list byte * Z) Z) (data : list byte) (code : Z) : Z :=
  if bool_decide (token_name data = []) then RKX_FREE_ASYNC_BY_CODE
  else default RKX_FREE_ASYNC_BY_CODE (rule_lookup m (token_name data) (s32 code)).

Lemma kp_strategy_spec s fa proc p b d code :
  free_async_wf fa -> Z.of_nat (size (rules fa)) < 2 ^ 31 ->
  b_procs s !! proc = Some p -> bc_data (pr_alloc p) (b_bufs s) b = Some d ->
  kp_strategy true fa proc b code s = Some (strategy_for (rules fa) d code, s).
Proof.
  intros Hwf Hsz Hp Hd. unfold kp_strategy, strategy_for. rewrite has_entries_spec by done.
  case_bool_decide as Hempty; cbn [negb].
  { rewrite Hempty. unfold rule_lookup. rewrite !lookup_empty. by case_bool_decide. }
  erewrite bind_step by (by eapply parse_interface_token_spec). cbn beta iota zeta.
  case_bool_decide as Hname; cbn [negb]; [done|].
  rewrite c_string_char_array by (apply token_name_no_nul || (pose proof (token_name_length d);
    unfold token_max, RKX_INTERFACETOKEN_BUFF_SIZE in *; lia)).
  cbn beta. rewrite (bind_from_opt _ _ _ _ eq_refl), lookup_spec by done.
  by destruct (rule_lookup _ _ _).
Qed.

(** ** The locks do not change what is compared *)

Lemma view_of_frame s s' proc t :
  b_txns s' = b_txns s -> b_bufs s' = b_bufs s ->
  (forall n, (fun nd => (bn_ptr nd, bn_cookie nd)) <$> b_nodes s' !! n
             = (fun nd => (bn_ptr nd, bn_cookie nd)) <$> b_nodes s !! n) ->
  pr_alloc <$> b_procs s' !! proc = pr_alloc <$> b_procs s !! proc ->
  view_of s' proc t = view_of s proc t.
Proof.
  intros Ht Hb Hn Hp. unfold view_of. rewrite Ht, Hb.
  destruct (b_txns s !! t) as [x|]; [cbn [mbind option_bind]|done]. case_bool_decide; [|done].
  destruct (b_procs s' !! proc) as [p'|], (b_procs s !! proc) as [p|]; try discriminate; [|done].
  injection Hp as Hal. cbn [mbind option_bind]. rewrite Hal.
  destruct (bt_buffer x) as [b|]; [cbn [mbind option_bind]|done].
  destruct (b_bufs s !! b) as [buf|]; [cbn [mbind option_bind]|done].
  destruct (bb_target_node buf) as [n|]; [cbn [mbind option_bind]|done].
  specialize (Hn n). destruct (b_nodes s' !! n), (b_nodes s !! n); try discriminate; [|done].
  injection Hn as Hptr Hck. cbn [mbind option_bind]. by rewrite Hptr, Hck.
Qed.

(** The state in which the probe holds the locks of [node] and [proc]. *)
Definition locked_state s node nd proc p : bstate :=
  set_procs <[proc := proc_locked true p]> (set_nodes <[node := node_locked true nd]> s).

Lemma view_of_locked s node nd proc p t :
  b_nodes s !! node = Some nd -> b_procs s !! proc = Some p ->
  view_of (locked_state s node nd proc p) proc t = view_of s proc t.
Proof.
  intros Hnd Hp. apply view_of_frame; try done.
  - intros n. cbn. destruct (decide (n = node)) as [->|Hne].
    + by rewrite lookup_insert_eq, Hnd.
    + by rewrite lookup_insert_ne.
  - cbn. by rewrite lookup_insert_eq, Hp.
Qed.

Lemma queue_ok_views s s' proc q :
  (forall t, view_of s' proc t = view_of s proc t) -> queue_ok s proc q -> queue_ok s' proc q.
Proof. intros Hv Hq. eapply Forall_impl; [exact Hq|]. intros bw Hbw. by rewrite Hv. Qed.

Lemma first_outdated_views s s' proc strategy w q :
  (forall t, view_of s' proc t = view_of s proc t) ->
  first_outdated s' proc strategy w q = first_outdated s proc strategy w q.
Proof.
  intros Hv. unfold first_outdated. f_equal. induction q as [|bw q IH]; cbn [List.find]; [done|].
  unfold outdated at 1 3. by rewrite Hv, IH.
Qed.

(** ** The probe as a function on states *)

(** The transaction to drop when [t] arrives for [proc]. *)
Definition kp_victim (fa : free_async_state) s t proc : option loc :=
  w ← view_of s proc t;
  p ← b_procs s !! proc;
  nd ← b_nodes s !! tv_node w;
  let strategy := strategy_for (rules fa) (tv_data w) (tv_code w) in
  if negb (Z.land (tv_flags w) TF_ONE_WAY =? 0) && rkx_is_frozen (task_at (pr_tsk p))
     && negb (strategy =? RKX_FREE_ASYNC_SKIP) && bn_has_async_transaction nd
     && negb (pr_is_dead p) && negb (pr_is_frozen p)
  then first_outdated s proc strategy w (bn_async_todo nd)
  else None.

(** [t'] taken off the queue of [node] and handed to the worker. *)
Definition drop_txn s proc node t' (b : loc) : bstate :=
  {| b_txns := alter (txn_buffer None) t' (b_txns s);
     b_bufs := alter (buf_transaction None) b (b_bufs s);
     b_nodes := alter (fun n => node_todo (walk_del (is_txn_work t') (bn_async_todo n)) n)
                  node (b_nodes s);
     b_procs := alter (fun p => proc_counts (s32 (pr_tmp_ref p + 1))
                                  (s32 (pr_outstanding_txns p - 1)) p) proc (b_procs s);
     b_wq := b_wq s ++ [{| fw_proc := proc; fw_buffer := b; fw_t := t' |}];
     b_txns_deleted := b_txns_deleted s |}.

Definition kp_pre_spec (kzalloc_ok : bool) (fa : free_async_state) s t proc : bstate :=
  default s (
    if kzalloc_ok then
      t' ← kp_victim fa s t proc;
      w ← view_of s proc t;
      x' ← b_txns s !! t';
      drop_txn s proc (tv_node w) t' <$> bt_buffer x'
    else None).

(** What binder guarantees at the probe point: the transaction and everything
    queued on its node is live, and neither lock is held by this thread. *)
Record kp_ready s t proc : Prop := {
  kr_view : exists w, view_of s proc t = Some w;
  kr_node w nd : view_of s proc t = Some w -> b_nodes s !! tv_node w = Some nd ->
    bn_locked nd = false /\ queue_ok s proc (bn_async_todo nd);
  kr_proc p : b_procs s !! proc = Some p -> pr_inner_locked p = false;
}.

(** ** The part under the locks *)

Lemma first_outdated_view s proc strategy w q t' :
  first_outdated s proc strategy w q = Some t' ->
  exists v, view_of s proc t' = Some v /\ supersedes strategy w v = true.
Proof.
  unfold first_outdated. destruct (List.find _ _) as [bw|] eqn:E; [|done].
  intros [= <-]. apply find_some in E as [_ E]. unfold outdated in E. bool_facts.
  destruct (view_of s proc (bw_owner bw)) as [v|]; [|done]. by exists v.
Qed.

Lemma alter_as_insert {A} (f : A -> A) (m : gmap loc A) l x :
  m !! l = Some x -> alter f l m = <[l := f x]> m.
Proof.
  intros Hl. apply map_eq. intros i. destruct (decide (i = l)) as [->|Hne].
  - by rewrite lookup_alter_eq, Hl, lookup_insert_eq.
  - by rewrite lookup_alter_ne, lookup_insert_ne.
Qed.

Definition taken (t' : loc) node nd proc p s : bstate :=
  set_procs <[proc := proc_counts (s32 (pr_tmp_ref p + 1)) (s32 (pr_outstanding_txns p - 1)) p]>
    (set_nodes <[node := node_todo (walk_del (is_txn_work t') (bn_async_todo nd)) nd]> s).

Lemma take_outdated_spec kz s t proc node nd p w strategy :
  view_of s proc t = Some w -> b_nodes s !! node = Some nd -> b_procs s !! proc = Some p ->
  queue_ok s proc (bn_async_todo nd) ->
  kp_take_outdated true kz t proc node strategy s
  = Some (match first_outdated s proc strategy w (bn_async_todo nd) with
          | Some t' => if kz then (Some t', taken t' node nd proc p s) else (None, s)
          | None => (None, s)
          end).
Proof.
  intros Hw Hnd Hp Hq. unfold kp_take_outdated. mrun.
  erewrite bind_step by (by apply find_outdated_spec).
  destruct (first_outdated _ _ _ _ _) as [t'|]; [|done]. destruct kz; [|done].
  unfold list_del_init_work. mrun.
  erewrite bind_step by (eapply run_store_proc, lookup_insert_eq). unfold taken, mret, M_ret.
  do 2 f_equal. destruct s. unfold set_procs, set_nodes. cbn. f_equal.
  by rewrite insert_insert_eq.
Qed.

(** ** The whole probe *)

Lemma proc_lock_spec s proc p :
  b_procs s !! proc = Some p -> pr_inner_locked p = false ->
  rk_binder_inner_proc_lock proc s = Some (tt, set_procs <[proc := proc_locked true p]> s).
Proof. intros Hp Hl. unfold rk_binder_inner_proc_lock. mrun. rewrite Hl. by apply run_store_proc. Qed.

Lemma proc_unlock_spec s proc p :
  b_procs s !! proc = Some p -> pr_inner_locked p = true ->
  rk_binder_inner_proc_unlock proc s = Some (tt, set_procs <[proc := proc_locked false p]> s).
Proof. intros Hp Hl. unfold rk_binder_inner_proc_unlock. mrun. rewrite Hl. by apply run_store_proc. Qed.

Lemma node_lock_spec s node n :
  b_nodes s !! node = Some n -> bn_locked n = false ->
  rk_binder_node_lock node s = Some (tt, set_nodes <[node := node_locked true n]> s).
Proof. intros Hp Hl. unfold rk_binder_node_lock. mrun. rewrite Hl. by apply run_store_node. Qed.

Lemma node_unlock_spec s node n :
  b_nodes s !! node = Some n -> bn_locked n = true ->
  rk_binder_node_unlock node s = Some (tt, set_nodes <[node := node_locked false n]> s).
Proof. intros Hp Hl. unfold rk_binder_node_unlock. mrun. rewrite Hl. by apply run_store_node. Qed.

(** Taking both locks and releasing them again around a change of the queue and
    of the counters leaves just the change. *)
Lemma unlock_after s node nd nd' proc p p' {A} (k : M A) :
  nd' = node_locked true nd -> p' = proc_locked true p ->
  bn_locked nd = false -> pr_inner_locked p = false ->
  (rk_binder_inner_proc_unlock proc;; rk_binder_node_unlock node;; k)
    (set_procs <[proc := p']> (set_nodes <[node := nd']> s))
  = k (set_procs <[proc := p]> (set_nodes <[node := nd]> s)).
Proof.
  intros -> -> Hn Hp.
  erewrite bind_step by (by eapply proc_unlock_spec; [apply lookup_insert_eq|]). cbn beta.
  erewrite bind_step by (by eapply node_unlock_spec; [apply lookup_insert_eq|]). cbn beta.
  f_equal. destruct s, nd, p. cbn in *. subst. unfold set_procs, set_nodes. cbn.
  by rewrite !insert_insert_eq.
Qed.

Lemma taken_locked t' node nd proc p s :
  taken t' node (node_locked true nd) proc (proc_locked true p) (locked_state s node nd proc p)
  = locked_state s node (node_todo (walk_del (is_txn_work t') (bn_async_todo nd)) nd) proc
      (proc_counts (s32 (pr_tmp_ref p + 1)) (s32 (pr_outstanding_txns p - 1)) p).
Proof.
  destruct s, nd, p. unfold taken, locked_state, set_procs, set_nodes. cbn.
  by rewrite !insert_insert_eq.
Qed.

Lemma unlocked_same s node nd proc p :
  b_nodes s !! node = Some nd -> b_procs s !! proc = Some p ->
  set_procs <[proc := p]> (set_nodes <[node := nd]> s) = s.
Proof.
  intros Hn Hp. destruct s. unfold set_procs, set_nodes. cbn in *. f_equal; by apply insert_id.
Qed.

Lemma detach_spec s proc t' x b buf :
  b_txns s !! t' = Some x -> bt_buffer x = Some b -> b_bufs s !! b = Some buf ->
  kp_detach proc t' s
  = Some (tt, set_wq (fun q => q ++ [{| fw_proc := proc; fw_buffer := b; fw_t := t' |}])
      (set_bufs (alter (buf_transaction None) b) (set_txns (alter (txn_buffer None) t') s))).
Proof.
  intros Hx Hb Hbuf. unfold kp_detach. mrun. unfold rkx_queue_free_txn, modify. do 2 f_equal.
  destruct s. unfold set_bufs, set_txns, set_wq. cbn in *. f_equal; by erewrite alter_as_insert.
Qed.

Definition kp_taken kz s proc node nd p strategy w : option loc * bstate :=
  if bn_has_async_transaction nd && negb (pr_is_dead p) && negb (pr_is_frozen p) then
    match first_outdated s proc strategy w (bn_async_todo nd) with
    | Some t' => if kz : bool then (Some t', taken t' node nd proc p s) else (None, s)
    | None => (None, s)
    end
  else (None, s).

Lemma kp_locked_spec kz s t proc node nd p w strategy :
  view_of s proc t = Some w -> b_nodes s !! node = Some nd -> b_procs s !! proc = Some p ->
  queue_ok s proc (bn_async_todo nd) -> bn_locked nd = false -> pr_inner_locked p = false ->
  kp_locked true kz t proc node strategy s = Some (kp_taken kz s proc node nd p strategy w).
Proof.
  intros Hw Hnd Hp Hq Hnl Hpl. unfold kp_locked, kp_taken.
  erewrite bind_step by (by eapply node_lock_spec). cbn beta.
  erewrite bind_load_node by apply lookup_insert_eq. cbn [node_locked bn_has_async_transaction].
  destruct (bn_has_async_transaction nd); cbn [negb andb].
  2:{ erewrite bind_step by (by eapply node_unlock_spec; [apply lookup_insert_eq|]).
      unfold mret, M_ret. do 2 f_equal. rewrite <- (unlocked_same s node nd proc p) by done.
      destruct s, nd. cbn in *. subst. unfold set_nodes, set_procs. cbn. f_equal.
      by rewrite !insert_insert_eq. }
  erewrite bind_step by (by eapply proc_lock_spec). cbn beta.
  erewrite bind_load_proc by apply lookup_insert_eq. cbn [proc_locked pr_is_dead pr_is_frozen].
  change (set_procs _ _) with (locked_state s node nd proc p).
  destruct (pr_is_dead p || pr_is_frozen p) eqn:Ed.
  { replace (negb (pr_is_dead p) && negb (pr_is_frozen p)) with false
      by (by rewrite <- negb_orb, Ed).
    unfold locked_state. rewrite (unlock_after s node nd _ proc p) by done.
    by rewrite unlocked_same. }
  replace (negb (pr_is_dead p) && negb (pr_is_frozen p)) with true
    by (by rewrite <- negb_orb, Ed).
  pose proof (view_of_locked s node nd proc p) as Hview.
  pose proof (take_outdated_spec kz (locked_state s node nd proc p) t proc node
    (node_locked true nd) (proc_locked true p) w strategy) as Htake.
  rewrite Hview, (first_outdated_views s) in Htake by auto.
  specialize (Htake Hw (lookup_insert_eq _ _ _) (lookup_insert_eq _ _ _)
    (queue_ok_views s _ _ _ (fun _ => Hview _ Hnd Hp) Hq)).
  cbn [node_locked bn_async_todo] in Htake.
  destruct (first_outdated _ _ _ _ _) as [t'|]; [destruct kz|].
  - erewrite bind_step by exact Htake. rewrite taken_locked. unfold locked_state, taken.
    by rewrite (unlock_after s node _ _ proc _) by done.
  - erewrite bind_step by exact Htake. unfold locked_state.
    rewrite (unlock_after s node nd _ proc p) by done. by rewrite unlocked_same.
  - erewrite bind_step by exact Htake. unfold locked_state.
    rewrite (unlock_after s node nd _ proc p) by done. by rewrite unlocked_same.
Qed.

Lemma taken_detached s proc node nd p t' x b buf :
  b_nodes s !! node = Some nd -> b_procs s !! proc = Some p ->
  b_txns s !! t' = Some x -> bt_buffer x = Some b -> b_bufs s !! b = Some buf ->
  kp_detach proc t' (taken t' node nd proc p s) = Some (tt, drop_txn s proc node t' b).
Proof.
  intros Hnd Hp Hx Hb Hbuf. erewrite detach_spec by done. do 2 f_equal.
  destruct s. unfold taken, drop_txn, set_procs, set_nodes, set_txns, set_bufs, set_wq. cbn in *.
  f_equal; symmetry; by erewrite alter_as_insert.
Qed.

(** The code is the specification, whatever the transaction, the rules, the
    state of the process and the outcome of the allocation. *)
Lemma pre_refines kz fa s t proc :
  free_async_wf fa -> Z.of_nat (size (rules fa)) < 2 ^ 31 -> kp_ready s t proc ->
  rkx_binder_proc_transaction_pre task_at true kz fa t proc s
  = Some (0, kp_pre_spec kz fa s t proc).
Proof.
  intros Hwf Hsz Hr. destruct (kr_view _ _ _ Hr) as [w Hw].
  destruct (view_of_inv _ _ _ _ Hw) as (x & p & b & buf & n & nd & Hx & Hto & Hp & Hb & Hbuf & Hn
    & Hnd & Hd & Hf & Hc & _ & _ & _ & _ & Hnode). subst n.
  destruct (kr_node _ _ _ Hr w nd Hw Hnd) as [Hnl Hq]. pose proof (kr_proc _ _ _ Hr p Hp) as Hpl.
  unfold rkx_binder_proc_transaction_pre, kp_pre_spec, kp_victim.
  rewrite Hw. cbn [mbind option_bind]. rewrite Hp. cbn [mbind option_bind].
  rewrite Hnd. cbn [mbind option_bind]. rewrite Hf, Hc.
  set (strategy := strategy_for (rules fa) (tv_data w) (bt_code x)).
  mrun. destruct (Z.land (bt_flags x) TF_ONE_WAY =? 0); [by destruct kz|]. mrun.
  destruct (rkx_is_frozen _); [|by destruct kz].
  erewrite bind_step by (by eapply kp_strategy_spec). cbn beta. fold strategy.
  destruct (strategy =? RKX_FREE_ASYNC_SKIP); [by destruct kz|]. mrun. cbn [negb andb].
  pose proof (kp_locked_spec kz s t proc _ nd p w strategy Hw Hnd Hp Hq Hnl Hpl) as Hl.
  unfold kp_taken in Hl. destruct (bn_has_async_transaction nd && _ && _); cbn beta iota in Hl.
  2:{ erewrite bind_step by exact Hl. by destruct kz. }
  destruct (first_outdated _ _ _ _ _) as [t'|] eqn:Efirst.
  2:{ erewrite bind_step by exact Hl. by destruct kz. }
  destruct kz; cbn beta iota in Hl; (erewrite bind_step by exact Hl); [|done].
  destruct (first_outdated_view _ _ _ _ _ _ Efirst) as (v & Hv & _).
  destruct (view_of_inv _ _ _ _ Hv) as (x' & _ & b' & buf' & _ & _ & Hx' & _ & _ & Hb' & Hbuf' & _).
  erewrite bind_step by (by eapply taken_detached).
  cbn [mbind option_bind]. rewrite Hx'. cbn. by rewrite Hb'.
Qed.

(** ** What a drop is *)

(** The victim is the first outdated entry of the queue, and unlinking its
    transaction's work removes that very entry. *)
Lemma first_outdated_split s proc strategy w q t' :
  first_outdated s proc strategy w q = Some t' ->
  exists q1 bw q2, q = q1 ++ bw :: q2 /\ bw_owner bw = t' /\ outdated s proc strategy w bw = true
    /\ Forall (fun e => outdated s proc strategy w e = false) q1
    /\ walk_del (is_txn_work t') q = q1 ++ q2.
Proof.
  unfold first_outdated. induction q as [|e q IH]; cbn [List.find walk_del]; [done|].
  destruct (outdated s proc strategy w e) eqn:E; cbn [fmap option_fmap option_map].
  - intros [= <-]. exists [], e, q. split_and!; try done.
    unfold outdated in E. apply andb_prop in E as [Et _]. unfold is_txn_work.
    by rewrite Et, bool_decide_eq_true_2.
  - intros Hq. destruct (IH Hq) as (q1 & bw & q2 & -> & Ho & Hbw & Hbefore & Hdel).
    exists (e :: q1), bw, q2. split_and!; try done; [by constructor|].
    rewrite Hdel. unfold is_txn_work. destruct (bw_type e =? BINDER_WORK_TRANSACTION) eqn:Et; [|done].
    case_bool_decide as He; [|done]. exfalso. revert E Hbw. unfold outdated.
    rewrite Et, He, Ho. cbn [andb]. intros ->. by rewrite andb_false_r.
Qed.

Lemma kp_victim_inv fa s t proc t' :
  kp_victim fa s t proc = Some t' ->
  exists w nd, view_of s proc t = Some w /\ b_nodes s !! tv_node w = Some nd
    /\ first_outdated s proc (strategy_for (rules fa) (tv_data w) (tv_code w)) w
         (bn_async_todo nd) = Some t'.
Proof.
  unfold kp_victim. intros Hv.
  destruct (view_of s proc t) as [w|]; [cbn [mbind option_bind] in Hv|done].
  destruct (b_procs s !! proc); [cbn [mbind option_bind] in Hv|done].
  destruct (b_nodes s !! tv_node w) as [nd|] eqn:End; [cbn [mbind option_bind] in Hv|done].
  split_guard; [|done]. by exists w, nd.
Qed.

Lemma kp_victim_alive fa s t proc t' p :
  kp_victim fa s t proc = Some t' -> b_procs s !! proc = Some p -> pr_is_dead p = false.
Proof.
  unfold kp_victim. intros Hv Hp. rewrite Hp in Hv.
  destruct (view_of s proc t) as [w|]; [cbn [mbind option_bind] in Hv|done].
  destruct (b_nodes s !! tv_node w) as [nd|]; [cbn [mbind option_bind] in Hv|done].
  split_guard; [|done]. by bool_facts.
Qed.

Lemma kp_victim_drop fa s t proc t' :
  kp_victim fa s t proc = Some t' ->
  exists w x b, view_of s proc t = Some w /\ b_txns s !! t' = Some x /\ bt_buffer x = Some b
    /\ kp_pre_spec true fa s t proc = drop_txn s proc (tv_node w) t' b.
Proof.
  intros Hv. destruct (kp_victim_inv _ _ _ _ _ Hv) as (w & nd & Hw & _ & Hf).
  destruct (first_outdated_view _ _ _ _ _ _ Hf) as (v & Hv' & _).
  destruct (view_of_inv _ _ _ _ Hv') as (x & _ & b & _ & _ & _ & Hx & _ & _ & Hb & _).
  exists w, x, b. split_and!; try done.
  unfold kp_pre_spec. rewrite Hv. cbn [mbind option_bind]. rewrite Hw. cbn [mbind option_bind].
  rewrite Hx. cbn [mbind option_bind]. by rewrite Hb.
Qed.
End BinderKpSpec.

(** ** The worker *)

(** What the kernel's release functions do to the parts the module relies on,
    for live arguments and with the process lock free.  Releasing a buffer may
    change nodes (it drops the reference on the target); freeing it changes the
    allocator of its process and merges free buffers, but no other buffer that is
    in use; a reference drop frees the process when it was the last one on a dead
    process without threads. *)
Class BinderKernelLaws `{BinderKernel} := {
  buffer_release_ok s proc p b buf off failure :
    b_procs s !! proc = Some p -> pr_inner_locked p = false -> b_bufs s !! b = Some buf ->
    exists f, k_binder_transaction_buffer_release proc b off failure s = Some (tt, set_nodes f s);
  alloc_free_buf_ok s proc p b buf :
    b_procs s !! proc = Some p -> b_bufs s !! b = Some buf ->
    exists f al, k_binder_alloc_free_buf proc b s
      = Some (tt, set_bufs f (set_procs <[proc := proc_alloc al p]> s))
      /\ forall b' buf', b' <> b -> b_bufs s !! b' = Some buf' -> bb_free buf' = false ->
           f (b_bufs s) !! b' = Some buf';
  dec_tmpref_ok dec s proc p :
    k_binder_proc_dec_tmpref = Some dec ->
    b_procs s !! proc = Some p -> pr_inner_locked p = false -> 0 < pr_tmp_ref p < 2 ^ 31 ->
    dec proc s = Some (tt, set_procs
      (if pr_is_dead p && pr_threads_empty p && (pr_tmp_ref p =? 1) then delete proc
       else <[proc := proc_counts (pr_tmp_ref p - 1) (pr_outstanding_txns p) p]>) s);
  free_proc_ok s proc p :
    b_procs s !! proc = Some p -> pr_inner_locked p = false ->
    k_binder_free_proc proc s = Some (tt, set_procs (delete proc) s);
}.

Section Worker.
Context `{BinderKernelLaws}.
Implicit Types (t proc : loc) (s : bstate).

(** The module's own drop of a reference is the kernel's. *)
Lemma dec_tmpref_spec s proc p :
  b_procs s !! proc = Some p -> pr_inner_locked p = false -> 0 < pr_tmp_ref p < 2 ^ 31 ->
  rk_binder_proc_dec_tmpref proc s = Some (tt, set_procs
    (if pr_is_dead p && pr_threads_empty p && (pr_tmp_ref p =? 1) then delete proc
     else <[proc := proc_counts (pr_tmp_ref p - 1) (pr_outstanding_txns p) p]>) s).
Proof.
  intros Hp Hl Hr. unfold rk_binder_proc_dec_tmpref.
  destruct k_binder_proc_dec_tmpref as [dec|] eqn:E; [by eapply dec_tmpref_ok|].
  erewrite bind_step by (by apply proc_lock_spec). cbn beta.
  erewrite bind_step by (eapply run_store_proc, lookup_insert_eq). cbn beta.
  erewrite bind_load_proc by apply lookup_insert_eq. cbn [proc_locked proc_counts pr_tmp_ref
    pr_is_dead pr_threads_empty pr_outstanding_txns].
  rewrite (swrap_small 32) by (unfold in_s; lia).
  replace (pr_tmp_ref p - 1 =? 0) with (pr_tmp_ref p =? 1) by lia.
  destruct (_ && (pr_tmp_ref p =? 1)).
  - erewrite bind_step by (by eapply proc_unlock_spec; [apply lookup_insert_eq|]). cbn beta.
    erewrite free_proc_ok by (apply lookup_insert_eq || done). do 2 f_equal.
    destruct s. unfold set_procs. cbn. f_equal. rewrite !insert_insert_eq. by rewrite delete_insert_eq.
  - erewrite proc_unlock_spec by (apply lookup_insert_eq || done). do 2 f_equal.
    destruct s, p. cbn in *. subst. unfold set_procs. cbn. f_equal. by rewrite !insert_insert_eq.
Qed.

(** The effect of one work item on live objects. *)
Lemma free_txn_func_spec s w p x buf :
  b_procs s !! fw_proc w = Some p -> pr_inner_locked p = false -> 0 < pr_tmp_ref p < 2 ^ 31 ->
  b_txns s !! fw_t w = Some x -> b_bufs s !! fw_buffer w = Some buf ->
  exists s', rkx_free_txn_func w s = Some (tt, s')
    /\ b_txns s' = delete (fw_t w) (b_txns s) /\ b_wq s' = b_wq s
    /\ b_txns_deleted s' = s32 (b_txns_deleted s + 1)
    /\ (forall q, q <> fw_proc w -> b_procs s' !! q = b_procs s !! q)
    /\ (forall b' buf', b' <> fw_buffer w -> b_bufs s !! b' = Some buf' -> bb_free buf' = false ->
         b_bufs s' !! b' = Some buf')
    /\ exists al, b_procs s' !! fw_proc w
      = if pr_is_dead p && pr_threads_empty p && (pr_tmp_ref p =? 1) then None
        else Some (proc_alloc al (proc_counts (pr_tmp_ref p - 1) (pr_outstanding_txns p) p)).
Proof.
  intros Hp Hl Hr Hx Hb. unfold rkx_free_txn_func, rk_binder_release_entire_buffer.
  rewrite bind_assoc. mrun.
  edestruct (buffer_release_ok s (fw_proc w) p (fw_buffer w) buf) as [f Hf]; [done..|].
  erewrite bind_step by exact Hf. cbn beta.
  edestruct (alloc_free_buf_ok (set_nodes f s) (fw_proc w) p (fw_buffer w) buf)
    as (g & al & Hg & Hkeep); [done..|]. erewrite bind_step by exact Hg. cbn beta.
  unfold kfree_txn. rewrite bind_assoc. mrun.
  unfold rk_binder_stats_deleted. cbn [BINDER_STAT_TRANSACTION Z.eqb Pos.eqb]. mrun.
  erewrite dec_tmpref_spec by (apply lookup_insert_eq || done). eexists. split; [done|].
  cbn. split_and!; try done.
  - intros q Hq. destruct (_ && _).
    + rewrite lookup_delete_ne by done. by rewrite lookup_insert_ne.
    + rewrite lookup_insert_ne by done. by rewrite lookup_insert_ne.
  - exists al. destruct (_ && _); [apply lookup_delete_eq|]. by rewrite lookup_insert_eq.
Qed.
End Worker.

(** ** Theorems *)

Section Theorems.
Context `{Version} {task : Type} `{TaskApi task} (task_at : loc -> task).
Context `{HashFn} `{Jhash} `{BinderCopy} `{BinderKernelLaws}.
Implicit Types (t proc : loc) (s : bstate) (w v : txn_view).
Context (fa : free_async_state).
Hypothesis fa_wf : free_async_wf fa.
Hypothesis fa_small : Z.of_nat (size (rules fa)) < 2 ^ 31.

(** C1: at every probe point binder guarantees, the probe runs to the end
    without touching a dead object or a lock twice, and its effect is that of
    the specification: both locks are free again, and either nothing changed or
    one queued transaction was handed to the worker. *)
Theorem probe_refines_spec kz s t proc :
  kp_ready s t proc ->
  rkx_binder_proc_transaction_pre task_at true kz fa t proc s
  = Some (0, kp_pre_spec task_at kz fa s t proc).
Proof. by apply pre_refines. Qed.

(** C22: the probe leaves binder's state exactly as it was when the transaction
    is not one-way, the receiver is not frozen, the rule for the interface and
    code says SKIP, no asynchronous transaction is pending on the node, the
    receiver is dead or frozen by binder, nothing queued is superseded, or the
    work item cannot be allocated. *)
Theorem probe_leaves_state_alone kz s t proc w p nd :
  kp_ready s t proc -> view_of s proc t = Some w ->
  b_procs s !! proc = Some p -> b_nodes s !! tv_node w = Some nd ->
  let strategy := strategy_for (rules fa) (tv_data w) (tv_code w) in
  Z.land (tv_flags w) TF_ONE_WAY = 0 \/ rkx_is_frozen (task_at (pr_tsk p)) = false
  \/ strategy = RKX_FREE_ASYNC_SKIP \/ bn_has_async_transaction nd = false
  \/ pr_is_dead p = true \/ pr_is_frozen p = true \/ kz = false
  \/ Forall (fun bw => outdated s proc strategy w bw = false) (bn_async_todo nd) ->
  rkx_binder_proc_transaction_pre task_at true kz fa t proc s = Some (0, s).
Proof.
  intros Hr Hw Hp Hnd strategy Hwhy. rewrite pre_refines by done. do 2 f_equal.
  unfold kp_pre_spec. destruct kz; [|done].
  enough (kp_victim task_at fa s t proc = None) as -> by done.
  unfold kp_victim. rewrite Hw. cbn [mbind option_bind]. rewrite Hp. cbn [mbind option_bind].
  rewrite Hnd. cbn [mbind option_bind]. fold strategy.
  destruct Hwhy as [E|[E|[E|[E|[E|[E|[E|E]]]]]]]; try discriminate;
    try (rewrite E; cbn [Z.eqb negb]; rewrite ?andb_false_r; done).
  - split_guard; [|done]. unfold first_outdated.
    destruct (List.find _ _) as [bw|] eqn:Ef; [|done]. apply find_some in Ef as [Hin Ho].
    rewrite Forall_forall in E. rewrite E in Ho; [done|]. by apply list_elem_of_In.
Qed.

(** C6: when the probe drops a transaction, it is the first one of the node's
    queue that the new one supersedes: one-way, for the same target object, from
    the same sender, with the same code and flags and no objects in either
    buffer, and with equal data under the BY_DATA strategy.  Exactly that entry
    leaves the queue, the receiver has one transaction less outstanding and is
    pinned by one more reference, the dropped transaction and its buffer no
    longer point at each other, and one work item is queued for it. *)
Theorem probe_drops_first_superseded s t proc t' :
  kp_ready s t proc -> kp_victim task_at fa s t proc = Some t' ->
  exists s' w v nd x b q1 bw q2,
    rkx_binder_proc_transaction_pre task_at true true fa t proc s = Some (0, s')
    /\ view_of s proc t = Some w /\ view_of s proc t' = Some v
    /\ supersedes (strategy_for (rules fa) (tv_data w) (tv_code w)) w v = true
    /\ b_nodes s !! tv_node w = Some nd /\ bn_async_todo nd = q1 ++ bw :: q2 /\ bw_owner bw = t'
    /\ Forall (fun e => outdated s proc
          (strategy_for (rules fa) (tv_data w) (tv_code w)) w e = false) q1
    /\ b_nodes s' = <[tv_node w := node_todo (q1 ++ q2) nd]> (b_nodes s)
    /\ b_procs s' = alter (fun p => proc_counts (s32 (pr_tmp_ref p + 1))
                                     (s32 (pr_outstanding_txns p - 1)) p) proc (b_procs s)
    /\ b_txns s !! t' = Some x /\ bt_buffer x = Some b
    /\ b_txns s' = <[t' := txn_buffer None x]> (b_txns s)
    /\ b_bufs s' = alter (buf_transaction None) b (b_bufs s)
    /\ b_wq s' = b_wq s ++ [{| fw_proc := proc; fw_buffer := b; fw_t := t' |}].
Proof.
  intros Hr Hv. rewrite pre_refines by done.
  destruct (kp_victim_drop _ _ _ _ _ _ Hv) as (w & x & b & Hw & Hx & Hb & ->).
  destruct (kp_victim_inv _ _ _ _ _ _ Hv) as (w' & nd & Hw' & Hnd & Hf).
  rewrite Hw in Hw'. injection Hw' as <-.
  destruct (first_outdated_view _ _ _ _ _ _ Hf) as (v & Hv' & Hsup).
  destruct (first_outdated_split _ _ _ _ _ _ Hf) as (q1 & bw & q2 & Hq & Ho & _ & Hq1 & Hdel).
  exists (drop_txn s proc (tv_node w) t' b), w, v, nd, x, b, q1, bw, q2.
  split_and!; try done; cbn.
  - rewrite (alter_as_insert _ _ _ nd Hnd). by rewrite Hdel.
  - by rewrite (alter_as_insert _ _ _ x Hx).
Qed.

(** C10: dropping is balanced: running the work item the probe queued frees the
    dropped transaction, and only it, counts it as deleted once, and gives the
    receiver its reference count back; over both steps the receiver has exactly
    one outstanding transaction less. *)
Theorem drop_then_free_balanced s t proc t' p :
  kp_ready s t proc -> kp_victim task_at fa s t proc = Some t' ->
  b_procs s !! proc = Some p -> 0 <= pr_tmp_ref p < 2 ^ 31 - 1 ->
  - 2 ^ 31 < pr_outstanding_txns p < 2 ^ 31 ->
  exists s1 work s2,
    rkx_binder_proc_transaction_pre task_at true true fa t proc s = Some (0, s1)
    /\ b_wq s1 = b_wq s ++ [work] /\ rkx_free_txn_func work s1 = Some (tt, s2)
    /\ b_txns s2 = delete t' (b_txns s) /\ b_wq s2 = b_wq s1
    /\ b_txns_deleted s2 = s32 (b_txns_deleted s + 1)
    /\ exists al, b_procs s2 !! proc
      = Some (proc_alloc al (proc_counts (pr_tmp_ref p) (pr_outstanding_txns p - 1) p)).
Proof.
  intros Hr Hv Hp Href Hout. rewrite pre_refines by done.
  destruct (kp_victim_drop _ _ _ _ _ _ Hv) as (w & x & b & Hw & Hx & Hb & ->).
  assert (Hpl := kr_proc _ _ _ Hr p Hp).
  destruct (kp_victim_inv _ _ _ _ _ _ Hv) as (w' & nd & _ & Hnd & Hf).
  assert (Halive : pr_is_dead p = false) by (by eapply kp_victim_alive).
  destruct (first_outdated_view _ _ _ _ _ _ Hf) as (v & Hv' & _).
  destruct (view_of_inv _ _ _ _ Hv') as (x' & _ & b' & buf & _ & _ & Hx' & _ & _ & Hb' & Hbuf & _).
  simplify_eq. set (s1 := drop_txn s proc (tv_node w) t' b).
  destruct (free_txn_func_spec s1 {| fw_proc := proc; fw_buffer := b; fw_t := t' |}
    (proc_counts (pr_tmp_ref p + 1) (pr_outstanding_txns p - 1) p) (txn_buffer None x)
    (buf_transaction None buf)) as (s2 & Hrun & Ht & Hwq & Hdel & _ & _ & al & Hproc).
  - cbn. rewrite lookup_alter_eq, Hp. cbn. by rewrite !(swrap_small 32) by (unfold in_s; lia).
  - done.
  - cbn. lia.
  - cbn. by rewrite lookup_alter_eq, Hx.
  - cbn. by rewrite lookup_alter_eq, Hbuf.
  - exists s1. eexists. exists s2. split_and!; try done.
    + rewrite Ht. cbn. by rewrite (alter_as_insert _ _ _ x Hx), delete_insert_eq.
    + exists al. cbn [fw_proc] in Hproc. rewrite Hproc. cbn [proc_counts pr_is_dead pr_tmp_ref pr_outstanding_txns fw_proc].
      rewrite Halive. cbn [andb]. by replace (pr_tmp_ref p + 1 - 1) with (pr_tmp_ref p) by lia.
Qed.
End Theorems.

(** ** Evaluations

    A node with one queued transaction and a second, equal one arriving. *)

Module KpDemo.
#[export] Existing Instance Demo.version_6_6.
#[export] Existing Instance Demo.tasks.
#[export] Existing Instance mod64.
#[export] Existing Instance sum_hash.

#[export] Instance pages : PageSize := {| PAGE_SHIFT := 6; PAGE_SHIFT_pos := ltac:(lia) |}.

#[export] Instance kernel : BinderKernel := {|
  k_binder_transaction_buffer_release proc b _ _ := load_proc proc;; load_buf b;; mret tt;
  k_binder_alloc_free_buf proc b := load_proc proc;; load_buf b;; modify (set_bufs (delete b));
  k_binder_proc_dec_tmpref := None;
  k_binder_free_proc proc := load_proc proc;; modify (set_procs (delete proc));
|}.

#[export] Instance kernel_laws : BinderKernelLaws.
Proof.
  split.
  - intros s proc p b buf off failure Hp _ Hb. exists id. cbn. mrun. by destruct s.
  - intros s proc p b buf Hp Hb. exists (delete b), (pr_alloc p). split.
    2:{ intros b' buf' Hne Hb' _. by rewrite lookup_delete_ne. }
    cbn. mrun. unfold modify. do 2 f_equal. destruct s, p. unfold set_bufs, set_procs. cbn in *.
    f_equal. symmetry. by apply insert_id.
  - done.
  - intros s proc p Hp _. cbn. by mrun.
Defined.

Definition data : list byte :=
  replicate 16 Byte.xff ++ utf16le (str "android.os.IMess") ++ replicate 4 NUL.

Definition space : list byte := data ++ replicate 4 NUL ++ data ++ replicate 4 NUL ++ replicate 80 NUL.

Definition alloc : binder_alloc :=
  {| al_buffer := 4096; al_buffer_size := 192; al_buffers := [1; 2; 3]%positive;
     al_pages := [Some (take 64 space); Some (take 64 (drop 64 space));
                  Some (take 64 (drop 128 space))] |}.

Definition buffer (off size : Z) (free : bool) (t node : option loc) : binder_buffer :=
  {| bb_user_data := 4096 + off; bb_free := free; bb_allow_user_free := false;
     bb_transaction := t; bb_target_node := node; bb_data_size := size;
     bb_offsets_size := 0; bb_pid := 1500 |}.

Definition txn (b : loc) : binder_transaction :=
  {| bt_flags := 1; bt_code := 3; bt_to_proc := Some 1%positive; bt_buffer := Some b |}.

Definition proc : binder_proc :=
  {| pr_tsk := 1; pr_is_dead := false; pr_is_frozen := false; pr_threads_empty := false;
     pr_tmp_ref := 0; pr_outstanding_txns := 1; pr_alloc := alloc; pr_inner_locked := false |}.

Definition state : bstate :=
  {| b_txns := {[ 1%positive := txn 1; 2%positive := txn 2 ]};
     b_bufs := {[ 1%positive := buffer 0 52 false (Some 1%positive) (Some 1%positive);
                  2%positive := buffer 56 52 false (Some 2%positive) (Some 1%positive);
                  3%positive := buffer 112 0 true None None ]};
     b_nodes := {[ 1%positive := {| bn_ptr := 100; bn_cookie := 200;
         bn_has_async_transaction := true;
         bn_async_todo := [{| bw_type := 4; bw_owner := 9 |};
                           {| bw_type := BINDER_WORK_TRANSACTION; bw_owner := 1 |}];
         bn_locked := false |} ]};
     b_procs := {[ 1%positive := proc ]};
     b_wq := [];
     b_txns_deleted := 0 |}.

Definition task_at (l : loc) : Demo.task := Demo.app.

Definition view : txn_view :=
  {| tv_flags := 1; tv_code := 3; tv_pid := 1500; tv_ptr := 100; tv_cookie := 200;
     tv_node := 1; tv_offsets_size := 0; tv_data := data |}.

Lemma view_1 : view_of state 1 1 = Some view.
Proof. vm_compute. reflexivity. Qed.
Lemma view_2 : view_of state 1 2 = Some view.
Proof. vm_compute. reflexivity. Qed.

Lemma ready : kp_ready state 1 1 /\ kp_ready state 2 1.
Proof.
  assert (Hq : queue_ok state 1 [{| bw_type := 4; bw_owner := 9 |};
    {| bw_type := BINDER_WORK_TRANSACTION; bw_owner := 1 |}]).
  { repeat constructor; cbn [bw_type bw_owner]; [discriminate|]. intros _. exists view. exact view_1. }
  split; constructor; rewrite ?view_1, ?view_2; try by eauto.
  1,3: intros w nd [= <-] [= <-]; by split.
  all: by intros p [= <-].
Qed.

Lemma victim : kp_victim task_at demo_state state 2 1 = Some 1%positive.
Proof. vm_compute. reflexivity. Qed.

Lemma demo_small : Z.of_nat (size (rules demo_state)) < 2 ^ 31.
Proof. vm_compute. reflexivity. Qed.
End KpDemo.
Import KpDemo.

Lemma probe_refines_spec_witness :
  rkx_binder_proc_transaction_pre KpDemo.task_at true true demo_state 2 1 KpDemo.state
  = Some (0, kp_pre_spec KpDemo.task_at true demo_state KpDemo.state 2 1).
Proof.
  apply (probe_refines_spec KpDemo.task_at demo_state demo_state_wf KpDemo.demo_small).
  apply KpDemo.ready.
Defined.

Lemma probe_leaves_state_alone_witness :
  rkx_binder_proc_transaction_pre KpDemo.task_at true false demo_state 2 1 KpDemo.state
  = Some (0, KpDemo.state).
Proof.
  eapply (probe_leaves_state_alone KpDemo.task_at demo_state demo_state_wf KpDemo.demo_small
    false KpDemo.state 2 1 KpDemo.view KpDemo.proc);
    [apply KpDemo.ready|exact KpDemo.view_2|reflexivity|reflexivity|tauto].
Defined.

Lemma probe_drops_first_superseded_witness :
  exists s', rkx_binder_proc_transaction_pre KpDemo.task_at true true demo_state 2 1 KpDemo.state
    = Some (0, s')
  /\ exists b, b_wq s' = [{| fw_proc := 1; fw_buffer := b; fw_t := 1 |}].
Proof.
  destruct (probe_drops_first_superseded KpDemo.task_at demo_state demo_state_wf
    KpDemo.demo_small KpDemo.state 2 1 1 (proj2 KpDemo.ready) KpDemo.victim)
    as (s' & w & v & nd & x & b & q1 & bw & q2 & Hrun & _ & _ & _ & _ & _ & _ & _ & _ & _ & _ & _
      & _ & _ & Hwq).
  exists s'. split; [exact Hrun|]. exists b. exact Hwq.
Defined.

Lemma drop_then_free_balanced_witness :
  exists s1 work s2,
    rkx_binder_proc_transaction_pre KpDemo.task_at true true demo_state 2 1 KpDemo.state
    = Some (0, s1) /\ rkx_free_txn_func work s1 = Some (tt, s2) /\ b_txns_deleted s2 = 1.
Proof.
  destruct (drop_then_free_balanced KpDemo.task_at demo_state demo_state_wf
    KpDemo.demo_small KpDemo.state 2 1 1 KpDemo.proc (proj2 KpDemo.ready) KpDemo.victim
    eq_refl ltac:(cbn; lia) ltac:(cbn; lia)) as (s1 & work & s2 & Hrun & _ & Hfree & _ & _ & Hdel & _).
  exists s1, work, s2. split_and!; [exact Hrun|exact Hfree|exact Hdel].
Defined.
