(* ===== verification/BinderKpRun.v ===== *)
(** The probe, the worker and binder interleaved.

    A step is a run of the probe, a run of the worker on the next work item, or
    anything binder itself does meanwhile; [binder_respects] says what binder's
    own code leaves alone: it never touches a transaction or a buffer that was
    taken out of its data structures, and never frees a process that is still
    referenced. *)

From S2P Require Import Prelude HashTable Uapi Kernel Frozen FreeAsync Token Binder BinderKp BinderKpSpec.

(** How many work items pin a process. *)
Definition pins (proc : loc) (q : list free_txn_work) : nat :=
  length (filter (fun w => fw_proc w = proc) q).

(** What a queued work item refers to: a transaction without a buffer and a
    buffer in use without a transaction. *)
Record item_ok (s : bstate) (w : free_txn_work) : Prop := {
  io_txn : exists x, b_txns s !! fw_t w = Some x /\ bt_buffer x = None;
  io_buf : exists buf, b_bufs s !! fw_buffer w = Some buf /\ bb_transaction buf = None
    /\ bb_free buf = false;
}.

(** The buffer of a transaction is in use and points back at it. *)
Definition linked (s : bstate) : Prop :=
  forall t x b, b_txns s !! t = Some x -> bt_buffer x = Some b ->
  exists buf, b_bufs s !! b = Some buf /\ bb_transaction buf = Some t /\ bb_free buf = false.

(** A process with work items is there, unlocked between steps, and has a
    reference for each of them. *)
Definition pinned (s : bstate) (proc : loc) : Prop :=
  exists p, b_procs s !! proc = Some p /\ pr_inner_locked p = false
    /\ Z.of_nat (pins proc (b_wq s)) <= pr_tmp_ref p < 2 ^ 31.

Record wq_ok (s : bstate) : Prop := {
  wq_items w : w ∈ b_wq s -> item_ok s w;
  wq_txns : NoDup (fw_t <$> b_wq s);
  wq_bufs : NoDup (fw_buffer <$> b_wq s);
  wq_pinned w : w ∈ b_wq s -> pinned s (fw_proc w);
  wq_linked : linked s;
}.

(** What binder's own code does between steps of the module. *)
Record binder_respects (s s' : bstate) : Prop := {
  br_wq : b_wq s' = b_wq s;
  br_txn w : w ∈ b_wq s -> b_txns s' !! fw_t w = b_txns s !! fw_t w;
  br_buf w : w ∈ b_wq s -> b_bufs s' !! fw_buffer w = b_bufs s !! fw_buffer w;
  br_pinned w : w ∈ b_wq s -> pinned s (fw_proc w) -> pinned s' (fw_proc w);
  br_linked : linked s -> linked s';
}.

Section Machine.
Context `{Version} {task : Type} `{TaskApi task} (task_at : loc -> task).
Context `{HashFn} `{Jhash} `{BinderCopy} `{BinderKernelLaws}.
Implicit Types (t proc : loc) (s : bstate) (w : free_txn_work).

(** [process_one_work]: the item leaves the queue, then its function runs. *)
Definition run_work : M unit := fun s =>
  match b_wq s with
  | [] => Some (tt, s)
  | w :: q => rkx_free_txn_func w (set_wq (fun _ => q) s)
  end.

Inductive kstep : bstate -> bstate -> Prop :=
  | kstep_probe kz fa t proc p s s' :
      free_async_wf fa -> Z.of_nat (size (rules fa)) < 2 ^ 31 -> kp_ready s t proc ->
      b_procs s !! proc = Some p -> 0 <= pr_tmp_ref p < 2 ^ 31 - 1 ->
      rkx_binder_proc_transaction_pre task_at true kz fa t proc s = Some (0, s') ->
      kstep s s'
  | kstep_work s s' : run_work s = Some (tt, s') -> kstep s s'
  | kstep_binder s s' : binder_respects s s' -> kstep s s'.

(** ** A drop keeps the queue sound *)

Lemma pins_app proc q1 q2 : pins proc (q1 ++ q2) = (pins proc q1 + pins proc q2)%nat.
Proof. unfold pins. by rewrite filter_app, length_app. Qed.

Lemma pins_one proc w :
  pins proc [w] = if bool_decide (fw_proc w = proc) then 1%nat else 0%nat.
Proof. unfold pins. cbn. by case_decide; case_bool_decide. Qed.

Lemma drop_item_ne s w t' x b :
  linked s -> item_ok s w -> b_txns s !! t' = Some x -> bt_buffer x = Some b ->
  fw_t w <> t' /\ fw_buffer w <> b.
Proof.
  intros Hl [(y & Hy & Hyb) (buf & Hbuf & Hbt & _)] Hx Hb. split; intros E.
  - rewrite E in Hy. congruence.
  - destruct (Hl t' x b Hx Hb) as (buf' & Hbuf' & Hbt' & _). rewrite E in Hbuf. congruence.
Qed.

Lemma drop_linked s proc node t' x b :
  linked s -> b_txns s !! t' = Some x -> bt_buffer x = Some b -> linked (drop_txn s proc node t' b).
Proof.
  intros Hl Hx Hb t y b0. cbn. destruct (decide (t = t')) as [->|Hne].
  - rewrite lookup_alter_eq, Hx. cbn. intros [= <-]. done.
  - rewrite lookup_alter_ne by done. intros Hy Hyb.
    destruct (Hl t y b0 Hy Hyb) as (buf & Hbuf & Hbt & Hf).
    destruct (Hl t' x b Hx Hb) as (buf' & Hbuf' & Hbt' & _).
    rewrite lookup_alter_ne by congruence. eauto.
Qed.

Lemma drop_wq_ok s proc p node t' x b :
  wq_ok s -> b_procs s !! proc = Some p -> pr_inner_locked p = false ->
  0 <= pr_tmp_ref p < 2 ^ 31 - 1 -> b_txns s !! t' = Some x -> bt_buffer x = Some b ->
  wq_ok (drop_txn s proc node t' b).
Proof.
  intros [Hi Ht Hb Hpin Hl] Hp Hlock Hr Hx Hxb.
  destruct (Hl t' x b Hx Hxb) as (buf & Hbuf & Hbt & Hfree).
  assert (Hne : forall w, w ∈ b_wq s -> fw_t w <> t' /\ fw_buffer w <> b)
    by (intros w Hw; by apply (drop_item_ne s w t' x b); [|apply Hi|..]).
  assert (Hwq : forall w, w ∈ b_wq (drop_txn s proc node t' b) ->
    w ∈ b_wq s \/ w = {| fw_proc := proc; fw_buffer := b; fw_t := t' |}).
  { intros w. cbn. rewrite elem_of_app, list_elem_of_singleton. done. }
  split.
  - intros w [Hw| ->]%Hwq.
    + destruct (Hi w Hw) as [(y & Hy & Hyb) Hiob]. destruct (Hne w Hw) as [Hnt Hnb].
      split; cbn; rewrite lookup_alter_ne by done; eauto.
    + split; cbn; rewrite lookup_alter_eq.
      * exists (txn_buffer None x). by rewrite Hx.
      * exists (buf_transaction None buf). by rewrite Hbuf.
  - cbn. rewrite fmap_app, NoDup_app. split_and!; [done| |apply NoDup_singleton].
    intros t0 (w & -> & Hw)%list_elem_of_fmap. cbn. rewrite list_elem_of_singleton.
    by apply Hne.
  - cbn. rewrite fmap_app, NoDup_app. split_and!; [done| |apply NoDup_singleton].
    intros t0 (w & -> & Hw)%list_elem_of_fmap. cbn. rewrite list_elem_of_singleton.
    by apply Hne.
  - intros w Hw. unfold pinned. cbn [drop_txn b_wq b_procs]. rewrite pins_app, pins_one.
    cbn [fw_proc].
    destruct (decide (fw_proc w = proc)) as [E|E].
    + rewrite E, lookup_alter_eq, Hp. eexists. split; [done|].
      cbn [proc_counts pr_inner_locked pr_tmp_ref].
      rewrite bool_decide_eq_true_2, (swrap_small 32) by (done || unfold in_s; lia).
      split; [done|]. destruct (decide (pins proc (b_wq s) = 0%nat)) as [E0|E0]; [lia|].
      assert (exists w0, w0 ∈ b_wq s /\ fw_proc w0 = proc) as (w0 & Hw0 & Ew0).
      { unfold pins in E0. destruct (filter _ (b_wq s)) as [|w0 q] eqn:Ef; [done|].
        exists w0. assert (Hin : w0 ∈ filter (fun w => fw_proc w = proc) (b_wq s))
          by (rewrite Ef; left). by apply list_elem_of_filter in Hin as [? ?]. }
      destruct (Hpin w0 Hw0) as (p0 & Hp0 & _ & Hc0). rewrite Ew0 in *. rewrite Hp in Hp0.
      injection Hp0 as <-. lia.
    + rewrite lookup_alter_ne, bool_decide_eq_false_2 by congruence. rewrite Nat.add_0_r.
      apply Hwq in Hw as [Hw| ->]; [|done]. by apply Hpin.
  - by eapply drop_linked.
Qed.

(** ** The worker finds what it frees *)

Lemma pins_cons proc w q :
  pins proc (w :: q) = ((if bool_decide (fw_proc w = proc) then 1 else 0) + pins proc q)%nat.
Proof. change (w :: q) with ([w] ++ q). by rewrite pins_app, pins_one. Qed.

Lemma pins_pos proc w q : w ∈ q -> fw_proc w = proc -> (1 <= pins proc q)%nat.
Proof.
  intros Hw Hp. unfold pins. assert (Hin : w ∈ filter (fun w => fw_proc w = proc) q)
    by (by apply list_elem_of_filter).
  destruct (filter _ q); [by apply elem_of_nil in Hin|]. cbn. lia.
Qed.

Lemma work_ok s w q :
  wq_ok s -> b_wq s = w :: q ->
  exists s', rkx_free_txn_func w (set_wq (fun _ => q) s) = Some (tt, s') /\ b_wq s' = q
    /\ b_txns s' = delete (fw_t w) (b_txns s) /\ wq_ok s'.
Proof.
  intros [Hi Ht Hb Hpin Hl] Hq. rewrite Hq in *. cbn [fmap list_fmap] in Ht, Hb.
  apply NoDup_cons in Ht as [Htn Ht]. apply NoDup_cons in Hb as [Hbn Hb].
  destruct (Hi w) as [(x & Hx & Hxb) (buf & Hbuf & Hbt & Hfree)]; [left|].
  destruct (Hpin w) as (p & Hp & Hlock & Hcount); [left|]. unfold pins in Hcount. rewrite Hq in Hcount.
  fold (pins (fw_proc w) (w :: q)) in Hcount. rewrite pins_cons, bool_decide_eq_true_2 in Hcount by done.
  destruct (free_txn_func_spec (set_wq (fun _ => q) s) w p x buf) as (s' & Hrun & Htx & Hwq & _ & Hprocs
    & Hbufs & al & Hproc); [done|done|lia|done|done|].
  cbn in Htx, Hwq, Hprocs, Hbufs. exists s'. split_and!; [done|done|done|].
  assert (Hne : forall w0, w0 ∈ q -> fw_t w0 <> fw_t w /\ fw_buffer w0 <> fw_buffer w).
  { intros w0 Hw0. split; intros E; [apply Htn|apply Hbn]; rewrite <- E; by apply list_elem_of_fmap_2. }
  split; rewrite ?Hwq; try done.
  - intros w0 Hw0. destruct (Hne w0 Hw0) as [Hnt Hnb].
    destruct (Hi w0) as [(y & Hy & Hyb) (buf0 & Hbuf0 & Hbt0 & Hf0)]; [by right|]. split.
    + exists y. rewrite Htx, lookup_delete_ne by done. done.
    + exists buf0. split_and!; [|done|done]. by apply Hbufs.
  - intros w0 Hw0. destruct (Hpin w0) as (p0 & Hp0 & Hlock0 & Hc0); [by right|].
    unfold pinned. rewrite Hwq. unfold pinned in Hc0. rewrite Hq, pins_cons in Hc0.
    destruct (decide (fw_proc w0 = fw_proc w)) as [E|E].
    + rewrite E in *. rewrite Hp in Hp0. injection Hp0 as <-.
      rewrite bool_decide_eq_true_2 in Hc0 by done. pose proof (pins_pos (fw_proc w) w0 q Hw0 E) as Hpos.
      rewrite (proj2 (Z.eqb_neq (pr_tmp_ref p) 1)), andb_false_r in Hproc by lia.
      eexists. split; [exact Hproc|]. cbn [proc_alloc proc_counts pr_inner_locked pr_tmp_ref].
      split; [done|]. lia.
    + rewrite bool_decide_eq_false_2 in Hc0 by congruence. rewrite Hprocs by done. eauto.
  - intros t y b0. rewrite Htx, lookup_delete_Some. intros [Hnt Hy] Hyb.
    destruct (Hl t y b0 Hy Hyb) as (buf0 & Hbuf0 & Hbt0 & Hf0). exists buf0.
    split_and!; [|done|done]. apply Hbufs; [|done|done]. congruence.
Qed.

Lemma respects_wq_ok s s' : binder_respects s s' -> wq_ok s -> wq_ok s'.
Proof.
  intros [Rq Rt Rb Rp Rl] [Hi Ht Hb Hpin Hl]. split; rewrite ?Rq; try done; [| |by apply Rl].
  - intros w Hw. destruct (Hi w Hw) as [Ht0 Hb0]. split; [by rewrite Rt|by rewrite Rb].
  - intros w Hw. by apply Rp, Hpin.
Qed.

Lemma probe_wq_ok kz fa t proc p s s' :
  free_async_wf fa -> Z.of_nat (size (rules fa)) < 2 ^ 31 -> kp_ready s t proc ->
  b_procs s !! proc = Some p -> 0 <= pr_tmp_ref p < 2 ^ 31 - 1 ->
  rkx_binder_proc_transaction_pre task_at true kz fa t proc s = Some (0, s') ->
  wq_ok s -> wq_ok s'.
Proof.
  intros Hwf Hsz Hr Hp Href Hrun Hok. rewrite pre_refines in Hrun by done. injection Hrun as <-.
  destruct kz; [|done]. destruct (kp_victim task_at fa s t proc) as [t'|] eqn:Ev.
  2:{ unfold kp_pre_spec. by rewrite Ev. }
  destruct (kp_victim_drop task_at fa s t proc t' Ev) as (w & x & b & _ & Hx & Hb & ->).
  eapply drop_wq_ok; [done|done| |done..]. by eapply kr_proc.
Qed.

Lemma kstep_wq_ok s s' : kstep s s' -> wq_ok s -> wq_ok s'.
Proof.
  destruct 1 as [kz fa t proc p s s' Hwf Hsz Hr Hp Href Hrun|s s' Hrun|s s' Hresp].
  - by eapply probe_wq_ok.
  - intros Hok. unfold run_work in Hrun. destruct (b_wq s) as [|w q] eqn:Eq; [by injection Hrun as <-|].
    destruct (work_ok s w q Hok Eq) as (s1 & Hrun1 & _ & _ & Hok1). congruence.
  - by apply respects_wq_ok.
Qed.

Lemma reachable_wq_ok s0 s :
  b_wq s0 = [] -> linked s0 -> rtc kstep s0 s -> wq_ok s.
Proof.
  intros Hq Hl Hr. assert (wq_ok s0) as Hok.
  { split; rewrite ?Hq; [by intros w ?%elem_of_nil|apply NoDup_nil_2|apply NoDup_nil_2
      |by intros w ?%elem_of_nil|done]. }
  clear Hq Hl. induction Hr as [|s1 s2 s3 Hs _ IH]; [done|]. apply IH. by eapply kstep_wq_ok.
Qed.

(** [flush_workqueue] on the items that are queued. *)
Fixpoint flush_work (n : nat) : M unit :=
  match n with
  | O => mret tt
  | S n => run_work;; flush_work n
  end.

Lemma lookup_deleted {A} (m : gmap loc A) l t :
  foldr delete m l !! t = if bool_decide (t ∈ l) then None else m !! t.
Proof.
  induction l as [|u l IH]; cbn [foldr]; [by rewrite bool_decide_eq_false_2 by set_solver|].
  destruct (decide (t = u)) as [->|Hne].
  - by rewrite lookup_delete_eq, bool_decide_eq_true_2 by set_solver.
  - rewrite lookup_delete_ne, IH by done. destruct (decide (t ∈ l)) as [Hl|Hl].
    + by rewrite !bool_decide_eq_true_2 by set_solver.
    + by rewrite !bool_decide_eq_false_2 by set_solver.
Qed.

Lemma flush_ok s n :
  wq_ok s -> n = length (b_wq s) ->
  exists s', flush_work n s = Some (tt, s') /\ b_wq s' = []
    /\ b_txns s' = foldr delete (b_txns s) (reverse (fw_t <$> b_wq s)).
Proof.
  revert s. induction n as [|n IH]; intros s Hok Hn; destruct (b_wq s) as [|w q] eqn:Eq;
    try discriminate; cbn [flush_work].
  - exists s. by split_and!.
  - destruct (work_ok s w q Hok Eq) as (s1 & Hrun & Hq1 & Ht1 & Hok1).
    destruct (IH s1 Hok1) as (s2 & Hrun2 & Hq2 & Ht2); [rewrite Hq1; cbn in Hn; lia|].
    exists s2. split_and!; [|done|].
    + erewrite bind_step; [exact Hrun2|]. unfold run_work. by rewrite Eq.
    + rewrite Ht2, Ht1, Hq1. cbn [fmap list_fmap]. by rewrite reverse_cons, foldr_app.
Qed.

(** C7: in every interleaving of probe, worker and binder, from a module that
    has just been loaded, each queued work item refers to a live transaction and
    a live buffer of its own, so that running it never touches a freed object
    and frees its transaction exactly once; the receiver of each is kept alive
    by a reference; and flushing the queue, as unloading does, ends with the
    queue empty and precisely the queued transactions gone. *)
Theorem queued_work_never_faults s0 s :
  b_wq s0 = [] -> linked s0 -> rtc kstep s0 s ->
  NoDup (fw_t <$> b_wq s) /\ NoDup (fw_buffer <$> b_wq s)
  /\ (forall w, w ∈ b_wq s -> is_Some (b_txns s !! fw_t w) /\ is_Some (b_bufs s !! fw_buffer w)
       /\ exists p, b_procs s !! fw_proc w = Some p
          /\ Z.of_nat (pins (fw_proc w) (b_wq s)) <= pr_tmp_ref p)
  /\ (exists s', run_work s = Some (tt, s'))
  /\ exists s', flush_work (length (b_wq s)) s = Some (tt, s') /\ b_wq s' = []
       /\ forall t, b_txns s' !! t
          = if bool_decide (t ∈ fw_t <$> b_wq s) then None else b_txns s !! t.
Proof.
  intros Hq Hl Hr. pose proof (reachable_wq_ok s0 s Hq Hl Hr) as Hok.
  split_and!; [apply Hok|apply Hok| | |].
  - intros w Hw. destruct (wq_items s Hok w Hw) as [(x & -> & _) (buf & -> & _)].
    destruct (wq_pinned s Hok w Hw) as (p & Hp & _ & Hc). split_and!; [by eexists..|].
    exists p. split; [done|lia].
  - unfold run_work. destruct (b_wq s) as [|w q] eqn:Eq; [by eexists|].
    destruct (work_ok s w q Hok Eq) as (s1 & -> & _). by eexists.
  - destruct (flush_ok s _ Hok eq_refl) as (s' & Hrun & Hq' & Ht). exists s'. split_and!; [done|done|].
    intros t. rewrite Ht, lookup_deleted.
    by rewrite (bool_decide_ext _ _ (elem_of_reverse t (fw_t <$> b_wq s))).
Qed.
End Machine.

(** ** Evaluations

    The probe drops one transaction of the example of BinderKpSpec.v, which is
    then queued. *)

Import KpDemo.

Lemma demo_linked : linked KpDemo.state.
Proof.
  assert (H : map_Forall (fun t x => match bt_buffer x with
    | Some b => match b_bufs KpDemo.state !! b with
                | Some buf => bb_transaction buf = Some t /\ bb_free buf = false
                | None => False end
    | None => True end) (b_txns KpDemo.state)).
  { cbn [KpDemo.state b_txns]. apply map_Forall_insert_2; [by split|].
    apply map_Forall_singleton. by split. }
  intros t x b Hx Hb. specialize (H t x Hx). cbn beta in H. rewrite Hb in H.
  destruct (b_bufs KpDemo.state !! b) as [buf|]; [|done]. by exists buf.
Qed.

Lemma queued_work_never_faults_witness :
  exists s w, rkx_binder_proc_transaction_pre KpDemo.task_at true true demo_state 2 1 KpDemo.state
    = Some (0, s) /\ b_wq s = [w] /\ is_Some (b_txns s !! fw_t w)
  /\ exists s', flush_work 1 s = Some (tt, s') /\ b_wq s' = [] /\ b_txns s' !! fw_t w = None.
Proof.
  eexists. exists {| fw_proc := 1; fw_buffer := 1; fw_t := 1 |}.
  split; [apply (pre_refines KpDemo.task_at true demo_state KpDemo.state 2 1 demo_state_wf
    KpDemo.demo_small (proj2 KpDemo.ready))|].
  set (s := kp_pre_spec _ _ _ _ _ _).
  assert (Hq : b_wq s = [{| fw_proc := 1; fw_buffer := 1; fw_t := 1 |}]) by (vm_compute; reflexivity).
  destruct (queued_work_never_faults KpDemo.task_at KpDemo.state s) as (_ & _ & Hlive & _ & s' & Hrun & Hq' & Ht).
  - reflexivity.
  - exact demo_linked.
  - eapply rtc_once, (kstep_probe KpDemo.task_at true demo_state 2 1 KpDemo.proc);
      [exact demo_state_wf|exact KpDemo.demo_small|exact (proj2 KpDemo.ready)|reflexivity|cbn; lia|].
    apply (pre_refines KpDemo.task_at true demo_state KpDemo.state 2 1 demo_state_wf
      KpDemo.demo_small (proj2 KpDemo.ready)).
  - rewrite Hq in *. split; [reflexivity|]. split.
    + destruct (Hlive {| fw_proc := 1; fw_buffer := 1; fw_t := 1 |}) as [Hx _]; [left|exact Hx].
    + exists s'. split_and!; [exact Hrun|exact Hq'|]. rewrite Ht.
      by rewrite bool_decide_eq_true_2 by (cbn; left).
Defined.
