(* ===== verification/Nla.v ===== *)
(** rkx_nla.h: reading and building netlink attributes in the client library.

    Memory is a list of bytes and a [struct nlattr *] is an offset into it; a
    read or write outside is [None].  Lengths keep their C types: [nla_len] is
    16 bits wide, the remaining length of an iteration is a signed int. *)

From S2P Require Import Prelude.

(** ** Constants of linux/netlink.h and linux/genetlink.h *)

Definition NLA_HDRLEN : nat := 4.
Definition NLMSG_HDRLEN : nat := 16.
Definition GENL_HDRLEN : nat := 4.
Definition NLA_TYPE_MASK : Z := Z.ones 14.
Definition NLA_F_NESTED : Z := 2 ^ 15.
Definition NLM_F_REQUEST : Z := 1.

Definition NLA_ALIGN (len : Z) : Z := Z.land (len + 3) (Z.lnot 3).

(** ** Memory *)

Definition mem_bytes (mem : list byte) (off n : nat) : option (list byte) :=
  let l := take n (drop off mem) in
  if (length l =? n)%nat then Some l else None.

Definition rd_u (mem : list byte) (off n : nat) : option Z := le_Z <$> mem_bytes mem off n.

Definition mem_write (mem : list byte) (off : nat) (bytes : list byte) : option (list byte) :=
  if (off + length bytes <=? length mem)%nat
  then Some (take off mem ++ bytes ++ drop (off + length bytes) mem) else None.

(** ** Reading *)

Section Read.
Context (mem : list byte).
Implicit Types nla : nat.

Definition nla_type nla : option Z :=
  t ← rd_u mem (nla + 2) 2; Some (Z.land t NLA_TYPE_MASK).

Definition nla_data nla : nat := (nla + NLA_HDRLEN)%nat.

Definition nla_len nla : option Z :=
  l ← rd_u mem nla 2; Some (u16 (l - Z.of_nat NLA_HDRLEN)).

Definition nla_ok nla (remaining : Z) : option bool :=
  if remaining >=? 4 then
    l ← rd_u mem nla 2; Some ((4 <=? l) && (l <=? remaining))
  else Some false.

Definition nla_next nla (remaining : Z) : option (nat * Z) :=
  l ← rd_u mem nla 2;
  let totlen := NLA_ALIGN l in
  Some ((nla + Z.to_nat totlen)%nat, s32 (remaining - totlen)).

(** [rkx_nla_get] at a type of [size] bytes, read as [conv] reads it: the
    answer and the new value of [out]. *)
Definition rkx_nla_get (size : nat) (conv : Z -> Z) (nla : option nat) (out : Z)
    : option (bool * Z) :=
  match nla with
  | None => Some (false, out)
  | Some nla =>
      len ← nla_len nla;
      if len <? Z.of_nat size then Some (false, out) else
      v ← rd_u mem (nla_data nla) size; Some (true, conv v)
  end.

Definition get_s32 := rkx_nla_get 4 s32.
Definition get_u32 := rkx_nla_get 4 u32.
Definition get_u16 := rkx_nla_get 2 u16.

(** [nla_get_val], which the client does not call yet, answers the value. *)
Definition nla_get_val (size : nat) (conv : Z -> Z) (nla : option nat) (def_val : Z) : option Z :=
  match nla with
  | None => Some def_val
  | Some nla =>
      len ← nla_len nla;
      if len <? Z.of_nat size then Some def_val else
      v ← rd_u mem (nla_data nla) size; Some (conv v)
  end.

(** The unguarded readers, which the client does not call either. *)
Definition nla_get_u8 nla : option Z := rd_u mem (nla_data nla) 1.
Definition nla_get_u16 nla : option Z := rd_u mem (nla_data nla) 2.
Definition nla_get_u32 nla : option Z := rd_u mem (nla_data nla) 4.
Definition nla_get_s32 nla : option Z := v ← rd_u mem (nla_data nla) 4; Some (s32 v).

(** The table [tb] maps a type to the attribute stored in its slot. *)
Fixpoint nla_parse_loop (fuel : nat) (maxtype : Z) (tb : gmap Z nat) nla (rem : Z)
    : option (gmap Z nat) :=
  ok ← nla_ok nla rem;
  if (ok : bool) then
    match fuel with
    | O => None
    | S fuel =>
        type ← nla_type nla;
        '(next, rem) ← nla_next nla rem;
        nla_parse_loop fuel maxtype
          (if (0 <? type) && (type <=? maxtype) then <[type := nla]> tb else tb) next rem
    end
  else Some tb.

Definition rkx_nla_parse (maxtype : Z) (head : nat) (len : Z) : option (gmap Z nat) :=
  nla_parse_loop (Z.to_nat len) maxtype ∅ head len.

Definition rkx_nla_parse_nested (maxtype : Z) nla : option (gmap Z nat) :=
  len ← nla_len nla; rkx_nla_parse maxtype (nla_data nla) len.
End Read.

(** ** Building *)

Record NlaBuilder := { nb_buf : list byte; nb_cap : nat; nb_len : nat }.

(** [put] copies [datalen] bytes of what [data] points at. *)
Definition nb_put (b : NlaBuilder) (type : Z) (data : list byte) (datalen : Z)
    : option (bool * NlaBuilder) :=
  let attr_len := u16 (Z.of_nat NLA_HDRLEN + datalen) in
  let aligned := u16 (NLA_ALIGN attr_len) in
  if Z.of_nat (nb_len b) + aligned >? Z.of_nat (nb_cap b) then Some (false, b) else
  buf ← mem_write (nb_buf b) (nb_len b) (le_bytes 2 attr_len);
  buf ← mem_write buf (nb_len b + 2) (le_bytes 2 type);
  buf ← (if datalen =? 0 then Some buf else
         bytes ← mem_bytes data 0 (Z.to_nat datalen);
         mem_write buf (nb_len b + NLA_HDRLEN) bytes);
  buf ← (if aligned >? attr_len
         then mem_write buf (nb_len b + Z.to_nat attr_len)
                (replicate (Z.to_nat (aligned - attr_len)) NUL)
         else Some buf);
  Some (true, {| nb_buf := buf; nb_cap := nb_cap b;
                 nb_len := (nb_len b + Z.to_nat aligned)%nat |}).

(** The constructor, over a buffer of [length buf] bytes. *)
Definition nb_init (buf : list byte) : option NlaBuilder :=
  buf' ← mem_write buf 0 (replicate (NLMSG_HDRLEN + GENL_HDRLEN) NUL);
  Some {| nb_buf := buf'; nb_cap := length buf; nb_len := NLMSG_HDRLEN + GENL_HDRLEN |}.

Definition genl_header (len family flags seq cmd version : Z) : list byte :=
  le_bytes 4 len ++ le_bytes 2 family ++ le_bytes 2 flags ++ le_bytes 4 seq ++ le_bytes 4 0
  ++ le_bytes 1 cmd ++ le_bytes 1 version ++ le_bytes 2 0.

Definition putGenlHeader (b : NlaBuilder) (family seq cmd version : Z) : option NlaBuilder :=
  buf ← mem_write (nb_buf b) 0 (genl_header 0 family NLM_F_REQUEST seq cmd version);
  Some {| nb_buf := buf; nb_cap := nb_cap b; nb_len := nb_len b |}.

Definition putU32 b (type v : Z) := nb_put b type (le_bytes 4 v) 4.
Definition putS32 b (type v : Z) := nb_put b type (le_bytes 4 v) 4.
Definition putU8 b (type v : Z) := nb_put b type (le_bytes 1 v) 1.

(** [s] is a C string, so its NUL is in memory too. *)
Definition putString b (type : Z) (s : list byte) :=
  nb_put b type (s ++ [NUL]) (u16 (Z.of_nat (length s) + 1)).

(** The length and the buffer to send. *)
Definition nb_finish (b : NlaBuilder) : option (nat * list byte) :=
  buf ← mem_write (nb_buf b) 0 (le_bytes 4 (Z.of_nat (nb_len b)));
  Some (nb_len b, buf).

(** ** Memory lemmas *)

Lemma mem_bytes_Some mem off n :
  (off + n <= length mem)%nat -> mem_bytes mem off n = Some (take n (drop off mem)).
Proof.
  intros Hl. unfold mem_bytes.
  by rewrite (proj2 (Nat.eqb_eq _ _)) by (rewrite length_take, length_drop; lia).
Qed.

Lemma mem_bytes_app pre d post off n :
  off = length pre -> n = length d -> mem_bytes (pre ++ d ++ post) off n = Some d.
Proof.
  intros -> ->. rewrite mem_bytes_Some by (rewrite !length_app; lia).
  by rewrite drop_app_length, take_app_length.
Qed.

Lemma rd_u_app pre d post off n :
  off = length pre -> n = length d -> rd_u (pre ++ d ++ post) off n = Some (le_Z d).
Proof. intros. unfold rd_u. by rewrite mem_bytes_app. Qed.

Lemma rd_u_Some mem off n :
  (off + n <= length mem)%nat ->
  exists v, rd_u mem off n = Some v /\ 0 <= v < 2 ^ (8 * Z.of_nat n).
Proof.
  intros Hl. unfold rd_u. rewrite mem_bytes_Some by done. eexists. split; [done|].
  pose proof (le_Z_range (take n (drop off mem))) as Hr.
  by rewrite length_take_le in Hr by (rewrite length_drop; lia).
Qed.

Lemma rd_u_inv mem off n v : rd_u mem off n = Some v -> (off + n <= length mem)%nat \/ n = 0%nat.
Proof.
  unfold rd_u, mem_bytes. destruct (length _ =? n)%nat eqn:E; [|done]. intros _. bool_facts.
  apply Nat.eqb_eq in E. rewrite length_take, length_drop in E. lia.
Qed.

Lemma NLA_ALIGN_spec len :
  0 <= len -> len <= NLA_ALIGN len < len + 4 /\ NLA_ALIGN len mod 4 = 0.
Proof.
  intros Hl. unfold NLA_ALIGN.
  change (Z.lnot 3) with (Z.lnot (Z.ones 2)).
  rewrite <- Z.ldiff_land, Z.ldiff_ones_r, Z.shiftl_mul_pow2, Z.shiftr_div_pow2 by lia.
  change (2 ^ 2) with 4. rewrite Z.mod_mul by lia.
  pose proof (Z.div_mod (len + 3) 4 ltac:(lia)). pose proof (Z.mod_pos_bound (len + 3) 4). lia.
Qed.

Lemma NLA_ALIGN_4 len : 0 <= len -> len mod 4 = 0 -> NLA_ALIGN len = len.
Proof.
  intros Hl Hm. destruct (NLA_ALIGN_spec len Hl) as [Hr Ha].
  pose proof (Z.div_mod len 4 ltac:(lia)). pose proof (Z.div_mod (NLA_ALIGN len) 4 ltac:(lia)). lia.
Qed.

(** ** Parsing never leaves the message *)

(** The attribute at [p] lies in the [len] bytes from [head]. *)
Definition attr_inside (mem : list byte) (head : nat) (len : Z) (p : nat) : Prop :=
  exists l, rd_u mem p 2 = Some l /\ 4 <= l < 2 ^ 16 /\ (head <= p)%nat
    /\ Z.of_nat p + l <= Z.of_nat head + len.

Definition table_inside mem head len maxtype (tb : gmap Z nat) : Prop :=
  forall type p, tb !! type = Some p -> 0 < type <= maxtype /\ attr_inside mem head len p.

Lemma parse_loop_safe mem maxtype head len fuel tb p rem :
  Z.of_nat head + len <= Z.of_nat (length mem) -> len < 2 ^ 31 ->
  (head <= p)%nat -> -4 < rem -> Z.of_nat p + rem = Z.of_nat head + len -> rem <= Z.of_nat fuel ->
  table_inside mem head len maxtype tb ->
  exists tb', nla_parse_loop mem fuel maxtype tb p rem = Some tb'
    /\ table_inside mem head len maxtype tb'.
Proof.
  intros Hmem Hlen. revert tb p rem.
  induction fuel as [|fuel IH]; intros tb p rem Hp Hr Hpr Hf Htb; cbn [nla_parse_loop];
    unfold nla_ok at 1; destruct (Z.geb_spec rem 4) as [Hge|Hlt]; cbn [mbind option_bind];
    try (eexists; by split).
  { lia. }
  destruct (rd_u_Some mem p 2 ltac:(lia)) as (l & Hl & Hlr). rewrite Hl. cbn [mbind option_bind].
  destruct ((4 <=? l) && (l <=? rem)) eqn:Eok; [|eexists; by split]. bool_facts.
  unfold nla_type. destruct (rd_u_Some mem (p + 2) 2 ltac:(lia)) as (ty & -> & _).
  cbn [mbind option_bind]. unfold nla_next. rewrite Hl. cbn [mbind option_bind].
  change (8 * Z.of_nat 2) with 16 in Hlr.
  destruct (NLA_ALIGN_spec l ltac:(lia)) as [Ha _].
  rewrite (swrap_small 32) by (unfold in_s; lia).
  apply IH; [lia..|]. intros type q. split_guard; [|apply Htb]. bool_facts.
  destruct (decide (type = Z.land ty NLA_TYPE_MASK)) as [->|Hne].
  - rewrite lookup_insert_eq. intros [= <-]. split; [lia|].
    exists l. split_and!; try done; lia.
  - rewrite lookup_insert_ne by done. apply Htb.
Qed.

Lemma parse_short mem maxtype head len :
  len < 4 -> rkx_nla_parse mem maxtype head len = Some ∅.
Proof.
  intros Hl. unfold rkx_nla_parse, nla_parse_loop, nla_ok.
  destruct (Z.to_nat len); destruct (Z.geb_spec len 4); (done || lia).
Qed.

(** An attribute found by a parse can be parsed as a nest and read. *)
Lemma attr_inside_len mem head len p :
  attr_inside mem head len p ->
  exists n, nla_len mem p = Some n /\ 0 <= n < 2 ^ 16 /\ (head <= p)%nat
    /\ Z.of_nat (nla_data p) + n <= Z.of_nat head + len.
Proof.
  intros (l & Hl & Hr & Hp & Hb). unfold nla_len. rewrite Hl. cbn [mbind option_bind].
  unfold NLA_HDRLEN, nla_data, NLA_HDRLEN in *. rewrite (uwrap_small 16) by (unfold in_u; lia).
  exists (l - 4). split_and!; try done; lia.
Qed.

Lemma nla_get_safe mem head len size conv nla out :
  Z.of_nat head + len <= Z.of_nat (length mem) ->
  (forall p, nla = Some p -> attr_inside mem head len p) ->
  exists r, rkx_nla_get mem size conv nla out = Some r.
Proof.
  intros Hmem Hin. unfold rkx_nla_get. destruct nla as [p|]; [|by eexists].
  destruct (attr_inside_len _ _ _ _ (Hin p eq_refl)) as (n & -> & Hn & _ & Hb).
  cbn [mbind option_bind]. destruct (Z.ltb_spec n (Z.of_nat size)); [by eexists|].
  destruct (rd_u_Some mem (nla_data p) size ltac:(lia)) as (v & -> & _). by eexists.
Qed.

(** The two guarded readers agree, and an unguarded one agrees with them where
    their guard passes. *)
Lemma nla_get_val_agrees mem size conv nla def_val :
  nla_get_val mem size conv nla def_val = snd <$> rkx_nla_get mem size conv nla def_val.
Proof.
  unfold nla_get_val, rkx_nla_get. destruct nla as [p|]; [|done].
  destruct (nla_len mem p); [cbn [mbind option_bind]|done]. split_guard; [done|].
  by destruct (rd_u mem _ _).
Qed.

Lemma nla_get_s32_agrees mem p len def_val :
  nla_len mem p = Some len -> 4 <= len ->
  nla_get_val mem 4 s32 (Some p) def_val = nla_get_s32 mem p.
Proof.
  intros Hl H4. unfold nla_get_val, nla_get_s32. rewrite Hl. cbn [mbind option_bind].
  by rewrite (proj2 (Z.ltb_ge _ _)) by (cbn; lia).
Qed.

Lemma parse_safe mem maxtype head len :
  Z.of_nat head + len <= Z.of_nat (length mem) -> -4 < len < 2 ^ 31 ->
  exists tb, rkx_nla_parse mem maxtype head len = Some tb
    /\ table_inside mem head len maxtype tb.
Proof.
  intros Hmem Hlen. apply parse_loop_safe; try done; try lia.
Qed.

Lemma parse_nested_safe mem maxtype head len p :
  Z.of_nat head + len <= Z.of_nat (length mem) -> attr_inside mem head len p ->
  exists n tb, nla_len mem p = Some n /\ 0 <= n < 2 ^ 16
    /\ Z.of_nat (nla_data p) + n <= Z.of_nat (length mem)
    /\ rkx_nla_parse_nested mem maxtype p = Some tb
    /\ table_inside mem (nla_data p) n maxtype tb.
Proof.
  intros Hmem Hin. destruct (attr_inside_len _ _ _ _ Hin) as (n & Hn & Hr & _ & Hb).
  destruct (parse_safe mem maxtype (nla_data p) n) as (tb & Hp & Ht); [lia..|].
  exists n, tb. split_and!; try done; try lia. unfold rkx_nla_parse_nested. by rewrite Hn.
Qed.

(** C15: parsing is safe on every byte string: for any head and length inside
    the memory, and whatever the attribute headers claim, the parser stops
    after finitely many attributes, reads nothing outside, and every attribute
    it hands out has a type the table has a slot for and lies, header and
    payload, inside the parsed bytes, so a nested parse or a guarded read of it
    is safe too. *)
Theorem nla_parse_stays_inside mem maxtype head len :
  Z.of_nat head + len <= Z.of_nat (length mem) -> -4 < len < 2 ^ 31 ->
  exists tb, rkx_nla_parse mem maxtype head len = Some tb
    /\ forall type p, tb !! type = Some p ->
         0 < type <= maxtype /\ attr_inside mem head len p
         /\ (exists tb', rkx_nla_parse_nested mem maxtype p = Some tb')
         /\ forall size conv out, exists r, rkx_nla_get mem size conv (Some p) out = Some r.
Proof.
  intros Hmem Hlen. destruct (parse_safe mem maxtype head len Hmem Hlen) as (tb & Hp & Ht).
  exists tb. split; [done|]. intros type p Htp. destruct (Ht type p Htp) as [Hty Hin].
  split; [done|]. split; [done|]. split.
  - destruct (parse_nested_safe mem maxtype head len p Hmem Hin) as (_ & tb' & _ & _ & _ & Htb' & _).
    by exists tb'.
  - intros size conv out. apply (nla_get_safe mem head len); [done|]. by intros ? [= <-].
Qed.

(** ** The wire format *)

Definition attr_pad (data : list byte) : nat :=
  Z.to_nat (NLA_ALIGN (4 + Z.of_nat (length data)) - (4 + Z.of_nat (length data))).

Definition attr_bytes (type : Z) (data : list byte) : list byte :=
  le_bytes 2 (4 + Z.of_nat (length data)) ++ le_bytes 2 type ++ data ++ replicate (attr_pad data) NUL.

Definition attrs_bytes (l : list (Z * list byte)) : list byte := l ≫= (fun a => attr_bytes a.1 a.2).

(** What the slots hold after parsing [l] at [p]. *)
Fixpoint attr_table (maxtype : Z) (p : nat) (l : list (Z * list byte)) (tb : gmap Z nat)
    : gmap Z nat :=
  match l with
  | [] => tb
  | (t, d) :: l =>
      let type := Z.land t NLA_TYPE_MASK in
      attr_table maxtype (p + length (attr_bytes t d)) l
        (if (0 <? type) && (type <=? maxtype) then <[type := p]> tb else tb)
  end.

(** The payload the last attribute of a type carries. *)
Fixpoint attr_value (maxtype type : Z) (l : list (Z * list byte)) : option (list byte) :=
  match l with
  | [] => None
  | (t, d) :: l =>
      match attr_value maxtype type l with
      | Some d' => Some d'
      | None => if (Z.land t NLA_TYPE_MASK =? type) && (0 <? type) && (type <=? maxtype)
                then Some d else None
      end
  end.

Definition small_attr (a : Z * list byte) : Prop :=
  0 <= a.1 < 2 ^ 16 /\ Z.of_nat (length a.2) < 2 ^ 16 - 8.

Lemma length_attr_bytes t d :
  Z.of_nat (length (attr_bytes t d)) = NLA_ALIGN (4 + Z.of_nat (length d)).
Proof.
  unfold attr_bytes, attr_pad. rewrite !length_app, !length_le_bytes, length_replicate.
  pose proof (NLA_ALIGN_spec (4 + Z.of_nat (length d)) ltac:(lia)). lia.
Qed.

Lemma length_attr_bytes_min t d : (length d + 4 <= length (attr_bytes t d))%nat.
Proof.
  pose proof (length_attr_bytes t d). pose proof (NLA_ALIGN_spec (4 + Z.of_nat (length d)) ltac:(lia)).
  lia.
Qed.

Lemma attrs_bytes_cons t d l : attrs_bytes ((t, d) :: l) = attr_bytes t d ++ attrs_bytes l.
Proof. done. Qed.

Lemma attrs_bytes_app l1 l2 : attrs_bytes (l1 ++ l2) = attrs_bytes l1 ++ attrs_bytes l2.
Proof. unfold attrs_bytes. by rewrite bind_app. Qed.

(** Reading the attribute at the end of [pre]. *)
Lemma attr_header pre t d post :
  small_attr (t, d) ->
  rd_u (pre ++ attr_bytes t d ++ post) (length pre) 2 = Some (4 + Z.of_nat (length d))
  /\ rd_u (pre ++ attr_bytes t d ++ post) (length pre + 2) 2 = Some t
  /\ mem_bytes (pre ++ attr_bytes t d ++ post) (nla_data (length pre)) (length d) = Some d.
Proof.
  intros [Ht Hd]. cbn [fst snd] in *. unfold attr_bytes. rewrite <- !app_assoc. split_and!.
  - rewrite rd_u_app by (rewrite ?length_le_bytes; done). rewrite le_Z_bytes.
    by rewrite uwrap_small by (unfold in_u; cbn; lia).
  - rewrite (app_assoc pre). rewrite rd_u_app by (rewrite ?length_app, ?length_le_bytes; done).
    rewrite le_Z_bytes. by rewrite uwrap_small by (unfold in_u; cbn; lia).
  - rewrite (app_assoc pre), (app_assoc (pre ++ _)). apply mem_bytes_app; [|done].
    unfold nla_data, NLA_HDRLEN. rewrite !length_app, !length_le_bytes. lia.
Qed.

Lemma parse_loop_attrs maxtype fuel tb pre l post :
  Forall small_attr l -> Z.of_nat (length (attrs_bytes l)) < 2 ^ 31 ->
  (length (attrs_bytes l) <= fuel)%nat ->
  nla_parse_loop (pre ++ attrs_bytes l ++ post) fuel maxtype tb (length pre)
    (Z.of_nat (length (attrs_bytes l)))
  = Some (attr_table maxtype (length pre) l tb).
Proof.
  intros Hl. revert fuel tb pre. induction Hl as [|[t d] l Ha Hl IH]; intros fuel tb pre Hlen Hf.
  { by destruct fuel. }
  rewrite attrs_bytes_cons, length_app, <- app_assoc in *.
  pose proof (length_attr_bytes_min t d). pose proof (length_attr_bytes t d) as Htot.
  destruct (attr_header pre t d (attrs_bytes l ++ post) Ha) as (Hlen' & Hty & _).
  destruct fuel as [|fuel]; [lia|]. cbn [nla_parse_loop attr_table]. unfold nla_ok at 1.
  rewrite (proj2 (Z.geb_le _ _)), Hlen' by lia. cbn [mbind option_bind].
  rewrite (proj2 (Z.leb_le 4 _)), (proj2 (Z.leb_le _ _)) by lia. cbn [andb].
  unfold nla_type. rewrite Hty. cbn [mbind option_bind]. unfold nla_next. rewrite Hlen'.
  cbn [mbind option_bind]. rewrite <- Htot, Nat2Z.id.
  rewrite (swrap_small 32) by (unfold in_s; lia).
  replace (Z.of_nat (length (attr_bytes t d) + length (attrs_bytes l))
           - Z.of_nat (length (attr_bytes t d))) with (Z.of_nat (length (attrs_bytes l))) by lia.
  rewrite (app_assoc pre), <- length_app. apply IH; lia.
Qed.

Lemma parse_attrs maxtype pre l post head len :
  Forall small_attr l -> Z.of_nat (length (attrs_bytes l)) < 2 ^ 31 ->
  head = length pre -> len = Z.of_nat (length (attrs_bytes l)) ->
  rkx_nla_parse (pre ++ attrs_bytes l ++ post) maxtype head len
  = Some (attr_table maxtype (length pre) l ∅).
Proof. intros Hl Hlen -> ->. apply parse_loop_attrs; [done..|lia]. Qed.

Lemma attr_table_value maxtype type pre l post tb :
  Forall small_attr l ->
  match attr_value maxtype type l with
  | Some d => exists t pre' post', attr_table maxtype (length pre) l tb !! type = Some (length pre')
      /\ pre ++ attrs_bytes l ++ post = pre' ++ attr_bytes t d ++ post' /\ small_attr (t, d)
  | None => attr_table maxtype (length pre) l tb !! type = tb !! type
  end.
Proof.
  intros Hl. revert pre tb. induction Hl as [|[t d] l Ha Hl IH]; intros pre tb; [done|].
  cbn [attr_value attr_table]. rewrite attrs_bytes_cons, <- app_assoc, <- length_app.
  set (tb' := if (0 <? Z.land t NLA_TYPE_MASK) && _ then _ else tb). specialize (IH (pre ++ attr_bytes t d) tb').
  rewrite <- app_assoc in IH. destruct (attr_value maxtype type l) as [d'|]; [exact IH|].
  rewrite IH. subst tb'. destruct (Z.eqb_spec (Z.land t NLA_TYPE_MASK) type) as [->|Hne]; cbn [andb].
  - split_guard; [|done]. exists t, pre, (attrs_bytes l ++ post).
    by rewrite lookup_insert_eq.
  - split_guard; [|done]. by rewrite lookup_insert_ne.
Qed.

(** The attribute at [p] carries [d]. *)
Definition attr_at (mem : list byte) (p : nat) (d : list byte) : Prop :=
  exists pre t post, mem = pre ++ attr_bytes t d ++ post /\ p = length pre /\ small_attr (t, d).

(** A table that gives every type the payload [l] has for it. *)
Definition table_reads (mem : list byte) (maxtype : Z) (tb : gmap Z nat)
    (l : list (Z * list byte)) : Prop :=
  forall type, match attr_value maxtype type l with
               | Some d => exists p, tb !! type = Some p /\ attr_at mem p d
               | None => tb !! type = None
               end.

Lemma parse_reads maxtype pre l post head len :
  Forall small_attr l -> Z.of_nat (length (attrs_bytes l)) < 2 ^ 31 ->
  head = length pre -> len = Z.of_nat (length (attrs_bytes l)) ->
  exists tb, rkx_nla_parse (pre ++ attrs_bytes l ++ post) maxtype head len = Some tb
    /\ table_reads (pre ++ attrs_bytes l ++ post) maxtype tb l.
Proof.
  intros Hl Hlen Hh Hle. eexists. split; [by apply parse_attrs|]. intros type.
  pose proof (attr_table_value maxtype type pre l post ∅ Hl) as Hv.
  destruct (attr_value maxtype type l) as [d|]; [|by rewrite Hv, lookup_empty].
  destruct Hv as (t & pre' & post' & Ht & Hm & Hs). exists (length pre'). split; [done|].
  by exists pre', t, post'.
Qed.

Lemma attr_at_len mem p d : attr_at mem p d -> nla_len mem p = Some (Z.of_nat (length d)).
Proof.
  intros (pre & t & post & -> & -> & Hs). destruct (attr_header pre t d post Hs) as (Hl & _ & _).
  unfold nla_len, NLA_HDRLEN. rewrite Hl. cbn [mbind option_bind].
  destruct Hs as [_ Hd]. cbn [snd] in Hd. rewrite uwrap_small by (unfold in_u; lia). f_equal. lia.
Qed.

Lemma attr_at_data mem p d :
  attr_at mem p d -> mem_bytes mem (nla_data p) (length d) = Some d.
Proof. intros (pre & t & post & -> & -> & Hs). by apply attr_header. Qed.

Lemma mem_bytes_prefix mem off n l k :
  mem_bytes mem off n = Some l -> (k <= n)%nat -> mem_bytes mem off k = Some (take k l).
Proof.
  unfold mem_bytes. destruct (Nat.eqb_spec (length (take n (drop off mem))) n) as [E|]; [|done].
  intros [= <-] Hk. rewrite length_take in E. rewrite take_take, Nat.min_l by done.
  by rewrite (proj2 (Nat.eqb_eq _ _)) by (rewrite length_take; lia).
Qed.

Lemma attr_at_get mem size conv p d out :
  attr_at mem p d -> (size <= length d)%nat ->
  rkx_nla_get mem size conv (Some p) out = Some (true, conv (le_Z (take size d))).
Proof.
  intros Ha Hsz. unfold rkx_nla_get. rewrite (attr_at_len _ _ _ Ha). cbn [mbind option_bind].
  rewrite (proj2 (Z.ltb_ge _ _)) by lia. unfold rd_u.
  by rewrite (mem_bytes_prefix _ _ _ d size (attr_at_data _ _ _ Ha)).
Qed.

Lemma attr_at_s32 mem p v out :
  attr_at mem p (le_bytes 4 v) -> get_s32 mem (Some p) out = Some (true, s32 v).
Proof.
  intros Ha. unfold get_s32. erewrite attr_at_get by (done || by rewrite length_le_bytes).
  rewrite take_ge by (by rewrite length_le_bytes). rewrite le_Z_bytes.
  by rewrite swrap_uwrap.
Qed.

Lemma attr_at_nested mem maxtype p l :
  attr_at mem p (attrs_bytes l) -> Forall small_attr l ->
  exists tb, rkx_nla_parse_nested mem maxtype p = Some tb /\ table_reads mem maxtype tb l.
Proof.
  intros Ha Hl. unfold rkx_nla_parse_nested. rewrite (attr_at_len _ _ _ Ha). cbn [mbind option_bind].
  destruct Ha as (pre & t & post & -> & -> & [_ Hd]). cbn [snd] in Hd. unfold attr_bytes.
  rewrite <- !app_assoc, (app_assoc pre), (app_assoc (pre ++ _)).
  apply parse_reads; [done|lia| |done].
  unfold nla_data, NLA_HDRLEN. rewrite !length_app, !length_le_bytes. lia.
Qed.

(** ** The builder writes the wire format *)

Lemma mem_write_Some mem off bytes :
  (off + length bytes <= length mem)%nat ->
  mem_write mem off bytes = Some (take off mem ++ bytes ++ drop (off + length bytes) mem).
Proof. intros Hl. unfold mem_write. by rewrite (proj2 (Nat.leb_le _ _)). Qed.

Lemma mem_write_None mem off bytes :
  (length mem < off + length bytes)%nat -> mem_write mem off bytes = None.
Proof. intros Hl. unfold mem_write. by rewrite (proj2 (Nat.leb_gt _ _)). Qed.

Lemma mem_write_length mem off bytes mem' :
  mem_write mem off bytes = Some mem' -> length mem' = length mem.
Proof.
  unfold mem_write. destruct (Nat.leb_spec (off + length bytes) (length mem)); [|done].
  intros [= <-]. rewrite !length_app, length_take, length_drop. lia.
Qed.

(** Writes one behind the other are one write. *)
Lemma mem_write_app mem off b1 b2 off' :
  off' = (off + length b1)%nat ->
  (mem1 ← mem_write mem off b1; mem_write mem1 off' b2) = mem_write mem off (b1 ++ b2).
Proof.
  intros ->. unfold mem_write. rewrite length_app.
  destruct (Nat.leb_spec (off + length b1) (length mem)) as [H1|H1]; cbn [mbind option_bind].
  2:{ by rewrite (proj2 (Nat.leb_gt _ _)) by lia. }
  rewrite !length_app, length_take, length_drop.
  destruct (Nat.leb_spec (off + (length b1 + length b2)) (length mem)) as [H2|H2].
  2:{ by rewrite (proj2 (Nat.leb_gt _ _)) by lia. }
  rewrite (proj2 (Nat.leb_le _ _)) by lia. f_equal.
  rewrite !(app_assoc (take off mem) b1 (drop _ _)).
  rewrite take_app_length' by (rewrite length_app, length_take; lia).
  rewrite drop_app_ge by (rewrite length_app, length_take; lia).
  rewrite length_app, length_take, drop_drop, <- !app_assoc.
  replace (off + length b1 + (off + length b1 + length b2 - (off `min` length mem + length b1)))%nat
    with (off + (length b1 + length b2))%nat by lia. done.
Qed.

Lemma mem_write_nil mem off : (off <= length mem)%nat -> mem_write mem off [] = Some mem.
Proof.
  intros Ho. rewrite mem_write_Some by (cbn; lia). cbn [length app].
  by rewrite Nat.add_0_r, take_drop.
Qed.

Record builder_wf (b : NlaBuilder) : Prop := {
  bw_cap : length (nb_buf b) = nb_cap b;
  bw_len : (nb_len b <= nb_cap b)%nat;
}.

(** The message built so far. *)
Definition nb_msg (b : NlaBuilder) : list byte := take (nb_len b) (nb_buf b).

Definition nb_append (b : NlaBuilder) (bytes : list byte) : NlaBuilder :=
  {| nb_buf := take (nb_len b) (nb_buf b) ++ bytes ++ drop (nb_len b + length bytes) (nb_buf b);
     nb_cap := nb_cap b; nb_len := (nb_len b + length bytes)%nat |}.

Lemma nb_append_wf b bytes :
  builder_wf b -> (nb_len b + length bytes <= nb_cap b)%nat -> builder_wf (nb_append b bytes).
Proof.
  intros [Hc Hl] Hf. split; cbn; [|done]. rewrite !length_app, length_take, length_drop. lia.
Qed.

Lemma nb_append_msg b bytes :
  builder_wf b -> nb_msg (nb_append b bytes) = nb_msg b ++ bytes.
Proof.
  intros [Hc Hl]. unfold nb_msg, nb_append. cbn [nb_len nb_buf].
  rewrite app_assoc. apply take_app_length'. rewrite length_app, length_take. lia.
Qed.

Lemma nb_put_spec b type data :
  builder_wf b -> Z.of_nat (length data) < 2 ^ 16 - 8 ->
  nb_put b type data (Z.of_nat (length data))
  = Some (if (nb_len b + length (attr_bytes type data) <=? nb_cap b)%nat
          then (true, nb_append b (attr_bytes type data)) else (false, b)).
Proof.
  intros [Hc Hl] Hd. pose proof (length_attr_bytes type data) as Htot.
  destruct (NLA_ALIGN_spec (4 + Z.of_nat (length data)) ltac:(lia)) as [Ha _].
  unfold nb_put, NLA_HDRLEN. change (Z.of_nat 4) with 4.
  rewrite (uwrap_small 16 (4 + _)) by (unfold in_u; lia).
  rewrite (uwrap_small 16 (NLA_ALIGN _)) by (unfold in_u; lia).
  set (n := length (attr_bytes type data)) in *. rewrite <- Htot.
  destruct (Nat.leb_spec (nb_len b + n) (nb_cap b)) as [Hfit|Hno].
  2:{ by rewrite (proj2 (Z.gtb_lt _ _)) by lia. }
  destruct (Z.of_nat (nb_len b) + Z.of_nat n >? Z.of_nat (nb_cap b)) eqn:Efit; [lia|].
  transitivity ((fun buf => (true, {| nb_buf := buf; nb_cap := nb_cap b;
      nb_len := (nb_len b + n)%nat |})) <$> mem_write (nb_buf b) (nb_len b) (attr_bytes type data)).
  2:{ unfold mem_write. fold n. by rewrite (proj2 (Nat.leb_le _ _)) by lia. }
  unfold attr_bytes.
  rewrite <- (mem_write_app _ _ _ _ (nb_len b + 2)) by (by rewrite length_le_bytes).
  destruct (mem_write (nb_buf b) (nb_len b) _) as [buf1|] eqn:E1; [cbn [mbind option_bind]|done].
  rewrite <- (mem_write_app _ _ _ _ (nb_len b + 4)) by (rewrite length_le_bytes; lia).
  destruct (mem_write buf1 _ _) as [buf2|] eqn:E2; [cbn [mbind option_bind]|done].
  apply mem_write_length in E1, E2.
  rewrite <- (mem_write_app _ _ _ _ (nb_len b + (4 + length data))) by lia.
  assert (Hcopy : (if Z.of_nat (length data) =? 0 then Some buf2 else
       bytes ← mem_bytes data 0 (Z.to_nat (Z.of_nat (length data)));
       mem_write buf2 (nb_len b + 4) bytes) = mem_write buf2 (nb_len b + 4) data).
  { rewrite Nat2Z.id, mem_bytes_Some, drop_0, firstn_all by lia.
    destruct (Z.eqb_spec (Z.of_nat (length data)) 0); [|done].
    destruct data; [|done]. by rewrite mem_write_nil by lia. }
  rewrite Hcopy. destruct (mem_write buf2 _ _) as [buf3|] eqn:E3; [cbn [mbind option_bind]|done].
  apply mem_write_length in E3. unfold attr_pad. rewrite <- Htot, Nat2Z.id.
  replace (Z.to_nat (4 + Z.of_nat (length data))) with (4 + length data)%nat by lia.
  destruct (Z.of_nat n >? 4 + Z.of_nat (length data)) eqn:Epad.
  - by destruct (mem_write buf3 _ _).
  - replace (Z.to_nat (Z.of_nat n - (4 + Z.of_nat (length data)))) with 0%nat by lia.
    by rewrite mem_write_nil by lia.
Qed.

(** ** Whole messages *)

Lemma length_genl_header len family flags seq cmd version :
  length (genl_header len family flags seq cmd version) = 20%nat.
Proof. unfold genl_header. by rewrite !length_app, !length_le_bytes. Qed.

Lemma genl_header_reads len family flags seq cmd version body :
  let mem := genl_header len family flags seq cmd version ++ body in
  rd_u mem 0 4 = Some (u32 len) /\ rd_u mem 4 2 = Some (u16 family)
  /\ rd_u mem 16 1 = Some (u8 cmd).
Proof.
  cbv zeta. unfold genl_header. rewrite <- !app_assoc. split_and!.
  - unfold rd_u, mem_bytes. rewrite drop_0, take_app_length', length_le_bytes
      by (by rewrite length_le_bytes). cbn [Nat.eqb fmap option_fmap option_map].
    by rewrite le_Z_bytes.
  - rewrite rd_u_app by (by rewrite ?length_le_bytes). by rewrite le_Z_bytes.
  - do 4 rewrite app_assoc. rewrite rd_u_app by (by rewrite ?length_app, ?length_le_bytes).
    by rewrite le_Z_bytes.
Qed.

(** The constructor and [putGenlHeader] leave a builder holding the header. *)
Lemma nb_start_spec buf family seq cmd version :
  (20 <= length buf)%nat ->
  exists b, (b ← nb_init buf; putGenlHeader b family seq cmd version) = Some b
    /\ builder_wf b /\ nb_cap b = length buf
    /\ nb_msg b = genl_header 0 family NLM_F_REQUEST seq cmd version.
Proof.
  intros Hb. unfold nb_init, putGenlHeader, NLMSG_HDRLEN, GENL_HDRLEN.
  rewrite mem_write_Some by (rewrite length_replicate; lia). cbn [mbind option_bind nb_buf nb_cap nb_len].
  set (buf1 := take 0 buf ++ _).
  assert (H1 : length buf1 = length buf).
  { subst buf1. rewrite !length_app, length_take, length_drop, length_replicate. lia. }
  rewrite mem_write_Some by (rewrite length_genl_header; lia). cbn [mbind option_bind].
  eexists. split; [done|]. split; [split|]; cbn [nb_buf nb_cap nb_len].
  - rewrite !length_app, length_genl_header, length_take, length_drop. lia.
  - lia.
  - split; [done|]. unfold nb_msg. cbn [nb_buf nb_len]. rewrite take_0, app_nil_l.
    apply take_app_length'. by rewrite length_genl_header.
Qed.

Lemma nb_finish_spec b family flags seq cmd version body :
  builder_wf b -> nb_msg b = genl_header 0 family flags seq cmd version ++ body ->
  exists buf, nb_finish b = Some (nb_len b, buf) /\ nb_len b = (20 + length body)%nat
    /\ take (nb_len b) buf
       = genl_header (Z.of_nat (nb_len b)) family flags seq cmd version ++ body.
Proof.
  intros [Hc Hl] Hmsg.
  assert (Hlen : nb_len b = (20 + length body)%nat).
  { apply (f_equal length) in Hmsg. unfold nb_msg in Hmsg.
    rewrite length_app, length_genl_header, length_take in Hmsg. lia. }
  unfold nb_finish. rewrite mem_write_Some by (rewrite length_le_bytes; lia).
  eexists. split; [done|]. split; [done|]. rewrite take_0, app_nil_l, length_le_bytes.
  rewrite take_app_ge by (rewrite length_le_bytes; lia). rewrite length_le_bytes.
  rewrite take_drop_commute. replace (0 + 4 + (nb_len b - 4))%nat with (nb_len b) by lia.
  change (take (nb_len b) (nb_buf b)) with (nb_msg b). rewrite Hmsg.
  unfold genl_header. rewrite <- !app_assoc. f_equal.
Qed.

(** [put] one after the other, stopping at the first that fails. *)
Fixpoint nb_put_all (b : NlaBuilder) (l : list (Z * list byte)) : option (bool * NlaBuilder) :=
  match l with
  | [] => Some (true, b)
  | (t, d) :: l =>
      '(ok, b) ← nb_put b t d (Z.of_nat (length d));
      if (ok : bool) then nb_put_all b l else Some (false, b)
  end.

Lemma nb_put_all_fits b l :
  builder_wf b -> Forall small_attr l -> (nb_len b + length (attrs_bytes l) <= nb_cap b)%nat ->
  exists b', nb_put_all b l = Some (true, b') /\ builder_wf b' /\ nb_cap b' = nb_cap b
    /\ nb_msg b' = nb_msg b ++ attrs_bytes l.
Proof.
  intros Hb Hl. revert b Hb. induction Hl as [|[t d] l [_ Hd] Hl IH]; intros b Hb Hfit.
  { exists b. split_and!; try done. by rewrite app_nil_r. }
  rewrite attrs_bytes_cons, length_app in Hfit. cbn [nb_put_all snd] in *.
  rewrite nb_put_spec by done. rewrite (proj2 (Nat.leb_le _ _)) by lia. cbn [mbind option_bind].
  destruct (IH (nb_append b (attr_bytes t d))) as (b' & -> & Hb' & Hcap & Hmsg).
  { apply nb_append_wf; [done|lia]. }
  { cbn [nb_append nb_len nb_cap]. lia. }
  exists b'. split_and!; try done.
  by rewrite Hmsg, nb_append_msg, attrs_bytes_cons, app_assoc.
Qed.

(** C16: building and parsing are inverse: any attributes that fit the caller's
    buffer can be put one after the other, and parsing the finished message
    finds for every type exactly the payload of the last attribute of that type,
    header, padding and lengths included. *)
Theorem builder_parse_roundtrip buf family seq cmd version maxtype l :
  Forall small_attr l -> (20 + length (attrs_bytes l) <= length buf)%nat ->
  Z.of_nat (length buf) < 2 ^ 31 ->
  exists b0 b1 len msg tb,
    (b ← nb_init buf; putGenlHeader b family seq cmd version) = Some b0
    /\ nb_put_all b0 l = Some (true, b1) /\ nb_finish b1 = Some (len, msg)
    /\ rkx_nla_parse (take len msg) maxtype 20 (Z.of_nat len - 20) = Some tb
    /\ table_reads (take len msg) maxtype tb l.
Proof.
  intros Hl Hfit Hbig.
  destruct (nb_start_spec buf family seq cmd version ltac:(lia)) as (b0 & H0 & Hw0 & Hc0 & Hm0).
  assert (Hlen0 : nb_len b0 = 20%nat).
  { apply (f_equal length) in Hm0. unfold nb_msg in Hm0. destruct Hw0.
    rewrite length_genl_header, length_take in Hm0. lia. }
  destruct (nb_put_all_fits b0 l Hw0 Hl ltac:(lia)) as (b1 & H1 & Hw1 & _ & Hm1).
  rewrite Hm0 in Hm1. destruct (nb_finish_spec b1 _ _ _ _ _ _ Hw1 Hm1) as (msg & Hf & Hlen & Htake).
  destruct (parse_reads maxtype (genl_header (Z.of_nat (nb_len b1)) family NLM_F_REQUEST seq cmd
    version) l [] 20 (Z.of_nat (nb_len b1) - 20)) as (tb & Hp & Hr);
    [done|lia|by rewrite length_genl_header|lia|].
  rewrite app_nil_r in *.
  exists b0, b1, (nb_len b1), msg, tb. rewrite Htake. by split_and!.
Qed.

(** C37: a name of 65528 to 65534 characters overflows the 16 bit lengths of the
    builder: the space check passes and the copy writes past the end of any
    buffer smaller than the name. *)
Theorem putString_overflow b type s :
  builder_wf b -> (nb_len b + 4 <= nb_cap b)%nat -> Z.of_nat (nb_cap b) < 65528 ->
  65528 <= Z.of_nat (length s) < 65535 -> putString b type s = None.
Proof.
  intros [Hc Hl] Hroom Hcap Hs. unfold putString, nb_put, NLA_HDRLEN. change (Z.of_nat 4) with 4.
  rewrite (uwrap_small 16 (_ + 1)) by (unfold in_u; lia).
  set (attr_len := u16 (4 + _)). set (aligned := u16 (NLA_ALIGN attr_len)).
  assert (Hal : 0 <= aligned <= 4).
  { subst aligned attr_len. destruct (decide (4 + (Z.of_nat (length s) + 1) < 2 ^ 16)).
    - rewrite (uwrap_small 16 (4 + _)) by (unfold in_u; lia).
      destruct (NLA_ALIGN_spec (4 + (Z.of_nat (length s) + 1)) ltac:(lia)) as [Ha Hm].
      pose proof (Z.div_mod (NLA_ALIGN (4 + (Z.of_nat (length s) + 1))) 4 ltac:(lia)).
      replace (NLA_ALIGN (4 + (Z.of_nat (length s) + 1))) with (2 ^ 16) by lia. change (u16 (2 ^ 16)) with 0. lia.
    - assert (Hu : u16 (4 + (Z.of_nat (length s) + 1)) = Z.of_nat (length s) + 5 - 2 ^ 16).
      { unfold uwrap. symmetry. apply (Z.mod_unique _ _ 1); lia. }
      rewrite Hu. destruct (NLA_ALIGN_spec (Z.of_nat (length s) + 5 - 2 ^ 16) ltac:(lia)) as [Ha Hm].
      rewrite uwrap_small by (unfold in_u; lia).
      pose proof (Z.div_mod (NLA_ALIGN (Z.of_nat (length s) + 5 - 2 ^ 16)) 4 ltac:(lia)). lia. }
  destruct (_ >? _) eqn:E; [lia|].
  destruct (mem_write (nb_buf b) _ _) as [b1|] eqn:E1; [cbn [mbind option_bind]|done].
  destruct (mem_write b1 _ _) as [b2|] eqn:E2; [cbn [mbind option_bind]|done].
  apply mem_write_length in E1, E2. rewrite (proj2 (Z.eqb_neq _ 0)) by lia.
  rewrite mem_bytes_Some by (rewrite length_app; cbn; lia). cbn [mbind option_bind].
  rewrite mem_write_None; [done|].
  rewrite length_take, length_drop, length_app. cbn. lia.
Qed.

(** ** Evaluations *)

Definition demo_attrs : list (Z * list byte) :=
  [(42, str "android.os.IMessenger" ++ [NUL]); (43, le_bytes 4 (-1)); (41, le_bytes 1 3)].

Lemma nla_parse_stays_inside_witness :
  exists tb, rkx_nla_parse (replicate 24 Byte.x05) 49 4 20 = Some tb.
Proof.
  destruct (nla_parse_stays_inside (replicate 24 Byte.x05) 49 4 20) as (tb & Htb & _);
    [vm_compute; discriminate|lia|]. by exists tb.
Defined.

Lemma builder_parse_roundtrip_witness :
  exists len msg tb, rkx_nla_parse (take len msg) 49 20 (Z.of_nat len - 20) = Some tb
    /\ table_reads (take len msg) 49 tb demo_attrs.
Proof.
  destruct (builder_parse_roundtrip (replicate 256 NUL) 30 1 4 1 49 demo_attrs)
    as (b0 & b1 & len & msg & tb & _ & _ & _ & Hp & Hr).
  - repeat constructor; vm_compute; (reflexivity || discriminate).
  - apply Nat.leb_le. vm_compute. reflexivity.
  - vm_compute. reflexivity.
  - exists len, msg, tb. split; [exact Hp|exact Hr].
Defined.

Lemma putString_overflow_witness :
  putString {| nb_buf := replicate 256 NUL; nb_cap := 256; nb_len := 20 |} 42
    (replicate (Z.to_nat 65530) Byte.x61) = None.
Proof.
  apply putString_overflow; cbn [nb_len nb_cap]; rewrite ?length_replicate; try lia.
  split; [apply length_replicate|]. cbn [nb_len nb_cap]. lia.
Defined.
