(* ===== verification/Genl.v ===== *)
(** rkx_genl.c: the generic netlink family.  Requests from user space change
    the tables of NetUid.v and FreeAsync.v; [rkx_send_message] turns an event
    into a multicast message.

    The attribute writers, the message buffer and the attribute validation of
    the kernel are interfaces; their laws are what include/net/netlink.h
    documents. *)

From S2P Require Import Prelude HashTable Uapi NetUid FreeAsync Nla.

(** ** Requests *)

Inductive nla_policy :=
  | NLA_NESTED | NLA_U8 | NLA_U32 | NLA_S32
  | NLA_NUL_STRING (len : nat).

Definition rkx_genl_policy (a : rkx_genl_attr) : option nla_policy :=
  match a with
  | RKX_A_EVENT => Some NLA_NESTED
  | RKX_A_UID => Some NLA_U32
  | RKX_A_FREE_ASYNC_STRATEGY => Some NLA_U8
  | RKX_A_FREE_ASYNC_RPC_NAME => Some (NLA_NUL_STRING (RKX_INTERFACETOKEN_BUFF_SIZE - 1))
  | RKX_A_FREE_ASYNC_CODE => Some NLA_S32
  | _ => None
  end.

(** What validation against a policy guarantees about a payload, and payloads
    it never refuses. *)
Class NlaValidate := {
  nla_validate : nla_policy -> list byte -> bool;
  validate_u8 d : nla_validate NLA_U8 d = true -> (1 <= length d)%nat;
  validate_u32 d : nla_validate NLA_U32 d = true -> (4 <= length d)%nat;
  validate_s32 d : nla_validate NLA_S32 d = true -> (4 <= length d)%nat;
  validate_nul_string n d : nla_validate (NLA_NUL_STRING n) d = true ->
    exists s, c_string d = Some s /\ (length s <= n)%nat;
  validate_u8_ok d : length d = 1%nat -> nla_validate NLA_U8 d = true;
  validate_u32_ok d : length d = 4%nat -> nla_validate NLA_U32 d = true;
  validate_s32_ok d : length d = 4%nat -> nla_validate NLA_S32 d = true;
  validate_nul_string_ok n s : no_nul s -> (length s <= n)%nat ->
    nla_validate (NLA_NUL_STRING n) (s ++ [NUL]) = true;
}.

(** [info->attrs]: the payload of each attribute present. *)
Abbreviation genl_attrs := (rkx_genl_attr -> option (list byte)).

(** The state the handlers work on. *)
Record rkx_state := { rkx_uids : net_uid_state; rkx_rules : free_async_state }.

Definition nla_get (size : nat) (d : list byte) : option Z := rd_u d 0 size.

Section Requests.
Context `{HashFn} `{Jhash}.
Implicit Types (info : genl_attrs) (s : rkx_state).

Definition rkx_genl_monitor_net (kmalloc_ok : bool) info s : option (Z * rkx_state) :=
  match info RKX_A_UID with
  | None => Some (- EINVAL, s)
  | Some attr =>
      muid ← nla_get 4 attr;
      Some (0, {| rkx_uids := rkx_add_net_uid kmalloc_ok muid (rkx_uids s);
                  rkx_rules := rkx_rules s |})
  end.

Definition rkx_genl_del_monitor_net info s : option (Z * rkx_state) :=
  match info RKX_A_UID with
  | None => Some (- EINVAL, s)
  | Some attr =>
      muid ← nla_get 4 attr;
      Some (0, {| rkx_uids := rkx_del_net_uid muid (rkx_uids s); rkx_rules := rkx_rules s |})
  end.

Definition rkx_genl_add_free_async (kmalloc_ok : bool) info s : option (Z * rkx_state) :=
  match info RKX_A_FREE_ASYNC_RPC_NAME, info RKX_A_FREE_ASYNC_CODE,
        info RKX_A_FREE_ASYNC_STRATEGY with
  | Some name_attr, Some code_attr, Some strategy_attr =>
      rpc_name ← c_string name_attr;
      code ← nla_get 4 code_attr;
      strategy ← nla_get 1 strategy_attr;
      let '(rc, rules) :=
        rkx_add_free_async kmalloc_ok (Some rpc_name) (s32 code) strategy (rkx_rules s) in
      let s' := {| rkx_uids := rkx_uids s; rkx_rules := rules |} in
      if negb (rc =? 0) then Some (rc, s') else Some (0, s')
  | _, _, _ => Some (- EINVAL, s)
  end.

Definition rkx_genl_del_free_async info s : option (Z * rkx_state) :=
  match info RKX_A_FREE_ASYNC_RPC_NAME, info RKX_A_FREE_ASYNC_CODE with
  | Some name_attr, Some code_attr =>
      rpc_name ← c_string name_attr;
      code ← nla_get 4 code_attr;
      let '(rc, rules) := rkx_del_free_async (Some rpc_name) (s32 code) (rkx_rules s) in
      let s' := {| rkx_uids := rkx_uids s; rkx_rules := rules |} in
      if negb (rc =? 0) then Some (rc, s') else Some (0, s')
  | _, _ => Some (- EINVAL, s)
  end.

(** The [doit] of each command in [rkx_genl_ops]; the kernel answers a command
    without one by itself. *)
Definition rkx_genl_ops (kmalloc_ok : bool) (cmd : rkx_genl_cmd)
    : option (genl_attrs -> rkx_state -> option (Z * rkx_state)) :=
  match cmd with
  | RKX_C_ADD_MONITOR_NET => Some (rkx_genl_monitor_net kmalloc_ok)
  | RKX_C_DEL_MONITOR_NET => Some rkx_genl_del_monitor_net
  | RKX_C_ADD_FREE_ASYNC => Some (rkx_genl_add_free_async kmalloc_ok)
  | RKX_C_DEL_FREE_ASYNC => Some rkx_genl_del_free_async
  | _ => None
  end.
End Requests.

(** The family as it is registered; the policy and the operations are the
    definitions above. *)
Record genl_family := {
  fam_name : list byte;
  fam_version : Z;
  fam_maxattr : Z;
  fam_n_ops : nat;
  fam_mcgrps : list (list byte);
}.

Definition rkx_genl_mcgrps : list (list byte) := [RKX_GENL_MCGRP_NAME].

Definition rkx_genl_family : genl_family :=
  {| fam_name := RKX_GENL_FAMILY_NAME; fam_version := RKX_GENL_VERSION;
     fam_maxattr := RKX_A_MAX; fam_n_ops := 4; fam_mcgrps := rkx_genl_mcgrps |}.

(** ** Messages *)

(** [nla_total_size(payload)] *)
Definition nla_total_size (payload : Z) : Z := NLA_ALIGN (Z.of_nat NLA_HDRLEN + payload).

Definition nest_type (a : rkx_genl_attr) : Z := Z.lor (attr_no a) NLA_F_NESTED.

(** A message under construction.  [skb_data] is what has been written,
    [skb_tailroom] the space left; any of the writers may refuse. *)
Class GenlSkbOps (skb : Type) := {
  family_id : Z;
  skb_data : skb -> list byte;
  skb_tailroom : skb -> Z;
  genlmsg_new : Z -> option skb;
  genlmsg_put : skb -> rkx_genl_cmd -> option skb;
  nla_put : skb -> rkx_genl_attr -> list byte -> Z * skb;
  nla_nest_start : skb -> rkx_genl_attr -> option (nat * skb);
  nla_nest_end : skb -> nat -> skb;
  genlmsg_end : skb -> skb;
  genlmsg_multicast : skb -> Z;
}.

(** What the writers promise: every one that finds enough space succeeds;
    [nla_nest_end] and [genlmsg_end] store the final lengths in the headers
    written before. *)
Class GenlSkb (skb : Type) := {
  genl_skb_ops :: GenlSkbOps skb;
  genlmsg_new_ok n s : genlmsg_new n = Some s ->
    skb_data s = [] /\ Z.of_nat (NLMSG_HDRLEN + GENL_HDRLEN) + n <= skb_tailroom s;
  genlmsg_put_ok s cmd : skb_data s = [] -> Z.of_nat (NLMSG_HDRLEN + GENL_HDRLEN) <= skb_tailroom s ->
    exists s', genlmsg_put s cmd = Some s'
      /\ skb_data s' = genl_header 20 family_id 0 0 (cmd_no cmd) RKX_GENL_VERSION
      /\ skb_tailroom s' = skb_tailroom s - Z.of_nat (NLMSG_HDRLEN + GENL_HDRLEN);
  nla_put_ok s a d : nla_total_size (Z.of_nat (length d)) <= skb_tailroom s ->
    exists s', nla_put s a d = (0, s') /\ skb_data s' = skb_data s ++ attr_bytes (attr_no a) d
      /\ skb_tailroom s' = skb_tailroom s - nla_total_size (Z.of_nat (length d));
  nla_nest_start_ok s a : Z.of_nat NLA_HDRLEN <= skb_tailroom s ->
    exists s', nla_nest_start s a = Some (length (skb_data s), s')
      /\ skb_data s' = skb_data s ++ attr_bytes (nest_type a) []
      /\ skb_tailroom s' = skb_tailroom s - Z.of_nat NLA_HDRLEN;
  nla_nest_end_ok s h : (h + 2 <= length (skb_data s))%nat ->
    mem_write (skb_data s) h (le_bytes 2 (Z.of_nat (length (skb_data s) - h)))
      = Some (skb_data (nla_nest_end s h));
  genlmsg_end_ok s : (20 <= length (skb_data s))%nat ->
    mem_write (skb_data s) 0 (le_bytes 4 (Z.of_nat (length (skb_data s))))
      = Some (skb_data (genlmsg_end s));
}.

(** Who owns the buffer: it was never allocated, the function still holds it,
    it was freed, once or more than once, or the multicast consumed it. *)
Inductive skb_fate := NoSkb | Held | Freed | FreedTwice | Multicast (msg : list byte).

Definition nlmsg_free (f : skb_fate) : skb_fate :=
  match f with Held => Freed | _ => FreedTwice end.

Section Send.
Context {skb : Type} `{GenlSkbOps skb}.

(** Consecutive [nla_put]s joined by [||]: [None] is [goto nla_fail]. *)
Fixpoint put_chain (s : skb) (l : list (rkx_genl_attr * list byte)) : option skb :=
  match l with
  | [] => Some s
  | (a, d) :: l => let '(rc, s) := nla_put s a d in if negb (rc =? 0) then None else put_chain s l
  end.

Definition nla_s32 (a : rkx_genl_attr) (v : Z) : rkx_genl_attr * list byte := (a, le_bytes 4 v).
Definition nla_string (a : rkx_genl_attr) (s : list byte) : rkx_genl_attr * list byte :=
  (a, s ++ [NUL]).

Definition binder_fields (b : rkx_binder_event) : option (list (rkx_genl_attr * list byte)) :=
  rpc_name ← c_string (be_rpc_name b);
  Some [nla_s32 RKX_A_BINDER_TYPE (be_binder_type b);
        nla_s32 RKX_A_BINDER_ONEWAY (be_oneway b);
        nla_s32 RKX_A_BINDER_FROM_PID (be_from_pid b);
        nla_s32 RKX_A_BINDER_FROM_UID (be_from_uid b);
        nla_s32 RKX_A_BINDER_TARGET_PID (be_target_pid b);
        nla_s32 RKX_A_BINDER_TARGET_UID (be_target_uid b);
        nla_s32 RKX_A_BINDER_CODE (be_code b);
        nla_string RKX_A_BINDER_RPC_NAME rpc_name].

Definition signal_fields (s : rkx_signal_event) : list (rkx_genl_attr * list byte) :=
  [nla_s32 RKX_A_SIGNAL_SIGNAL (se_signal s);
   nla_s32 RKX_A_SIGNAL_KILLER_PID (se_killer_pid s);
   nla_s32 RKX_A_SIGNAL_KILLER_UID (se_killer_uid s);
   nla_s32 RKX_A_SIGNAL_DST_PID (se_dst_pid s);
   nla_s32 RKX_A_SIGNAL_DST_UID (se_dst_uid s)].

Definition network_fields (n : rkx_network_event) : list (rkx_genl_attr * list byte) :=
  [nla_s32 RKX_A_NETWORK_PROTO (ne_proto n);
   nla_s32 RKX_A_NETWORK_TARGET_UID (ne_target_uid n);
   nla_s32 RKX_A_NETWORK_DATA_LEN (ne_data_len n)].

(** The [switch]: the nest and its fields, or [None] for the default case.  The
    outer [None] is reading a member of the union that was not stored. *)
Definition event_fields (e : rkx_event)
    : option (option (rkx_genl_attr * list (rkx_genl_attr * list byte))) :=
  if ev_type e =? RKX_EVT_BINDER then
    match ev_u e with
    | U_binder b => fields ← binder_fields b; Some (Some (RKX_A_BINDER, fields))
    | _ => None
    end
  else if ev_type e =? RKX_EVT_SIGNAL then
    match ev_u e with U_signal s => Some (Some (RKX_A_SIGNAL, signal_fields s)) | _ => None end
  else if ev_type e =? RKX_EVT_NETWORK then
    match ev_u e with U_network n => Some (Some (RKX_A_NETWORK, network_fields n)) | _ => None end
  else Some None.

(** The nests and their fields: [None] is [goto nla_fail]. *)
Definition put_event (s : skb) (fields : option (rkx_genl_attr * list (rkx_genl_attr * list byte)))
    : option skb :=
  '(evt, s) ← nla_nest_start s RKX_A_EVENT;
  '(kind, l) ← fields;
  '(payload, s) ← nla_nest_start s kind;
  s ← put_chain s l;
  Some (nla_nest_end (nla_nest_end s payload) evt).

Definition rkx_send_message (e : rkx_event) : option (Z * skb_fate) :=
  match genlmsg_new (nla_total_size 256) with
  | None => Some (RKX_ERROR, NoSkb)
  | Some s =>
      let owner := Held in
      match genlmsg_put s RKX_C_EVENT with
      | None => Some (RKX_ERROR, nlmsg_free owner)
      | Some s =>
          fields ← event_fields e;
          match put_event s fields with
          | None => Some (RKX_ERROR, nlmsg_free owner)
          | Some s =>
              let s := genlmsg_end s in
              let rc := genlmsg_multicast s in
              if negb (rc =? 0) && negb (rc =? - ESRCH)
              then Some (RKX_ERROR, Multicast (skb_data s))
              else Some (RKX_SUCCESS, Multicast (skb_data s))
          end
      end
  end.
End Send.

(** ** The message an event becomes *)

Definition wire (l : list (rkx_genl_attr * list byte)) : list (Z * list byte) :=
  (fun a => (attr_no a.1, a.2)) <$> l.

Definition event_attrs (kind : rkx_genl_attr) (l : list (rkx_genl_attr * list byte))
    : list (Z * list byte) :=
  [(nest_type RKX_A_EVENT, attrs_bytes [(nest_type kind, attrs_bytes (wire l))])].

Definition event_message (family : Z) (kind : rkx_genl_attr)
    (l : list (rkx_genl_attr * list byte)) : list byte :=
  genl_header (20 + Z.of_nat (length (attrs_bytes (event_attrs kind l)))) family 0 0
    (cmd_no RKX_C_EVENT) RKX_GENL_VERSION ++ attrs_bytes (event_attrs kind l).

Lemma attrs_bytes_aligned l : Z.of_nat (length (attrs_bytes l)) mod 4 = 0.
Proof.
  induction l as [|[t d] l IH]; [done|].
  rewrite attrs_bytes_cons, length_app, Nat2Z.inj_add, length_attr_bytes.
  destruct (NLA_ALIGN_spec (4 + Z.of_nat (length d)) ltac:(lia)) as [_ Ha].
  rewrite Z.add_mod, Ha, IH by lia. done.
Qed.

Lemma attr_bytes_aligned t d :
  Z.of_nat (length d) mod 4 = 0 ->
  attr_bytes t d = le_bytes 2 (4 + Z.of_nat (length d)) ++ le_bytes 2 t ++ d.
Proof.
  intros Hd. unfold attr_bytes, attr_pad. rewrite NLA_ALIGN_4, Z.sub_diag; [|lia|].
  - cbn [Z.to_nat replicate]. by rewrite app_nil_r.
  - rewrite Z.add_mod, Hd by lia. done.
Qed.

Lemma length_nest t l :
  length (attr_bytes t (attrs_bytes l)) = (4 + length (attrs_bytes l))%nat.
Proof.
  rewrite attr_bytes_aligned by apply attrs_bytes_aligned.
  rewrite !length_app, !length_le_bytes. lia.
Qed.

Lemma nla_total_size_attr t d :
  nla_total_size (Z.of_nat (length d)) = Z.of_nat (length (attr_bytes t d)).
Proof. by rewrite length_attr_bytes. Qed.

Section SendProofs.
Context {skb : Type} `{GenlSkb skb}.

Lemma put_chain_spec (s : skb) l :
  Z.of_nat (length (attrs_bytes (wire l))) <= skb_tailroom s ->
  exists s', put_chain s l = Some s' /\ skb_data s' = skb_data s ++ attrs_bytes (wire l).
Proof.
  revert s. induction l as [|[a d] l IH]; intros s Hroom.
  { exists s. split; [done|]. by rewrite app_nil_r. }
  unfold wire in Hroom. rewrite fmap_cons in Hroom. fold (wire l) in Hroom.
  cbn [fst snd] in Hroom. rewrite attrs_bytes_cons, length_app in Hroom.
  pose proof (nla_total_size_attr (attr_no a) d) as Htot.
  destruct (nla_put_ok s a d) as (s1 & Hput & Hdata & Htail).
  { lia. }
  cbn [put_chain]. rewrite Hput. cbn [negb Z.eqb].
  destruct (IH s1) as (s' & Hs' & Hd').
  { lia. }
  exists s'. split; [done|]. rewrite Hd', Hdata, <- app_assoc. done.
Qed.

Lemma nest_end_spec (s : skb) pre t l :
  skb_data s = pre ++ attr_bytes t [] ++ attrs_bytes l ->
  skb_data (nla_nest_end s (length pre)) = pre ++ attr_bytes t (attrs_bytes l).
Proof.
  intros Hs. rewrite (attr_bytes_aligned t []) in Hs by done. rewrite app_nil_r in Hs.
  assert (Hlen : (length (skb_data s) - length pre = 4 + length (attrs_bytes l))%nat).
  { rewrite Hs, !length_app, !length_le_bytes. lia. }
  assert (Hroom : (length pre + 2 <= length (skb_data s))%nat) by lia.
  pose proof (nla_nest_end_ok s (length pre) Hroom) as Hend. rewrite Hlen, Hs in Hend.
  rewrite mem_write_Some in Hend by (rewrite !length_app, !length_le_bytes; lia).
  apply (inj Some) in Hend. rewrite <- Hend, take_app_length. f_equal.
  rewrite attr_bytes_aligned, length_le_bytes by apply attrs_bytes_aligned.
  replace (Z.of_nat (4 + length (attrs_bytes l))) with (4 + Z.of_nat (length (attrs_bytes l))) by lia.
  f_equal. rewrite drop_app_ge by lia.
  replace (length pre + 2 - length pre)%nat with 2%nat by lia.
  by rewrite <- app_assoc, drop_app_length' by (by rewrite length_le_bytes).
Qed.

Lemma attrs_bytes_single t d : attrs_bytes [(t, d)] = attr_bytes t d.
Proof. rewrite attrs_bytes_cons. apply app_nil_r. Qed.

Lemma put_event_spec (s : skb) kind l :
  8 + Z.of_nat (length (attrs_bytes (wire l))) <= skb_tailroom s ->
  exists s', put_event s (Some (kind, l)) = Some s'
    /\ skb_data s' = skb_data s ++ attrs_bytes (event_attrs kind l).
Proof.
  intros Hroom. unfold put_event.
  destruct (nla_nest_start_ok s RKX_A_EVENT) as (s1 & Hs1 & Hd1 & Ht1); [unfold NLA_HDRLEN; lia|].
  rewrite Hs1. cbn [mbind option_bind].
  destruct (nla_nest_start_ok s1 kind) as (s2 & Hs2 & Hd2 & Ht2); [unfold NLA_HDRLEN in *; lia|].
  rewrite Hs2. cbn [mbind option_bind].
  destruct (put_chain_spec s2 l) as (s3 & Hs3 & Hd3); [unfold NLA_HDRLEN in *; lia|].
  rewrite Hs3. cbn [mbind option_bind]. eexists. split; [done|].
  rewrite Hd2, <- app_assoc in Hd3. apply nest_end_spec in Hd3.
  unfold event_attrs. rewrite attrs_bytes_single. apply nest_end_spec.
  by rewrite Hd3, Hd1, <- app_assoc, attrs_bytes_single.
Qed.

Lemma genlmsg_end_spec (s : skb) family cmd body :
  skb_data s = genl_header 20 family 0 0 cmd RKX_GENL_VERSION ++ body ->
  skb_data (genlmsg_end s)
  = genl_header (20 + Z.of_nat (length body)) family 0 0 cmd RKX_GENL_VERSION ++ body.
Proof.
  intros Hs. assert (Hlen : length (skb_data s) = (20 + length body)%nat).
  { by rewrite Hs, length_app, length_genl_header. }
  pose proof (genlmsg_end_ok s ltac:(lia)) as Hend.
  rewrite mem_write_Some in Hend by (rewrite length_le_bytes; lia).
  apply (inj Some) in Hend. rewrite <- Hend, take_0, app_nil_l, length_le_bytes, Hlen, Hs.
  unfold genl_header. rewrite <- !app_assoc.
  replace (Z.of_nat (20 + length body)) with (20 + Z.of_nat (length body)) by lia. f_equal.
Qed.

Lemma event_fields_wf e :
  event_wf e ->
  exists kind l, event_fields e = Some (Some (kind, l))
    /\ Z.of_nat (length (attrs_bytes (wire l))) <= 200.
Proof.
  unfold event_wf, event_fields. destruct (ev_u e) as [b|sg|n].
  - intros [-> Hb]. destruct (bwf_name b Hb) as (name & Hn & Hl & Hname). cbn [Z.eqb Pos.eqb].
    unfold binder_fields. rewrite Hname, c_string_char_array by done. cbn [mbind option_bind].
    do 2 eexists. split; [done|]. unfold wire. rewrite !fmap_cons.
    rewrite !attrs_bytes_cons, !length_app, !Nat2Z.inj_add. cbn [nla_s32 nla_string fst snd].
    rewrite !length_attr_bytes, !length_le_bytes. change (NLA_ALIGN (4 + Z.of_nat 4)) with 8.
    rewrite length_app. unfold RKX_INTERFACETOKEN_BUFF_SIZE in Hl. cbn [length].
    pose proof (NLA_ALIGN_spec (4 + Z.of_nat (length name + 1)) ltac:(lia)) as [Ha Hm].
    pose proof (Z.div_mod (NLA_ALIGN (4 + Z.of_nat (length name + 1))) 4 ltac:(lia)).
    cbn [fmap list_fmap attrs_bytes mbind list_bind length]. lia.
  - intros [-> _]. do 2 eexists. split; [done|]. unfold wire, signal_fields. rewrite !fmap_cons.
    rewrite !attrs_bytes_cons, !length_app, !Nat2Z.inj_add. cbn [nla_s32 fst snd].
    rewrite !length_attr_bytes, !length_le_bytes. vm_compute. discriminate.
  - intros [-> _]. do 2 eexists. split; [done|]. unfold wire, network_fields. rewrite !fmap_cons.
    rewrite !attrs_bytes_cons, !length_app, !Nat2Z.inj_add. cbn [nla_s32 fst snd].
    rewrite !length_attr_bytes, !length_le_bytes. vm_compute. discriminate.
Qed.

Lemma send_message_spec e :
  event_wf e ->
  exists kind l, event_fields e = Some (Some (kind, l))
    /\ match genlmsg_new (nla_total_size 256) with
       | None => rkx_send_message e = Some (RKX_ERROR, NoSkb)
       | Some _ => exists s : skb, skb_data s = event_message family_id kind l
           /\ rkx_send_message e
              = Some (if bool_decide (genlmsg_multicast s = 0 \/ genlmsg_multicast s = - ESRCH)
                      then RKX_SUCCESS else RKX_ERROR, Multicast (skb_data s))
       end.
Proof.
  intros He. destruct (event_fields_wf e He) as (kind & l & Hf & Hlen).
  exists kind, l. split; [done|]. unfold rkx_send_message.
  destruct (genlmsg_new (nla_total_size 256)) as [s|] eqn:Enew; [|done].
  apply genlmsg_new_ok in Enew as [Hd Hroom].
  change (Z.of_nat (NLMSG_HDRLEN + GENL_HDRLEN)) with 20 in *. change (nla_total_size 256) with 260 in *.
  destruct (genlmsg_put_ok s RKX_C_EVENT Hd) as (s1 & -> & Hd1 & Ht1).
  { change (Z.of_nat (NLMSG_HDRLEN + GENL_HDRLEN)) with 20. lia. }
  change (Z.of_nat (NLMSG_HDRLEN + GENL_HDRLEN)) with 20 in *. rewrite Hf. cbn [mbind option_bind].
  destruct (put_event_spec s1 kind l) as (s2 & -> & Hd2); [lia|].
  exists (genlmsg_end s2). split.
  - rewrite Hd1 in Hd2. by apply genlmsg_end_spec in Hd2.
  - case_bool_decide as Hrc.
    + destruct Hrc as [->| ->]; done.
    + rewrite !(proj2 (Z.eqb_neq _ _)) by tauto. done.
Qed.

Lemma message_sent e :
  event_wf e ->
  exists kind l, event_fields e = Some (Some (kind, l))
    /\ forall rc msg, rkx_send_message e = Some (rc, Multicast msg) ->
         msg = event_message family_id kind l.
Proof.
  intros He. destruct (send_message_spec e He) as (kind & l & Hf & Hs). exists kind, l.
  split; [done|]. intros rc msg Hsend. destruct (genlmsg_new _) as [s0|]; [|congruence].
  destruct Hs as (s1 & Hd & Hs). congruence.
Qed.
End SendProofs.

(** *** The encoding, from the numbers of the ABI

    The attributes of an event as rkx.h numbers them, in the order they are
    sent, and the message around them: a netlink header with the family id as
    its type, a generic netlink header with command 1 and version 1, and two
    nests, the event (1) and its kind. *)

Definition abi_attrs (e : rkx_event) : Z * list (Z * list byte) :=
  match ev_u e with
  | U_binder b =>
      (10, [(11, le_bytes 4 (be_binder_type b)); (12, le_bytes 4 (be_oneway b));
            (13, le_bytes 4 (be_from_pid b)); (14, le_bytes 4 (be_from_uid b));
            (15, le_bytes 4 (be_target_pid b)); (16, le_bytes 4 (be_target_uid b));
            (17, le_bytes 4 (be_code b)); (18, default [] (c_string (be_rpc_name b)) ++ [NUL])])
  | U_signal s =>
      (20, [(21, le_bytes 4 (se_signal s)); (22, le_bytes 4 (se_killer_pid s));
            (23, le_bytes 4 (se_killer_uid s)); (24, le_bytes 4 (se_dst_pid s));
            (25, le_bytes 4 (se_dst_uid s))])
  | U_network n =>
      (30, [(31, le_bytes 4 (ne_proto n)); (32, le_bytes 4 (ne_target_uid n));
            (33, le_bytes 4 (ne_data_len n))])
  end.

Definition abi_message (family : Z) (e : rkx_event) : list byte :=
  let '(kind, l) := abi_attrs e in
  let body := attr_bytes (2 ^ 15 + 1) (attr_bytes (2 ^ 15 + kind) (attrs_bytes l)) in
  le_bytes 4 (20 + Z.of_nat (length body)) ++ le_bytes 2 family ++ le_bytes 2 0
  ++ le_bytes 4 0 ++ le_bytes 4 0 ++ le_bytes 1 1 ++ le_bytes 1 1 ++ le_bytes 2 0 ++ body.

Lemma event_message_abi family e kind l :
  event_wf e -> event_fields e = Some (Some (kind, l)) ->
  event_message family kind l = abi_message family e.
Proof.
  intros He Hf. unfold event_message, abi_message, event_attrs. rewrite !attrs_bytes_single.
  assert (Hk : (nest_type kind, wire l) = ((abi_attrs e).1 + 2 ^ 15, (abi_attrs e).2)).
  { unfold event_wf in He. unfold event_fields in Hf. unfold abi_attrs.
    destruct (ev_u e) as [b|sg|n]; destruct He as [Hty Hwf]; rewrite Hty in Hf;
      cbn [Z.eqb Pos.eqb] in Hf; [|by injection Hf as <- <-..].
    unfold binder_fields in Hf. destruct (c_string (be_rpc_name b)) as [name|]; [|done].
    cbn [mbind option_bind] in Hf. by injection Hf as <- <-. }
  injection Hk as Hk Hw. rewrite Hk, Hw. destruct (abi_attrs e) as [k fields]. cbn [fst snd].
  rewrite (Z.add_comm k). unfold genl_header. by rewrite <- !app_assoc.
Qed.

(** The buffer, whatever the writers answer. *)
Lemma send_message_owner {skb} `{GenlSkbOps skb} e :
  event_wf e \/ ev_type e ∉ [RKX_EVT_BINDER; RKX_EVT_SIGNAL; RKX_EVT_NETWORK] ->
  match rkx_send_message e with
  | Some (rc, NoSkb) => genlmsg_new (nla_total_size 256) = None /\ rc = RKX_ERROR
  | Some (rc, Freed) => genlmsg_new (nla_total_size 256) <> None /\ rc = RKX_ERROR
  | Some (rc, Multicast msg) => exists s : skb, msg = skb_data s
      /\ (rc = RKX_SUCCESS /\ (genlmsg_multicast s = 0 \/ genlmsg_multicast s = - ESRCH)
          \/ rc = RKX_ERROR /\ genlmsg_multicast s <> 0 /\ genlmsg_multicast s <> - ESRCH)
  | _ => False
  end.
Proof.
  intros He. assert (Hf : exists fields, event_fields e = Some fields).
  { destruct He as [He|Hty]; [destruct (event_fields_wf e He) as (kind & l & -> & _); by eexists|].
    unfold event_fields. rewrite !(proj2 (Z.eqb_neq _ _)) by set_solver. by eexists. }
  destruct Hf as [fields Hf]. unfold rkx_send_message. rewrite Hf.
  destruct (genlmsg_new _) as [s|]; [|done]. destruct (genlmsg_put _ _) as [s1|]; [|done].
  cbn [mbind option_bind]. destruct (put_event _ _) as [s2|]; [|done].
  destruct (Z.eqb_spec (genlmsg_multicast (genlmsg_end s2)) 0) as [E|E]; cbn [negb andb].
  { eexists. split; [done|]. auto. }
  destruct (Z.eqb_spec (genlmsg_multicast (genlmsg_end s2)) (- ESRCH)) as [E'|E']; cbn [negb];
    (eexists; split; [done|]; auto).
Qed.

(** C35: sending never leaks and never truncates.  Whichever of the allocation,
    the header and the attribute writes fails, for a well-formed event or one of
    unknown type, the buffer is freed exactly once and an error is returned, or
    it is consumed by the multicast, and the absence of listeners is not an
    error.  With the kernel's writers no attribute of a well-formed event is
    ever refused: once the buffer is there, the message that is multicast is
    byte for byte the event's encoding of the ABI. *)
Theorem send_message_exact :
  (forall skb (ops : GenlSkbOps skb) e,
     event_wf e \/ ev_type e ∉ [RKX_EVT_BINDER; RKX_EVT_SIGNAL; RKX_EVT_NETWORK] ->
     match rkx_send_message e with
     | Some (rc, NoSkb) => genlmsg_new (nla_total_size 256) = None /\ rc = RKX_ERROR
     | Some (rc, Freed) => genlmsg_new (nla_total_size 256) <> None /\ rc = RKX_ERROR
     | Some (rc, Multicast msg) => exists s : skb, msg = skb_data s
         /\ (rc = RKX_SUCCESS /\ (genlmsg_multicast s = 0 \/ genlmsg_multicast s = - ESRCH)
             \/ rc = RKX_ERROR /\ genlmsg_multicast s <> 0 /\ genlmsg_multicast s <> - ESRCH)
     | _ => False
     end)
  /\ forall skb (laws : GenlSkb skb) e, event_wf e ->
     match genlmsg_new (nla_total_size 256) with
     | None => rkx_send_message e = Some (RKX_ERROR, NoSkb)
     | Some _ => exists rc, rkx_send_message e = Some (rc, Multicast (abi_message family_id e))
     end.
Proof.
  split; [intros; by apply send_message_owner|]. intros skb laws e He.
  destruct (send_message_spec e He) as (kind & l & Hf & Hs).
  destruct (genlmsg_new _) as [s0|]; [|done]. destruct Hs as (s & Hd & ->).
  rewrite Hd, (event_message_abi _ _ _ _ He Hf). by eexists.
Qed.

(** ** What a request does *)

Section RequestProofs.
Context `{HashFn} `{Jhash} `{NlaValidate}.
Implicit Types (info : genl_attrs) (s : rkx_state).

(** The attributes as the kernel hands them to a handler: validated. *)
Definition attrs_valid info : Prop :=
  forall a d p, info a = Some d -> rkx_genl_policy a = Some p -> nla_validate p d = true.

Definition rkx_wf s : Prop := net_uid_wf (rkx_uids s) /\ free_async_wf (rkx_rules s).

(** The set of monitored uids and the rules a state represents. *)
Definition rkx_abs s : gset Z * gmap (list byte * Z) Z :=
  (net_uid_set (rkx_uids s), rules (rkx_rules s)).

Definition attr_num (size : nat) (d : list byte) : Z := le_Z (take size d).

(** A request on the represented state. *)
Definition request_spec (kmalloc_ok : bool) (cmd : rkx_genl_cmd) info
    (st : gset Z * gmap (list byte * Z) Z) : Z * (gset Z * gmap (list byte * Z) Z) :=
  let '(uids, rules) := st in
  match cmd with
  | RKX_C_ADD_MONITOR_NET =>
      match info RKX_A_UID with
      | Some d => (0, (if kmalloc_ok then {[attr_num 4 d]} ∪ uids else uids, rules))
      | None => (- EINVAL, st)
      end
  | RKX_C_DEL_MONITOR_NET =>
      match info RKX_A_UID with
      | Some d => (0, (uids ∖ {[attr_num 4 d]}, rules))
      | None => (- EINVAL, st)
      end
  | RKX_C_ADD_FREE_ASYNC =>
      match info RKX_A_FREE_ASYNC_RPC_NAME, info RKX_A_FREE_ASYNC_CODE,
            info RKX_A_FREE_ASYNC_STRATEGY with
      | Some n, Some c, Some t =>
          let '(rc, rules) := add_rule_spec kmalloc_ok (default [] (c_string n))
            (s32 (attr_num 4 c)) (attr_num 1 t) rules in (rc, (uids, rules))
      | _, _, _ => (- EINVAL, st)
      end
  | RKX_C_DEL_FREE_ASYNC =>
      match info RKX_A_FREE_ASYNC_RPC_NAME, info RKX_A_FREE_ASYNC_CODE with
      | Some n, Some c =>
          let '(rc, rules) := del_rule_spec (default [] (c_string n)) (s32 (attr_num 4 c)) rules in
          (rc, (uids, rules))
      | _, _ => (- EINVAL, st)
      end
  | _ => (0, st)
  end.

Lemma nla_get_num size d : (size <= length d)%nat -> nla_get size d = Some (attr_num size d).
Proof. intros Hl. unfold nla_get, rd_u. by rewrite mem_bytes_Some, drop_0. Qed.

Lemma valid_uid info d :
  attrs_valid info -> info RKX_A_UID = Some d -> nla_get 4 d = Some (attr_num 4 d).
Proof. intros Hv Hd. apply nla_get_num, validate_u32. by eapply Hv. Qed.

Lemma valid_code info d :
  attrs_valid info -> info RKX_A_FREE_ASYNC_CODE = Some d -> nla_get 4 d = Some (attr_num 4 d).
Proof. intros Hv Hd. apply nla_get_num, validate_s32. by eapply Hv. Qed.

Lemma valid_strategy info d :
  attrs_valid info -> info RKX_A_FREE_ASYNC_STRATEGY = Some d -> nla_get 1 d = Some (attr_num 1 d).
Proof. intros Hv Hd. apply nla_get_num, validate_u8. by eapply Hv. Qed.

Lemma valid_name info d :
  attrs_valid info -> info RKX_A_FREE_ASYNC_RPC_NAME = Some d ->
  exists name, c_string d = Some name.
Proof.
  intros Hv Hd. destruct (validate_nul_string (RKX_INTERFACETOKEN_BUFF_SIZE - 1) d) as (name & Hn & _);
    [by eapply Hv|by exists name].
Qed.

Lemma add_free_async_request kmalloc_ok info s :
  rkx_wf s -> attrs_valid info ->
  exists rc s', rkx_genl_add_free_async kmalloc_ok info s = Some (rc, s') /\ rkx_wf s'
    /\ (rc, rkx_abs s') = request_spec kmalloc_ok RKX_C_ADD_FREE_ASYNC info (rkx_abs s).
Proof.
  intros [Hu Hr] Hv. unfold rkx_genl_add_free_async, request_spec, rkx_abs.
  destruct (info RKX_A_FREE_ASYNC_RPC_NAME) as [n|] eqn:En; [|by do 2 eexists].
  destruct (info RKX_A_FREE_ASYNC_CODE) as [c|] eqn:Ec; [|by do 2 eexists].
  destruct (info RKX_A_FREE_ASYNC_STRATEGY) as [t|] eqn:Et; [|by do 2 eexists].
  destruct (valid_name info n Hv En) as [name Hname]. rewrite Hname. cbn [mbind option_bind default].
  rewrite (valid_code info c Hv Ec), (valid_strategy info t Hv Et). cbn [mbind option_bind].
  pose proof (add_refines kmalloc_ok name (s32 (attr_num 4 c)) (attr_num 1 t) (rkx_rules s) Hr) as Ha.
  destruct (rkx_add_free_async _ _ _ _ _) as [rc rules']. destruct Ha as [Hwf Heq]. unfold from_option, id.
  rewrite <- Heq. destruct (Z.eqb_spec rc 0) as [->|Hne]; cbn [negb];
    do 2 eexists; split_and!; done.
Qed.

Lemma del_free_async_request kmalloc_ok info s :
  rkx_wf s -> attrs_valid info ->
  exists rc s', rkx_genl_del_free_async info s = Some (rc, s') /\ rkx_wf s'
    /\ (rc, rkx_abs s') = request_spec kmalloc_ok RKX_C_DEL_FREE_ASYNC info (rkx_abs s).
Proof.
  intros [Hu Hr] Hv. unfold rkx_genl_del_free_async, request_spec, rkx_abs.
  destruct (info RKX_A_FREE_ASYNC_RPC_NAME) as [n|] eqn:En; [|by do 2 eexists].
  destruct (info RKX_A_FREE_ASYNC_CODE) as [c|] eqn:Ec; [|by do 2 eexists].
  destruct (valid_name info n Hv En) as [name Hname]. rewrite Hname. cbn [mbind option_bind default].
  rewrite (valid_code info c Hv Ec). cbn [mbind option_bind].
  pose proof (del_refines name (s32 (attr_num 4 c)) (rkx_rules s) Hr) as Ha.
  destruct (rkx_del_free_async _ _ _) as [rc rules']. destruct Ha as [Hwf Heq]. unfold from_option, id.
  rewrite <- Heq. destruct (Z.eqb_spec rc 0) as [->|Hne]; cbn [negb];
    do 2 eexists; split_and!; done.
Qed.

Lemma request_refines kmalloc_ok cmd handler info s :
  rkx_wf s -> attrs_valid info -> rkx_genl_ops kmalloc_ok cmd = Some handler ->
  exists rc s', handler info s = Some (rc, s') /\ rkx_wf s'
    /\ (rc, rkx_abs s') = request_spec kmalloc_ok cmd info (rkx_abs s).
Proof.
  intros Hwf Hv Hop. destruct cmd; try discriminate; injection Hop as <-.
  - unfold rkx_genl_monitor_net, request_spec, rkx_abs.
    destruct (info RKX_A_UID) as [d|] eqn:Ed; [|by do 2 eexists].
    rewrite (valid_uid info d Hv Ed). cbn [mbind option_bind]. destruct Hwf as [Hu Hr].
    destruct (add_spec kmalloc_ok (attr_num 4 d) (rkx_uids s) Hu) as [Hu' Hset].
    do 2 eexists. split; [done|]. split; [by split|]. cbn [rkx_uids rkx_rules]. by rewrite Hset.
  - unfold rkx_genl_del_monitor_net, request_spec, rkx_abs.
    destruct (info RKX_A_UID) as [d|] eqn:Ed; [|by do 2 eexists].
    rewrite (valid_uid info d Hv Ed). cbn [mbind option_bind]. destruct Hwf as [Hu Hr].
    destruct (del_spec (attr_num 4 d) (rkx_uids s) Hu) as [Hu' Hset].
    do 2 eexists. split; [done|]. split; [by split|]. cbn [rkx_uids rkx_rules]. by rewrite Hset.
  - by apply add_free_async_request.
  - by apply del_free_async_request.
Qed.

(** C36: every request is safe and does what its command says: on validated
    attributes, all of them, some of them or none, the handler reads nothing
    outside the payloads, answers with the code of the specification, keeps both
    tables well formed and changes the represented sets and rules exactly as the
    specification does; a request without its attributes changes nothing. *)
Theorem genl_requests_refine kmalloc_ok cmd handler info s :
  rkx_wf s -> attrs_valid info -> rkx_genl_ops kmalloc_ok cmd = Some handler ->
  exists rc s', handler info s = Some (rc, s') /\ rkx_wf s'
    /\ (rc, rkx_abs s') = request_spec kmalloc_ok cmd info (rkx_abs s).
Proof. apply request_refines. Qed.
End RequestProofs.

(** ** Concrete instances *)

Module GenlDemo.
#[refine, export] Instance validate : NlaValidate := {|
  nla_validate p d :=
    match p with
    | NLA_NESTED => true
    | NLA_U8 => (1 <=? length d)%nat
    | NLA_U32 | NLA_S32 => (4 <=? length d)%nat
    | NLA_NUL_STRING n =>
        match c_string d with Some s => (length s <=? n)%nat | None => false end
    end
|}.
Proof.
  1-3: intros d; apply Nat.leb_le.
  - intros n d. destruct (c_string d) as [s|]; [|done]. intros Hl%Nat.leb_le. by exists s.
  - by intros d ->.
  - by intros d ->.
  - by intros d ->.
  - intros n s Hs Hl. rewrite c_string_app by done. by apply Nat.leb_le.
Defined.

Record skb := { sk_data : list byte; sk_room : Z }.

Definition append (s : skb) (bytes : list byte) : option skb :=
  if Z.of_nat (length bytes) <=? sk_room s
  then Some {| sk_data := sk_data s ++ bytes; sk_room := sk_room s - Z.of_nat (length bytes) |}
  else None.

Definition patch (s : skb) (h : nat) (bytes : list byte) : skb :=
  {| sk_data := default (sk_data s) (mem_write (sk_data s) h bytes); sk_room := sk_room s |}.

Lemma append_ok s bytes :
  Z.of_nat (length bytes) <= sk_room s ->
  append s bytes = Some {| sk_data := sk_data s ++ bytes;
                           sk_room := sk_room s - Z.of_nat (length bytes) |}.
Proof. intros Hl. unfold append. by rewrite (proj2 (Z.leb_le _ _)). Qed.

#[export] Instance genl_ops : GenlSkbOps skb := {|
  family_id := 30;
  skb_data := sk_data;
  skb_tailroom := sk_room;
  genlmsg_new n := Some {| sk_data := []; sk_room := 20 + n |};
  genlmsg_put s cmd := append s (genl_header 20 30 0 0 (cmd_no cmd) RKX_GENL_VERSION);
  nla_put s a d :=
    match append s (attr_bytes (attr_no a) d) with Some s => (0, s) | None => (- 90, s) end;
  nla_nest_start s a :=
    match append s (attr_bytes (nest_type a) []) with
    | Some s' => Some (length (sk_data s), s')
    | None => None
    end;
  nla_nest_end s h := patch s h (le_bytes 2 (Z.of_nat (length (sk_data s) - h)));
  genlmsg_end s := patch s 0 (le_bytes 4 (Z.of_nat (length (sk_data s))));
  genlmsg_multicast _ := - ESRCH;
|}.

#[refine, export] Instance genl : GenlSkb skb := {| genl_skb_ops := genl_ops |}.
Proof.
  all: cbn [family_id skb_data skb_tailroom genlmsg_new genlmsg_put nla_put nla_nest_start
    nla_nest_end genlmsg_end genl_ops].
  - intros n s [= <-]. cbn. split; [done|]. unfold NLMSG_HDRLEN, GENL_HDRLEN. lia.
  - intros s cmd Hd Hr. unfold NLMSG_HDRLEN, GENL_HDRLEN in *. rewrite append_ok by (rewrite length_genl_header; lia).
    eexists. split; [done|]. cbn [sk_data sk_room]. by rewrite Hd, length_genl_header.
  - intros s a d Hr. rewrite (nla_total_size_attr (attr_no a)) in *. rewrite append_ok by done.
    by eexists.
  - intros s a Hr. unfold NLA_HDRLEN in *. rewrite append_ok by done. by eexists.
  - intros s h Hh. cbn [sk_data patch]. by rewrite mem_write_Some by (by rewrite length_le_bytes).
  - intros s Hh. cbn [sk_data patch]. rewrite mem_write_Some; [done|]. rewrite length_le_bytes. lia.
Defined.

Definition event : rkx_event :=
  {| ev_type := RKX_EVT_NETWORK;
     ev_u := U_network {| ne_proto := 4; ne_target_uid := 10123; ne_data_len := 1400 |} |}.

Definition request : genl_attrs := fun a =>
  match a with
  | RKX_A_FREE_ASYNC_RPC_NAME => Some (str "android.app.IWindow" ++ [NUL])
  | RKX_A_FREE_ASYNC_CODE => Some (le_bytes 4 (-1))
  | RKX_A_FREE_ASYNC_STRATEGY => Some (le_bytes 1 3)
  | _ => None
  end.

Lemma demo_request_valid : attrs_valid request.
Proof. intros [] d p Hd Hp; try discriminate Hd; injection Hd as <-; injection Hp as <-; reflexivity. Qed.

Definition state : rkx_state :=
  {| rkx_uids := {| rkx_net_uid_map := hash_init; nu_retired := [] |}; rkx_rules := demo_state |}.

Lemma state_wf : @rkx_wf mod64 sum_hash state.
Proof.
  split; [|exact demo_state_wf]. apply (init_wf {| rkx_net_uid_map := []; nu_retired := [] |}).
Qed.
End GenlDemo.
Import GenlDemo.

Lemma send_message_exact_witness :
  exists rc, rkx_send_message GenlDemo.event = Some (rc, Multicast (abi_message 30 GenlDemo.event))
  /\ length (abi_message 30 GenlDemo.event) = 52%nat.
Proof.
  destruct send_message_exact as [_ T]. destruct (T GenlDemo.skb GenlDemo.genl GenlDemo.event) as [rc H].
  { split; [reflexivity|]. split; vm_compute; (split; [discriminate|reflexivity]). }
  exists rc. split; [exact H|]. vm_compute. reflexivity.
Defined.

Lemma genl_requests_refine_witness :
  exists rc s', @rkx_genl_add_free_async mod64 sum_hash true GenlDemo.request GenlDemo.state
    = Some (rc, s') /\ @rkx_wf mod64 sum_hash s' /\ rc = 0.
Proof.
  destruct (@genl_requests_refine mod64 sum_hash GenlDemo.validate true RKX_C_ADD_FREE_ASYNC
    _ GenlDemo.request GenlDemo.state GenlDemo.state_wf GenlDemo.demo_request_valid eq_refl)
    as (rc & s' & Hrun & Hwf & Heq).
  exists rc, s'. split; [exact Hrun|]. split; [exact Hwf|].
  apply (f_equal fst) in Heq. cbn [fst] in Heq. rewrite Heq. vm_compute. reflexivity.
Defined.
