(* ===== verification/Jni.v ===== *)
(** rkx_jni.cpp, messages: decoding the kernel's events into calls of the Java
    callback, and building the requests.

    A received datagram sits at the start of the 8192 byte receive buffer; the
    bytes behind it are whatever earlier datagrams left there. *)

From S2P Require Import Prelude Uapi Nla.

Definition NLMSG_ERROR : Z := 2.
Definition NLMSG_DONE : Z := 3.

(** [NLMSG_ALIGN] on the 32-bit [nlmsg_len]. *)
Definition NLMSG_ALIGN (len : Z) : Z := Z.land (u32 (len + 3)) (Z.lnot 3).

Lemma NLMSG_ALIGN_small len : 0 <= len < 2 ^ 32 - 3 -> NLMSG_ALIGN len = NLA_ALIGN len.
Proof. intros Hl. unfold NLMSG_ALIGN. by rewrite uwrap_small by (unfold in_u; lia). Qed.

(** A call of one of the three methods of ReKernelXCallback. *)
Inductive callback :=
  | CbBinder (binder_type oneway from_uid from_pid target_uid target_pid : Z)
      (rpcName : list byte) (code : Z)
  | CbSignal (signal killer_uid killer_pid dst_uid dst_pid : Z)
  | CbNetwork (proto target_uid data_len : Z).

#[export] Instance callback_eq_dec : EqDecision callback.
Proof. solve_decision. Defined.

(** ** Events *)

Section Dispatch.
Context (mem : list byte).
Implicit Types (payload nlh : nat) (tb : gmap Z nat).

(** [if (tb[a]) rkx_nla_get(tb[a], out)] with [out] initialised to -1. *)
Definition field tb (a : rkx_genl_attr) : option Z :=
  '(_, v) ← get_s32 mem (tb !! user_attr_no a) (-1); Some v.

(** The [rpc_name] array after the copy. *)
Definition copy_rpc_name tb : option (list byte) :=
  let zero := replicate (RKX_RPC_NAME_LEN + 1) NUL in
  match tb !! user_attr_no RKX_A_BINDER_RPC_NAME with
  | None => Some zero
  | Some nla =>
      len ← nla_len mem nla;
      let slen := Z.to_nat (Z.min len (Z.of_nat RKX_RPC_NAME_LEN)) in
      bytes ← mem_bytes mem (nla_data nla) slen;
      mem_write zero 0 bytes
  end.

Definition handle_binder_event payload : option callback :=
  tb ← rkx_nla_parse_nested mem RKX_A_MAX payload;
  binder_type ← field tb RKX_A_BINDER_TYPE;
  oneway ← field tb RKX_A_BINDER_ONEWAY;
  from_pid ← field tb RKX_A_BINDER_FROM_PID;
  from_uid ← field tb RKX_A_BINDER_FROM_UID;
  target_pid ← field tb RKX_A_BINDER_TARGET_PID;
  target_uid ← field tb RKX_A_BINDER_TARGET_UID;
  code ← field tb RKX_A_BINDER_CODE;
  rpc_name ← copy_rpc_name tb;
  jRpcName ← c_string rpc_name;
  Some (CbBinder binder_type oneway from_uid from_pid target_uid target_pid jRpcName code).

Definition handle_signal_event payload : option callback :=
  tb ← rkx_nla_parse_nested mem RKX_A_MAX payload;
  sig ← field tb RKX_A_SIGNAL_SIGNAL;
  killer_uid ← field tb RKX_A_SIGNAL_KILLER_UID;
  killer_pid ← field tb RKX_A_SIGNAL_KILLER_PID;
  dst_uid ← field tb RKX_A_SIGNAL_DST_UID;
  dst_pid ← field tb RKX_A_SIGNAL_DST_PID;
  Some (CbSignal sig killer_uid killer_pid dst_uid dst_pid).

Definition handle_network_event payload : option callback :=
  tb ← rkx_nla_parse_nested mem RKX_A_MAX payload;
  proto ← field tb RKX_A_NETWORK_PROTO;
  target_uid ← field tb RKX_A_NETWORK_TARGET_UID;
  data_len ← field tb RKX_A_NETWORK_DATA_LEN;
  Some (CbNetwork proto target_uid data_len).

(** [if (evt_tb[a]) handler(env, cb, evt_tb[a])] *)
Definition handle_nest tb (a : rkx_genl_attr) (handler : nat -> option callback)
    : option (list callback) :=
  match tb !! user_attr_no a with
  | None => Some []
  | Some payload => cb ← handler payload; Some [cb]
  end.

Definition handle_event (family_id : Z) nlh : option (list callback) :=
  nlmsg_type ← rd_u mem (nlh + 4) 2;
  if (nlmsg_type =? NLMSG_ERROR) || (nlmsg_type =? NLMSG_DONE) then Some [] else
  if negb (nlmsg_type =? family_id) then Some [] else
  nlmsg_len ← rd_u mem nlh 4;
  if nlmsg_len <? Z.of_nat (NLMSG_HDRLEN + GENL_HDRLEN) then Some [] else
  cmd ← rd_u mem (nlh + NLMSG_HDRLEN) 1;
  if negb (cmd =? user_cmd_no RKX_C_EVENT) then Some [] else
  let attr_off := (NLMSG_HDRLEN + GENL_HDRLEN)%nat in
  tb ← rkx_nla_parse mem RKX_A_MAX (nlh + attr_off) (s32 nlmsg_len - Z.of_nat attr_off);
  match tb !! user_attr_no RKX_A_EVENT with
  | None => Some []
  | Some evt =>
      evt_tb ← rkx_nla_parse_nested mem RKX_A_MAX evt;
      cb1 ← handle_nest evt_tb RKX_A_BINDER handle_binder_event;
      cb2 ← handle_nest evt_tb RKX_A_SIGNAL handle_signal_event;
      cb3 ← handle_nest evt_tb RKX_A_NETWORK handle_network_event;
      Some (cb1 ++ cb2 ++ cb3)
  end.

(** One turn of the loop over the messages of a datagram of [rlen] bytes: the
    test converts [rlen] to [size_t], the step subtracts from the int.  It
    answers the callbacks and the next position, or that the loop is over. *)
Definition dispatch_step (family_id : Z) nlh (rlen : Z)
    : option (option (list callback * (nat * Z))) :=
  if u64 rlen >=? 16 then
    nlmsg_len ← rd_u mem nlh 4;
    if (16 <=? nlmsg_len) && (nlmsg_len <=? u64 rlen) then
      cbs ← handle_event family_id nlh;
      let step := NLMSG_ALIGN nlmsg_len in
      Some (Some (cbs, ((nlh + Z.to_nat step)%nat, s32 (rlen - step))))
    else Some None
  else Some None.

(** The loop.  A step that does not wrap advances by at least 16 bytes, so the
    pointer leaves the memory before the fuel ends; one that wraps to 0 stays
    where it is for ever. *)
Fixpoint dispatch_loop (fuel : nat) (family_id : Z) nlh (rlen : Z) : option (list callback) :=
  turn ← dispatch_step family_id nlh rlen;
  match turn with
  | None => Some []
  | Some (cbs, (nlh, rlen)) =>
      match fuel with
      | O => None
      | S fuel => rest ← dispatch_loop fuel family_id nlh rlen; Some (cbs ++ rest)
      end
  end.

Definition dispatch (family_id rlen : Z) : option (list callback) :=
  dispatch_loop (length mem) family_id 0 rlen.
End Dispatch.

(** ** Requests *)

(** The globals of the connection; [js_open] are the descriptors the library
    has open, [js_sent] the datagrams it has sent. *)
Record jni_state := {
  g_fd : Z;
  g_disconnect_fd : Z;
  g_family_id : Z;
  g_seq : Z;
  js_open : list Z;
  js_sent : list (list byte);
}.

Definition set_seq (seq : Z) (s : jni_state) : jni_state :=
  {| g_fd := g_fd s; g_disconnect_fd := g_disconnect_fd s; g_family_id := g_family_id s;
     g_seq := seq; js_open := js_open s; js_sent := js_sent s |}.
Definition set_open (fds : list Z) (s : jni_state) : jni_state :=
  {| g_fd := g_fd s; g_disconnect_fd := g_disconnect_fd s; g_family_id := g_family_id s;
     g_seq := g_seq s; js_open := fds; js_sent := js_sent s |}.
Definition add_sent (msg : list byte) (s : jni_state) : jni_state :=
  {| g_fd := g_fd s; g_disconnect_fd := g_disconnect_fd s; g_family_id := g_family_id s;
     g_seq := g_seq s; js_open := js_open s; js_sent := js_sent s ++ [msg] |}.

(** [socket], [eventfd] and [close] on the ledger of descriptors. *)
Definition open_fd (fd : Z) (s : jni_state) : jni_state := set_open (fd :: js_open s) s.
Fixpoint remove_fd (fd : Z) (l : list Z) : list Z :=
  match l with [] => [] | x :: l => if x =? fd then l else x :: remove_fd fd l end.
Definition close_fd (fd : Z) (s : jni_state) : jni_state :=
  set_open (remove_fd fd (js_open s)) s.

(** What the system answers: the new descriptor, and how many bytes [sendto]
    took. *)
Record net_reply := { socket_ret : Z; sendto_ret : nat -> Z }.

Section Requests.
Context (sys : net_reply).

(** [sendto] on [fd], [close] and the comparison with the length; whether the
    kernel takes the datagram is what [sendto] answers. *)
Definition send_and_close (fd : Z) (len : nat) (buf : list byte) (s : jni_state)
    : bool * jni_state :=
  let n := sendto_ret sys len in
  let s := if 0 <=? n then add_sent (take len buf) s else s in
  (n =? Z.of_nat len, close_fd fd s).

(** The message of the two monitor requests; [buf] is the local array, whatever it
    holds. *)
Definition monitor_build (cmd : rkx_genl_cmd) (buf : list byte) (uid family seq : Z)
    : option (nat * list byte) :=
  b ← nb_init buf;
  b ← putGenlHeader b family seq (user_cmd_no cmd) RKX_GENL_VERSION;
  '(_, b) ← putU32 b (user_attr_no RKX_A_UID) (u32 uid);
  nb_finish b.

Definition monitor_request (cmd : rkx_genl_cmd) (buf : list byte) (uid : Z) (s : jni_state)
    : option (bool * jni_state) :=
  let family := g_family_id s in
  if (family =? 0) || (g_fd s <? 0) then Some (false, s) else
  let fd := socket_ret sys in
  if fd <? 0 then Some (false, s) else
  let s := open_fd fd s in
  let seq := g_seq s in
  let s := set_seq (u32 (seq + 1)) s in
  '(len, buf) ← monitor_build cmd buf uid family seq;
  Some (send_and_close fd len buf s).

Definition addMonitorNet := monitor_request RKX_C_ADD_MONITOR_NET.
Definition delMonitorNet := monitor_request RKX_C_DEL_MONITOR_NET.

(** The puts of the two rule requests, joined by [&&]. *)
Definition put_rule (with_strategy : option Z) (rpc_name : list byte) (code : Z)
    (b : NlaBuilder) : option (bool * NlaBuilder) :=
  '(ok, b) ← putString b (user_attr_no RKX_A_FREE_ASYNC_RPC_NAME) rpc_name;
  if negb ok then Some (false, b) else
  '(ok, b) ← putS32 b (user_attr_no RKX_A_FREE_ASYNC_CODE) code;
  if negb ok then Some (false, b) else
  match with_strategy with
  | None => Some (true, b)
  | Some strategy => putU8 b (user_attr_no RKX_A_FREE_ASYNC_STRATEGY) (u8 strategy)
  end.

(** The message of the two rule requests, and whether it was complete. *)
Definition rule_build (cmd : rkx_genl_cmd) (with_strategy : option Z) (buf rpc_name : list byte)
    (code family seq : Z) : option (bool * (nat * list byte)) :=
  b ← nb_init buf;
  b ← putGenlHeader b family seq (user_cmd_no cmd) RKX_GENL_VERSION;
  '(ok, b) ← put_rule with_strategy rpc_name code b;
  '(len, buf) ← nb_finish b;
  Some (ok, (len, buf)).

Definition rule_request (cmd : rkx_genl_cmd) (with_strategy : option Z) (buf : list byte)
    (rpcName : option (list byte)) (code : Z) (s : jni_state) : option (bool * jni_state) :=
  let family := g_family_id s in
  match rpcName with
  | None => Some (false, s)
  | Some rpc_name =>
      if (family =? 0) || (g_fd s <? 0) || (code <? -1) then Some (false, s) else
      if bool_decide (rpc_name = []) then Some (false, s) else
      let fd := socket_ret sys in
      if fd <? 0 then Some (false, s) else
      let s := open_fd fd s in
      let seq := g_seq s in
      let s := set_seq (u32 (seq + 1)) s in
      '(ok, (len, buf)) ← rule_build cmd with_strategy buf rpc_name code family seq;
      if negb ok then Some (false, close_fd fd s) else
      Some (send_and_close fd len buf s)
  end.

Definition addFreeAsync buf rpcName (code strategy : Z) :=
  rule_request RKX_C_ADD_FREE_ASYNC (Some strategy) buf rpcName code.
Definition delFreeAsync buf rpcName (code : Z) :=
  rule_request RKX_C_DEL_FREE_ASYNC None buf rpcName code.
End Requests.

(** ** Decoding is safe on any bytes *)

Lemma c_string_nul (l rest : list byte) : exists s, c_string (l ++ NUL :: rest) = Some s.
Proof.
  induction l as [|b l [s IH]]; cbn [app c_string]; [by exists []|].
  case_bool_decide; [by exists []|]. rewrite IH. by exists (b :: s).
Qed.

Lemma field_safe mem head len tb a :
  Z.of_nat head + len <= Z.of_nat (length mem) -> table_inside mem head len RKX_A_MAX tb ->
  exists v, field mem tb a = Some v.
Proof.
  intros Hmem Htb. unfold field, get_s32.
  destruct (nla_get_safe mem head len 4 s32 (tb !! user_attr_no a) (-1)) as ([ok v] & ->); [done| |].
  - intros p Hp. by apply (Htb _ _ Hp).
  - by exists v.
Qed.

Lemma copy_rpc_name_safe mem head len tb :
  Z.of_nat head + len <= Z.of_nat (length mem) -> table_inside mem head len RKX_A_MAX tb ->
  exists arr name, copy_rpc_name mem tb = Some arr /\ c_string arr = Some name.
Proof.
  intros Hmem Htb. unfold copy_rpc_name. destruct (tb !! _) as [p|] eqn:Ep.
  2:{ eexists. exists []. by split. }
  destruct (attr_inside_len _ _ _ _ (proj2 (Htb _ _ Ep))) as (n & -> & Hn & _ & Hb).
  cbn [mbind option_bind]. set (slen := Z.to_nat _).
  assert (Hslen : (slen <= 140 /\ nla_data p + slen <= length mem)%nat)
    by (subst slen; unfold RKX_RPC_NAME_LEN; lia).
  rewrite mem_bytes_Some by lia. cbn [mbind option_bind].
  set (bytes := take slen _). assert (length bytes = slen) as Hbytes
    by (subst bytes; rewrite length_take, length_drop; lia).
  rewrite mem_write_Some by (rewrite length_replicate, Hbytes; unfold RKX_RPC_NAME_LEN; lia).
  rewrite take_0, app_nil_l, drop_replicate, Hbytes.
  replace (RKX_RPC_NAME_LEN + 1 - (0 + slen))%nat with (S (RKX_RPC_NAME_LEN - slen))
    by (unfold RKX_RPC_NAME_LEN; lia). cbn [replicate].
  destruct (c_string_nul bytes (replicate (RKX_RPC_NAME_LEN - slen) NUL)) as [name Hname]. eauto.
Qed.

Section Safety.
Context (mem : list byte) (head : nat) (len : Z).
Hypothesis inside : Z.of_nat head + len <= Z.of_nat (length mem).

(** Runs the reads of a handler. *)
Ltac read_fields Hmem Htb :=
  repeat match goal with
  | |- context [field mem ?tb ?a] =>
      let v := fresh "v" in
      destruct (field_safe mem _ _ tb a Hmem Htb) as [v ->]; cbn [mbind option_bind]
  end.

Lemma handlers_safe payload :
  attr_inside mem head len payload ->
  (exists cb, handle_binder_event mem payload = Some cb)
  /\ (exists cb, handle_signal_event mem payload = Some cb)
  /\ (exists cb, handle_network_event mem payload = Some cb).
Proof.
  intros Hin.
  destruct (parse_nested_safe mem RKX_A_MAX head len payload inside Hin)
    as (n & tb & _ & _ & Hmem & Hp & Htb).
  unfold handle_binder_event, handle_signal_event, handle_network_event. rewrite Hp.
  cbn [mbind option_bind].
  destruct (copy_rpc_name_safe mem _ _ tb Hmem Htb) as (arr & name & Harr & Hname).
  split_and!; read_fields Hmem Htb; rewrite ?Harr; cbn [mbind option_bind];
    rewrite ?Hname; cbn [mbind option_bind]; by eexists.
Qed.

Lemma handle_nest_safe tb a handler :
  table_inside mem head len RKX_A_MAX tb ->
  (forall p, attr_inside mem head len p -> exists cb, handler p = Some cb) ->
  exists cbs, handle_nest tb a handler = Some cbs.
Proof.
  intros Htb Hh. unfold handle_nest. destruct (tb !! _) as [p|] eqn:Ep; [|by eexists].
  destruct (Hh p (proj2 (Htb _ _ Ep))) as [cb ->]. by eexists.
Qed.
End Safety.

Lemma handle_event_safe mem family nlh nlmsg_len :
  rd_u mem nlh 4 = Some nlmsg_len -> 16 <= nlmsg_len < 2 ^ 31 ->
  Z.of_nat nlh + nlmsg_len <= Z.of_nat (length mem) ->
  exists cbs, handle_event mem family nlh = Some cbs.
Proof.
  intros Hlen Hr Hmem. unfold handle_event, NLMSG_HDRLEN, GENL_HDRLEN.
  destruct (rd_u_Some mem (nlh + 4) 2 ltac:(lia)) as (ty & -> & _). cbn [mbind option_bind].
  destruct (_ || _); [by eexists|]. destruct (negb _); [by eexists|].
  rewrite Hlen. cbn [mbind option_bind].
  destruct (Z.ltb_spec nlmsg_len (Z.of_nat (16 + 4))) as [|Hge]; [by eexists|].
  destruct (rd_u_Some mem (nlh + 16) 1 ltac:(lia)) as (cmd & -> & _). cbn [mbind option_bind].
  destruct (negb _); [by eexists|]. rewrite (swrap_small 32) by (unfold in_s; lia).
  destruct (parse_safe mem RKX_A_MAX (nlh + (16 + 4)) (nlmsg_len - Z.of_nat (16 + 4)))
    as (tb & -> & Htb); [lia..|]. cbn [mbind option_bind].
  destruct (tb !! _) as [evt|] eqn:Eevt; [|by eexists].
  edestruct (parse_nested_safe mem RKX_A_MAX) as (n & evt_tb & _ & _ & Hin & -> & Hevt);
    [|exact (proj2 (Htb _ _ Eevt))|]; [lia|]. cbn [mbind option_bind].
  pose proof (handlers_safe mem (nla_data evt) n Hin) as Hh.
  destruct (handle_nest_safe mem _ _ evt_tb RKX_A_BINDER (handle_binder_event mem) Hevt) as [c1 ->];
    [by intros p (Hp & _ & _)%Hh|].
  destruct (handle_nest_safe mem _ _ evt_tb RKX_A_SIGNAL (handle_signal_event mem) Hevt) as [c2 ->];
    [by intros p (_ & Hp & _)%Hh|].
  destruct (handle_nest_safe mem _ _ evt_tb RKX_A_NETWORK (handle_network_event mem) Hevt) as [c3 ->];
    [by intros p (_ & _ & Hp)%Hh|].
  by eexists.
Qed.

Lemma dispatch_loop_safe mem family fuel nlh rlen :
  0 <= rlen < 2 ^ 31 -> rlen mod 4 = 0 -> Z.of_nat nlh + rlen <= Z.of_nat (length mem) ->
  rlen <= Z.of_nat fuel -> exists cbs, dispatch_loop mem fuel family nlh rlen = Some cbs.
Proof.
  revert nlh rlen. induction fuel as [|fuel IH]; intros nlh rlen Hr Hal Hmem Hf;
    cbn [dispatch_loop]; unfold dispatch_step; rewrite (uwrap_small 64) by (unfold in_u; lia);
    destruct (Z.geb_spec rlen 16) as [H16|]; cbn [mbind option_bind]; try (by eexists).
  { lia. }
  destruct (rd_u_Some mem nlh 4 ltac:(lia)) as (l & Hl & Hlr). rewrite Hl. cbn [mbind option_bind].
  destruct ((16 <=? l) && (l <=? rlen)) eqn:Eok; [|by eexists]. bool_facts.
  destruct (handle_event_safe mem family nlh l Hl ltac:(lia) ltac:(lia)) as [cbs ->].
  cbn [mbind option_bind]. rewrite NLMSG_ALIGN_small by lia.
  destruct (NLA_ALIGN_spec l ltac:(lia)) as [Ha Hm].
  assert (NLA_ALIGN l <= rlen).
  { pose proof (Z.div_mod (NLA_ALIGN l) 4 ltac:(lia)). pose proof (Z.div_mod rlen 4 ltac:(lia)). lia. }
  rewrite (swrap_small 32) by (unfold in_s; lia).
  destruct (IH (nlh + Z.to_nat (NLA_ALIGN l))%nat (rlen - NLA_ALIGN l)) as [rest ->]; try lia.
  - rewrite Zminus_mod, Hm, Hal. done.
  - by eexists.
Qed.

(** ** Decoding does not depend on what lies behind the datagram *)

(** [m'] answers whatever [m] answers. *)
Definition answers {A} (m m' : option A) : Prop := forall x, m = Some x -> m' = Some x.

Lemma answers_bind {A B} (m m' : option A) (k k' : A -> option B) :
  answers m m' -> (forall x, answers (k x) (k' x)) -> answers (m ≫= k) (m' ≫= k').
Proof.
  intros Hm Hk y. destruct m as [x|]; [|done]. rewrite (Hm x eq_refl). apply Hk.
Qed.

Lemma answers_refl {A} (m : option A) : answers m m.
Proof. by intros x. Qed.

Section Stale.
Context (mem stale : list byte).

Lemma mem_bytes_stale off n : answers (mem_bytes mem off n) (mem_bytes (mem ++ stale) off n).
Proof.
  unfold mem_bytes. intros l. destruct (Nat.eqb_spec (length (take n (drop off mem))) n) as [E|]; [|done].
  intros [= <-]. rewrite length_take, length_drop in E. destruct (decide (n = 0%nat)) as [->|].
  - by rewrite take_0.
  - rewrite drop_app_le, take_app_le by (rewrite ?length_drop; lia).
    by rewrite (proj2 (Nat.eqb_eq _ _)) by (rewrite length_take, length_drop; lia).
Qed.

Lemma rd_u_stale off n : answers (rd_u mem off n) (rd_u (mem ++ stale) off n).
Proof.
  intros v. unfold rd_u. destruct (mem_bytes mem off n) as [l|] eqn:E; [|done].
  by rewrite (mem_bytes_stale off n l E).
Qed.

Ltac answers_step :=
  first
    [ apply answers_refl | apply rd_u_stale | apply mem_bytes_stale
    | apply answers_bind; [|intros ?]
    | match goal with
      | |- answers (if ?b then _ else _) (if ?b then _ else _) => destruct b
      | |- answers (match ?x with _ => _ end) (match ?x with _ => _ end) => destruct x
      end ].

Lemma nla_parse_loop_stale fuel fuel' maxtype tb nla rem :
  (fuel <= fuel')%nat ->
  answers (nla_parse_loop mem fuel maxtype tb nla rem)
    (nla_parse_loop (mem ++ stale) fuel' maxtype tb nla rem).
Proof.
  revert fuel' tb nla rem. induction fuel as [|fuel IH]; intros [|fuel'] tb nla rem Hf;
    try lia; cbn [nla_parse_loop]; unfold nla_ok, nla_type, nla_next; repeat answers_step; try done.
  apply IH. lia.
Qed.

Lemma nla_parse_stale maxtype head len :
  answers (rkx_nla_parse mem maxtype head len) (rkx_nla_parse (mem ++ stale) maxtype head len).
Proof. by apply nla_parse_loop_stale. Qed.

Lemma nla_parse_nested_stale maxtype nla :
  answers (rkx_nla_parse_nested mem maxtype nla) (rkx_nla_parse_nested (mem ++ stale) maxtype nla).
Proof. unfold rkx_nla_parse_nested, nla_len. repeat answers_step. apply nla_parse_stale. Qed.

Lemma field_stale tb a : answers (field mem tb a) (field (mem ++ stale) tb a).
Proof. unfold field, get_s32, rkx_nla_get, nla_len. repeat answers_step. Qed.

Lemma copy_rpc_name_stale tb : answers (copy_rpc_name mem tb) (copy_rpc_name (mem ++ stale) tb).
Proof. unfold copy_rpc_name, nla_len. repeat answers_step. Qed.

Ltac answers_fields :=
  repeat (first [apply nla_parse_nested_stale | apply field_stale | apply copy_rpc_name_stale
                | answers_step]).

Lemma handle_event_stale family nlh :
  answers (handle_event mem family nlh) (handle_event (mem ++ stale) family nlh).
Proof.
  unfold handle_event, handle_nest, handle_binder_event, handle_signal_event, handle_network_event.
  repeat (first [apply nla_parse_stale | progress answers_fields]).
Qed.

Lemma dispatch_step_stale family nlh rlen :
  answers (dispatch_step mem family nlh rlen) (dispatch_step (mem ++ stale) family nlh rlen).
Proof. unfold dispatch_step. repeat (first [apply handle_event_stale | answers_step]). Qed.

Lemma dispatch_loop_stale family fuel fuel' nlh rlen :
  (fuel <= fuel')%nat ->
  answers (dispatch_loop mem fuel family nlh rlen) (dispatch_loop (mem ++ stale) fuel' family nlh rlen).
Proof.
  revert fuel' nlh rlen. induction fuel as [|fuel IH]; intros [|fuel'] nlh rlen Hf; try lia;
    cbn [dispatch_loop]; repeat (first [apply dispatch_step_stale | answers_step]); try done.
  apply IH. lia.
Qed.
End Stale.

(** C19: receiving is safe: for every datagram whose length is a multiple of
    four, whatever its bytes, the loop over its messages ends, neither it nor
    the decoding of an event reads outside the datagram, and what is delivered
    does not depend on the bytes behind the datagram in the receive buffer. *)
Theorem dispatch_stays_inside datagram stale family :
  Z.of_nat (length datagram) < 2 ^ 31 -> Z.of_nat (length datagram) mod 4 = 0 ->
  exists cbs, dispatch datagram family (Z.of_nat (length datagram)) = Some cbs
    /\ dispatch (datagram ++ stale) family (Z.of_nat (length datagram)) = Some cbs.
Proof.
  intros H31 Hal.
  destruct (dispatch_loop_safe datagram family (length datagram) 0 (Z.of_nat (length datagram)))
    as [cbs Hcbs]; [lia..|].
  exists cbs. split; [done|]. eapply dispatch_loop_stale; [|exact Hcbs]. rewrite length_app. lia.
Qed.

Lemma dispatch_stays_inside_witness :
  exists cbs, dispatch (replicate 24 Byte.x18 ++ replicate 8 NUL) 30 24 = Some cbs.
Proof.
  destruct (dispatch_stays_inside (replicate 24 Byte.x18) (replicate 8 NUL) 30) as (cbs & _ & Hcbs);
    [vm_compute; reflexivity..|]. exists cbs. exact Hcbs.
Defined.
