(* ===== verification/Resolve.v ===== *)
(** rkx_jni.cpp, [nl_sendto], [nl_recv] and [resolve_family_group]: asking the
    generic netlink controller for the id of the module's family and of its
    multicast group.

    The controller is the kernel's; what its answer holds is [ctrl_describes],
    the attributes linux/genetlink.h documents for CTRL_CMD_NEWFAMILY. *)

From S2P Require Import Prelude HashTable Uapi NetUid FreeAsync Nla Genl Jni.

(** ** Constants of linux/genetlink.h *)

Definition GENL_ID_CTRL : Z := 16.
Definition CTRL_CMD_GETFAMILY : Z := 3.
Definition CTRL_ATTR_FAMILY_ID : Z := 1.
Definition CTRL_ATTR_FAMILY_NAME : Z := 2.
Definition CTRL_ATTR_MCAST_GROUPS : Z := 7.
Definition CTRL_ATTR_MAX : Z := 10.
Definition CTRL_ATTR_MCAST_GRP_NAME : Z := 1.
Definition CTRL_ATTR_MCAST_GRP_ID : Z := 2.
Definition CTRL_ATTR_MCAST_GRP_MAX : Z := 2.

(** ** The request *)

(** The message [resolve_family_group] builds in a zeroed array of 256 bytes,
    and its length. *)
Definition resolve_request (seq : Z) : option (nat * list byte) :=
  let name := RKX_GENL_FAMILY_NAME in
  let name_len := u16 (Z.of_nat (length name) + 1) in
  let attr_len := u16 (Z.of_nat NLA_HDRLEN + name_len) in
  let total := u16 (Z.of_nat NLMSG_HDRLEN + Z.of_nat GENL_HDRLEN + NLA_ALIGN attr_len) in
  buf ← mem_write (replicate 256 NUL) 0 (le_bytes 4 total);
  buf ← mem_write buf 4 (le_bytes 2 GENL_ID_CTRL);
  buf ← mem_write buf 6 (le_bytes 2 NLM_F_REQUEST);
  buf ← mem_write buf 8 (le_bytes 4 seq);
  buf ← mem_write buf NLMSG_HDRLEN (le_bytes 1 CTRL_CMD_GETFAMILY);
  buf ← mem_write buf (NLMSG_HDRLEN + 1) (le_bytes 1 1);
  let nla := (NLMSG_HDRLEN + GENL_HDRLEN)%nat in
  buf ← mem_write buf nla (le_bytes 2 attr_len);
  buf ← mem_write buf (nla + 2) (le_bytes 2 CTRL_ATTR_FAMILY_NAME);
  bytes ← mem_bytes (name ++ [NUL]) 0 (Z.to_nat name_len);
  buf ← mem_write buf (nla_data nla) bytes;
  Some (Z.to_nat total, buf).

(** ** The answer *)

(** [strcmp(mem + off, s) == 0]: it stops at the first difference. *)
Fixpoint strcmp_is (mem : list byte) (off : nat) (s : list byte) : option bool :=
  b ← mem !! off;
  match s with
  | [] => Some (bool_decide (b = NUL))
  | c :: s => if bool_decide (b = c) then strcmp_is mem (S off) s else Some false
  end.

(** The loop over the multicast groups; [gid] is 0 until one matches. *)
Fixpoint mcgrp_loop (mem : list byte) (fuel : nat) (mcgrp : nat) (rem_mcgrp gid : Z)
    : option Z :=
  ok ← nla_ok mem mcgrp rem_mcgrp;
  if (ok : bool) then
    match fuel with
    | O => None
    | S fuel =>
        len ← nla_len mem mcgrp;
        tb ← rkx_nla_parse mem CTRL_ATTR_MCAST_GRP_MAX (nla_data mcgrp) len;
        match tb !! CTRL_ATTR_MCAST_GRP_NAME, tb !! CTRL_ATTR_MCAST_GRP_ID with
        | Some name, Some id =>
            found ← strcmp_is mem (nla_data name) RKX_GENL_MCGRP_NAME;
            if (found : bool) then snd <$> get_u32 mem (Some id) gid
            else
              '(next, rem_mcgrp) ← nla_next mem mcgrp rem_mcgrp;
              mcgrp_loop mem fuel next rem_mcgrp gid
        | _, _ =>
            '(next, rem_mcgrp) ← nla_next mem mcgrp rem_mcgrp;
            mcgrp_loop mem fuel next rem_mcgrp gid
        end
    end
  else Some gid.

(** The part behind [nl_recv], which answered [rlen] and left [reply] in the
    array: the family and group id, or none. *)
Definition resolve_reply (reply : list byte) (rlen : Z) : option (option (Z * Z)) :=
  if rlen <? Z.of_nat NLMSG_HDRLEN then Some None else
  nlmsg_type ← rd_u reply 4 2;
  if nlmsg_type =? NLMSG_ERROR then Some None else
  nlmsg_len ← rd_u reply 0 4;
  let payload_off := (NLMSG_HDRLEN + GENL_HDRLEN)%nat in
  let payload_len := s32 (Z.min (s32 nlmsg_len) rlen - Z.of_nat payload_off) in
  tb ← rkx_nla_parse reply CTRL_ATTR_MAX payload_off payload_len;
  '(_, fid) ← get_u16 reply (tb !! CTRL_ATTR_FAMILY_ID) 0;
  gid ← match tb !! CTRL_ATTR_MCAST_GROUPS with
        | None => Some 0
        | Some groups =>
            len ← nla_len reply groups;
            mcgrp_loop reply (Z.to_nat len) (nla_data groups) len 0
        end;
  if (fid =? 0) || (gid =? 0) then Some None else Some (Some (fid, gid)).

(** What the system answers: how many bytes [sendto] takes of a datagram, and
    what [recvfrom] returns and leaves in the array of 4096 bytes. *)
Record ctrl_reply := {
  ctrl_sendto : list byte -> Z;
  ctrl_recv : list byte -> Z * list byte;
}.

Definition nl_sendto (ctrl : ctrl_reply) (buf : list byte) (len : nat) (s : jni_state)
    : Z * jni_state :=
  let n := ctrl_sendto ctrl (take len buf) in
  let s := if 0 <=? n then add_sent (take len buf) s else s in
  (if n =? Z.of_nat len then 0 else -1, s).

(** The answer to the request [msg]. *)
Definition nl_recv (ctrl : ctrl_reply) (msg : list byte) : Z * list byte :=
  let '(n, buf) := ctrl_recv ctrl msg in (s32 n, buf).

Definition resolve_family_group (ctrl : ctrl_reply) (s : jni_state)
    : option (option (Z * Z) * jni_state) :=
  let seq := g_seq s in
  let s := set_seq (u32 (seq + 1)) s in
  '(total, buf) ← resolve_request seq;
  let '(rc, s) := nl_sendto ctrl buf total s in
  if rc <? 0 then Some (None, s) else
  let '(rlen, reply) := nl_recv ctrl (take total buf) in
  r ← resolve_reply reply rlen; Some (r, s).

(** ** The request is the controller's GETFAMILY *)

Definition getfamily_message (seq : Z) : list byte :=
  genl_header 36 GENL_ID_CTRL NLM_F_REQUEST seq CTRL_CMD_GETFAMILY 1
  ++ attrs_bytes [(CTRL_ATTR_FAMILY_NAME, RKX_GENL_FAMILY_NAME ++ [NUL])].

Lemma resolve_request_spec seq :
  exists buf, resolve_request seq = Some (36%nat, buf) /\ take 36 buf = getfamily_message seq.
Proof. eexists. split; reflexivity. Qed.

(** ** Decoding any answer is safe *)

Lemma strcmp_safe mem off s :
  (off + length s < length mem)%nat -> exists b, strcmp_is mem off s = Some b.
Proof.
  revert off. induction s as [|c s IH]; intros off Hl; cbn [strcmp_is length] in *.
  - destruct (lookup_lt_is_Some_2 mem off ltac:(lia)) as [b ->]. by eexists.
  - destruct (lookup_lt_is_Some_2 mem off ltac:(lia)) as [b ->]. cbn [mbind option_bind].
    split_guard; [apply IH; lia|by eexists].
Qed.

Lemma nla_get_inside mem head len size conv tb maxtype type out :
  Z.of_nat head + len <= Z.of_nat (length mem) -> table_inside mem head len maxtype tb ->
  exists r, rkx_nla_get mem size conv (tb !! type) out = Some r.
Proof.
  intros Hmem Htb. apply (nla_get_safe mem head len); [done|]. intros p Hp. by apply (Htb type).
Qed.

Section Safe.
Context (mem : list byte) (head : nat) (len : Z).
Hypothesis room : Z.of_nat head + len + Z.of_nat (length RKX_GENL_MCGRP_NAME)
  < Z.of_nat (length mem).

Lemma mcgrp_loop_safe fuel p rem gid :
  len < 2 ^ 31 -> (head <= p)%nat -> -4 < rem ->
  Z.of_nat p + rem = Z.of_nat head + len -> rem <= Z.of_nat fuel ->
  exists r, mcgrp_loop mem fuel p rem gid = Some r.
Proof.
  intros Hlen. revert p rem. induction fuel as [|fuel IH]; intros p rem Hp Hr Hpr Hf;
    cbn [mcgrp_loop]; unfold nla_ok at 1; destruct (Z.geb_spec rem 4) as [Hge|]; cbn [mbind option_bind];
    try by eexists.
  { lia. }
  destruct (rd_u_Some mem p 2 ltac:(lia)) as (l & Hl & Hlr). rewrite Hl. cbn [mbind option_bind].
  destruct ((4 <=? l) && (l <=? rem)) eqn:Eok; [|by eexists]. bool_facts.
  change (8 * Z.of_nat 2) with 16 in Hlr.
  assert (Hnext : exists r, ('(next, rem0) ← nla_next mem p rem; mcgrp_loop mem fuel next rem0 gid)
    = Some r).
  { unfold nla_next. rewrite Hl. cbn [mbind option_bind].
    destruct (NLA_ALIGN_spec l ltac:(lia)) as [Ha _].
    rewrite (swrap_small 32) by (unfold in_s; lia). apply IH; lia. }
  destruct (attr_inside_len mem head len p) as (n & -> & Hn & _ & Hb).
  { exists l. split_and!; (done || lia). }
  cbn [mbind option_bind].
  destruct (parse_safe mem CTRL_ATTR_MCAST_GRP_MAX (nla_data p) n) as (tb & -> & Htb); [lia..|].
  cbn [mbind option_bind].
  destruct (tb !! CTRL_ATTR_MCAST_GRP_NAME) as [name|] eqn:Ename; [|done].
  destruct (tb !! CTRL_ATTR_MCAST_GRP_ID) as [id|] eqn:Eid; [|done].
  destruct (attr_inside_len _ _ _ _ (proj2 (Htb _ _ Ename))) as (k & _ & Hk & _ & Hkb).
  destruct (strcmp_safe mem (nla_data name) RKX_GENL_MCGRP_NAME) as [found ->]; [lia|].
  cbn [mbind option_bind]. destruct found; [|done].
  destruct (nla_get_inside mem (nla_data p) n 4 u32 tb _ CTRL_ATTR_MCAST_GRP_ID gid ltac:(lia) Htb)
    as [r Hget]. rewrite Eid in Hget. unfold get_u32. rewrite Hget. by eexists.
Qed.
End Safe.

(** Ids that are returned are in range, whatever was received. *)
Lemma mcgrp_loop_range mem fuel p rem gid r :
  0 <= gid < 2 ^ 32 -> mcgrp_loop mem fuel p rem gid = Some r -> 0 <= r < 2 ^ 32.
Proof.
  intros Hgid. revert p rem. induction fuel as [|fuel IH]; intros p rem; cbn [mcgrp_loop];
    destruct (nla_ok mem p rem) as [[]|]; cbn [mbind option_bind]; try done; try (by intros [= <-]).
  assert (Hnext : ('(next, rem0) ← nla_next mem p rem; mcgrp_loop mem fuel next rem0 gid) = Some r ->
    0 <= r < 2 ^ 32).
  { destruct (nla_next mem p rem) as [[next rem']|]; [apply IH|done]. }
  destruct (nla_len mem p); [cbn [mbind option_bind]|done].
  destruct (rkx_nla_parse mem _ _ _) as [tb|]; [cbn [mbind option_bind]|done].
  destruct (tb !! _) as [name|]; [|done]. destruct (tb !! _) as [id|]; [|done].
  destruct (strcmp_is mem _ _) as [[]|]; cbn [mbind option_bind]; try done.
  unfold get_u32, rkx_nla_get. destruct (nla_len mem id); [cbn [mbind option_bind]|done].
  split_guard; [by intros [= <-]|]. destruct (rd_u mem _ _) as [v|]; [|done].
  intros [= <-]. by apply (uwrap_range 32).
Qed.

Lemma resolve_reply_range reply rlen fid gid :
  resolve_reply reply rlen = Some (Some (fid, gid)) -> 0 < fid < 2 ^ 16 /\ 0 < gid < 2 ^ 32.
Proof.
  unfold resolve_reply. split_guard; [done|].
  destruct (rd_u reply 4 2) as [ty|]; [cbn [mbind option_bind]|done]. split_guard; [done|].
  destruct (rd_u reply 0 4) as [nl|]; [cbn [mbind option_bind]|done].
  destruct (rkx_nla_parse reply _ _ _) as [tb|]; [cbn [mbind option_bind]|done].
  destruct (get_u16 reply _ 0) as [[ok f]|] eqn:Ef; [cbn [mbind option_bind]|done].
  assert (Hf : 0 <= f < 2 ^ 16).
  { unfold get_u16, rkx_nla_get in Ef. destruct (tb !! CTRL_ATTR_FAMILY_ID) as [p|];
      [|by injection Ef as _ <-]. destruct (nla_len reply p); [cbn [mbind option_bind] in Ef|done].
    split_guard; [by injection Ef as _ <-|]. destruct (rd_u reply _ _); [|done].
    injection Ef as _ <-. by apply (uwrap_range 16). }
  destruct (match tb !! CTRL_ATTR_MCAST_GROUPS with Some _ => _ | None => _ end) as [g|] eqn:Eg;
    [cbn [mbind option_bind]|done].
  assert (Hg : 0 <= g < 2 ^ 32).
  { destruct (tb !! CTRL_ATTR_MCAST_GROUPS) as [p|]; [|by injection Eg as <-].
    destruct (nla_len reply p); [cbn [mbind option_bind] in Eg|done].
    by apply mcgrp_loop_range in Eg. }
  split_guard; [done|]. intros [= <- <-]. bool_facts. lia.
Qed.

(** Answers that are decoded inside the array.  The length the header claims is
    not one of the twenty for which [payload_len] overflows, and behind the
    attributes the array has room for the name they are compared with: [strcmp]
    does not know where an attribute ends. *)
Record reply_readable (reply : list byte) (rlen : Z) : Prop := {
  rr_received : rlen <= Z.of_nat (length reply) /\ rlen < 2 ^ 31;
  rr_no_overflow : ~ (2 ^ 31 <= le_Z (take 4 reply) < 2 ^ 31 + 20);
  rr_room : le_Z (take 4 reply) < 2 ^ 31 ->
    Z.min (le_Z (take 4 reply)) rlen + Z.of_nat (length RKX_GENL_MCGRP_NAME)
    < Z.of_nat (length reply);
}.

Lemma resolve_reply_total reply rlen :
  reply_readable reply rlen -> exists r, resolve_reply reply rlen = Some r.
Proof.
  intros [[Hin H31] Hnl Hroom]. unfold resolve_reply, NLMSG_HDRLEN, GENL_HDRLEN.
  destruct (Z.ltb_spec rlen (Z.of_nat 16)) as [|H16]; [by eexists|].
  destruct (rd_u_Some reply 4 2 ltac:(lia)) as (ty & -> & _). cbn [mbind option_bind].
  destruct (_ =? _); [by eexists|].
  unfold rd_u at 1. rewrite mem_bytes_Some, drop_0 by lia. cbn [fmap option_fmap option_map mbind option_bind].
  pose proof (le_Z_range (take 4 reply)) as Hn32.
  rewrite length_take, Nat.min_l in Hn32 by lia. change (2 ^ (8 * Z.of_nat 4)) with (2 ^ 32) in Hn32.
  destruct (Z.lt_ge_cases (le_Z (take 4 reply)) (2 ^ 31)) as [Hsmall|Hbig].
  2:{ assert (Hs : s32 (le_Z (take 4 reply)) = le_Z (take 4 reply) - 2 ^ 32).
      { unfold swrap. change (2 ^ (32 - 1)) with (2 ^ 31).
        rewrite <- (Z.mod_unique _ _ 1 (le_Z (take 4 reply) + 2 ^ 31 - 2 ^ 32)) by lia. lia. }
      rewrite Hs, Z.min_l, (swrap_small 32) by (unfold in_s; lia).
      rewrite parse_short by lia. cbn [mbind option_bind]. unfold get_u16, rkx_nla_get.
      rewrite !lookup_empty. by eexists. }
  specialize (Hroom Hsmall).
  rewrite (swrap_small 32 (le_Z _)) by (unfold in_s; lia).
  rewrite (swrap_small 32) by (unfold in_s; lia).
  set (len := Z.min _ _ - _). assert (Hlen : len = Z.min (le_Z (take 4 reply)) rlen - 20) by (subst len; lia).
  assert (Hp : exists tb, rkx_nla_parse reply CTRL_ATTR_MAX (16 + 4) len = Some tb
    /\ table_inside reply (16 + 4) len CTRL_ATTR_MAX tb).
  { destruct (decide (len < 4)).
    - exists ∅. rewrite parse_short by done. split; [done|]. by intros type p ?%lookup_empty_Some.
    - apply parse_safe; lia. }
  destruct Hp as (tb & -> & Htb). cbn [mbind option_bind].
  destruct (nla_get_inside reply (16 + 4) len 2 u16 tb _ CTRL_ATTR_FAMILY_ID 0 ltac:(lia) Htb)
    as [[ok fid] Hfid]. unfold get_u16. rewrite Hfid. cbn [mbind option_bind].
  assert (Hg : exists gid, match tb !! CTRL_ATTR_MCAST_GROUPS with
    | None => Some 0
    | Some groups => n ← nla_len reply groups;
        mcgrp_loop reply (Z.to_nat n) (nla_data groups) n 0 end = Some gid).
  { destruct (tb !! CTRL_ATTR_MCAST_GROUPS) as [g|] eqn:Eg; [|by eexists].
    destruct (attr_inside_len _ _ _ _ (proj2 (Htb _ _ Eg))) as (n & -> & Hn & _ & Hb).
    cbn [mbind option_bind]. apply (mcgrp_loop_safe reply (nla_data g) n); lia. }
  destruct Hg as [gid ->]. cbn [mbind option_bind].
  split_guard; by eexists.
Qed.

(** C40: decoding the controller's answer is safe: for every answer, whatever its
    bytes and whatever lengths its attributes claim, that leaves room in the array
    for the seven bytes of the name compared with a group's, and whose header
    does not claim one of the lengths from 2^31 to 2^31+19 (for which the
    payload's length overflows), the two loops over attributes end, nothing
    outside the array is read, and the result is either a failure or a pair of
    ids, neither of them zero, each in the range of its type. *)
Theorem resolve_reply_safe reply rlen :
  reply_readable reply rlen ->
  exists r, resolve_reply reply rlen = Some r
    /\ forall fid gid, r = Some (fid, gid) -> 0 < fid < 2 ^ 16 /\ 0 < gid < 2 ^ 32.
Proof.
  intros Hok. destruct (resolve_reply_total reply rlen Hok) as [r Hr].
  exists r. split; [done|]. intros fid gid ->. by apply resolve_reply_range in Hr.
Qed.

(** ** Decoding the controller's answer *)


Lemma strcmp_app pre name rest s :
  no_nul name -> no_nul s ->
  strcmp_is (pre ++ name ++ NUL :: rest) (length pre) s = Some (bool_decide (name = s)).
Proof.
  intros Hn Hs. revert pre name Hn. induction Hs as [|c s Hc Hs IH]; intros pre name Hn;
    cbn [strcmp_is]; (rewrite lookup_app_r, Nat.sub_diag by lia);
    (destruct Hn as [|b name Hb Hn]; cbn [app lookup list_lookup mbind option_bind]).
  - done.
  - f_equal. by rewrite !bool_decide_eq_false_2 by done.
  - by rewrite !bool_decide_eq_false_2 by done.
  - case_bool_decide as E.
    + subst c. specialize (IH (pre ++ [b]) name Hn).
      rewrite length_app, Nat.add_1_r, <- app_assoc in IH. cbn [app] in IH. rewrite IH.
      f_equal. apply bool_decide_ext. naive_solver.
    + by rewrite bool_decide_eq_false_2 by naive_solver.
Qed.

Lemma strcmp_attr mem p name s :
  attr_at mem p (name ++ [NUL]) -> no_nul name -> no_nul s ->
  strcmp_is mem (nla_data p) s = Some (bool_decide (name = s)).
Proof.
  intros (pre & t & post & -> & -> & _) Hn Hs. unfold attr_bytes.
  rewrite <- !app_assoc, (app_assoc pre), (app_assoc (pre ++ _)). cbn [app].
  replace (nla_data (length pre)) with (length ((pre ++ le_bytes 2
    (4 + Z.of_nat (length (name ++ [NUL])))) ++ le_bytes 2 t)).
  - by apply strcmp_app.
  - unfold nla_data, NLA_HDRLEN. rewrite !length_app, !length_le_bytes. lia.
Qed.

(** A multicast group in the answer: the type of its nest and its attributes. *)
Abbreviation group := (Z * list (Z * list byte))%type.
Definition group_attr (g : group) : Z * list byte := (g.1, attrs_bytes g.2).

Record group_ok (g : group) : Prop := {
  go_small : small_attr (group_attr g);
  go_attrs : Forall small_attr g.2;
  go_name n : attr_value CTRL_ATTR_MCAST_GRP_MAX CTRL_ATTR_MCAST_GRP_NAME g.2 = Some n ->
    exists name, n = name ++ [NUL] /\ no_nul name;
  go_id i : attr_value CTRL_ATTR_MCAST_GRP_MAX CTRL_ATTR_MCAST_GRP_ID g.2 = Some i ->
    length i = 4%nat;
}.

(** The id of the first group with the module's name. *)
Fixpoint find_group (groups : list group) : Z :=
  match groups with
  | [] => 0
  | g :: groups =>
      match attr_value CTRL_ATTR_MCAST_GRP_MAX CTRL_ATTR_MCAST_GRP_NAME g.2,
            attr_value CTRL_ATTR_MCAST_GRP_MAX CTRL_ATTR_MCAST_GRP_ID g.2 with
      | Some n, Some i =>
          if bool_decide (n = RKX_GENL_MCGRP_NAME ++ [NUL]) then le_Z i else find_group groups
      | _, _ => find_group groups
      end
  end.

Lemma table_reads_lookup mem maxtype tb l type :
  table_reads mem maxtype tb l ->
  match tb !! type with
  | Some p => exists d, attr_value maxtype type l = Some d /\ attr_at mem p d
  | None => attr_value maxtype type l = None
  end.
Proof.
  intros Ht. specialize (Ht type). destruct (attr_value maxtype type l) as [d|].
  - destruct Ht as (p & -> & Hat). eauto.
  - by rewrite Ht.
Qed.

Lemma mcgrp_loop_finds fuel pre groups post :
  Forall group_ok groups ->
  Z.of_nat (length (attrs_bytes (group_attr <$> groups))) < 2 ^ 31 ->
  (length (attrs_bytes (group_attr <$> groups)) <= fuel)%nat ->
  mcgrp_loop (pre ++ attrs_bytes (group_attr <$> groups) ++ post) fuel (length pre)
    (Z.of_nat (length (attrs_bytes (group_attr <$> groups)))) 0
  = Some (find_group groups).
Proof.
  intros Hg. revert fuel pre. induction Hg as [|[t a] groups Hok Hg IH]; intros fuel pre Hlen Hf.
  { by destruct fuel. }
  destruct Hok as [Hsmall Hattrs Hname Hid]. cbn [fmap list_fmap] in *.
  change (group_attr (t, a)) with (t, attrs_bytes a) in *. cbn [snd] in *.
  rewrite attrs_bytes_cons, length_app, <- app_assoc in *.
  pose proof (length_attr_bytes_min t (attrs_bytes a)).
  pose proof (length_attr_bytes t (attrs_bytes a)) as Htot.
  set (rest := attrs_bytes (group_attr <$> groups)) in *.
  destruct (attr_header pre t (attrs_bytes a) (rest ++ post) Hsmall) as (Hlen' & _ & _).
  set (mem := pre ++ attr_bytes t (attrs_bytes a) ++ rest ++ post) in *.
  assert (Hat : attr_at mem (length pre) (attrs_bytes a)) by (by exists pre, t, (rest ++ post)).
  destruct fuel as [|fuel]; [lia|]. cbn [mcgrp_loop find_group]. unfold nla_ok at 1.
  rewrite (proj2 (Z.geb_le _ _)), Hlen' by lia. cbn [mbind option_bind].
  rewrite (proj2 (Z.leb_le 4 _)), (proj2 (Z.leb_le _ _)) by lia. cbn [andb].
  destruct (attr_at_nested mem CTRL_ATTR_MCAST_GRP_MAX _ a Hat Hattrs) as (tb & Hp & Htb).
  unfold rkx_nla_parse_nested in Hp. rewrite (attr_at_len _ _ _ Hat) in *.
  cbn [mbind option_bind] in *. rewrite Hp. cbn [mbind option_bind snd].
  assert (Hnext : ('(next, rem0) ← nla_next mem (length pre)
      (Z.of_nat (length (attr_bytes t (attrs_bytes a)) + length rest));
      mcgrp_loop mem fuel next rem0 0) = Some (find_group groups)).
  { unfold nla_next. rewrite Hlen'. cbn [mbind option_bind]. rewrite <- Htot, Nat2Z.id.
    rewrite (swrap_small 32) by (unfold in_s; lia).
    replace (Z.of_nat (length (attr_bytes t (attrs_bytes a)) + length rest)
             - Z.of_nat (length (attr_bytes t (attrs_bytes a)))) with (Z.of_nat (length rest)) by lia.
    subst mem. rewrite (app_assoc pre), <- length_app. apply IH; lia. }
  pose proof (table_reads_lookup _ _ _ _ CTRL_ATTR_MCAST_GRP_NAME Htb) as Hn.
  pose proof (table_reads_lookup _ _ _ _ CTRL_ATTR_MCAST_GRP_ID Htb) as Hi.
  destruct (tb !! CTRL_ATTR_MCAST_GRP_NAME) as [pn|]; [|by rewrite Hn].
  destruct Hn as (n & Hn & Hnat). rewrite Hn.
  destruct (tb !! CTRL_ATTR_MCAST_GRP_ID) as [pi|]; [|by rewrite Hi].
  destruct Hi as (i & Hi & Hiat). rewrite Hi.
  destruct (Hname n Hn) as (name & -> & Hnn). specialize (Hid i Hi).
  rewrite (strcmp_attr mem pn name) by (done || by vm_compute; repeat constructor).
  cbn [mbind option_bind]. case_bool_decide as E.
  - rewrite bool_decide_eq_true_2 by (by rewrite E). unfold get_u32.
    rewrite (attr_at_get mem 4 u32 pi i) by (done || lia). cbn [fmap option_fmap option_map snd].
    rewrite take_ge by lia. rewrite uwrap_small; [done|].
    pose proof (le_Z_range i). rewrite Hid in *. done.
  - rewrite bool_decide_eq_false_2; [done|]. intros E'. by apply app_inj_tail in E' as [? _].
Qed.

(** [l] are the attributes with which the controller describes [fam], registered
    under the id [fid] with the ids [gids] for its groups; [groups] are the
    nests of its groups. *)
Record ctrl_describes (fam : genl_family) (fid : Z) (gids : list Z)
    (l : list (Z * list byte)) (groups : list group) : Prop := {
  cd_small : Forall small_attr l;
  cd_id : attr_value CTRL_ATTR_MAX CTRL_ATTR_FAMILY_ID l = Some (le_bytes 2 fid);
  cd_groups : attr_value CTRL_ATTR_MAX CTRL_ATTR_MCAST_GROUPS l
    = Some (attrs_bytes (group_attr <$> groups));
  cd_group : Forall2 (fun m g =>
    small_attr (group_attr g) /\ Forall small_attr g.2
    /\ attr_value CTRL_ATTR_MCAST_GRP_MAX CTRL_ATTR_MCAST_GRP_NAME g.2 = Some (m.1 ++ [NUL])
    /\ attr_value CTRL_ATTR_MCAST_GRP_MAX CTRL_ATTR_MCAST_GRP_ID g.2 = Some (le_bytes 4 m.2))
    (zip (fam_mcgrps fam) gids) groups;
}.

(** The header of an answer of the controller. *)
Record ctrl_header (hdr : list byte) (len : Z) : Prop := {
  ch_length : length hdr = 20%nat;
  ch_len : take 4 hdr = le_bytes 4 len;
  ch_type : take 2 (drop 4 hdr) = le_bytes 2 GENL_ID_CTRL;
}.

Lemma ctrl_header_reads hdr len body :
  ctrl_header hdr len -> in_u 32 len ->
  rd_u (hdr ++ body) 0 4 = Some len /\ rd_u (hdr ++ body) 4 2 = Some GENL_ID_CTRL.
Proof.
  intros [Hl Hlen Hty] Hr. unfold rd_u. rewrite !mem_bytes_Some by (rewrite length_app; lia).
  rewrite drop_0, take_app_le, Hlen by lia. rewrite drop_app_le, take_app_le, Hty
    by (rewrite ?length_drop; lia).
  cbn [fmap option_fmap option_map]. by rewrite le_Z_bytes, uwrap_small.
Qed.

Lemma describes_group fid gid l groups :
  ctrl_describes rkx_genl_family fid [gid] l groups -> in_u 32 gid ->
  Forall group_ok groups /\ find_group groups = gid.
Proof.
  intros Hd Hgid. pose proof (cd_group _ _ _ _ _ Hd) as Hg.
  cbn [fam_mcgrps rkx_genl_family rkx_genl_mcgrps zip zip_with] in Hg.
  apply Forall2_cons_inv_l in Hg as (g & rest & (Hs & Ha & Hn & Hi) & Hrest & ->).
  apply Forall2_nil_inv_l in Hrest as ->. cbn [fst snd] in *. split.
  - constructor; [|constructor]. split; try done.
    + rewrite Hn. intros n [= <-]. exists RKX_GENL_MCGRP_NAME.
      split; [done|]. vm_compute. repeat constructor; discriminate.
    + rewrite Hi. by intros i [= <-].
  - cbn [find_group]. rewrite Hn, Hi, bool_decide_eq_true_2 by done.
    by rewrite le_Z_bytes, uwrap_small.
Qed.

Lemma resolve_reply_describes fid gid l groups hdr stale :
  ctrl_describes rkx_genl_family fid [gid] l groups ->
  0 < fid < 2 ^ 16 -> 0 < gid < 2 ^ 32 ->
  ctrl_header hdr (20 + Z.of_nat (length (attrs_bytes l))) ->
  20 + Z.of_nat (length (attrs_bytes l)) <= 4096 ->
  resolve_reply (hdr ++ attrs_bytes l ++ stale) (20 + Z.of_nat (length (attrs_bytes l)))
  = Some (Some (fid, gid)).
Proof.
  intros Hd Hfid Hgid Hh Hlen.
  destruct (ctrl_header_reads hdr _ (attrs_bytes l ++ stale) Hh) as [Hl Hty]; [unfold in_u; lia|].
  destruct (describes_group _ _ _ _ Hd) as [Hok Hfind]; [unfold in_u; lia|].
  destruct Hd as [Hsmall Hid Hgroups _].
  destruct (parse_reads CTRL_ATTR_MAX hdr l stale (16 + 4) (Z.of_nat (length (attrs_bytes l))))
    as (tb & Hp & Htb); [done|lia|symmetry; apply Hh|done|].
  unfold resolve_reply, NLMSG_HDRLEN, GENL_HDRLEN. rewrite (proj2 (Z.ltb_ge _ _)) by lia.
  set (mem := hdr ++ attrs_bytes l ++ stale) in *. rewrite Hty. cbn [mbind option_bind].
  change (GENL_ID_CTRL =? NLMSG_ERROR) with false. cbv iota. rewrite Hl. cbn [mbind option_bind].
  rewrite (swrap_small 32 (20 + _)), Z.min_id by (unfold in_s; lia).
  rewrite (swrap_small 32) by (unfold in_s; lia).
  replace (20 + Z.of_nat (length (attrs_bytes l)) - Z.of_nat (16 + 4))
    with (Z.of_nat (length (attrs_bytes l))) by lia.
  rewrite Hp. cbn [mbind option_bind].
  pose proof (Htb CTRL_ATTR_FAMILY_ID) as Hfidp. rewrite Hid in Hfidp.
  destruct Hfidp as (pf & -> & Hfat). unfold get_u16.
  rewrite (attr_at_get mem 2 u16 pf _) by (done || by rewrite length_le_bytes).
  cbn [mbind option_bind]. rewrite take_ge, le_Z_bytes by (by rewrite length_le_bytes).
  rewrite !(uwrap_small _ fid) by (unfold in_u; cbn; lia).
  pose proof (Htb CTRL_ATTR_MCAST_GROUPS) as Hgp. rewrite Hgroups in Hgp.
  destruct Hgp as (pg & -> & Hgat). rewrite (attr_at_len _ _ _ Hgat). cbn [mbind option_bind].
  assert (Hloop : mcgrp_loop mem (Z.to_nat (Z.of_nat (length (attrs_bytes (group_attr <$> groups)))))
    (nla_data pg) (Z.of_nat (length (attrs_bytes (group_attr <$> groups)))) 0 = Some gid).
  { destruct Hgat as (pre & t & post & -> & -> & [_ Hsm]). cbn [snd] in Hsm. rewrite <- Hfind.
    unfold attr_bytes. rewrite <- !app_assoc, (app_assoc pre), (app_assoc (pre ++ _)).
    rewrite Nat2Z.id. replace (nla_data (length pre)) with (length ((pre ++ le_bytes 2 (4 + Z.of_nat
      (length (attrs_bytes (group_attr <$> groups))))) ++ le_bytes 2 t)).
    - apply mcgrp_loop_finds; [done|lia|done].
    - unfold nla_data, NLA_HDRLEN. rewrite !length_app, !length_le_bytes. lia. }
  rewrite Hloop. cbn [mbind option_bind].
  by rewrite !(proj2 (Z.eqb_neq _ 0)) by lia.
Qed.

(** The client finds the family the module registered: when the controller
    takes the request and describes the family of rkx_genl.c, in whatever order
    and beside whatever other attributes, [resolve_family_group] sends exactly
    one well-formed GETFAMILY request for the family's name and returns the ids
    of the family and of its multicast group. *)
Lemma resolve_finds_family ctrl s fid gid l groups hdr stale :
  ctrl_describes rkx_genl_family fid [gid] l groups ->
  0 < fid < 2 ^ 16 -> 0 < gid < 2 ^ 32 ->
  ctrl_header hdr (20 + Z.of_nat (length (attrs_bytes l))) ->
  20 + Z.of_nat (length (attrs_bytes l)) <= 4096 ->
  ctrl_sendto ctrl (getfamily_message (g_seq s)) = 36 ->
  ctrl_recv ctrl (getfamily_message (g_seq s))
    = (20 + Z.of_nat (length (attrs_bytes l)), hdr ++ attrs_bytes l ++ stale) ->
  resolve_family_group ctrl s
  = Some (Some (fid, gid),
      add_sent (getfamily_message (g_seq s)) (set_seq (u32 (g_seq s + 1)) s)).
Proof.
  intros Hd Hfid Hgid Hh Hlen Hsend Hrecv. unfold resolve_family_group, nl_sendto, nl_recv.
  destruct (resolve_request_spec (g_seq s)) as (buf & -> & Hmsg). cbn [mbind option_bind].
  rewrite Hmsg, Hsend, Hrecv. rewrite (swrap_small 32) by (unfold in_s; lia).
  change (36 =? Z.of_nat 36) with true. change (0 <=? 36) with true. cbv iota zeta.
  change (0 <? 0) with false. cbv iota.
  by rewrite (resolve_reply_describes fid gid l groups hdr stale).
Qed.

(** ** Evaluations *)

Module ResolveDemo.
Definition groups : list group :=
  [(1, [(CTRL_ATTR_MCAST_GRP_ID, le_bytes 4 5);
        (CTRL_ATTR_MCAST_GRP_NAME, RKX_GENL_MCGRP_NAME ++ [NUL])])].
Definition attrs : list (Z * list byte) :=
  [(CTRL_ATTR_FAMILY_NAME, RKX_GENL_FAMILY_NAME ++ [NUL]); (CTRL_ATTR_FAMILY_ID, le_bytes 2 30);
   (3, le_bytes 4 1); (Z.lor CTRL_ATTR_MCAST_GROUPS NLA_F_NESTED, attrs_bytes (group_attr <$> groups))].
Definition hdr : list byte :=
  genl_header (20 + Z.of_nat (length (attrs_bytes attrs))) GENL_ID_CTRL 0 1 1 2.
Definition ctrl : ctrl_reply :=
  {| ctrl_sendto msg := Z.of_nat (length msg);
     ctrl_recv _ := (20 + Z.of_nat (length (attrs_bytes attrs)), hdr ++ attrs_bytes attrs ++ replicate 16 NUL) |}.
Definition unconnected : jni_state :=
  {| g_fd := -1; g_disconnect_fd := -1; g_family_id := 0; g_seq := 1; js_open := []; js_sent := [] |}.

Ltac small := split; cbn [fst snd]; vm_compute; [split; [discriminate|reflexivity]|reflexivity].

Lemma described : ctrl_describes rkx_genl_family 30 [5] attrs groups.
Proof.
  split; [repeat (constructor; [small|]); constructor|vm_compute; reflexivity..|].
  constructor; [|constructor].
  split; [small|]. split; [repeat (constructor; [small|]); constructor|].
  split; vm_compute; reflexivity.
Qed.

Lemma hdr_ok : ctrl_header hdr (20 + Z.of_nat (length (attrs_bytes attrs))).
Proof. split; vm_compute; reflexivity. Qed.

(** An answer that fills the array and ends in the first four bytes of the name. *)
Definition cut_groups : list byte :=
  attr_bytes 1 (attrs_bytes [(CTRL_ATTR_MCAST_GRP_ID, le_bytes 4 5);
                             (CTRL_ATTR_MCAST_GRP_NAME, take 4 RKX_GENL_MCGRP_NAME)]).
Definition full_reply : list byte :=
  genl_header 4096 GENL_ID_CTRL 0 1 1 2
  ++ attrs_bytes [(3, replicate (Z.to_nat 4048) NUL); (CTRL_ATTR_MCAST_GROUPS, cut_groups)].
End ResolveDemo.

(** Without room behind the attributes [strcmp] leaves the array. *)
Lemma group_name_overreads :
  Z.of_nat (length ResolveDemo.full_reply) = 4096 /\ resolve_reply ResolveDemo.full_reply 4096 = None.
Proof. split; vm_compute; reflexivity. Qed.

Lemma resolve_reply_safe_witness :
  exists r, resolve_reply (replicate 64 Byte.x12) 40 = Some r.
Proof.
  destruct (resolve_reply_safe (replicate 64 Byte.x12) 40) as (r & Hr & _).
  - split; [|vm_compute; intros [Hc _]; apply Hc; reflexivity|intros _; vm_compute; reflexivity].
    vm_compute. split; [discriminate|reflexivity].
  - by exists r.
Defined.
