(* ===== verification/Transport.v ===== *)
(** The two directions of the netlink transport end to end: an event encoded by
    rkx_genl.c is decoded by rkx_jni.cpp to a callback with the same fields, and
    a request built by rkx_jni.cpp is the request its handler in rkx_genl.c
    carries out.  The kernel's part in between, which reads the family id and the
    command byte of a message and calls the operation registered for it, is the
    class [GenlCore]. *)

From S2P Require Import Prelude HashTable Uapi NetUid FreeAsync Nla Genl Jni.

(** ** Events: kernel to user *)

(** The callback an event is meant to become; Java has no unsigned int. *)
Definition event_callback (e : rkx_event) : callback :=
  match ev_u e with
  | U_binder b =>
      CbBinder (be_binder_type b) (be_oneway b) (s32 (be_from_uid b)) (be_from_pid b)
        (s32 (be_target_uid b)) (be_target_pid b) (default [] (c_string (be_rpc_name b))) (be_code b)
  | U_signal s =>
      CbSignal (se_signal s) (s32 (se_killer_uid s)) (se_killer_pid s) (s32 (se_dst_uid s)) (se_dst_pid s)
  | U_network n => CbNetwork (ne_proto n) (s32 (ne_target_uid n)) (ne_data_len n)
  end.

Lemma field_reads mem tb l a v :
  table_reads mem RKX_A_MAX tb l ->
  attr_value RKX_A_MAX (user_attr_no a) l = Some (le_bytes 4 v) ->
  field mem tb a = Some (s32 v).
Proof.
  intros Ht Hv. specialize (Ht (user_attr_no a)). rewrite Hv in Ht. destruct Ht as (p & Hp & Hat).
  unfold field. rewrite Hp, (attr_at_s32 mem p v) by done. done.
Qed.

Lemma copy_rpc_name_reads mem tb l name :
  table_reads mem RKX_A_MAX tb l -> no_nul name -> (length name < RKX_RPC_NAME_LEN)%nat ->
  attr_value RKX_A_MAX (user_attr_no RKX_A_BINDER_RPC_NAME) l = Some (name ++ [NUL]) ->
  exists arr, copy_rpc_name mem tb = Some arr /\ c_string arr = Some name.
Proof.
  intros Ht Hn Hl Hv. specialize (Ht (user_attr_no RKX_A_BINDER_RPC_NAME)). rewrite Hv in Ht.
  destruct Ht as (p & Hp & Hat). unfold copy_rpc_name. rewrite Hp, (attr_at_len _ _ _ Hat).
  cbn [mbind option_bind]. unfold RKX_RPC_NAME_LEN in *.
  assert (Hlen : length (name ++ [NUL]) = S (length name)) by (rewrite length_app; cbn; lia).
  replace (Z.to_nat (Z.min (Z.of_nat (length (name ++ [NUL]))) (Z.of_nat 140)))
    with (length (name ++ [NUL])) by lia.
  rewrite (attr_at_data _ _ _ Hat). cbn [mbind option_bind].
  rewrite mem_write_Some by (rewrite length_replicate; lia). eexists. split; [done|].
  rewrite take_0, app_nil_l, <- app_assoc. by apply c_string_app.
Qed.

Lemma nest_reads mem tb a data :
  table_reads mem RKX_A_MAX tb [(nest_type a, data)] ->
  Z.land (nest_type a) NLA_TYPE_MASK = user_attr_no a -> 0 < user_attr_no a ->
  (exists p, tb !! user_attr_no a = Some p /\ attr_at mem p data)
  /\ forall a', a' <> a -> tb !! user_attr_no a' = None.
Proof.
  intros Ht Ha Hpos. assert (Hmax : user_attr_no a <= RKX_A_MAX)
    by (rewrite user_attr_agrees; apply attr_no_range). split.
  - specialize (Ht (user_attr_no a)). cbn [attr_value] in Ht.
    rewrite Ha, Z.eqb_refl, (proj2 (Z.ltb_lt _ _) Hpos), (proj2 (Z.leb_le _ _) Hmax) in Ht. exact Ht.
  - intros a' Hne. specialize (Ht (user_attr_no a')). cbn [attr_value] in Ht.
    rewrite Ha, (proj2 (Z.eqb_neq _ _)) in Ht; [exact Ht|].
    rewrite !user_attr_agrees. intros E. by apply attr_no_inj in E.
Qed.

Lemma rd_u_prefix pre mem off n : rd_u (pre ++ mem) (length pre + off) n = rd_u mem off n.
Proof. unfold rd_u, mem_bytes. by rewrite drop_app_add. Qed.

(** Decoding reads the payload nest of the encoded event and nothing else,
    wherever in the buffer the message begins. *)
Lemma handle_event_nest pre family kind l handler cb :
  in_u 16 family -> family <> NLMSG_ERROR -> family <> NLMSG_DONE ->
  kind ∈ [RKX_A_BINDER; RKX_A_SIGNAL; RKX_A_NETWORK] ->
  handler = match kind with
            | RKX_A_BINDER => handle_binder_event
            | RKX_A_SIGNAL => handle_signal_event
            | _ => handle_network_event
            end ->
  Forall small_attr (wire l) -> Z.of_nat (length (attrs_bytes (wire l))) <= 200 ->
  (forall mem p tb, rkx_nla_parse_nested mem RKX_A_MAX p = Some tb ->
     table_reads mem RKX_A_MAX tb (wire l) -> handler mem p = Some cb) ->
  handle_event (pre ++ event_message family kind l) family (length pre) = Some [cb].
Proof.
  intros Hfam Herr Hdone Hkind Hhandler Hsmall Hlen Hread.
  assert (Htype : Z.land (nest_type kind) NLA_TYPE_MASK = user_attr_no kind
    /\ 0 < user_attr_no kind /\ 0 <= nest_type kind < 2 ^ 16).
  { repeat (apply elem_of_cons in Hkind as [->|Hkind]; [vm_compute; split_and!; congruence|]).
    by apply elem_of_nil in Hkind. }
  destruct Htype as (Hmask & Hpos & Hnt).
  set (inner := [(nest_type kind, attrs_bytes (wire l))]).
  assert (Hinner : Forall small_attr inner).
  { constructor; [|constructor]. split; cbn [fst snd]; [done|lia]. }
  assert (Hil : Z.of_nat (length (attrs_bytes inner)) <= 204).
  { subst inner. rewrite attrs_bytes_single, length_nest. lia. }
  assert (Houter : Forall small_attr (event_attrs kind l)).
  { constructor; [|constructor]. split; cbn [fst snd]; [vm_compute; split; congruence|].
    fold inner. lia. }
  set (body := attrs_bytes (event_attrs kind l)).
  assert (Hol : Z.of_nat (length body) <= 208).
  { subst body. unfold event_attrs. rewrite attrs_bytes_single, length_nest. fold inner. lia. }
  destruct (genl_header_reads (20 + Z.of_nat (length body)) family 0 0 (cmd_no RKX_C_EVENT)
    RKX_GENL_VERSION body) as (Hrl & Hrf & Hrc).
  destruct (parse_reads RKX_A_MAX (pre ++ genl_header (20 + Z.of_nat (length body)) family 0 0
    (cmd_no RKX_C_EVENT) RKX_GENL_VERSION) (event_attrs kind l) [] (length pre + 20) (Z.of_nat (length body)))
    as (tb & Hp & Htb); [done|fold body; lia|by rewrite length_app, length_genl_header|done|].
  fold body in Hp, Htb. rewrite app_nil_r, <- app_assoc in Hp, Htb.
  rewrite <- (rd_u_prefix pre) in Hrl, Hrf, Hrc. rewrite Nat.add_0_r in Hrl.
  unfold handle_event, event_message, NLMSG_HDRLEN, GENL_HDRLEN. fold body.
  set (mem := pre ++ genl_header _ _ _ _ _ _ ++ body) in *. rewrite Hrf. cbn [mbind option_bind].
  rewrite (uwrap_small 16) by done.
  rewrite !(proj2 (Z.eqb_neq _ _)), Z.eqb_refl by done. cbn [orb negb].
  rewrite Hrl. cbn [mbind option_bind]. rewrite (uwrap_small 32) by (unfold in_u; lia).
  rewrite (proj2 (Z.ltb_ge _ _)) by lia. rewrite Hrc. cbn [mbind option_bind].
  change (negb (u8 (cmd_no RKX_C_EVENT) =? user_cmd_no RKX_C_EVENT)) with false. cbv iota.
  rewrite (swrap_small 32) by (unfold in_s; lia).
  replace (20 + Z.of_nat (length body) - Z.of_nat (16 + 4)) with (Z.of_nat (length body)) by lia.
  change (16 + 4)%nat with 20%nat. rewrite Hp. cbn [mbind option_bind].
  destruct (nest_reads mem tb RKX_A_EVENT _ Htb eq_refl eq_refl) as [(evt & -> & Hat) _].
  destruct (attr_at_nested mem RKX_A_MAX evt inner Hat Hinner) as (evt_tb & -> & Hevt).
  cbn [mbind option_bind].
  destruct (nest_reads mem evt_tb kind _ Hevt Hmask Hpos) as [(payload & Hpl & Hpat) Hother].
  destruct (attr_at_nested mem RKX_A_MAX payload (wire l) Hpat Hsmall) as (ptb & Hpp & Hptb).
  pose proof (Hread mem payload ptb Hpp Hptb) as Hcb. unfold handle_nest. subst handler.
  repeat (apply elem_of_cons in Hkind as [->|Hkind];
    [rewrite Hpl, !Hother by done; by rewrite Hcb|]).
  by apply elem_of_nil in Hkind.
Qed.

Lemma small_s32 a v : small_attr (attr_no a, le_bytes 4 v).
Proof.
  split; cbn [fst snd]; [|by rewrite length_le_bytes].
  pose proof (attr_no_range a). unfold RKX_A_MAX in *. lia.
Qed.

Lemma small_string a name :
  (length name < RKX_INTERFACETOKEN_BUFF_SIZE)%nat -> small_attr (attr_no a, name ++ [NUL]).
Proof.
  intros Hl. split; cbn [fst snd].
  - pose proof (attr_no_range a). unfold RKX_A_MAX in *. lia.
  - rewrite length_app. unfold RKX_INTERFACETOKEN_BUFF_SIZE in Hl. cbn [length]. lia.
Qed.

(** Reads the fields of a known payload; [s32] of an in-range field is the
    field. *)
Ltac read_event_fields Ht :=
  repeat (erewrite (field_reads _ _ _ _ _ Ht) by reflexivity; cbn [mbind option_bind]).

Lemma handle_event_encoded pre family e kind l :
  event_wf e -> 16 <= family < 2 ^ 16 -> event_fields e = Some (Some (kind, l)) ->
  handle_event (pre ++ event_message family kind l) family (length pre) = Some [event_callback e].
Proof.
  intros He Hfam Hf. destruct (event_fields_wf e He) as (kind' & l' & Hf' & Hlen).
  rewrite Hf in Hf'. injection Hf' as <- <-.
  assert (Hfid : in_u 16 family /\ family <> NLMSG_ERROR /\ family <> NLMSG_DONE)
    by (unfold in_u, NLMSG_ERROR, NLMSG_DONE; lia).
  destruct Hfid as (Hu & Herr & Hdone).
  unfold event_wf in He. unfold event_fields in Hf. unfold event_callback.
  destruct (ev_u e) as [b|sg|n]; destruct He as [Hty Hwf]; rewrite Hty in Hf; cbn [Z.eqb Pos.eqb] in Hf.
  - destruct (bwf_name b Hwf) as (name & Hn & Hl & Hname).
    unfold binder_fields in Hf. rewrite Hname, c_string_char_array in Hf by done.
    cbn [mbind option_bind] in Hf. injection Hf as <- <-.
    apply handle_event_nest with (handler := handle_binder_event); try done; [by left| |].
    + repeat (apply Forall_cons_2; [apply small_s32 || by apply small_string|]). constructor.
    + intros mem p tb Hp Ht. unfold handle_binder_event. rewrite Hp. cbn [mbind option_bind].
      read_event_fields Ht.
      destruct (copy_rpc_name_reads _ _ _ name Ht Hn Hl eq_refl) as (arr & -> & Harr).
      cbn [mbind option_bind]. rewrite Harr. cbn [mbind option_bind].
      rewrite Hname, c_string_char_array by done. unfold default, from_option, id.
      destruct Hwf. rewrite !(swrap_small 32 (be_binder_type b)), !(swrap_small 32 (be_oneway b)),
        !(swrap_small 32 (be_from_pid b)), !(swrap_small 32 (be_target_pid b)),
        !(swrap_small 32 (be_code b)) by (unfold in_s, in_u in *; lia). done.
  - injection Hf as <- <-.
    apply handle_event_nest with (handler := handle_signal_event); try done; [by right; left| |].
    + repeat (apply Forall_cons_2; [apply small_s32|]). constructor.
    + intros mem p tb Hp Ht. unfold handle_signal_event. rewrite Hp. cbn [mbind option_bind].
      read_event_fields Ht. destruct Hwf.
      by rewrite !(swrap_small 32 (se_signal sg)), !(swrap_small 32 (se_killer_pid sg)),
        !(swrap_small 32 (se_dst_pid sg)) by (unfold in_s, in_u in *; lia).
  - injection Hf as <- <-.
    apply handle_event_nest with (handler := handle_network_event); try done; [by do 2 right; left| |].
    + repeat (apply Forall_cons_2; [apply small_s32|]). constructor.
    + intros mem p tb Hp Ht. unfold handle_network_event. rewrite Hp. cbn [mbind option_bind].
      read_event_fields Ht. destruct Hwf.
      by rewrite !(swrap_small 32 (ne_proto n)), !(swrap_small 32 (ne_data_len n))
        by (unfold in_s, in_u in *; lia).
Qed.

Lemma length_event_message family kind l :
  length (event_message family kind l) = (20 + length (attrs_bytes (event_attrs kind l)))%nat.
Proof. unfold event_message. by rewrite length_app, length_genl_header. Qed.

Lemma event_message_bounds family e kind l :
  event_wf e -> event_fields e = Some (Some (kind, l)) ->
  (20 <= length (event_message family kind l) <= 228)%nat
  /\ Z.of_nat (length (event_message family kind l)) mod 4 = 0.
Proof.
  intros He Hf. destruct (event_fields_wf e He) as (kind' & l' & Hf' & Hlen).
  rewrite Hf in Hf'. injection Hf' as <- <-. rewrite length_event_message. split.
  - unfold event_attrs. rewrite attrs_bytes_single, length_nest, attrs_bytes_single, length_nest. lia.
  - rewrite Nat2Z.inj_add, Z.add_mod, attrs_bytes_aligned by lia. done.
Qed.

Lemma dispatch_encoded family e kind l :
  event_wf e -> 16 <= family < 2 ^ 16 -> event_fields e = Some (Some (kind, l)) ->
  dispatch (event_message family kind l) family (Z.of_nat (length (event_message family kind l)))
  = Some [event_callback e].
Proof.
  intros He Hfam Hf. pose proof (handle_event_encoded [] family e kind l He Hfam Hf) as Hev. cbn [app length] in Hev.
  pose proof (event_message_bounds family e kind l He Hf) as [Hbound Hmod].
  destruct (genl_header_reads (20 + Z.of_nat (length (attrs_bytes (event_attrs kind l)))) family 0 0
    (cmd_no RKX_C_EVENT) RKX_GENL_VERSION (attrs_bytes (event_attrs kind l))) as (Hrl & _).
  fold (event_message family kind l) in Hrl.
  unfold dispatch. pose proof (length_event_message family kind l) as Hml.
  set (msg := event_message family kind l) in *.
  destruct (length msg) as [|n] eqn:En; [lia|]. rewrite <- En in *. rewrite En at 1.
  cbn [dispatch_loop]. unfold dispatch_step at 1. rewrite (uwrap_small 64) by (unfold in_u; lia).
  rewrite (proj2 (Z.geb_le _ _)) by lia. rewrite Hrl. cbn [mbind option_bind].
  rewrite (uwrap_small 32) by (unfold in_u; lia).
  replace (20 + Z.of_nat (length (attrs_bytes (event_attrs kind l)))) with (Z.of_nat (length msg)) by lia.
  rewrite (proj2 (Z.leb_le 16 _)), Z.leb_refl by lia. cbn [andb]. rewrite Hev. cbn [mbind option_bind].
  rewrite NLMSG_ALIGN_small, NLA_ALIGN_4, Z.sub_diag by lia. by destruct n.
Qed.

Lemma sent_event_dispatched {skb} `{GenlSkb skb} e rc msg stale :
  event_wf e -> 16 <= family_id < 2 ^ 16 ->
  rkx_send_message e = Some (rc, Multicast msg) ->
  dispatch (msg ++ stale) family_id (Z.of_nat (length msg)) = Some [event_callback e].
Proof.
  intros He Hfam Hsend. destruct (message_sent e He) as (kind & l & Hf & Hmsg).
  specialize (Hmsg rc msg Hsend). subst msg.
  eapply dispatch_loop_stale; [|by apply dispatch_encoded]. rewrite length_app. lia.
Qed.

Lemma sent_event_length {skb} `{GenlSkb skb} e rc msg :
  event_wf e -> rkx_send_message e = Some (rc, Multicast msg) -> (20 <= length msg <= 228)%nat.
Proof.
  intros He Hsend. destruct (message_sent e He) as (kind & l & Hf & Hmsg).
  rewrite (Hmsg rc msg Hsend). by eapply event_message_bounds.
Qed.

(** C12: what the kernel sends is what Java sees: whenever a well-formed event is
    multicast, the client's receive loop, started on the datagram in its
    receive buffer, makes exactly one callback, the one for that kind of event,
    with every field equal to the event's and the full interface name. *)
Theorem event_reaches_callback {skb} `{GenlSkb skb} e rc msg stale :
  event_wf e -> 16 <= family_id < 2 ^ 16 ->
  rkx_send_message e = Some (rc, Multicast msg) ->
  dispatch (msg ++ stale) family_id (Z.of_nat (length msg)) = Some [event_callback e].
Proof. apply sent_event_dispatched. Qed.

(** ** Datagrams of a length that is not a multiple of four *)

Lemma dispatch_loop_step mem fuel family nlh rlen len cbs rest :
  16 <= u64 rlen -> rd_u mem nlh 4 = Some len -> 16 <= len <= u64 rlen ->
  handle_event mem family nlh = Some cbs ->
  dispatch_loop mem fuel family (nlh + Z.to_nat (NLMSG_ALIGN len)) (s32 (rlen - NLMSG_ALIGN len)) = rest ->
  dispatch_loop mem (S fuel) family nlh rlen = (rest' ← rest; Some (cbs ++ rest')).
Proof.
  intros H16 Hl Hr Hh <-. cbn [dispatch_loop]. unfold dispatch_step at 1. rewrite (proj2 (Z.geb_le _ _)), Hl by lia.
  cbn [mbind option_bind]. rewrite !(proj2 (Z.leb_le _ _)) by lia. cbn [andb]. by rewrite Hh.
Qed.

Lemma dispatch_loop_stop mem fuel family nlh rlen len :
  16 <= u64 rlen -> rd_u mem nlh 4 = Some len -> len < 16 ->
  dispatch_loop mem fuel family nlh rlen = Some [].
Proof.
  intros H16 Hl Hr. destruct fuel; cbn [dispatch_loop]; unfold dispatch_step at 1;
    rewrite (proj2 (Z.geb_le _ _)), Hl by lia; cbn [mbind option_bind];
    by rewrite (proj2 (Z.leb_gt 16 len)) by lia.
Qed.

(** [rlen] below zero passes the test as a huge unsigned number. *)
Lemma u64_negative p : 0 < p < 2 ^ 31 -> u64 (- p) = 2 ^ 64 - p.
Proof. intros Hp. unfold uwrap. symmetry. apply (Z.mod_unique _ _ (-1)); lia. Qed.

Lemma rd_u_at pre bytes rest off n :
  off = length pre -> n = length bytes -> rd_u (pre ++ bytes ++ rest) off n = Some (le_Z bytes).
Proof.
  intros -> ->. unfold rd_u, mem_bytes. rewrite drop_app_length, take_app_length, Nat.eqb_refl. done.
Qed.

Lemma message_len_reads family e kind l pre rest :
  event_wf e -> event_fields e = Some (Some (kind, l)) ->
  rd_u (pre ++ event_message family kind l ++ rest) (length pre) 4
  = Some (Z.of_nat (length (event_message family kind l))).
Proof.
  intros He Hf. pose proof (event_message_bounds family e kind l He Hf) as [Hb _].
  rewrite length_event_message in *. unfold event_message. rewrite <- app_assoc.
  rewrite <- (Nat.add_0_r (length pre)), rd_u_prefix.
  destruct (genl_header_reads (20 + Z.of_nat (length (attrs_bytes (event_attrs kind l)))) family 0 0
    (cmd_no RKX_C_EVENT) RKX_GENL_VERSION (attrs_bytes (event_attrs kind l) ++ rest)) as (-> & _).
  rewrite uwrap_small by (unfold in_u; lia). f_equal. lia.
Qed.

(** The stale message is delivered and the loop stops behind it. *)
Lemma dispatch_loop_stale_event pre family e kind l p rest fuel :
  event_wf e -> 16 <= family < 2 ^ 16 -> event_fields e = Some (Some (kind, l)) -> 0 < p <= 3 ->
  dispatch_loop (pre ++ event_message family kind l ++ replicate 4 NUL ++ rest) (S fuel) family
    (length pre) (- p) = Some [event_callback e].
Proof.
  intros He Hfam Hf Hp. pose proof (event_message_bounds family e kind l He Hf) as [Hb Hmod].
  pose proof (message_len_reads family e kind l pre (replicate 4 NUL ++ rest) He Hf) as Hlen.
  pose proof (handle_event_encoded pre family e kind l He Hfam Hf) as Hev.
  apply (handle_event_stale _ (replicate 4 NUL ++ rest)) in Hev. rewrite <- app_assoc in Hev.
  set (msg := event_message family kind l) in *.
  assert (Hend : rd_u (pre ++ msg ++ replicate 4 NUL ++ rest)
    (length pre + Z.to_nat (NLMSG_ALIGN (Z.of_nat (length msg)))) 4 = Some 0).
  { rewrite NLMSG_ALIGN_small, NLA_ALIGN_4, Nat2Z.id by lia. rewrite app_assoc.
    rewrite rd_u_at; [done|by rewrite length_app|done]. }
  rewrite (dispatch_loop_step _ _ _ _ _ (Z.of_nat (length msg)) [event_callback e] (Some []));
    [done| |done| |done|].
  - rewrite u64_negative by lia. lia.
  - rewrite u64_negative by lia. lia.
  - apply (dispatch_loop_stop _ _ _ _ _ 0); [|done|lia].
    rewrite NLMSG_ALIGN_small, NLA_ALIGN_4 by lia. rewrite swrap_small by (unfold in_s; lia).
    replace (- p - Z.of_nat (length msg)) with (- (p + Z.of_nat (length msg))) by lia.
    rewrite u64_negative; lia.
Qed.

(** C38: the restriction of the receive loop to multiples of four is needed: for
    every datagram that is one message, of a length that is not a multiple of
    four, the remaining length goes below zero, the test reads it as a huge
    unsigned number, and the loop reads behind the datagram; when an event
    message of an earlier datagram lies there, that event is delivered again
    although it was never received. *)
Theorem dispatch_unaligned_reads_stale datagram pad rest e family :
  16 <= Z.of_nat (length datagram) < 2 ^ 31 -> Z.of_nat (length datagram) mod 4 <> 0 ->
  le_Z (take 4 datagram) = Z.of_nat (length datagram) ->
  (length pad < 4)%nat -> Z.of_nat (length datagram + length pad) mod 4 = 0 ->
  event_wf e -> 16 <= family < 2 ^ 16 ->
  dispatch datagram family (Z.of_nat (length datagram)) = None
  /\ exists cbs, handle_event datagram family 0 = Some cbs
    /\ dispatch (datagram ++ pad ++ abi_message family e ++ replicate 4 NUL ++ rest) family
         (Z.of_nat (length datagram)) = Some (cbs ++ [event_callback e]).
Proof.
  intros HL Hun Hfirst Hpad Hal He Hfam.
  destruct (event_fields_wf e He) as (kind & l & Hf & _). rewrite <- (event_message_abi _ _ _ _ He Hf).
  assert (Hstep : NLMSG_ALIGN (Z.of_nat (length datagram))
    = Z.of_nat (length datagram) + Z.of_nat (length pad)).
  { rewrite NLMSG_ALIGN_small by lia. destruct (NLA_ALIGN_spec (Z.of_nat (length datagram))) as [Ha Hm]; [lia|].
    pose proof (Z.div_mod (NLA_ALIGN (Z.of_nat (length datagram))) 4 ltac:(lia)).
    pose proof (Z.div_mod (Z.of_nat (length datagram + length pad)) 4 ltac:(lia)). lia. }
  assert (Hp : 0 < Z.of_nat (length pad) <= 3).
  { destruct pad; cbn [length] in *; [|lia]. by rewrite Nat.add_0_r in Hal. }
  assert (Hrl : rd_u datagram 0 4 = Some (Z.of_nat (length datagram))).
  { unfold rd_u, mem_bytes. rewrite drop_0, length_take, Nat.min_l, Nat.eqb_refl by lia.
    cbn [fmap option_fmap option_map]. by rewrite Hfirst. }
  destruct (handle_event_safe datagram family 0 _ Hrl ltac:(lia) ltac:(lia)) as [cbs Hcbs].
  assert (Hu : u64 (Z.of_nat (length datagram)) = Z.of_nat (length datagram))
    by (apply uwrap_small; unfold in_u; lia).
  assert (Hrest : s32 (Z.of_nat (length datagram) - NLMSG_ALIGN (Z.of_nat (length datagram)))
    = - Z.of_nat (length pad)) by (rewrite swrap_small; unfold in_s; lia).
  assert (Hnext : (0 + Z.to_nat (NLMSG_ALIGN (Z.of_nat (length datagram))))%nat
    = length (datagram ++ pad)) by (rewrite length_app; lia).
  split.
  - unfold dispatch. destruct (length datagram) as [|n] eqn:En; [lia|]. rewrite <- En in *.
    rewrite En at 1. erewrite dispatch_loop_step; [|rewrite ?Hu; try done; lia..|done].
    rewrite Hrest, Hnext. assert (Hout : rd_u datagram (length (datagram ++ pad)) 4 = None).
    { unfold rd_u, mem_bytes. rewrite drop_ge by (rewrite length_app; lia). done. }
    destruct n as [|n]; [lia|]. cbn [dispatch_loop]. unfold dispatch_step at 1.
    rewrite u64_negative, (proj2 (Z.geb_le _ _)), Hout by lia. done.
  - exists cbs. split; [done|]. unfold dispatch.
    set (tail := pad ++ _). set (mem := datagram ++ tail).
    assert (Hfuel : length mem = S (S (length mem - 2))).
    { subst mem. rewrite length_app. lia. }
    rewrite Hfuel. rewrite (dispatch_loop_step mem _ _ _ _ (Z.of_nat (length datagram)) cbs
      (Some [event_callback e])); [done|lia|by apply rd_u_stale|lia|by apply handle_event_stale|].
    rewrite Hrest, Hnext. subst mem tail. rewrite (app_assoc datagram pad).
    by apply dispatch_loop_stale_event.
Qed.

(** ** Requests: user to kernel *)

Section RequestBytes.
Context (sys : net_reply).
Implicit Types s : jni_state.

(** A connected client whose system calls succeed. *)
Record sends_ok s : Prop := {
  so_family : g_family_id s <> 0;
  so_fd : 0 <= g_fd s;
  so_socket : 0 <= socket_ret sys;
  so_sendto n : sendto_ret sys n = Z.of_nat n;
}.

Definition request_message s (cmd : rkx_genl_cmd) (l : list (Z * list byte)) : list byte :=
  genl_header (20 + Z.of_nat (length (attrs_bytes l))) (g_family_id s) NLM_F_REQUEST (g_seq s)
    (cmd_no cmd) RKX_GENL_VERSION ++ attrs_bytes l.

(** The state after sending [msg]: one more datagram, the next sequence number,
    and no descriptor left open. *)
Definition after_send s (msg : list byte) : jni_state :=
  {| g_fd := g_fd s; g_disconnect_fd := g_disconnect_fd s; g_family_id := g_family_id s;
     g_seq := u32 (g_seq s + 1); js_open := js_open s; js_sent := js_sent s ++ [msg] |}.

Lemma send_and_close_spec s fd len buf msg :
  sends_ok s -> fd = socket_ret sys -> take len buf = msg -> (length msg = len)%nat ->
  send_and_close sys fd len buf (set_seq (u32 (g_seq s + 1)) (open_fd fd s))
  = (true, after_send s msg).
Proof.
  intros Hok -> Hmsg Hlen. unfold send_and_close. rewrite (so_sendto s Hok), Z.eqb_refl.
  rewrite (proj2 (Z.leb_le 0 _)) by lia. f_equal.
  unfold close_fd, set_open, add_sent, set_seq, open_fd, set_open, after_send. cbn.
  by rewrite Z.eqb_refl, Hmsg.
Qed.

(** A put that fits appends the attribute and succeeds. *)
Lemma put_fits b type data hdr l :
  builder_wf b -> small_attr (type, data) -> nb_msg b = hdr ++ attrs_bytes l ->
  (length hdr + length (attrs_bytes (l ++ [(type, data)])) <= nb_cap b)%nat ->
  exists b', nb_put b type data (Z.of_nat (length data)) = Some (true, b') /\ builder_wf b'
    /\ nb_cap b' = nb_cap b /\ nb_msg b' = hdr ++ attrs_bytes (l ++ [(type, data)]).
Proof.
  intros Hb [_ Hd] Hmsg Hfit. cbn [snd] in Hd.
  rewrite attrs_bytes_app, attrs_bytes_single, length_app in Hfit.
  assert (Hlen : nb_len b = (length hdr + length (attrs_bytes l))%nat).
  { apply (f_equal length) in Hmsg. unfold nb_msg in Hmsg. destruct Hb.
    rewrite length_take, length_app in Hmsg. lia. }
  rewrite nb_put_spec by done. rewrite (proj2 (Nat.leb_le _ _)) by lia.
  eexists. split; [done|]. split; [apply nb_append_wf; [done|lia]|]. split; [done|].
  by rewrite nb_append_msg, Hmsg, attrs_bytes_app, attrs_bytes_single, app_assoc.
Qed.

Lemma monitor_request_spec cmd buf uid s :
  sends_ok s -> (28 <= length buf)%nat ->
  monitor_request sys cmd buf uid s
  = Some (true, after_send s (request_message s cmd [(attr_no RKX_A_UID, le_bytes 4 (u32 uid))])).
Proof.
  intros Hok Hbuf. unfold monitor_request, monitor_build. rewrite user_attr_agrees, user_cmd_agrees.
  rewrite (proj2 (Z.eqb_neq _ 0)) by apply Hok. rewrite (proj2 (Z.ltb_ge (g_fd s) 0)) by apply Hok.
  rewrite (proj2 (Z.ltb_ge (socket_ret sys) 0)) by apply Hok. cbn [orb].
  destruct (nb_start_spec buf (g_family_id s) (g_seq s) (cmd_no cmd) RKX_GENL_VERSION)
    as (b0 & H0 & Hw0 & Hc0 & Hm0); [lia|].
  destruct (nb_init buf) as [bi|] eqn:Ei; [|done]. cbn [mbind option_bind] in H0 |- *.
  change (g_seq (open_fd (socket_ret sys) s)) with (g_seq s).
  rewrite H0. cbn [mbind option_bind].
  destruct (put_fits b0 (attr_no RKX_A_UID) (le_bytes 4 (u32 uid)) _ [] Hw0 (small_s32 _ _)
    ltac:(rewrite Hm0; symmetry; apply app_nil_r)) as (b1 & H1 & Hw1 & _ & Hm1).
  { rewrite length_genl_header, Hc0. cbn [app]. rewrite attrs_bytes_single.
    pose proof (length_attr_bytes (attr_no RKX_A_UID) (le_bytes 4 (u32 uid))) as Hl.
    rewrite length_le_bytes in Hl. change (NLA_ALIGN (4 + Z.of_nat 4)) with 8 in Hl. lia. }
  rewrite length_le_bytes in H1. change (Z.of_nat 4) with 4 in H1. unfold putU32. rewrite H1. cbn [mbind option_bind].
  destruct (nb_finish_spec b1 _ _ _ _ _ _ Hw1 Hm1) as (out & -> & Hlen & Htake).
  cbn [mbind option_bind]. f_equal. eapply send_and_close_spec; [done|done| |].
  - rewrite Htake, Hlen, Nat2Z.inj_add. done.
  - unfold request_message. rewrite length_app, length_genl_header, Hlen. done.
Qed.

(** The attributes of a rule request. *)
Definition rule_attrs (with_strategy : option Z) (name : list byte) (code : Z)
    : list (Z * list byte) :=
  [(attr_no RKX_A_FREE_ASYNC_RPC_NAME, name ++ [NUL]);
   (attr_no RKX_A_FREE_ASYNC_CODE, le_bytes 4 code)]
  ++ match with_strategy with
     | Some strategy => [(attr_no RKX_A_FREE_ASYNC_STRATEGY, le_bytes 1 (u8 strategy))]
     | None => []
     end.

Lemma rule_attrs_length with_strategy name code :
  (length name < RKX_INTERFACETOKEN_BUFF_SIZE)%nat ->
  (length (attrs_bytes (rule_attrs with_strategy name code)) <= 160)%nat.
Proof.
  intros Hl. unfold rule_attrs. rewrite attrs_bytes_app, attrs_bytes_cons, attrs_bytes_single, !length_app.
  pose proof (length_attr_bytes (attr_no RKX_A_FREE_ASYNC_RPC_NAME) (name ++ [NUL])) as H1.
  pose proof (length_attr_bytes (attr_no RKX_A_FREE_ASYNC_CODE) (le_bytes 4 code)) as H2.
  rewrite length_le_bytes in H2. change (NLA_ALIGN (4 + Z.of_nat 4)) with 8 in H2.
  rewrite length_app in H1. unfold RKX_INTERFACETOKEN_BUFF_SIZE in Hl. cbn [length] in H1.
  destruct (NLA_ALIGN_spec (4 + Z.of_nat (length name + 1)) ltac:(lia)) as [Ha Hm].
  pose proof (Z.div_mod (NLA_ALIGN (4 + Z.of_nat (length name + 1))) 4 ltac:(lia)).
  destruct with_strategy as [strategy|]; [|cbn [attrs_bytes mbind list_bind length]; lia].
  rewrite attrs_bytes_single.
  pose proof (length_attr_bytes (attr_no RKX_A_FREE_ASYNC_STRATEGY) (le_bytes 1 (u8 strategy))) as H3.
  rewrite length_le_bytes in H3. change (NLA_ALIGN (4 + Z.of_nat 1)) with 8 in H3. lia.
Qed.

Lemma small_u8 a v : small_attr (attr_no a, le_bytes 1 v).
Proof.
  split; cbn [fst snd]; [|by rewrite length_le_bytes].
  pose proof (attr_no_range a). unfold RKX_A_MAX in *. lia.
Qed.

Lemma put_rule_spec b hdr with_strategy name code :
  builder_wf b -> nb_msg b = hdr -> (length name < RKX_INTERFACETOKEN_BUFF_SIZE)%nat ->
  (length hdr + length (attrs_bytes (rule_attrs with_strategy name code)) <= nb_cap b)%nat ->
  exists b', put_rule with_strategy name code b = Some (true, b') /\ builder_wf b'
    /\ nb_msg b' = hdr ++ attrs_bytes (rule_attrs with_strategy name code).
Proof.
  intros Hb Hmsg Hl Hfit. unfold put_rule.
  rewrite (user_attr_agrees RKX_A_FREE_ASYNC_RPC_NAME), (user_attr_agrees RKX_A_FREE_ASYNC_CODE),
    (user_attr_agrees RKX_A_FREE_ASYNC_STRATEGY).
  unfold rule_attrs in *. rewrite attrs_bytes_app, length_app in Hfit.
  destruct (put_fits b (attr_no RKX_A_FREE_ASYNC_RPC_NAME) (name ++ [NUL]) hdr [] Hb
    (small_string _ _ Hl) ltac:(rewrite Hmsg; symmetry; apply app_nil_r)) as (b1 & H1 & Hw1 & Hc1 & Hm1).
  { rewrite attrs_bytes_cons, length_app in Hfit. cbn [app]. rewrite attrs_bytes_single. lia. }
  unfold putString. rewrite length_app in H1. cbn [length] in H1.
  replace (u16 (Z.of_nat (length name) + 1)) with (Z.of_nat (length name + 1)).
  2:{ unfold RKX_INTERFACETOKEN_BUFF_SIZE in Hl. rewrite uwrap_small by (unfold in_u; lia). lia. }
  rewrite H1. cbn [mbind option_bind negb].
  destruct (put_fits b1 (attr_no RKX_A_FREE_ASYNC_CODE) (le_bytes 4 code) hdr _ Hw1
    (small_s32 _ _) Hm1) as (b2 & H2 & Hw2 & Hc2 & Hm2).
  { cbn [app] in *. lia. }
  rewrite length_le_bytes in H2. change (Z.of_nat 4) with 4 in H2. unfold putS32. rewrite H2.
  cbn [mbind option_bind negb]. destruct with_strategy as [strategy|].
  2:{ exists b2. split; [done|]. split; [done|]. exact Hm2. }
  destruct (put_fits b2 (attr_no RKX_A_FREE_ASYNC_STRATEGY) (le_bytes 1 (u8 strategy)) hdr _ Hw2
    (small_u8 _ _) Hm2) as (b3 & H3 & Hw3 & _ & Hm3).
  { rewrite attrs_bytes_app, length_app. cbn [app] in *. lia. }
  rewrite length_le_bytes in H3. change (Z.of_nat 1) with 1 in H3. unfold putU8. rewrite H3.
  exists b3. split; [done|]. split; [done|]. exact Hm3.
Qed.

Lemma rule_request_spec cmd with_strategy buf name code s :
  sends_ok s -> (180 <= length buf)%nat -> name <> [] -> -1 <= code ->
  (length name < RKX_INTERFACETOKEN_BUFF_SIZE)%nat ->
  rule_request sys cmd with_strategy buf (Some name) code s
  = Some (true, after_send s (request_message s cmd (rule_attrs with_strategy name code))).
Proof.
  intros Hok Hbuf Hname Hcode Hl. unfold rule_request, rule_build. rewrite user_cmd_agrees.
  rewrite (proj2 (Z.eqb_neq _ 0)) by apply Hok. rewrite (proj2 (Z.ltb_ge (g_fd s) 0)) by apply Hok.
  rewrite (proj2 (Z.ltb_ge code (-1))) by done. cbn [orb]. rewrite bool_decide_eq_false_2 by done.
  rewrite (proj2 (Z.ltb_ge (socket_ret sys) 0)) by apply Hok.
  destruct (nb_start_spec buf (g_family_id s) (g_seq s) (cmd_no cmd) RKX_GENL_VERSION)
    as (b0 & H0 & Hw0 & Hc0 & Hm0); [lia|].
  destruct (nb_init buf) as [bi|] eqn:Ei; [|done]. cbn [mbind option_bind] in H0 |- *.
  change (g_seq (open_fd (socket_ret sys) s)) with (g_seq s).
  rewrite H0. cbn [mbind option_bind].
  pose proof (rule_attrs_length with_strategy name code Hl) as Hal.
  destruct (put_rule_spec b0 _ with_strategy name code Hw0 Hm0 Hl) as (b1 & -> & Hw1 & Hm1).
  { rewrite length_genl_header. lia. }
  cbn [mbind option_bind].
  destruct (nb_finish_spec b1 _ _ _ _ _ _ Hw1 Hm1) as (out & -> & Hlen & Htake).
  cbn [mbind option_bind negb]. f_equal. eapply send_and_close_spec; [done|done| |].
  - rewrite Htake, Hlen, Nat2Z.inj_add. done.
  - unfold request_message. rewrite length_app, length_genl_header, Hlen. done.
Qed.
End RequestBytes.

(** ** A request end to end *)

(** The operations of the family as the kernel sees them: by command number. *)
Definition ops_table `{HashFn} `{Jhash} (kmalloc_ok : bool)
    : list (Z * (genl_attrs -> rkx_state -> option (Z * rkx_state))) :=
  omap (fun cmd => pair (cmd_no cmd) <$> rkx_genl_ops kmalloc_ok cmd)
    [RKX_C_UNSPEC; RKX_C_EVENT; RKX_C_ADD_MONITOR_NET; RKX_C_DEL_MONITOR_NET;
     RKX_C_ADD_FREE_ASYNC; RKX_C_DEL_FREE_ASYNC].

(** The payload a list of attributes, each at most once, has for [a]. *)
Definition attr_of (l : list (rkx_genl_attr * list byte)) (a : rkx_genl_attr) : option (list byte) :=
  snd <$> walk_find (fun x => bool_decide (x.1 = a)) l.

(** Attributes a request may carry: each once, small, none of type 0. *)
Record request_list (l : list (rkx_genl_attr * list byte)) : Prop := {
  rl_nodup : NoDup l.*1;
  rl_spec : RKX_A_UNSPEC ∉ l.*1;
  rl_small : Forall small_attr (wire l);
  rl_length : Z.of_nat (length (attrs_bytes (wire l))) < 2 ^ 31;
}.

Definition request_bytes (id flags seq cmd version : Z) (l : list (rkx_genl_attr * list byte))
    : list byte :=
  genl_header (20 + Z.of_nat (length (attrs_bytes (wire l)))) id flags seq cmd version
  ++ attrs_bytes (wire l).

(** The receiving side of generic netlink, for a family registered as [id] with
    the operations [ops] and the policy [policy].  A message whose type is [id]
    and whose attributes satisfy the policy is handed to the operation with the
    number of its command byte, and to no other; a command without operation is
    refused; a message of another type never comes to this family. *)
Class GenlCore `{NlaValidate} := {
  genl_info : list byte -> genl_attrs;
  genl_rcv_msg : Z -> list (Z * (genl_attrs -> rkx_state -> option (Z * rkx_state))) ->
    (rkx_genl_attr -> option nla_policy) -> list byte -> rkx_state -> option (Z * rkx_state);
  genl_info_ok id flags seq cmd version l a :
    request_list l -> genl_info (request_bytes id flags seq cmd version l) a = attr_of l a;
  genl_rcv_op id ops policy flags seq cmd version l doit s :
    in_u 16 id -> in_u 8 cmd -> request_list l ->
    walk_find (fun op => op.1 =? cmd) ops = Some (cmd, doit) ->
    Forall (fun x => forall p, policy x.1 = Some p -> nla_validate p x.2 = true) l ->
    genl_rcv_msg id ops policy (request_bytes id flags seq cmd version l) s
    = doit (genl_info (request_bytes id flags seq cmd version l)) s;
  genl_rcv_no_op id ops policy flags seq cmd version l s :
    in_u 16 id -> in_u 8 cmd -> walk_find (fun op => op.1 =? cmd) ops = None ->
    genl_rcv_msg id ops policy (request_bytes id flags seq cmd version l) s = Some (- EOPNOTSUPP, s);
  genl_rcv_other id id' ops policy flags seq cmd version l s :
    in_u 16 id -> in_u 16 id' -> id <> id' ->
    exists rc, genl_rcv_msg id ops policy (request_bytes id' flags seq cmd version l) s = Some (rc, s);
}.

Inductive user_request :=
  | ReqAddUid (uid : Z)
  | ReqDelUid (uid : Z)
  | ReqAddRule (name : list byte) (code strategy : Z)
  | ReqDelRule (name : list byte) (code : Z).

Definition request_cmd (r : user_request) : rkx_genl_cmd :=
  match r with
  | ReqAddUid _ => RKX_C_ADD_MONITOR_NET
  | ReqDelUid _ => RKX_C_DEL_MONITOR_NET
  | ReqAddRule _ _ _ => RKX_C_ADD_FREE_ASYNC
  | ReqDelRule _ _ => RKX_C_DEL_FREE_ASYNC
  end.

(** The JNI entry point, with the size of its local array. *)
Definition send_request (sys : net_reply) (r : user_request) (s : jni_state)
    : option (bool * jni_state) :=
  match r with
  | ReqAddUid uid => addMonitorNet sys (replicate 128 NUL) uid s
  | ReqDelUid uid => delMonitorNet sys (replicate 128 NUL) uid s
  | ReqAddRule name code strategy => addFreeAsync sys (replicate 256 NUL) (Some name) code strategy s
  | ReqDelRule name code => delFreeAsync sys (replicate 256 NUL) (Some name) code s
  end.

(** The same call in the pieces between which other threads may run: whether it is
    refused, given the family id and the descriptor it loaded, and the message it
    builds with the sequence number it took. *)
Definition request_refused (r : user_request) (family fd : Z) : bool :=
  match r with
  | ReqAddUid _ | ReqDelUid _ => (family =? 0) || (fd <? 0)
  | ReqAddRule name code _ | ReqDelRule name code =>
      (family =? 0) || (fd <? 0) || (code <? -1) || bool_decide (name = [])
  end.

Definition build_request (r : user_request) (family seq : Z) : option (bool * (nat * list byte)) :=
  match r with
  | ReqAddUid uid =>
      pair true <$> monitor_build RKX_C_ADD_MONITOR_NET (replicate 128 NUL) uid family seq
  | ReqDelUid uid =>
      pair true <$> monitor_build RKX_C_DEL_MONITOR_NET (replicate 128 NUL) uid family seq
  | ReqAddRule name code strategy =>
      rule_build RKX_C_ADD_FREE_ASYNC (Some strategy) (replicate 256 NUL) name code family seq
  | ReqDelRule name code =>
      rule_build RKX_C_DEL_FREE_ASYNC None (replicate 256 NUL) name code family seq
  end.

Lemma send_request_pieces sys r s :
  send_request sys r s
  = if request_refused r (g_family_id s) (g_fd s) || (socket_ret sys <? 0) then Some (false, s) else
    let fd := socket_ret sys in
    let s1 := set_seq (u32 (g_seq s + 1)) (open_fd fd s) in
    '(ok, (len, buf)) ← build_request r (g_family_id s) (g_seq s);
    Some (if ok : bool then send_and_close sys fd len buf s1 else (false, close_fd fd s1)).
Proof.
  destruct r as [uid|uid|name code st|name code]; cbn [send_request request_refused build_request];
    unfold addMonitorNet, delMonitorNet, addFreeAsync, delFreeAsync, monitor_request, rule_request.
  1,2: destruct (_ || (g_fd s <? 0)); cbn [orb]; [done|]; destruct (socket_ret sys <? 0); [done|];
    change (g_seq (open_fd _ s)) with (g_seq s); by destruct (monitor_build _ _ _ _ _) as [[len buf]|].
  all: destruct (_ || (code <? -1)); cbn [orb]; [done|]; destruct (bool_decide _); cbn [orb]; [done|];
    destruct (socket_ret sys <? 0); [done|]; change (g_seq (open_fd _ s)) with (g_seq s);
    by destruct (rule_build _ _ _ _ _ _ _) as [[[] [len buf]]|].
Qed.

(** What the caller means by it. *)
Definition user_request_spec (kmalloc_ok : bool) (r : user_request)
    (st : gset Z * gmap (list byte * Z) Z) : Z * (gset Z * gmap (list byte * Z) Z) :=
  let '(uids, rules) := st in
  match r with
  | ReqAddUid uid => (0, (if kmalloc_ok then {[u32 uid]} ∪ uids else uids, rules))
  | ReqDelUid uid => (0, (uids ∖ {[u32 uid]}, rules))
  | ReqAddRule name code strategy =>
      let '(rc, rules) := add_rule_spec kmalloc_ok name code strategy rules in (rc, (uids, rules))
  | ReqDelRule name code =>
      let '(rc, rules) := del_rule_spec name code rules in (rc, (uids, rules))
  end.

(** A name and code the client does not refuse by itself and that fit the ABI. *)
Definition rule_key_ok (name : list byte) (code : Z) : Prop :=
  no_nul name /\ name <> [] /\ (length name < RKX_INTERFACETOKEN_BUFF_SIZE)%nat
  /\ -1 <= code < 2 ^ 31.

(** Arguments that fit the ABI: a strategy is sent as one byte. *)
Definition request_args_ok (r : user_request) : Prop :=
  match r with
  | ReqAddUid _ | ReqDelUid _ => True
  | ReqAddRule name code strategy => rule_key_ok name code /\ 0 <= strategy < 256
  | ReqDelRule name code => rule_key_ok name code
  end.

Definition request_fields (r : user_request) : list (rkx_genl_attr * list byte) :=
  match r with
  | ReqAddUid uid | ReqDelUid uid => [(RKX_A_UID, le_bytes 4 (u32 uid))]
  | ReqAddRule name code strategy =>
      [(RKX_A_FREE_ASYNC_RPC_NAME, name ++ [NUL]); (RKX_A_FREE_ASYNC_CODE, le_bytes 4 code);
       (RKX_A_FREE_ASYNC_STRATEGY, le_bytes 1 (u8 strategy))]
  | ReqDelRule name code =>
      [(RKX_A_FREE_ASYNC_RPC_NAME, name ++ [NUL]); (RKX_A_FREE_ASYNC_CODE, le_bytes 4 code)]
  end.

Abbreviation request_attrs r := (wire (request_fields r)).

Lemma request_attrs_small r : request_args_ok r -> Forall small_attr (request_attrs r).
Proof.
  destruct r as [uid|uid|name code st|name code]; cbn [request_args_ok request_fields]; intros Hok;
    repeat (apply Forall_cons_2; [first [apply small_s32 | apply small_u8
      | apply small_string; unfold rule_key_ok in Hok; tauto]|]);
    constructor.
Qed.

Lemma request_attrs_length r :
  request_args_ok r -> (length (attrs_bytes (request_attrs r)) <= 160)%nat.
Proof.
  destruct r as [uid|uid|name code st|name code]; cbn [request_args_ok]; intros Hok.
  3: apply (rule_attrs_length (Some st)), Hok.
  3: apply (rule_attrs_length None), Hok.
  all: cbn [request_fields wire fmap list_fmap fst snd]; rewrite attrs_bytes_single;
    pose proof (length_attr_bytes (attr_no RKX_A_UID) (le_bytes 4 (u32 uid))) as Hl;
    rewrite length_le_bytes in Hl; change (NLA_ALIGN (4 + Z.of_nat 4)) with 8 in Hl; lia.
Qed.

Lemma request_fields_list r : request_args_ok r -> request_list (request_fields r).
Proof.
  intros Hok. split.
  - destruct r; cbn; repeat (apply NoDup_cons; split; [set_solver|]); constructor.
  - destruct r; cbn; set_solver.
  - by apply request_attrs_small.
  - pose proof (request_attrs_length r Hok). lia.
Qed.

Lemma send_request_spec sys r s :
  sends_ok sys s -> request_args_ok r ->
  send_request sys r s
  = Some (true, after_send s (request_message s (request_cmd r) (request_attrs r))).
Proof.
  intros Hs Hok. destruct r as [uid|uid|name code st|name code]; cbn [send_request request_cmd].
  - apply monitor_request_spec; [done|]. rewrite length_replicate. lia.
  - apply monitor_request_spec; [done|]. rewrite length_replicate. lia.
  - destruct Hok as [(_ & Hne & Hl & Hc) _].
    apply (rule_request_spec sys RKX_C_ADD_FREE_ASYNC (Some st)); try done;
      [rewrite length_replicate|]; lia.
  - destruct Hok as (_ & Hne & Hl & Hc).
    apply (rule_request_spec sys RKX_C_DEL_FREE_ASYNC None); try done;
      [rewrite length_replicate|]; lia.
Qed.

(** Only the low byte of a strategy is sent: the code of [addFreeAsync] has no
    check, so a strategy outside a byte becomes another one. *)
Lemma strategy_truncated sys name code strategy s :
  send_request sys (ReqAddRule name code strategy) s
  = send_request sys (ReqAddRule name code (u8 strategy)) s.
Proof.
  cbn [send_request]. unfold addFreeAsync, rule_request, rule_build, put_rule.
  by rewrite (uwrap_small 8 (u8 strategy)) by (by apply uwrap_range).
Qed.

Lemma attr_num_le n v : attr_num n (le_bytes n v) = uwrap (8 * Z.of_nat n) v.
Proof.
  unfold attr_num. rewrite take_ge by (by rewrite length_le_bytes). apply le_Z_bytes.
Qed.

Section EndToEnd.
Context `{HashFn} `{Jhash} `{NlaValidate} `{!GenlCore}.

Lemma request_info r s a :
  request_args_ok r ->
  genl_info (request_message s (request_cmd r) (request_attrs r)) a = attr_of (request_fields r) a.
Proof.
  intros Hok. apply (genl_info_ok (g_family_id s) NLM_F_REQUEST (g_seq s) (cmd_no (request_cmd r))
    RKX_GENL_VERSION (request_fields r)). by apply request_fields_list.
Qed.

Lemma request_fields_valid r :
  request_args_ok r ->
  Forall (fun x => forall p, rkx_genl_policy x.1 = Some p -> nla_validate p x.2 = true)
    (request_fields r).
Proof.
  intros Hok. destruct r as [uid|uid|name code st|name code]; cbn [request_fields];
    repeat (apply Forall_cons_2; [intros p Hp; injection Hp as <-; cbn [snd];
      first [apply validate_u32_ok; reflexivity | apply validate_s32_ok; reflexivity
            | apply validate_u8_ok; reflexivity | idtac]|]); try constructor.
  all: cbn in Hok; unfold rule_key_ok in Hok; apply validate_nul_string_ok; [tauto|];
    unfold RKX_INTERFACETOKEN_BUFF_SIZE in *; lia.
Qed.

Lemma request_valid r s :
  request_args_ok r -> attrs_valid (genl_info (request_message s (request_cmd r) (request_attrs r))).
Proof.
  intros Hok a d p. rewrite request_info by done. unfold attr_of.
  destruct (walk_find _ _) as [[a' d']|] eqn:E; [|done]. intros [= <-] Hp.
  apply walk_find_Some in E as [Hin Ha%bool_decide_eq_true]. cbn in Ha. subst a'.
  by apply (proj1 (Forall_forall _ _) (request_fields_valid r Hok) _ Hin).
Qed.

Lemma request_spec_meant kmalloc_ok r s st :
  request_args_ok r ->
  request_spec kmalloc_ok (request_cmd r)
    (genl_info (request_message s (request_cmd r) (request_attrs r))) st
  = user_request_spec kmalloc_ok r st.
Proof.
  intros Hok. destruct st as [uids rules]. unfold request_spec, user_request_spec.
  assert (Hinfo := fun a => request_info r s a Hok). set (info := genl_info _) in *. clearbody info.
  destruct r as [uid|uid|name code strat|name code]; cbn [request_cmd].
  1,2: rewrite (Hinfo RKX_A_UID : info RKX_A_UID = Some (le_bytes 4 (u32 uid)));
    rewrite attr_num_le; change (8 * Z.of_nat 4) with 32;
    by rewrite (uwrap_small 32 (u32 uid)) by (by apply uwrap_range).
  1: destruct Hok as [(Hn & _ & _ & Hc) Hst]. 2: destruct Hok as (Hn & _ & _ & Hc).
  all: rewrite (Hinfo RKX_A_FREE_ASYNC_RPC_NAME : info _ = Some (name ++ [NUL])),
    (Hinfo RKX_A_FREE_ASYNC_CODE : info _ = Some (le_bytes 4 code)).
  1: rewrite (Hinfo RKX_A_FREE_ASYNC_STRATEGY : info _ = Some (le_bytes 1 (u8 strat))).
  all: rewrite !attr_num_le, (c_string_app name []) by done; cbn [default from_option];
    change (8 * Z.of_nat 4) with 32; change (8 * Z.of_nat 1) with 8;
    rewrite (swrap_uwrap 32), (swrap_small 32) by (unfold in_s; lia).
  - by rewrite !(uwrap_small 8) by (rewrite ?(uwrap_small 8); unfold in_u; lia).
  - done.
Qed.

(** What the kernel does with the message of a request. *)
Lemma request_delivered kmalloc_ok r s k :
  request_args_ok r -> in_u 16 (g_family_id s) ->
  exists handler, rkx_genl_ops kmalloc_ok (request_cmd r) = Some handler
    /\ let msg := request_message s (request_cmd r) (request_attrs r) in
       genl_rcv_msg (g_family_id s) (ops_table kmalloc_ok) rkx_genl_policy msg k
       = handler (genl_info msg) k.
Proof.
  intros Hok Hid.
  assert (Hop : exists handler, rkx_genl_ops kmalloc_ok (request_cmd r) = Some handler
    /\ walk_find (fun op => op.1 =? cmd_no (request_cmd r)) (ops_table kmalloc_ok)
       = Some (cmd_no (request_cmd r), handler)) by (destruct r; by eexists).
  destruct Hop as (handler & Hop & Hfind). exists handler. split; [done|].
  apply (genl_rcv_op (g_family_id s) (ops_table kmalloc_ok) rkx_genl_policy NLM_F_REQUEST (g_seq s)
    (cmd_no (request_cmd r)) RKX_GENL_VERSION (request_fields r)); try done.
  - by destruct r.
  - by apply request_fields_list.
  - by apply request_fields_valid.
Qed.

End EndToEnd.

(** *** A concrete receiver, over the parser of rkx_nla.h *)

Definition all_attrs : list rkx_genl_attr :=
  [RKX_A_UNSPEC; RKX_A_EVENT; RKX_A_BINDER; RKX_A_BINDER_TYPE; RKX_A_BINDER_ONEWAY;
   RKX_A_BINDER_FROM_PID; RKX_A_BINDER_FROM_UID; RKX_A_BINDER_TARGET_PID; RKX_A_BINDER_TARGET_UID;
   RKX_A_BINDER_CODE; RKX_A_BINDER_RPC_NAME; RKX_A_SIGNAL; RKX_A_SIGNAL_SIGNAL;
   RKX_A_SIGNAL_KILLER_PID; RKX_A_SIGNAL_KILLER_UID; RKX_A_SIGNAL_DST_PID; RKX_A_SIGNAL_DST_UID;
   RKX_A_NETWORK; RKX_A_NETWORK_PROTO; RKX_A_NETWORK_TARGET_UID; RKX_A_NETWORK_DATA_LEN; RKX_A_UID;
   RKX_A_FREE_ASYNC_STRATEGY; RKX_A_FREE_ASYNC_RPC_NAME; RKX_A_FREE_ASYNC_CODE].

Definition demo_info (msg : list byte) (a : rkx_genl_attr) : option (list byte) :=
  tb ← rkx_nla_parse msg RKX_A_MAX 20 (Z.of_nat (length msg) - 20);
  p ← (tb : gmap Z nat) !! attr_no a;
  len ← nla_len msg p;
  mem_bytes msg (nla_data p) (Z.to_nat len).

Definition demo_rcv (id : Z) (ops : list (Z * (genl_attrs -> rkx_state -> option (Z * rkx_state))))
    (policy : rkx_genl_attr -> option nla_policy) (msg : list byte) (s : rkx_state)
    : option (Z * rkx_state) :=
  ty ← rd_u msg 4 2;
  cmd ← rd_u msg 16 1;
  if negb (ty =? id) then Some (- EOPNOTSUPP, s) else
  match walk_find (fun op => op.1 =? cmd) ops with
  | None => Some (- EOPNOTSUPP, s)
  | Some (_, doit) =>
      let valid a := match demo_info msg a, policy a with
                     | Some d, Some p => GenlDemo.validate.(nla_validate) p d
                     | _, _ => true
                     end in
      if forallb valid all_attrs then doit (demo_info msg) s else Some (- EINVAL, s)
  end.

Lemma attr_of_value l a :
  NoDup l.*1 -> RKX_A_UNSPEC ∉ l.*1 ->
  attr_value RKX_A_MAX (attr_no a) (wire l) = attr_of l a.
Proof.
  induction l as [|[a' d] l IH]; [done|]. rewrite fmap_cons. cbn [fst].
  intros [Hnin Hnd]%NoDup_cons [Hsp Hsp']%not_elem_of_cons. unfold wire. rewrite fmap_cons. fold (wire l).
  cbn [attr_value fst snd]. rewrite (IH Hnd Hsp'). unfold attr_of. cbn [walk_find fst].
  assert (Hmask : Z.land (attr_no a') NLA_TYPE_MASK = attr_no a') by (by destruct a').
  rewrite Hmask. case_bool_decide as Ha.
  - subst a'. destruct (walk_find _ l) as [[a1 d1]|] eqn:E.
    { apply walk_find_Some in E as [Hin E%bool_decide_eq_true]. cbn in E. subst a1.
      destruct Hnin. apply list_elem_of_fmap. by exists (a, d1). }
    pose proof (attr_no_range a). assert (0 < attr_no a) by (by destruct a).
    by rewrite Z.eqb_refl, (proj2 (Z.ltb_lt _ _)), (proj2 (Z.leb_le _ _)) by lia.
  - destruct (walk_find _ l); [done|]. rewrite (proj2 (Z.eqb_neq _ _)); [done|].
    intros E. by apply attr_no_inj in E.
Qed.

Lemma demo_info_ok id flags seq cmd version l a :
  request_list l -> demo_info (request_bytes id flags seq cmd version l) a = attr_of l a.
Proof.
  intros [Hnd Hsp Hsm Hlen]. unfold request_bytes. set (hdr := genl_header _ _ _ _ _ _).
  destruct (parse_reads RKX_A_MAX hdr (wire l) [] 20
    (Z.of_nat (length (hdr ++ attrs_bytes (wire l))) - 20))
    as (tb & Hp & Ht); [done|done|by subst hdr; rewrite length_genl_header| |].
  { subst hdr. rewrite length_app, length_genl_header. lia. }
  rewrite app_nil_r in Hp, Ht. unfold demo_info. rewrite Hp. cbn [mbind option_bind].
  specialize (Ht (attr_no a)). rewrite attr_of_value in Ht by done.
  destruct (attr_of l a) as [d|]; [|by rewrite Ht].
  destruct Ht as (p & -> & Hat). cbn [mbind option_bind].
  rewrite (attr_at_len _ _ _ Hat). cbn [mbind option_bind]. rewrite Nat2Z.id.
  by apply attr_at_data.
Qed.

#[refine] Definition demo_core : @GenlCore GenlDemo.validate := {|
  genl_info := demo_info; genl_rcv_msg := demo_rcv;
|}.
Proof.
  - apply demo_info_ok.
  - intros id ops policy flags seq cmd version l doit s Hid Hcmd Hl Hop Hval. unfold demo_rcv.
    assert (Hin := fun a => demo_info_ok id flags seq cmd version l a Hl).
    destruct (genl_header_reads (20 + Z.of_nat (length (attrs_bytes (wire l)))) id flags seq cmd version
      (attrs_bytes (wire l))) as (_ & Ht & Hc). fold (request_bytes id flags seq cmd version l) in *.
    rewrite Ht, Hc. cbn [mbind option_bind]. rewrite (uwrap_small 16 id), (uwrap_small 8 cmd) by done.
    rewrite Z.eqb_refl. cbn [negb]. rewrite Hop.
    rewrite (proj2 (forallb_forall _ _)); [done|]. intros a _. rewrite Hin. unfold attr_of.
    destruct (walk_find _ l) as [[a' d]|] eqn:E; [|done]. cbn [fmap option_fmap option_map snd].
    apply walk_find_Some in E as [Hel Ha%bool_decide_eq_true]. cbn in Ha. subst a'.
    destruct (policy a) as [p|] eqn:Ep; [|done].
    by apply (proj1 (Forall_forall _ _) Hval _ Hel).
  - intros id ops policy flags seq cmd version l s Hid Hcmd Hop. unfold demo_rcv.
    destruct (genl_header_reads (20 + Z.of_nat (length (attrs_bytes (wire l)))) id flags seq cmd version
      (attrs_bytes (wire l))) as (_ & Ht & Hc). fold (request_bytes id flags seq cmd version l) in *.
    rewrite Ht, Hc. cbn [mbind option_bind]. rewrite (uwrap_small 16 id), (uwrap_small 8 cmd) by done.
    rewrite Z.eqb_refl. cbn [negb]. by rewrite Hop.
  - intros id id' ops policy flags seq cmd version l s Hid Hid' Hne. unfold demo_rcv.
    destruct (genl_header_reads (20 + Z.of_nat (length (attrs_bytes (wire l)))) id' flags seq cmd version
      (attrs_bytes (wire l))) as (_ & Ht & Hc). fold (request_bytes id' flags seq cmd version l) in *.
    rewrite Ht, Hc. cbn [mbind option_bind]. rewrite (uwrap_small 16 id') by done.
    rewrite (proj2 (Z.eqb_neq _ _)) by congruence. by eexists.
Defined.

(** ** Evaluations *)

#[local] Existing Instance GenlDemo.genl.

Module TransportDemo.
Definition sys : net_reply := {| socket_ret := 7; sendto_ret := Z.of_nat |}.

Definition connected : jni_state :=
  {| g_fd := 5; g_disconnect_fd := 6; g_family_id := 30; g_seq := 2; js_open := [6; 5]; js_sent := [] |}.

Lemma connected_ok : sends_ok sys connected.
Proof. split; [discriminate|cbn; lia|cbn; lia|done]. Qed.

Definition binder_event : rkx_event :=
  {| ev_type := RKX_EVT_BINDER;
     ev_u := U_binder {|
       be_binder_type := RKX_BINDER_TRANSACTION; be_oneway := 1;
       be_from_pid := 1500; be_from_uid := 1000; be_target_pid := 4321; be_target_uid := 10123;
       be_code := 3;
       be_rpc_name := char_array RKX_INTERFACETOKEN_BUFF_SIZE (str "android.os.IMessenger") |} |}.

Lemma binder_event_wf : event_wf binder_event.
Proof.
  split; [reflexivity|]. split; try (vm_compute; split; congruence).
  apply (name_array_wf_intro (str "android.os.IMessenger")); [apply (bool_decide_unpack _); vm_compute; exact I|].
  apply Nat.ltb_lt. reflexivity.
Qed.
End TransportDemo.

Lemma event_reaches_callback_witness :
  exists msg, rkx_send_message (skb := GenlDemo.skb) TransportDemo.binder_event
    = Some (RKX_SUCCESS, Multicast msg)
  /\ dispatch (msg ++ replicate 100 Byte.xff) 30 (Z.of_nat (length msg))
     = Some [CbBinder 1 1 1000 1500 10123 4321 (str "android.os.IMessenger") 3].
Proof.
  eexists. split; [vm_compute; reflexivity|].
  refine (event_reaches_callback (skb := GenlDemo.skb) TransportDemo.binder_event RKX_SUCCESS _
    (replicate 100 Byte.xff) TransportDemo.binder_event_wf _ _).
  - cbn. lia.
  - vm_compute. reflexivity.
Defined.


(** A datagram of 21 bytes received over the first bytes of an event message. *)
Lemma dispatch_unaligned_reads_stale_witness :
  dispatch ((genl_header 21 NLMSG_DONE 0 0 0 0 ++ [NUL]) ++ replicate 3 NUL
      ++ abi_message 30 GenlDemo.event ++ replicate 4 NUL ++ []) 30 21
  = Some [CbNetwork 4 10123 1400].
Proof.
  destruct (dispatch_unaligned_reads_stale (genl_header 21 NLMSG_DONE 0 0 0 0 ++ [NUL])
    (replicate 3 NUL) [] GenlDemo.event 30) as [_ (cbs & Hh & Hd)].
  - vm_compute. split; [discriminate|reflexivity].
  - vm_compute. discriminate.
  - vm_compute. reflexivity.
  - apply Nat.ltb_lt. reflexivity.
  - vm_compute. reflexivity.
  - split; [reflexivity|]. split; vm_compute; (split; [discriminate|reflexivity]).
  - lia.
  - vm_compute in Hh. injection Hh as <-. exact Hd.
Defined.
