(* ===== verification/Client.v ===== *)
(** rkx_jni.cpp, the connection: loading the library, the callback object,
    [connect], [disconnect] and [pollEvent], and the machine they form with the
    requests of Jni.v when several Java threads call them.

    Descriptors, eventfd counters, multicast memberships and JNI global
    references are ledgers of the state, so that a leak or a use after close
    is visible.  Any number of threads run any of the calls.  What a call does
    under a mutex is one step; between two accesses to shared state outside a
    mutex every other thread may run.  [connect], [disconnect] and the cleanup of
    [pollEvent] hold [g_conn_mutex] from beginning to end, and what the other
    calls read of the connection without it are single atomic loads, [g_fd] of
    which [connect] stores last and the cleanup clears first.  Socket options
    whose result the code ignores, the buffer size and the receive timeouts, are
    left out, and so is what [read] does to a descriptor that was closed and
    opened again as a socket. *)

From S2P Require Import Prelude HashTable Uapi NetUid FreeAsync Nla Genl Jni Resolve Transport.

Record client := {
  cl_net : jni_state;
  cl_events : gmap Z Z;      (** open eventfds and their counters *)
  cl_groups : list (Z * Z);  (** sockets and the multicast groups they joined *)
  g_cbClass : option Z;
  g_mids : list bool;        (** which of the three method ids were found *)
  g_callback : option Z;
  cl_refs : list Z;          (** global references in use *)
}.

Definition set_net (n : jni_state) (c : client) : client :=
  {| cl_net := n; cl_events := cl_events c; cl_groups := cl_groups c; g_cbClass := g_cbClass c;
     g_mids := g_mids c; g_callback := g_callback c; cl_refs := cl_refs c |}.
Definition set_events (ev : gmap Z Z) (c : client) : client :=
  {| cl_net := cl_net c; cl_events := ev; cl_groups := cl_groups c; g_cbClass := g_cbClass c;
     g_mids := g_mids c; g_callback := g_callback c; cl_refs := cl_refs c |}.
Definition set_groups (gs : list (Z * Z)) (c : client) : client :=
  {| cl_net := cl_net c; cl_events := cl_events c; cl_groups := gs; g_cbClass := g_cbClass c;
     g_mids := g_mids c; g_callback := g_callback c; cl_refs := cl_refs c |}.
Definition set_class (cls : option Z) (mids : list bool) (refs : list Z) (c : client) : client :=
  {| cl_net := cl_net c; cl_events := cl_events c; cl_groups := cl_groups c; g_cbClass := cls;
     g_mids := mids; g_callback := g_callback c; cl_refs := refs |}.
Definition set_callback (cb : option Z) (refs : list Z) (c : client) : client :=
  {| cl_net := cl_net c; cl_events := cl_events c; cl_groups := cl_groups c;
     g_cbClass := g_cbClass c; g_mids := g_mids c; g_callback := cb; cl_refs := refs |}.

Definition set_globals (fd disconnect_fd family_id : Z) (s : jni_state) : jni_state :=
  {| g_fd := fd; g_disconnect_fd := disconnect_fd; g_family_id := family_id; g_seq := g_seq s;
     js_open := js_open s; js_sent := js_sent s |}.

(** ** JNI_OnLoad and JNI_OnUnload *)

Definition JNI_VERSION_1_6 : Z := 65542.
Definition JNI_ERR : Z := -1.

(** What the Java machine answers; references and method ids are null or not. *)
Record vm_answer := {
  vm_getenv_ok : bool;
  vm_class_found : bool;
  vm_class_ref : option Z;
  vm_mids : bool * bool * bool;
}.

Definition JNI_OnLoad (vm : vm_answer) (c : client) : Z * client :=
  if negb (vm_getenv_ok vm) then (JNI_ERR, c) else
  if negb (vm_class_found vm) then (JNI_ERR, c) else
  let '(binder, signal, network) := vm_mids vm in
  let c := set_class (vm_class_ref vm) [binder; signal; network]
             (option_list (vm_class_ref vm) ++ cl_refs c) c in
  if negb binder || negb signal || negb network then (JNI_ERR, c) else (JNI_VERSION_1_6, c).

Definition JNI_OnUnload (getenv_ok : bool) (c : client) : client :=
  if getenv_ok then
    match g_cbClass c with
    | Some cls => set_class None (g_mids c) (remove_fd cls (cl_refs c)) c
    | None => c
    end
  else c.

(** ** setCallback *)

(** The three parts of the call.  Before the lock: [callback] is null or an
    object with the answer of [IsInstanceOf], [new_ref] is what [NewGlobalRef]
    returns; the result is the new callback, or that the call is over. *)
Definition setCallback_new (callback : option bool) (new_ref : option Z) (c : client)
    : option (option Z) * client :=
  match callback with
  | None => (Some None, c)
  | Some false => (None, c)
  | Some true => (Some new_ref, set_callback (g_callback c) (option_list new_ref ++ cl_refs c) c)
  end.

(** Under [g_callback_mutex]: the old callback. *)
Definition setCallback_swap (new_cb : option Z) (c : client) : option Z * client :=
  (g_callback c, set_callback new_cb (cl_refs c) c).

(** Behind the lock. *)
Definition setCallback_delete (old_cb : option Z) (c : client) : client :=
  match old_cb with
  | Some old => set_callback (g_callback c) (remove_fd old (cl_refs c)) c
  | None => c
  end.

Definition setCallback (callback : option bool) (new_ref : option Z) (c : client) : client :=
  match setCallback_new callback new_ref c with
  | (None, c) => c
  | (Some new_cb, c) => let '(old_cb, c) := setCallback_swap new_cb c in setCallback_delete old_cb c
  end.

(** ** connect and disconnect *)

Definition sys_close (fd : Z) (c : client) : client :=
  set_groups (filter (fun g => g.1 <> fd) (cl_groups c))
    (set_events (delete fd (cl_events c)) (set_net (close_fd fd (cl_net c)) c)).

Record connect_answer := {
  ca_socket : Z;
  ca_eventfd : Z;
  ca_bind : Z;
  ca_ctrl : ctrl_reply;
  ca_membership : Z -> Z;
}.

Definition connect (sys : connect_answer) (c : client) : option (bool * client) :=
  if 0 <=? g_fd (cl_net c) then Some (true, c) else
  let fd := ca_socket sys in
  if fd <? 0 then Some (false, c) else
  let c := set_net (open_fd fd (cl_net c)) c in
  let disconnect_fd := ca_eventfd sys in
  if disconnect_fd <? 0 then Some (false, sys_close fd c) else
  let c := set_events (<[disconnect_fd := 0]> (cl_events c))
             (set_net (open_fd disconnect_fd (cl_net c)) c) in
  if ca_bind sys <? 0 then Some (false, sys_close disconnect_fd (sys_close fd c)) else
  '(resolved, n) ← resolve_family_group (ca_ctrl sys) (cl_net c);
  let c := set_net n c in
  match resolved with
  | None => Some (false, sys_close disconnect_fd (sys_close fd c))
  | Some (resolved_fid, resolved_gid) =>
      if (0 <? resolved_gid) && (ca_membership sys resolved_gid <? 0)
      then Some (false, sys_close disconnect_fd (sys_close fd c)) else
      let c := if 0 <? resolved_gid
               then set_groups ((fd, resolved_gid) :: cl_groups c) c else c in
      Some (true, set_net (set_globals fd disconnect_fd resolved_fid (cl_net c)) c)
  end.

(** [write] adds one to the counter of the eventfd. *)
Definition disconnect (c : client) : client :=
  let efd := g_disconnect_fd (cl_net c) in
  if 0 <=? efd then set_events (alter (Z.add 1) efd (cl_events c)) c else c.

(** ** pollEvent *)

Definition POLLIN : Z := 1.
Definition POLLERR : Z := 8.

(** What [poll] returns and reports, what [recvfrom] then delivers, and whether
    [NewLocalRef] succeeds. *)
Record poll_answer := {
  pa_ret : Z;
  pa_disconnect : Z;
  pa_socket : Z;
  pa_recv : option (list byte);
  pa_local_ref : bool;
}.

(** Where a thread in [pollEvent] is: at the top of the loop, between the two
    loads, in [poll], before the [read] of the eventfd, before [recvfrom], before
    the lock of the callback, in the loop over the messages, or past the loop. *)
Inductive poller :=
  | AtTop (rbuf : list byte)
  | Loaded (fd : Z) (rbuf : list byte)
  | Waiting (fd disconnect_fd : Z) (rbuf : list byte)
  | Asked (disconnect_fd : Z)
  | Readable (fd : Z) (rbuf : list byte)
  | Received (rlen : Z) (rbuf : list byte)
  | Dispatching (nlh : nat) (rlen : Z) (rbuf : list byte)
  | Leaving.

Definition poll_loaded (fd disconnect_fd : Z) (rbuf : list byte) : poller :=
  if (fd <? 0) || (disconnect_fd <? 0) then Leaving else Waiting fd disconnect_fd rbuf.

(** The return of [poll]. *)
Definition poll_check (a : poll_answer) (fd disconnect_fd : Z) (rbuf : list byte) : poller :=
  if pa_ret a <? 0 then AtTop rbuf else
  if negb (Z.land (pa_disconnect a) POLLIN =? 0) then Asked disconnect_fd else
  if Z.land (pa_socket a) (Z.lor POLLIN POLLERR) =? 0 then AtTop rbuf
  else Readable fd rbuf.

(** [read] empties the eventfd; it blocks ([None]) while the counter is zero, and
    fails when the descriptor is not an eventfd any more. *)
Definition poll_read (disconnect_fd : Z) (c : client) : option client :=
  match cl_events c !! disconnect_fd with
  | Some n => if n =? 0 then None else Some (set_events (<[disconnect_fd := 0]> (cl_events c)) c)
  | None => Some c
  end.

(** [recvfrom] into the array. *)
Definition poll_recv (recv : option (list byte)) (rbuf : list byte) : option poller :=
  match recv with
  | None | Some [] => Some (AtTop rbuf)
  | Some datagram => rbuf ← mem_write rbuf 0 datagram; Some (Received (Z.of_nat (length datagram)) rbuf)
  end.

(** The local reference, taken under [g_callback_mutex]. *)
Definition poll_callback (local_ref : bool) (rlen : Z) (rbuf : list byte) (c : client) : poller :=
  match g_callback c with
  | Some _ => if local_ref then Dispatching 0 rlen rbuf else AtTop rbuf
  | None => AtTop rbuf
  end.

(** One message of the datagram; the event is recognised by the family id of the
    moment. *)
Definition poll_dispatch (nlh : nat) (rlen : Z) (rbuf : list byte) (c : client)
    : option (poller * list callback) :=
  turn ← dispatch_step rbuf (g_family_id (cl_net c)) nlh rlen;
  match turn with
  | None => Some (AtTop rbuf, [])
  | Some (cbs, (nlh, rlen)) => Some (Dispatching nlh rlen rbuf, cbs)
  end.

(** The rest of the loop body, for a thread that nobody disturbs. *)
Definition poll_rest (recv : option (list byte)) (local_ref : bool) (p : poller) (c : client)
    : option (poller * list callback) :=
  p ← match p with Readable _ rbuf => poll_recv recv rbuf | _ => Some p end;
  let p := match p with Received rlen rbuf => poll_callback local_ref rlen rbuf c | _ => p end in
  match p with
  | Dispatching nlh rlen rbuf =>
      cbs ← dispatch_loop rbuf (length rbuf) (g_family_id (cl_net c)) nlh rlen; Some (AtTop rbuf, cbs)
  | _ => Some (p, [])
  end.

(** From [poll] to the end of the loop body, undisturbed. *)
Definition poll_wait (a : poll_answer) (fd disconnect_fd : Z) (rbuf : list byte) (c : client)
    : option (poller * list callback * client) :=
  let p := poll_check a fd disconnect_fd rbuf in
  '(p, cbs) ← poll_rest (pa_recv a) (pa_local_ref a) p c; Some (p, cbs, c).

Definition poll_exit (c : client) : client :=
  let fd := g_fd (cl_net c) in
  let disconnect_fd := g_disconnect_fd (cl_net c) in
  let c := set_net (set_globals (-1) (-1) 0 (cl_net c)) c in
  let c := if 0 <=? fd then sys_close fd c else c in
  if 0 <=? disconnect_fd then sys_close disconnect_fd c else c.

(** The loads, for a thread that has not made them yet. *)
Definition poll_settle (p : poller) (c : client) : poller :=
  match p with
  | AtTop rbuf => poll_loaded (g_fd (cl_net c)) (g_disconnect_fd (cl_net c)) rbuf
  | Loaded fd rbuf => poll_loaded fd (g_disconnect_fd (cl_net c)) rbuf
  | _ => p
  end.

(** A thread at the beginning or the end of a turn of the loop that nobody
    disturbs any more, on the answers the system gives, until it returns or
    ([false]) blocks for good. *)
Fixpoint poll_alone (answers : list poll_answer) (p : poller) (c : client)
    : option (bool * list callback * client) :=
  match poll_settle p c with
  | Waiting fd disconnect_fd rbuf =>
      match answers with
      | [] => Some (false, [], c)
      | a :: answers =>
          '(p, cbs, c) ← poll_wait a fd disconnect_fd rbuf c;
          '(returned, cbs', c) ← poll_alone answers p c;
          Some (returned, cbs ++ cbs', c)
      end
  | Asked disconnect_fd =>
      match poll_read disconnect_fd c with
      | Some c => Some (true, [], poll_exit c)
      | None => Some (false, [], c)
      end
  | Leaving => Some (true, [], poll_exit c)
  | _ => None
  end.

Definition pollEvent (answers : list poll_answer) (rbuf : list byte) (c : client)
    : option (bool * list callback * client) := poll_alone answers (AtTop rbuf) c.

(** ** The connection: nothing or a complete one *)

Record offline (c : client) : Prop := {
  off_fd : g_fd (cl_net c) = -1;
  off_efd : g_disconnect_fd (cl_net c) = -1;
  off_family : g_family_id (cl_net c) = 0;
  off_events : cl_events c = ∅;
  off_groups : cl_groups c = [];
}.

(** Connected over [fd], which joined the group [gid]; [n] disconnects have been
    asked for. *)
Record online (fd efd gid n : Z) (c : client) : Prop := {
  on_fd : g_fd (cl_net c) = fd;
  on_efd : g_disconnect_fd (cl_net c) = efd;
  on_valid : 0 <= fd /\ 0 <= efd /\ fd <> efd;
  on_family : 0 < g_family_id (cl_net c) < 2 ^ 16;
  on_events : cl_events c = {[efd := n]};
  on_count : 0 <= n;
  on_groups : cl_groups c = [(fd, gid)];
  on_gid : 0 < gid < 2 ^ 32;
}.

Definition conn_ok (c : client) : Prop :=
  offline c \/ exists fd efd gid n, online fd efd gid n c.

(** The descriptors of the connection. *)
Definition conn_fds (c : client) : list Z :=
  if 0 <=? g_fd (cl_net c) then [g_disconnect_fd (cl_net c); g_fd (cl_net c)] else [].

(** The part of the state the connection does not touch. *)
Definition java_part (c : client) := (g_cbClass c, g_mids c, g_callback c, cl_refs c).

(** The globals of the connection. *)
Definition conn_part (s : jni_state) := (g_fd s, g_disconnect_fd s, g_family_id s).

Lemma resolve_keeps ctrl s r s' :
  resolve_family_group ctrl s = Some (r, s') ->
  conn_part s' = conn_part s /\ js_open s' = js_open s
  /\ forall fid gid, r = Some (fid, gid) -> 0 < fid < 2 ^ 16 /\ 0 < gid < 2 ^ 32.
Proof.
  unfold resolve_family_group, nl_sendto. destruct (resolve_request _) as [[total buf]|];
    [cbn [mbind option_bind]|done].
  set (s1 := if 0 <=? _ then _ else _).
  assert (Hs1 : conn_part s1 = conn_part s /\ js_open s1 = js_open s)
    by (subst s1; by destruct (0 <=? _)).
  destruct Hs1 as [Hs1 Ho1].
  destruct ((if _ =? _ then 0 else -1) <? 0); [by intros [= <- <-]|].
  destruct (nl_recv ctrl _) as [rlen reply].
  destruct (resolve_reply reply rlen) as [r'|] eqn:Er; [cbn [mbind option_bind]|done].
  intros [= -> <-]. split_and!; [done|done|]. intros fid gid ->. by apply resolve_reply_range in Er.
Qed.

Lemma close_pair fd efd open c :
  fd <> efd -> js_open (cl_net c) = efd :: fd :: open -> cl_events c = {[efd := 0]} ->
  cl_groups c = [] ->
  js_open (cl_net (sys_close efd (sys_close fd c))) = open
  /\ cl_events (sys_close efd (sys_close fd c)) = ∅
  /\ cl_groups (sys_close efd (sys_close fd c)) = [].
Proof.
  intros Hne Ho He Hg. unfold sys_close. cbn. rewrite Ho, He, Hg. cbn.
  rewrite (proj2 (Z.eqb_neq efd fd)) by done. rewrite !Z.eqb_refl. cbn. rewrite Z.eqb_refl.
  split_and!; [done| |done].
  rewrite delete_singleton_ne by done. by rewrite delete_singleton_eq.
Qed.

(** Descriptors that are open at the same time are different. *)
Definition fds_distinct (sys : connect_answer) : Prop :=
  0 <= ca_socket sys -> ca_eventfd sys <> ca_socket sys.

Lemma offline_intro c fam :
  g_fd (cl_net c) = -1 -> g_disconnect_fd (cl_net c) = -1 -> g_family_id (cl_net c) = fam ->
  fam = 0 -> cl_events c = ∅ /\ cl_groups c = [] -> offline c.
Proof. intros ??? -> (? & ?). by split. Qed.

(** What [connect] did: nothing, or a new connection. *)
Definition connected_by (sys : connect_answer) (c c' : client) : Prop :=
  (exists fd efd gid n, online fd efd gid n c')
  /\ (c' = c
      \/ offline c /\ 0 <= ca_socket sys /\ 0 <= ca_eventfd sys
         /\ conn_fds c' = [ca_eventfd sys; ca_socket sys]
         /\ js_open (cl_net c') = conn_fds c' ++ js_open (cl_net c)).

Lemma connect_cases sys c ok c' :
  conn_ok c -> fds_distinct sys -> connect sys c = Some (ok, c') ->
  java_part c' = java_part c
  /\ (0 <= g_fd (cl_net c) -> ok = true /\ c' = c)
  /\ if ok : bool then connected_by sys c c'
     else offline c /\ offline c' /\ js_open (cl_net c') = js_open (cl_net c).
Proof.
  intros Hok Hd. unfold connect. destruct Hok as [Hoff|(fd & efd & gid & n & Hon)].
  2:{ rewrite (on_fd _ _ _ _ _ Hon), (proj2 (Z.leb_le 0 fd)) by apply Hon.
      intros [= <- <-]. split_and!; [done|done|]. split; [by exists fd, efd, gid, n|by left]. }
  destruct Hoff as [Hfd Hefd Hfam Hev Hgr]. rewrite Hfd.
  change (0 <=? -1) with false. cbv iota.
  assert (offline c) as Hoff by (by split).
  assert (Hneg : 0 <= -1 -> ok = true /\ c' = c) by lia.
  destruct (Z.ltb_spec (ca_socket sys) 0) as [|H1]; [by intros [= <- <-]|].
  set (c1 := set_net _ c). specialize (Hd H1).
  destruct (Z.ltb_spec (ca_eventfd sys) 0) as [|H2].
  { intros [= <- <-]. split_and!; [done|done|done| |].
    - eapply offline_intro; cbn; try done. rewrite Hev, Hgr. by rewrite delete_empty.
    - cbn. by rewrite Z.eqb_refl. }
  set (c2 := set_events _ _).
  assert (Hc2 : js_open (cl_net c2) = ca_eventfd sys :: ca_socket sys :: js_open (cl_net c)
    /\ cl_events c2 = {[ca_eventfd sys := 0]} /\ cl_groups c2 = []).
  { subst c2 c1. cbn. by rewrite Hev, Hgr. }
  destruct Hc2 as (Ho2 & He2 & Hg2).
  destruct (ca_bind sys <? 0).
  { intros [= <- <-]. destruct (close_pair (ca_socket sys) (ca_eventfd sys) _ c2
      ltac:(congruence) Ho2 He2 Hg2) as (Hcl & Hce & Hcg).
    split_and!; [done|done|done| |done]. by eapply offline_intro. }
  destruct (resolve_family_group (ca_ctrl sys) (cl_net c2)) as [[r n]|] eqn:Er;
    [cbn [mbind option_bind]|done].
  apply resolve_keeps in Er as (Hkeep & Hk4 & Hids). unfold conn_part in Hkeep.
  injection Hkeep as Hk1 Hk2 Hk3. set (c3 := set_net n c2).
  assert (Hfail : offline (sys_close (ca_eventfd sys) (sys_close (ca_socket sys) c3))
    /\ js_open (cl_net (sys_close (ca_eventfd sys) (sys_close (ca_socket sys) c3)))
       = js_open (cl_net c)).
  { destruct (close_pair (ca_socket sys) (ca_eventfd sys) (js_open (cl_net c)) c3)
      as (Hcl & Hce & Hcg); [congruence|cbn; by rewrite Hk4|done|done|].
    split; [|done]. eapply offline_intro; cbn; [by rewrite Hk1|by rewrite Hk2|by rewrite Hk3|done|done]. }
  destruct r as [[fid gid]|]; [|by intros [= <- <-]]. destruct (Hids fid gid eq_refl) as [Hfid Hgid].
  rewrite (proj2 (Z.ltb_lt 0 gid)) by lia. cbn [andb].
  destruct (ca_membership sys gid <? 0); [by intros [= <- <-]|]. intros [= <- <-].
  split_and!; [done|done|]. split.
  - exists (ca_socket sys), (ca_eventfd sys), gid, 0.
    split; cbn; try done. subst c3. cbn. by rewrite Hgr.
  - right. unfold conn_fds. cbn. rewrite (proj2 (Z.leb_le 0 _)) by done. split_and!; try done.
Qed.

(** The controller's answer is decoded inside the array. *)
Definition ctrl_safe (ctrl : ctrl_reply) (seq : Z) : Prop :=
  let '(rlen, reply) := nl_recv ctrl (getfamily_message seq) in reply_readable reply rlen.

Lemma resolve_total ctrl s :
  ctrl_safe ctrl (g_seq s) -> exists r, resolve_family_group ctrl s = Some r.
Proof.
  intros Hs. unfold resolve_family_group, nl_sendto, ctrl_safe in *.
  destruct (resolve_request_spec (g_seq s)) as (buf & -> & Hmsg). cbn [mbind option_bind].
  rewrite Hmsg. destruct ((if _ =? _ then 0 else -1) <? 0); [by eexists|].
  destruct (nl_recv ctrl _) as [rlen reply].
  destruct (resolve_reply_total reply rlen Hs) as [r ->]. by eexists.
Qed.

(** C17: connecting is all or nothing: whatever the system calls answer, as long
    as the controller's answer leaves room in the 4096 byte array for the seven
    bytes of the group's name and its header does not claim one of the twenty
    lengths from 2^31 on (see [reply_readable]), [connect] ends; it succeeds with
    both descriptors open, the event socket in the module's multicast group, a
    valid family id and all three globals set, or it fails with every descriptor
    it opened closed again and the globals as they were; a connected client is
    left exactly as it is, and the callback is never touched. *)
Theorem connect_all_or_nothing sys c :
  conn_ok c -> fds_distinct sys -> ctrl_safe (ca_ctrl sys) (g_seq (cl_net c)) ->
  exists ok c', connect sys c = Some (ok, c') /\ java_part c' = java_part c
    /\ (0 <= g_fd (cl_net c) -> ok = true /\ c' = c)
    /\ if ok : bool then connected_by sys c c'
       else offline c /\ offline c' /\ js_open (cl_net c') = js_open (cl_net c).
Proof.
  intros Hok Hd Hs. assert (Htot : exists r, connect sys c = Some r).
  { unfold connect. repeat (split_guard; [by eexists|]).
    set (c2 := set_events _ _). destruct (resolve_total (ca_ctrl sys) (cl_net c2) Hs) as [[r n] ->].
    cbn [mbind option_bind]. destruct r as [[fid gid]|]; [|by eexists].
    destruct (_ && _); by eexists. }
  destruct Htot as [[ok c'] Hc]. exists ok, c'. split; [done|]. by apply (connect_cases sys).
Qed.

(** ** The other operations *)

Lemma online_fds fd efd gid n c : online fd efd gid n c -> conn_fds c = [efd; fd].
Proof.
  intros Hon. unfold conn_fds. rewrite (on_fd _ _ _ _ _ Hon), (on_efd _ _ _ _ _ Hon).
  by rewrite (proj2 (Z.leb_le 0 fd)) by apply Hon.
Qed.

Lemma offline_fds c : offline c -> conn_fds c = [].
Proof. intros Ho. unfold conn_fds. by rewrite (off_fd _ Ho). Qed.

Lemma disconnect_online fd efd gid n c :
  online fd efd gid n c -> online fd efd gid (n + 1) (disconnect c).
Proof.
  intros [Hfd Hefd Hv Hfam Hev Hn Hgr Hgid]. unfold disconnect. rewrite Hefd.
  rewrite (proj2 (Z.leb_le 0 efd)) by lia. split; try done; [|lia]. cbn.
  rewrite Hev, alter_singleton_eq. f_equal. lia.
Qed.

Lemma disconnect_offline c : offline c -> disconnect c = c.
Proof. intros Ho. unfold disconnect. by rewrite (off_efd c Ho). Qed.

Lemma disconnect_keeps c :
  java_part (disconnect c) = java_part c /\ cl_net (disconnect c) = cl_net c.
Proof. unfold disconnect. by destruct (0 <=? _). Qed.

(** Reading some eventfd, the connection's or one that is gone. *)
Lemma poll_read_keeps efd c c' :
  poll_read efd c = Some c' ->
  java_part c' = java_part c /\ cl_net c' = cl_net c
  /\ (offline c -> c' = c)
  /\ forall fd efd' gid n, online fd efd' gid n c -> exists n', online fd efd' gid n' c'.
Proof.
  unfold poll_read. destruct (cl_events c !! efd) as [k|] eqn:E.
  - destruct (k =? 0); [done|]. intros [= <-]. split_and!; [done|done| |].
    + intros Ho. by rewrite (off_events _ Ho), lookup_empty in E.
    + intros fd efd' gid n [Hfd Hefd Hv Hfam Hev Hn Hgr Hgid].
      rewrite Hev in E. apply lookup_singleton_Some in E as [-> ->]. exists 0. split; try done.
      cbn. by rewrite Hev, insert_singleton_eq.
  - intros [= <-]. split_and!; try done. intros fd efd' gid n Hon. by exists n.
Qed.

Lemma poll_read_ok efd c c' : poll_read efd c = Some c' -> conn_ok c -> conn_ok c'.
Proof.
  intros Hr%poll_read_keeps. destruct Hr as (_ & _ & Hoff & Hon).
  intros [Ho|(fd & efd' & gid & n & Hc)]; [left; by rewrite Hoff|right].
  destruct (Hon _ _ _ _ Hc) as [n' Hn']. by exists fd, efd', gid, n'.
Qed.

Lemma remove_fd_perm x l : x ∈ l -> l ≡ₚ x :: remove_fd x l.
Proof.
  induction l as [|y l IH]; intros Hx; [by apply elem_of_nil in Hx|]. cbn [remove_fd].
  destruct (Z.eqb_spec y x) as [->|Hne]; [done|]. apply elem_of_cons in Hx as [->|Hx]; [done|].
  rewrite (IH Hx) at 1. by rewrite Permutation_swap.
Qed.

(** Removing what a ledger has leaves the rest. *)
Lemma remove_fd_ledger x l rest : l ≡ₚ x :: rest -> remove_fd x l ≡ₚ rest.
Proof.
  intros Hl. apply (Permutation_cons_inv (a := x)). rewrite <- remove_fd_perm; [done|].
  rewrite Hl. by left.
Qed.

Lemma poll_exit_offline c : conn_ok c -> offline (poll_exit c).
Proof.
  unfold poll_exit. intros [[Hfd Hefd Hfam Hev Hgr]|(fd & efd & gid & n & Hon)].
  - rewrite Hfd, Hefd. change (0 <=? -1) with false. cbv iota. by split.
  - destruct Hon as [Hfd Hefd (H1 & H2 & Hne) Hfam Hev Hn Hgr Hgid].
    rewrite Hfd, Hefd, (proj2 (Z.leb_le 0 fd)), (proj2 (Z.leb_le 0 efd)) by done.
    split; unfold sys_close; cbn; try done.
    + rewrite Hev, delete_singleton_ne by done. by rewrite delete_singleton_eq.
    + rewrite Hgr. cbn. rewrite decide_False by (cbn; tauto). done.
Qed.

Lemma poll_exit_closes c rest :
  conn_ok c -> js_open (cl_net c) ≡ₚ conn_fds c ++ rest -> js_open (cl_net (poll_exit c)) ≡ₚ rest.
Proof.
  intros [Hoff|(fd & efd & gid & n & Hon)] Hl.
  - rewrite (offline_fds _ Hoff) in Hl. unfold poll_exit.
    rewrite (off_fd _ Hoff), (off_efd _ Hoff). done.
  - rewrite (online_fds _ _ _ _ _ Hon) in Hl. unfold poll_exit.
    rewrite (on_fd _ _ _ _ _ Hon), (on_efd _ _ _ _ _ Hon), !(proj2 (Z.leb_le 0 _)) by apply Hon.
    cbn. apply remove_fd_ledger, remove_fd_ledger. rewrite Hl. apply Permutation_swap.
Qed.

Lemma poll_exit_java c : java_part (poll_exit c) = java_part c.
Proof. unfold poll_exit. by destruct (0 <=? _), (0 <=? _). Qed.

(** ** Threads *)

(** Where a thread is: outside the library; in [setCallback] before and behind the
    lock; in a request, with the family id it loaded, allowed to go on, with its
    socket open, with its message built, and with the message sent; or in
    [pollEvent]. *)
Inductive thread :=
  | Idle
  | CbNew (new_cb : option Z)
  | CbSwapped (old_cb : option Z)
  | RqFamily (r : user_request) (family : Z)
  | RqAllowed (r : user_request) (family : Z)
  | RqOpen (r : user_request) (family fd : Z)
  | RqBuilt (ok : bool) (fd : Z) (len : nat) (buf : list byte)
  | RqSent (fd : Z)
  | InPoll (p : poller).

(** What [poll] promises about the eventfd: it is readable exactly when its
    counter is not zero. *)
Definition poll_truthful (a : poll_answer) (efd : Z) (c : client) : Prop :=
  0 <= pa_ret a -> forall n, cl_events c !! efd = Some n ->
  (Z.land (pa_disconnect a) POLLIN <> 0 <-> 0 < n).

(** What [recvfrom] promises: at most the size of the array; and messages that
    the kernel sends are padded. *)
Definition recv_ok (recv : option (list byte)) : Prop :=
  forall d, recv = Some d -> (length d <= Z.to_nat 8192)%nat /\ Z.of_nat (length d) mod 4 = 0.

(** What [socket] and [eventfd] promise: a new descriptor is not one that is open. *)
Definition fds_fresh (sys : connect_answer) (c : client) : Prop :=
  fds_distinct sys /\ (ca_socket sys ∉ js_open (cl_net c)) /\ (ca_eventfd sys ∉ js_open (cl_net c)).

(** A step of one thread: the client and the thread before it, after it, and the
    calls of the Java callback it makes. *)
Inductive tstep : client -> thread -> client -> thread -> list callback -> Prop :=
  | ts_setCallback callback new_ref c r c' :
      (forall x, new_ref = Some x -> x ∉ cl_refs c) ->
      setCallback_new callback new_ref c = (r, c') ->
      tstep c Idle c' (match r with Some new_cb => CbNew new_cb | None => Idle end) []
  | ts_swap new_cb c old_cb c' :
      setCallback_swap new_cb c = (old_cb, c') -> tstep c (CbNew new_cb) c' (CbSwapped old_cb) []
  | ts_delete old_cb c : tstep c (CbSwapped old_cb) (setCallback_delete old_cb c) Idle []
  | ts_connect sys ok c c' :
      fds_fresh sys c -> connect sys c = Some (ok, c') -> tstep c Idle c' Idle []
  | ts_disconnect c : tstep c Idle (disconnect c) Idle []
  | ts_rq_family r c : tstep c Idle c (RqFamily r (g_family_id (cl_net c))) []
  | ts_rq_check r family c :
      tstep c (RqFamily r family) c
        (if request_refused r family (g_fd (cl_net c)) then Idle else RqAllowed r family) []
  | ts_rq_no_socket r family c : tstep c (RqAllowed r family) c Idle []
  | ts_rq_socket r family fd c :
      0 <= fd -> fd ∉ js_open (cl_net c) ->
      tstep c (RqAllowed r family) (set_net (open_fd fd (cl_net c)) c) (RqOpen r family fd) []
  | ts_rq_build r family fd ok len buf c :
      build_request r family (g_seq (cl_net c)) = Some (ok, (len, buf)) ->
      tstep c (RqOpen r family fd) (set_net (set_seq (u32 (g_seq (cl_net c) + 1)) (cl_net c)) c)
        (RqBuilt ok fd len buf) []
  | ts_rq_send n ok fd len buf c :
      tstep c (RqBuilt ok fd len buf)
        (if ok && (0 <=? n) then set_net (add_sent (take len buf) (cl_net c)) c else c) (RqSent fd) []
  | ts_rq_close fd c : tstep c (RqSent fd) (set_net (close_fd fd (cl_net c)) c) Idle []
  | ts_poll_enter rbuf c :
      length rbuf = Z.to_nat 8192 -> tstep c Idle c (InPoll (AtTop rbuf)) []
  | ts_poll_fd rbuf c : tstep c (InPoll (AtTop rbuf)) c (InPoll (Loaded (g_fd (cl_net c)) rbuf)) []
  | ts_poll_disconnect_fd fd rbuf c :
      tstep c (InPoll (Loaded fd rbuf)) c (InPoll (poll_loaded fd (g_disconnect_fd (cl_net c)) rbuf)) []
  | ts_poll a fd efd rbuf c :
      poll_truthful a efd c ->
      tstep c (InPoll (Waiting fd efd rbuf)) c (InPoll (poll_check a fd efd rbuf)) []
  | ts_poll_read efd c c' :
      poll_read efd c = Some c' -> tstep c (InPoll (Asked efd)) c' (InPoll Leaving) []
  | ts_poll_recv recv fd rbuf p c :
      recv_ok recv -> poll_recv recv rbuf = Some p ->
      tstep c (InPoll (Readable fd rbuf)) c (InPoll p) []
  | ts_poll_callback local_ref rlen rbuf c :
      tstep c (InPoll (Received rlen rbuf)) c (InPoll (poll_callback local_ref rlen rbuf c)) []
  | ts_poll_dispatch nlh rlen rbuf p new c :
      poll_dispatch nlh rlen rbuf c = Some (p, new) ->
      tstep c (InPoll (Dispatching nlh rlen rbuf)) c (InPoll p) new
  | ts_poll_exit c : tstep c (InPoll Leaving) (poll_exit c) Idle [].

Record machine := { mc_client : client; mc_threads : list thread; mc_calls : list callback }.

Inductive mstep : machine -> machine -> Prop :=
  | step_OnLoad vm c ths calls :
      g_cbClass c = None -> (forall r, vm_class_ref vm = Some r -> r ∉ cl_refs c) ->
      mstep {| mc_client := c; mc_threads := ths; mc_calls := calls |}
            {| mc_client := (JNI_OnLoad vm c).2; mc_threads := ths; mc_calls := calls |}
  | step_OnUnload ok c ths calls :
      mstep {| mc_client := c; mc_threads := ths; mc_calls := calls |}
            {| mc_client := JNI_OnUnload ok c; mc_threads := ths; mc_calls := calls |}
  | step_thread i t t' c c' ths calls new :
      ths !! i = Some t -> tstep c t c' t' new ->
      mstep {| mc_client := c; mc_threads := ths; mc_calls := calls |}
            {| mc_client := c'; mc_threads := <[i := t']> ths; mc_calls := calls ++ new |}.

(** The library before it is loaded, and [n] threads. *)
Definition initial_client : client :=
  {| cl_net := {| g_fd := -1; g_disconnect_fd := -1; g_family_id := 0; g_seq := 1;
                  js_open := []; js_sent := [] |};
     cl_events := ∅; cl_groups := []; g_cbClass := None; g_mids := []; g_callback := None;
     cl_refs := [] |}.

Definition initial (n : nat) : machine :=
  {| mc_client := initial_client; mc_threads := replicate n Idle; mc_calls := [] |}.

Definition reachable (m : machine) : Prop := exists n, rtc mstep (initial n) m.

(** ** The invariant *)

(** The descriptors and references a thread holds. *)
Definition thread_fds (t : thread) : list Z :=
  match t with RqOpen _ _ fd | RqBuilt _ fd _ _ | RqSent fd => [fd] | _ => [] end.
Definition thread_refs (t : thread) : list Z :=
  match t with CbNew cb | CbSwapped cb => option_list cb | _ => [] end.

(** The open descriptors are the connection's and [fds]; the references in use are
    the class, the callback and [refs]. *)
Definition fds_ledger (c : client) (fds : list Z) : Prop :=
  js_open (cl_net c) ≡ₚ conn_fds c ++ fds /\ NoDup (js_open (cl_net c)).
Definition refs_ledger (c : client) (refs : list Z) : Prop :=
  cl_refs c ≡ₚ option_list (g_cbClass c) ++ option_list (g_callback c) ++ refs /\ NoDup (cl_refs c).

(** The receive buffer has its size and the rest of a datagram lies in it. *)
Definition thread_ok (t : thread) : Prop :=
  match t with
  | InPoll (AtTop rbuf) | InPoll (Loaded _ rbuf) | InPoll (Waiting _ _ rbuf)
  | InPoll (Readable _ rbuf) => length rbuf = Z.to_nat 8192
  | InPoll (Received rlen rbuf) =>
      length rbuf = Z.to_nat 8192 /\ 0 <= rlen <= 8192 /\ rlen mod 4 = 0
  | InPoll (Dispatching nlh rlen rbuf) =>
      length rbuf = Z.to_nat 8192 /\ 0 <= rlen /\ Z.of_nat nlh + rlen <= 8192 /\ rlen mod 4 = 0
  | _ => True
  end.

Record machine_ok (m : machine) : Prop := {
  mo_conn : conn_ok (mc_client m);
  mo_fds : fds_ledger (mc_client m) (mc_threads m ≫= thread_fds);
  mo_refs : refs_ledger (mc_client m) (mc_threads m ≫= thread_refs);
  mo_threads : Forall thread_ok (mc_threads m);
}.

Lemma conn_ok_ext c c' :
  conn_part (cl_net c') = conn_part (cl_net c) -> cl_events c' = cl_events c ->
  cl_groups c' = cl_groups c -> conn_ok c -> conn_ok c'.
Proof.
  unfold conn_part. intros Hk He Hg. injection Hk as H1 H2 H3.
  intros [[]|(fd & efd & gid & n & [])]; [left|right; exists fd, efd, gid, n]; split; congruence.
Qed.

Lemma conn_fds_ext c c' : conn_part (cl_net c') = conn_part (cl_net c) -> conn_fds c' = conn_fds c.
Proof. unfold conn_part, conn_fds. by intros [= -> -> _]. Qed.

Lemma fds_ledger_ext c c' fds :
  conn_part (cl_net c') = conn_part (cl_net c) -> js_open (cl_net c') = js_open (cl_net c) ->
  fds_ledger c fds -> fds_ledger c' fds.
Proof. intros Hk Ho. unfold fds_ledger. by rewrite Ho, (conn_fds_ext c c' Hk). Qed.

Lemma refs_ledger_ext c c' refs :
  java_part c' = java_part c -> refs_ledger c refs -> refs_ledger c' refs.
Proof. unfold java_part, refs_ledger. by intros [= -> _ -> ->]. Qed.

(** Everything but the references. *)
Definition net_parts (c : client) := (cl_net c, cl_events c, cl_groups c).

Lemma net_parts_ext c c' fds :
  net_parts c' = net_parts c ->
  (conn_ok c -> conn_ok c') /\ (fds_ledger c fds -> fds_ledger c' fds).
Proof.
  unfold net_parts. intros [= Hn He Hg]. split; [apply conn_ok_ext|apply fds_ledger_ext];
    unfold conn_part; congruence.
Qed.

Lemma setCallback_parts callback new_ref new_cb old_cb c :
  net_parts (setCallback_new callback new_ref c).2 = net_parts c
  /\ net_parts (setCallback_swap new_cb c).2 = net_parts c
  /\ net_parts (setCallback_delete old_cb c) = net_parts c.
Proof. split_and!; [by destruct callback as [[]|]|done|by destruct old_cb]. Qed.

Lemma OnLoad_parts vm c : net_parts (JNI_OnLoad vm c).2 = net_parts c.
Proof.
  unfold JNI_OnLoad. destruct (vm_getenv_ok vm), (vm_class_found vm); cbn [negb]; try done.
  destruct (vm_mids vm) as [[[] []] []]; done.
Qed.

Lemma OnUnload_parts ok c : net_parts (JNI_OnUnload ok c) = net_parts c.
Proof. unfold JNI_OnUnload. by destruct ok, (g_cbClass c). Qed.

(** *** One thread *)

Ltac tstep_cases Hs :=
  destruct Hs as [callback new_ref c r c' Hf Hn|new_cb c old_cb c' Hn|old_cb c
    |sys ok c c' Hf Hn|c|r c|r family c|r family c|r family fd c H0 Hf|r family fd ok len buf c Hb
    |n ok fd len buf c|fd c|rbuf c Hl|rbuf c|fd rbuf c|a fd efd rbuf c Ht|efd c c' Hn
    |recv fd rbuf p c Hr Hn|local_ref rlen rbuf c|nlh rlen rbuf p new c Hn|c].

Lemma tstep_conn c t c' t' new : tstep c t c' t' new -> conn_ok c -> conn_ok c'.
Proof.
  intros Hs Hc. tstep_cases Hs; try done; try by (eapply conn_ok_ext; [..|exact Hc]).
  - eapply (net_parts_ext c _ []); [|done]. apply (f_equal snd) in Hn. cbn [snd] in Hn. rewrite <- Hn.
    by apply (setCallback_parts _ _ None None).
  - eapply (net_parts_ext c _ []); [|done]. apply (f_equal snd) in Hn. cbn [snd] in Hn. by rewrite <- Hn.
  - eapply (net_parts_ext c _ []); [|done]. by apply (setCallback_parts None None None).
  - destruct Hf as [Hd _]. destruct (connect_cases sys c ok c' Hc Hd Hn) as (_ & _ & Hres).
    destruct ok; [right; apply Hres|left; apply Hres].
  - destruct Hc as [Ho|(fd & efd & gid & n & Hon)]; [left; by rewrite disconnect_offline|right].
    exists fd, efd, gid, (n + 1). by apply disconnect_online.
  - destruct (ok && _); [|done]. by eapply conn_ok_ext; [..|exact Hc].
  - by eapply poll_read_ok.
  - left. by apply poll_exit_offline.
Qed.

Lemma dispatch_step_ok rbuf family nlh rlen :
  thread_ok (InPoll (Dispatching nlh rlen rbuf)) ->
  exists turn, dispatch_step rbuf family nlh rlen = Some turn
    /\ forall cbs nlh' rlen', turn = Some (cbs, (nlh', rlen')) ->
         thread_ok (InPoll (Dispatching nlh' rlen' rbuf)).
Proof.
  intros (Hl & Hr & Hmem & Hal). unfold dispatch_step. rewrite (uwrap_small 64) by (unfold in_u; lia).
  destruct (Z.geb_spec rlen 16) as [H16|]; [|by eexists].
  destruct (rd_u_Some rbuf nlh 4 ltac:(lia)) as (l & Hrd & Hlr). rewrite Hrd. cbn [mbind option_bind].
  destruct ((16 <=? l) && (l <=? rlen)) eqn:Eok; [|by eexists]. bool_facts.
  destruct (handle_event_safe rbuf family nlh l Hrd ltac:(lia) ltac:(lia)) as [cbs ->].
  cbn [mbind option_bind]. rewrite NLMSG_ALIGN_small by lia.
  destruct (NLA_ALIGN_spec l ltac:(lia)) as [Ha Hm].
  assert (NLA_ALIGN l <= rlen).
  { pose proof (Z.div_mod (NLA_ALIGN l) 4 ltac:(lia)). pose proof (Z.div_mod rlen 4 ltac:(lia)). lia. }
  rewrite (swrap_small 32) by (unfold in_s; lia). eexists. split; [done|].
  intros cbs' nlh' rlen' [= <- <- <-]. split_and!; [done|lia|lia|].
  by rewrite Zminus_mod, Hm, Hal.
Qed.

Lemma tstep_thread c t c' t' new : tstep c t c' t' new -> thread_ok t -> thread_ok t'.
Proof.
  intros Hs Hok. tstep_cases Hs; try done.
  - by destruct r.
  - by destruct (request_refused _ _ _).
  - unfold poll_loaded. by destruct (_ || _).
  - unfold poll_check. by repeat split_guard.
  - unfold poll_recv in Hn. destruct recv as [[|b d]|]; try (by injection Hn as <-).
    destruct (Hr (b :: d) eq_refl) as [Hlen Hal]. remember (b :: d) as dg eqn:Hdg. clear Hdg Hr.
    destruct (mem_write rbuf 0 dg) as [rbuf'|] eqn:Ew; [cbn [mbind option_bind] in Hn|done].
    injection Hn as <-. apply mem_write_length in Ew. unfold thread_ok in *.
    split_and!; [by rewrite Ew|lia|lia|done].
  - destruct Hok as (Hl & Hr & Hal). unfold poll_callback. destruct (g_callback c), local_ref; try done.
    cbn. split_and!; [done|lia|lia|done].
  - destruct (dispatch_step_ok rbuf (g_family_id (cl_net c)) nlh rlen Hok) as (turn & Ht & Hnext).
    unfold poll_dispatch in Hn. rewrite Ht in Hn. cbn [mbind option_bind] in Hn.
    destruct turn as [[cbs [nlh' rlen']]|]; injection Hn as <- <-; [by eapply Hnext|apply Hok].
Qed.

(** The two ledgers follow a step of a thread, whatever the others hold. *)
Lemma fds_ledger_open c s fd fds :
  conn_part s = conn_part (cl_net c) -> js_open s = fd :: js_open (cl_net c) ->
  (fd ∉ js_open (cl_net c)) -> fds_ledger c fds -> fds_ledger (set_net s c) (fd :: fds).
Proof.
  intros Hk Ho Hf [Hp Hnd]. unfold fds_ledger. rewrite (conn_fds_ext c (set_net s c)) by done.
  cbn [cl_net set_net]. rewrite Ho. split; [|by constructor]. rewrite Hp. apply Permutation_middle.
Qed.

Lemma fds_ledger_close c s fd fds :
  conn_part s = conn_part (cl_net c) -> js_open s = remove_fd fd (js_open (cl_net c)) ->
  fds_ledger c (fd :: fds) -> fds_ledger (set_net s c) fds.
Proof.
  intros Hk Ho [Hp Hnd]. unfold fds_ledger. rewrite (conn_fds_ext c (set_net s c)) by done.
  cbn [cl_net set_net]. rewrite Ho.
  assert (Hl : js_open (cl_net c) ≡ₚ fd :: (conn_fds c ++ fds))
    by (rewrite Hp; symmetry; apply Permutation_middle).
  split; [by apply remove_fd_ledger|]. rewrite (remove_fd_ledger _ _ _ Hl).
  rewrite Hl in Hnd. by apply NoDup_cons in Hnd as [_ ?].
Qed.

Lemma connect_fds sys c ok c' fds :
  conn_ok c -> fds_fresh sys c -> connect sys c = Some (ok, c') ->
  fds_ledger c fds -> fds_ledger c' fds.
Proof.
  intros Hc (Hd & Hs & He) Hn [Hp Hnd].
  destruct (connect_cases sys c ok c' Hc Hd Hn) as (_ & _ & Hres). unfold fds_ledger. destruct ok.
  - destruct Hres as [_ [->|(Hoff & H1 & H2 & Hfds & Ho)]]; [done|]. rewrite Ho, Hfds.
    rewrite (offline_fds _ Hoff) in Hp. split; [by rewrite Hp|].
    apply NoDup_cons. split; [|by apply NoDup_cons]. rewrite elem_of_cons. intros [|]; [|done].
    by apply Hd.
  - destruct Hres as (Hoff & Hoff' & ->). rewrite (offline_fds _ Hoff) in Hp.
    by rewrite (offline_fds _ Hoff').
Qed.

Lemma poll_exit_fds c fds : conn_ok c -> fds_ledger c fds -> fds_ledger (poll_exit c) fds.
Proof.
  intros Hc [Hp Hnd]. pose proof (poll_exit_closes c fds Hc Hp) as Ho.
  unfold fds_ledger. rewrite (offline_fds _ (poll_exit_offline _ Hc)). split; [done|].
  rewrite Ho. rewrite Hp in Hnd. by apply NoDup_app in Hnd as (_ & _ & ?).
Qed.

Lemma tstep_fds c t c' t' new fds :
  tstep c t c' t' new -> conn_ok c ->
  fds_ledger c (thread_fds t ++ fds) -> fds_ledger c' (thread_fds t' ++ fds).
Proof.
  intros Hs Hc Hled. tstep_cases Hs; try done; cbn [thread_fds app] in *.
  - replace (thread_fds _) with (@nil Z) by (by destruct r).
    eapply (net_parts_ext c); [|done]. apply (f_equal snd) in Hn. cbn [snd] in Hn. rewrite <- Hn.
    by apply (setCallback_parts _ _ None None).
  - eapply (net_parts_ext c); [|done]. apply (f_equal snd) in Hn. cbn [snd] in Hn. by rewrite <- Hn.
  - eapply (net_parts_ext c); [|done]. by apply (setCallback_parts None None None).
  - by eapply connect_fds.
  - eapply fds_ledger_ext; [..|exact Hled]; by destruct (disconnect_keeps c) as [_ ->].
  - by destruct (request_refused _ _ _).
  - by apply fds_ledger_open.
  - by destruct (ok && _).
  - by eapply fds_ledger_close.
  - apply poll_read_keeps in Hn as (_ & Hn & _). by eapply fds_ledger_ext; [..|exact Hled]; rewrite Hn.
  - by apply poll_exit_fds.
Qed.

Lemma refs_ledger_new x c refs :
  (x ∉ cl_refs c) -> refs_ledger c refs ->
  refs_ledger (set_callback (g_callback c) (x :: cl_refs c) c) (x :: refs).
Proof.
  intros Hx [Hp Hnd]. split; [|by constructor]. cbn. rewrite Hp, !app_assoc. apply Permutation_middle.
Qed.

Lemma refs_ledger_swap new_cb c refs :
  refs_ledger c (option_list new_cb ++ refs) ->
  refs_ledger (set_callback new_cb (cl_refs c) c) (option_list (g_callback c) ++ refs).
Proof.
  intros [Hp Hnd]. split; [|done]. cbn. rewrite Hp. apply Permutation_app_head.
  rewrite !app_assoc. apply Permutation_app_tail, Permutation_app_comm.
Qed.

Lemma refs_ledger_delete x c refs :
  refs_ledger c (x :: refs) ->
  refs_ledger (set_callback (g_callback c) (remove_fd x (cl_refs c)) c) refs.
Proof.
  intros [Hp Hnd]. assert (Hl : cl_refs c ≡ₚ
    x :: (option_list (g_cbClass c) ++ option_list (g_callback c) ++ refs)).
  { rewrite Hp, !app_assoc. symmetry. apply Permutation_middle. }
  split; cbn; [by apply remove_fd_ledger|]. rewrite (remove_fd_ledger _ _ _ Hl).
  rewrite Hl in Hnd. by apply NoDup_cons in Hnd as [_ ?].
Qed.

Lemma tstep_refs c t c' t' new refs :
  tstep c t c' t' new -> conn_ok c ->
  refs_ledger c (thread_refs t ++ refs) -> refs_ledger c' (thread_refs t' ++ refs).
Proof.
  intros Hs Hc Hled. tstep_cases Hs; try done; cbn [thread_refs app] in *.
  - unfold setCallback_new in Hn. destruct callback as [[]|]; injection Hn as <- <-; try done.
    destruct new_ref as [x|]; cbn; [|done]. apply refs_ledger_new; [by apply Hf|done].
  - injection Hn as <- <-. by apply refs_ledger_swap.
  - destruct old_cb as [x|]; [by apply refs_ledger_delete|done].
  - destruct Hf as [Hd _]. destruct (connect_cases sys c ok c' Hc Hd Hn) as (Hj & _).
    by eapply refs_ledger_ext.
  - eapply refs_ledger_ext; [|exact Hled]. apply disconnect_keeps.
  - by destruct (request_refused _ _ _).
  - by destruct (ok && _).
  - apply poll_read_keeps in Hn as (Hj & _). by eapply refs_ledger_ext.
  - eapply refs_ledger_ext; [apply poll_exit_java|done].
Qed.

(** *** All threads *)

Lemma bind_insert {A B} (f : A -> list B) (l : list A) i x :
  l !! i = Some x ->
  exists rest, (l ≫= f) ≡ₚ f x ++ rest /\ forall y, (<[i := y]> l ≫= f) ≡ₚ f y ++ rest.
Proof.
  intros Hi. exists ((take i l ≫= f) ++ (drop (S i) l ≫= f)). split.
  - rewrite <- (take_drop_middle l i x Hi) at 1. rewrite bind_app, bind_cons, !app_assoc.
    apply Permutation_app_tail, Permutation_app_comm.
  - intros y. rewrite insert_take_drop by (by eapply lookup_lt_Some).
    rewrite bind_app, bind_cons, !app_assoc. apply Permutation_app_tail, Permutation_app_comm.
Qed.

Lemma fds_ledger_perm c fds fds' : fds ≡ₚ fds' -> fds_ledger c fds -> fds_ledger c fds'.
Proof. intros Hp [H1 H2]. split; [|done]. by rewrite <- Hp. Qed.

Lemma refs_ledger_perm c refs refs' : refs ≡ₚ refs' -> refs_ledger c refs -> refs_ledger c refs'.
Proof. intros Hp [H1 H2]. split; [|done]. by rewrite <- Hp. Qed.

Lemma OnLoad_refs vm c refs :
  g_cbClass c = None -> (forall r, vm_class_ref vm = Some r -> r ∉ cl_refs c) ->
  refs_ledger c refs -> refs_ledger (JNI_OnLoad vm c).2 refs.
Proof.
  intros Hcls Hf Hl. unfold JNI_OnLoad.
  destruct (vm_getenv_ok vm), (vm_class_found vm); cbn [negb snd]; try done.
  destruct (vm_mids vm) as [[binder signal] network]. set (c1 := set_class _ _ _ c).
  assert (refs_ledger c1 refs); [|by destruct (_ || _)].
  destruct Hl as [Hp Hnd]. rewrite Hcls in Hp. unfold refs_ledger. cbn.
  destruct (vm_class_ref vm) as [r|]; cbn; [|done].
  split; [by rewrite Hp|]. constructor; [by apply Hf|done].
Qed.

Lemma OnUnload_refs ok c refs : refs_ledger c refs -> refs_ledger (JNI_OnUnload ok c) refs.
Proof.
  intros [Hp Hnd]. unfold JNI_OnUnload. destruct ok; [|done].
  destruct (g_cbClass c) as [cls|] eqn:Ec; [|by split; rewrite ?Ec].
  cbn [option_list app] in Hp. split; cbn; [by apply remove_fd_ledger|].
  rewrite (remove_fd_ledger _ _ _ Hp). rewrite Hp in Hnd. by apply NoDup_cons in Hnd as [_ ?].
Qed.

Lemma machine_ok_client c c' ths calls :
  net_parts c' = net_parts c -> refs_ledger c' (ths ≫= thread_refs) ->
  machine_ok {| mc_client := c; mc_threads := ths; mc_calls := calls |} ->
  machine_ok {| mc_client := c'; mc_threads := ths; mc_calls := calls |}.
Proof.
  intros Hp Hr [Hc Hf _ Ht]. destruct (net_parts_ext c c' (ths ≫= thread_fds) Hp) as [H1 H2].
  split; [by apply H1|by apply H2|done|done].
Qed.

Lemma mstep_ok m m' : mstep m m' -> machine_ok m -> machine_ok m'.
Proof.
  intros [vm c ths calls Hcls Hf|ok c ths calls|i t t' c c' ths calls new Hi Hs] Hm.
  - eapply machine_ok_client; [apply OnLoad_parts| |exact Hm]. apply OnLoad_refs; [done..|apply Hm].
  - eapply machine_ok_client; [apply OnUnload_parts| |exact Hm]. apply OnUnload_refs, Hm.
  - destruct Hm as [Hc Hf Hr Ht]. cbn in *.
    destruct (bind_insert thread_fds ths i t Hi) as (fds & Hfds & Hfds').
    destruct (bind_insert thread_refs ths i t Hi) as (refs & Hrefs & Hrefs'). split; cbn.
    + by eapply tstep_conn.
    + eapply fds_ledger_perm; [symmetry; apply Hfds'|]. eapply tstep_fds; [done..|].
      by eapply fds_ledger_perm.
    + eapply refs_ledger_perm; [symmetry; apply Hrefs'|]. eapply tstep_refs; [done..|].
      by eapply refs_ledger_perm.
    + apply Forall_insert; [done|]. eapply tstep_thread; [done|]. by eapply Forall_lookup_1 in Ht.
Qed.

Lemma initial_ok n : machine_ok (initial n).
Proof.
  assert (Hnil : forall f : thread -> list Z, f Idle = [] -> (replicate n Idle ≫= f) = []).
  { intros f Hf. induction n as [|n' IH]; [done|]. cbn [replicate]. by rewrite bind_cons, Hf, IH. }
  split.
  - left. by split.
  - split; [cbn [mc_threads initial]; by rewrite (Hnil thread_fds)|constructor].
  - split; [cbn [mc_threads initial]; by rewrite (Hnil thread_refs)|constructor].
  - by apply Forall_replicate.
Qed.

Lemma reachable_ok m : reachable m -> machine_ok m.
Proof.
  intros [n Hr]. pose proof (initial_ok n) as Hi.
  induction Hr as [|m1 m2 m3 Hs _ IH]; [done|]. apply IH. by eapply mstep_ok.
Qed.

(** ** One poller *)

(** At most one thread is in [pollEvent]. *)
Definition one_poller (m : machine) : Prop :=
  forall i j p q, mc_threads m !! i = Some (InPoll p) -> mc_threads m !! j = Some (InPoll q) -> i = j.

Definition lone_step (m m' : machine) : Prop := mstep m m' /\ one_poller m'.

Definition reachable_alone (m : machine) : Prop := exists n, rtc lone_step (initial n) m.

(** A disconnect that nobody has seen yet. *)
Definition asked (c : client) : Prop := exists fd efd gid n, online fd efd gid n c /\ 0 < n.

(** The descriptors a poller has loaded are the current ones. *)
Definition poller_current (c : client) (t : thread) : Prop :=
  match t with
  | InPoll (Loaded fd _) => 0 <= fd -> g_fd (cl_net c) = fd
  | InPoll (Waiting fd efd _) => 0 <= fd /\ g_fd (cl_net c) = fd /\ g_disconnect_fd (cl_net c) = efd
  | InPoll (Asked efd) => asked c /\ g_disconnect_fd (cl_net c) = efd
  | InPoll (Readable fd _) => 0 <= fd /\ g_fd (cl_net c) = fd
  | _ => True
  end.

(** A step that leaves a connection, and a disconnect that was asked for, alone. *)
Definition keeps_connection (c c' : client) : Prop :=
  (0 <= g_fd (cl_net c) -> g_fd (cl_net c') = g_fd (cl_net c)
     /\ g_disconnect_fd (cl_net c') = g_disconnect_fd (cl_net c))
  /\ (asked c -> asked c').

Lemma keeps_ext c c' :
  conn_part (cl_net c') = conn_part (cl_net c) -> cl_events c' = cl_events c ->
  cl_groups c' = cl_groups c -> keeps_connection c c'.
Proof.
  unfold conn_part. intros Hk He Hg. injection Hk as H1 H2 H3. split; [done|].
  intros (fd & efd & gid & n & [] & Hn). exists fd, efd, gid, n. split; [|done]. split; congruence.
Qed.

Lemma keeps_parts c c' : net_parts c' = net_parts c -> keeps_connection c c'.
Proof. unfold net_parts. intros [= Hn He Hg]. apply keeps_ext; congruence. Qed.

(** In the loop of [pollEvent]. *)
Definition in_loop (t : thread) : Prop :=
  match t with InPoll Leaving => False | InPoll _ => True | _ => False end.

(** Only the end of [pollEvent] takes the connection away. *)
Lemma tstep_keeps c t c' t' new :
  tstep c t c' t' new -> conn_ok c -> (forall p, t = InPoll p -> in_loop t') -> keeps_connection c c'.
Proof.
  intros Hs Hc Hin. tstep_cases Hs; try by apply keeps_ext.
  - apply keeps_parts. apply (f_equal snd) in Hn. cbn [snd] in Hn. rewrite <- Hn.
    by apply (setCallback_parts _ _ None None).
  - apply keeps_parts. apply (f_equal snd) in Hn. cbn [snd] in Hn. by rewrite <- Hn.
  - apply keeps_parts. by apply (setCallback_parts None None None).
  - destruct Hf as [Hd _]. destruct (connect_cases sys c ok c' Hc Hd Hn) as (_ & Hsame & _). split.
    + intros H0. by destruct (Hsame H0) as [_ ->].
    + intros (fd & efd & gid & n & Hon & Hpos). destruct Hsame as [_ ->].
      * rewrite (on_fd _ _ _ _ _ Hon). apply Hon.
      * by exists fd, efd, gid, n.
  - split; [by destruct (disconnect_keeps c) as [_ ->]|].
    intros (fd & efd & gid & n & Hon & Hpos). exists fd, efd, gid, (n + 1).
    split; [by apply disconnect_online|lia].
  - by destruct (ok && _); apply keeps_ext.
  - by destruct (Hin _ eq_refl).
  - by destruct (Hin _ eq_refl).
Qed.

Lemma poller_current_keep c c' t : keeps_connection c c' -> poller_current c t -> poller_current c' t.
Proof.
  intros [Hk Ha]. destruct t as [| | | | | | | |p]; try done. destruct p; cbn; try done.
  - intros Hf H0. specialize (Hf H0). subst fd. by apply Hk.
  - intros (H0 & <- & <-). destruct (Hk H0) as [-> ->]. done.
  - intros [Hask <-]. split; [by apply Ha|].
    destruct Hask as (fd & efd & gid & n & Hon & _). apply Hk. rewrite (on_fd _ _ _ _ _ Hon). apply Hon.
  - intros (H0 & <-). by destruct (Hk H0) as [-> _].
Qed.

Lemma connected_asked c a efd :
  conn_ok c -> 0 <= g_fd (cl_net c) -> g_disconnect_fd (cl_net c) = efd -> poll_truthful a efd c ->
  0 <= pa_ret a -> (Z.land (pa_disconnect a) POLLIN <> 0 <-> asked c).
Proof.
  intros [Ho|(fd & efd' & gid & n & Hon)] H0 <- Ht Hret; [rewrite (off_fd _ Ho) in H0; lia|].
  specialize (Ht Hret n). rewrite (on_efd _ _ _ _ _ Hon), (on_events _ _ _ _ _ Hon) in Ht.
  rewrite Ht by apply lookup_singleton_eq. split; [by exists fd, efd', gid, n|].
  intros (fd1 & efd1 & gid1 & n1 & Hon1 & Hpos).
  pose proof (on_events _ _ _ _ _ Hon) as He. rewrite (on_events _ _ _ _ _ Hon1) in He.
  apply (f_equal (fun m => m !! efd1)) in He. rewrite lookup_singleton_eq in He. symmetry in He.
  apply lookup_singleton_Some in He as [_ ->]. done.
Qed.

Lemma tstep_current c t c' t' new :
  tstep c t c' t' new -> conn_ok c -> poller_current c t -> poller_current c' t'.
Proof.
  intros Hs Hc Hp. tstep_cases Hs; try done.
  - by destruct r.
  - by destruct (request_refused _ _ _).
  - cbn in Hp. unfold poll_loaded. destruct (Z.ltb_spec fd 0), (Z.ltb_spec (g_disconnect_fd (cl_net c)) 0);
      cbn; try done. split_and!; auto.
  - destruct Hp as (H0 & Hfd & Hefd). unfold poll_check.
    destruct (Z.ltb_spec (pa_ret a) 0) as [|Hret]; [done|].
    pose proof (connected_asked c a efd Hc ltac:(lia) Hefd Ht Hret) as Hask.
    destruct (Z.eqb_spec (Z.land (pa_disconnect a) POLLIN) 0) as [|Hne]; cbn [negb].
    + by split_guard.
    + split; [by apply Hask|done].
  - unfold poll_recv in Hn. destruct recv as [[|b d]|]; try (by injection Hn as <-).
    destruct (mem_write _ _ _); [|done]. by injection Hn as <-.
  - unfold poll_callback. by destruct (g_callback c), local_ref.
  - unfold poll_dispatch in Hn. destruct (dispatch_step _ _ _ _) as [turn|]; [|done].
    cbn [mbind option_bind] in Hn. destruct turn as [[cbs [nlh' rlen']]|]; by injection Hn as <- <-.
Qed.

Record lone_ok (m : machine) : Prop := {
  lo_ok : machine_ok m;
  lo_one : one_poller m;
  lo_current : Forall (poller_current (mc_client m)) (mc_threads m);
}.

Lemma lone_step_ok m m' : lone_step m m' -> lone_ok m -> lone_ok m'.
Proof.
  intros [Hs Hone'] [Hm Hone Hcur]. split; [by eapply mstep_ok|done|].
  destruct Hs as [vm c ths calls Hcls Hf|ok c ths calls|i t t' c c' ths calls new Hi Hs]; cbn in *.
  - eapply Forall_impl; [exact Hcur|]. intros t. apply poller_current_keep, keeps_parts, OnLoad_parts.
  - eapply Forall_impl; [exact Hcur|]. intros t. apply poller_current_keep, keeps_parts, OnUnload_parts.
  - apply Forall_lookup. intros j tj Hj. pose proof (mo_conn _ Hm) as Hc.
    destruct (decide (i = j)) as [<-|Hne].
    { rewrite list_lookup_insert_eq in Hj by (by eapply lookup_lt_Some). injection Hj as <-.
      eapply tstep_current; [done..|]. by eapply Forall_lookup_1 in Hcur. }
    rewrite list_lookup_insert_ne in Hj by done.
    destruct tj as [| | | | | | | |q]; try done.
    eapply poller_current_keep; [|by eapply Forall_lookup_1 in Hcur].
    eapply tstep_keeps; [done..|]. intros p ->. exfalso. by eapply Hne, Hone.
Qed.

Lemma lone_steps_ok m m' : rtc lone_step m m' -> lone_ok m -> lone_ok m'.
Proof. induction 1 as [|m1 m2 m3 Hs _ IH]; [done|]. intros Hm. by eapply IH, lone_step_ok. Qed.

Lemma reachable_alone_ok m : reachable_alone m -> lone_ok m.
Proof.
  intros [n Hr]. eapply lone_steps_ok; [exact Hr|]. split; [apply initial_ok| |].
  - intros i j p q Hi. cbn in Hi. by apply lookup_replicate in Hi as [? _].
  - by apply Forall_replicate.
Qed.

(** *** The rest of a turn *)

(** A thread of the loop that has not received anything in this turn. *)
Definition no_datagram (p : poller) : Prop :=
  match p with AtTop _ | Loaded _ _ | Waiting _ _ _ | Asked _ => True | _ => False end.

Lemma poll_rest_dispatching recv local_ref nlh rlen rbuf c :
  thread_ok (InPoll (Dispatching nlh rlen rbuf)) ->
  exists cbs, poll_rest recv local_ref (Dispatching nlh rlen rbuf) c = Some (AtTop rbuf, cbs).
Proof.
  intros (Hl & Hr & Hmem & Hal). unfold poll_rest. cbn [mbind option_bind].
  destruct (dispatch_loop_safe rbuf (g_family_id (cl_net c)) (length rbuf) nlh rlen) as [cbs ->];
    [lia|done|lia|lia|by exists cbs].
Qed.

Lemma poll_rest_received recv local_ref rlen rbuf c :
  thread_ok (InPoll (Received rlen rbuf)) ->
  exists cbs, poll_rest recv local_ref (Received rlen rbuf) c = Some (AtTop rbuf, cbs).
Proof.
  intros (Hl & Hr & Hal). destruct (poll_rest_dispatching recv local_ref 0 rlen rbuf c) as [cbs Hcbs].
  { cbn. split_and!; [done|lia|lia|done]. }
  revert Hcbs. unfold poll_rest, poll_callback. cbn [mbind option_bind].
  destruct (g_callback c), local_ref; cbn; eauto.
Qed.

Lemma poll_rest_total recv local_ref p c :
  thread_ok (InPoll p) -> recv_ok recv ->
  exists p' cbs, poll_rest recv local_ref p c = Some (p', cbs)
    /\ (p' = p /\ cbs = [] \/ ~ no_datagram p /\ exists rbuf, p' = AtTop rbuf)
    /\ (p <> Leaving -> no_datagram p').
Proof.
  intros Hp Hr. destruct p as [rbuf|fd rbuf|fd efd rbuf|efd|fd rbuf|rlen rbuf|nlh rlen rbuf|].
  1-4: by do 2 eexists; split_and!; [done|by left|done].
  - assert (Hs : exists p0, poll_recv recv rbuf = Some p0
      /\ (p0 = AtTop rbuf \/ exists rlen rbuf', p0 = Received rlen rbuf' /\ thread_ok (InPoll p0))).
    { destruct recv as [[|b d]|]; [by exists (AtTop rbuf); auto| |by exists (AtTop rbuf); auto].
      destruct (Hr (b :: d) eq_refl) as [Hlen _]. cbn [thread_ok] in Hp.
      unfold poll_recv. rewrite mem_write_Some by lia. cbn [mbind option_bind].
      eexists. split; [done|]. right. do 2 eexists. split; [done|].
      eapply (tstep_thread c (InPoll (Readable fd rbuf)) c _ []); [|done].
      apply (ts_poll_recv (Some (b :: d)) fd rbuf); [done|]. unfold poll_recv.
      by rewrite mem_write_Some by lia. }
    destruct Hs as (p0 & Hp0 & [->|(rlen & rbuf' & -> & Hok)]).
    + exists (AtTop rbuf), []. unfold poll_rest. rewrite Hp0. split_and!; [done|right; split; [by intros []|by eexists]|done].
    + destruct (poll_rest_received recv local_ref rlen rbuf' c Hok) as [cbs Hcbs].
      exists (AtTop rbuf'), cbs. split_and!; [|right; split; [by intros []|by eexists]|done].
      revert Hcbs. unfold poll_rest. by rewrite Hp0.
  - destruct (poll_rest_received recv local_ref rlen rbuf c Hp) as [cbs ->].
    do 2 eexists. split_and!; [done|right; split; [by intros []|by eexists]|done].
  - destruct (poll_rest_dispatching recv local_ref nlh rlen rbuf c Hp) as [cbs ->].
    do 2 eexists. split_and!; [done|right; split; [by intros []|by eexists]|done].
  - by do 2 eexists; split_and!; [done|by left|done].
Qed.

(** C4: whatever any number of threads do and however their steps interleave, the
    client is without a connection or has a complete one, its socket in one
    multicast group; the open descriptors are exactly the two of the connection
    and one for each request that is under way, all different; the global
    references in use are exactly the callback class, the current callback and
    the ones [setCallback] calls under way still hold; and a thread that has
    received a datagram, or receives one of up to 8192 bytes, a multiple of four,
    gets through it without leaving its buffer.  If moreover at most one thread
    is in [pollEvent] at a time, the thread that waits does so on the descriptors
    of the connection, and when it turns to the eventfd it does not block. *)
Theorem client_never_leaks m :
  reachable m ->
  (offline (mc_client m) \/ exists fd efd gid n, online fd efd gid n (mc_client m))
  /\ (js_open (cl_net (mc_client m)) ≡ₚ conn_fds (mc_client m) ++ (mc_threads m ≫= thread_fds))
  /\ NoDup (js_open (cl_net (mc_client m)))
  /\ (cl_refs (mc_client m)
      ≡ₚ option_list (g_cbClass (mc_client m)) ++ option_list (g_callback (mc_client m))
         ++ (mc_threads m ≫= thread_refs))
  /\ NoDup (cl_refs (mc_client m))
  /\ (forall i p recv local_ref, mc_threads m !! i = Some (InPoll p) -> recv_ok recv ->
        exists p' cbs, poll_rest recv local_ref p (mc_client m) = Some (p', cbs))
  /\ (reachable_alone m ->
      (forall i fd efd rbuf, mc_threads m !! i = Some (InPoll (Waiting fd efd rbuf)) ->
         conn_fds (mc_client m) = [efd; fd])
      /\ forall i efd, mc_threads m !! i = Some (InPoll (Asked efd)) ->
         exists c', poll_read efd (mc_client m) = Some c').
Proof.
  intros [Hc [Hfp Hfn] [Hrp Hrn] Ht]%reachable_ok. split_and!; try done.
  - intros i p recv local_ref Hi Hr. eapply Forall_lookup_1 in Ht; [|done].
    destruct (poll_rest_total recv local_ref p (mc_client m) Ht Hr) as (p' & cbs & Hp & _). eauto.
  - intros [_ _ Hcur]%reachable_alone_ok. split.
    + intros i fd efd rbuf Hi. eapply Forall_lookup_1 in Hcur; [|done].
      destruct Hcur as (H0 & Hfd & Hefd). unfold conn_fds.
      by rewrite Hfd, Hefd, (proj2 (Z.leb_le 0 fd)).
    + intros i efd Hi. eapply Forall_lookup_1 in Hcur; [|done].
      destruct Hcur as [(fd & efd' & gid & n & Hon & Hpos) Hefd]. rewrite (on_efd _ _ _ _ _ Hon) in Hefd.
      unfold poll_read. rewrite (on_events _ _ _ _ _ Hon), Hefd, lookup_singleton_eq.
      rewrite (proj2 (Z.eqb_neq n 0)) by lia. by eexists.
Qed.

(** ** disconnect ends pollEvent *)

(** Steps during which thread [i] stays in its loop and no other enters
    [pollEvent]. *)
Definition loop_step (i : nat) (m m' : machine) : Prop :=
  lone_step m m' /\ exists t, mc_threads m' !! i = Some t /\ in_loop t.

Lemma loop_step_asked i m m' :
  lone_ok m -> (exists t, mc_threads m !! i = Some t /\ in_loop t) -> loop_step i m m' ->
  asked (mc_client m) -> asked (mc_client m').
Proof.
  intros [Hm Hone _] (ti & Hti & Hin) ([Hs _] & ti' & Hti' & Hin').
  destruct Hs as [vm c ths calls Hcls Hf|ok c ths calls|j t t' c c' ths calls new Hj Hs]; cbn in *.
  - apply keeps_parts, OnLoad_parts.
  - apply keeps_parts, OnUnload_parts.
  - destruct (tstep_keeps c t c' t' new Hs (mo_conn _ Hm)) as [_ Ha]; [|done].
    intros p ->. destruct ti as [| | | | | | | |q]; try done.
    rewrite (Hone j i p q Hj Hti) in Hti'.
    rewrite list_lookup_insert_eq in Hti' by (by eapply lookup_lt_Some). by injection Hti' as <-.
Qed.

(** Only the loop over the messages of a datagram calls back, and nothing is
    received once a disconnect is asked for. *)
Lemma tstep_asked_quiet c t c' t' new :
  tstep c t c' t' new -> conn_ok c -> asked c -> poller_current c t -> (forall p, t = InPoll p -> no_datagram p) ->
  new = [] /\ forall p, t' = InPoll p -> p <> Leaving -> no_datagram p.
Proof.
  intros Hs Hc Ha Hp Hno. tstep_cases Hs; try (split; [done|intros q Hq; by simplify_eq]);
    try (by destruct (Hno _ eq_refl)).
  - split; [done|]. intros q. by destruct r.
  - split; [done|]. intros q. by destruct (request_refused _ _ _).
  - split; [done|]. intros q [= <-]. unfold poll_loaded. by destruct (_ || _).
  - destruct Hp as (H0 & Hfd & Hefd). split; [done|]. intros q [= <-] _. unfold poll_check.
    destruct (Z.ltb_spec (pa_ret a) 0) as [|Hret]; [done|].
    rewrite (proj2 (Z.eqb_neq _ 0)); [done|].
    by apply (connected_asked c a efd Hc ltac:(lia) Hefd Ht Hret).
Qed.

(** Thread [i] has received nothing in this turn. *)
Definition quiet (i : nat) (m : machine) : Prop :=
  exists p, mc_threads m !! i = Some (InPoll p) /\ no_datagram p.

Lemma loop_step_quiet i m m' :
  lone_ok m -> quiet i m -> loop_step i m m' -> asked (mc_client m) ->
  quiet i m' /\ mc_calls m' = mc_calls m.
Proof.
  intros [Hm Hone Hcur] (p & Hi & Hno) ([Hs _] & ti' & Hti' & Hin') Ha.
  destruct Hs as [vm c ths calls Hcls Hf|ok c ths calls|j t t' c c' ths calls new Hj Hs]; cbn in *.
  1,2: split; [by exists p|done].
  destruct (tstep_asked_quiet c t c' t' new Hs (mo_conn _ Hm) Ha) as [-> Hq].
  { by eapply Forall_lookup_1 in Hcur. }
  { intros q ->. assert (j = i) as -> by (by eapply Hone). by simplify_eq. }
  split; [|by rewrite app_nil_r]. destruct (decide (j = i)) as [->|Hne].
  - rewrite list_lookup_insert_eq in Hti' by (by eapply lookup_lt_Some). injection Hti' as <-.
    destruct t' as [| | | | | | | |q]; try done. exists q. cbn [mc_threads].
    rewrite list_lookup_insert_eq by (by eapply lookup_lt_Some). split; [done|]. apply Hq; [done|].
    by intros ->.
  - exists p. cbn [mc_threads]. by rewrite list_lookup_insert_ne.
Qed.

Lemma loop_steps i m m' :
  rtc (loop_step i) m m' -> lone_ok m -> (exists t, mc_threads m !! i = Some t /\ in_loop t) ->
  asked (mc_client m) ->
  lone_ok m' /\ asked (mc_client m') /\ (quiet i m -> mc_calls m' = mc_calls m).
Proof.
  induction 1 as [m|m1 m2 m3 Hs _ IH]; [done|]. intros Hok Hin Ha.
  destruct IH as (Hok' & Ha' & Hq).
  - eapply lone_step_ok; [apply Hs|done].
  - apply Hs.
  - by eapply loop_step_asked.
  - split_and!; [done..|]. intros Hquiet.
    destruct (loop_step_quiet i m1 m2 Hok Hquiet Hs Ha) as [Hq2 <-]. by apply Hq.
Qed.

Lemma poll_alone_asked answers c :
  asked c -> exists c', poll_alone answers (Asked (g_disconnect_fd (cl_net c))) c = Some (true, [], c')
    /\ offline c'.
Proof.
  intros (fd & efd & gid & n & Hon & Hpos).
  assert (Hread : exists c1, poll_read (g_disconnect_fd (cl_net c)) c = Some c1).
  { unfold poll_read. rewrite (on_efd _ _ _ _ _ Hon), (on_events _ _ _ _ _ Hon), lookup_singleton_eq.
    rewrite (proj2 (Z.eqb_neq n 0)) by lia. by eexists. }
  destruct Hread as [c1 Hc1]. exists (poll_exit c1). split.
  - destruct answers; cbn [poll_alone poll_settle]; by rewrite Hc1.
  - apply poll_exit_offline. eapply poll_read_ok; [done|]. right. by exists fd, efd, gid, n.
Qed.

Lemma poll_alone_ends answers p c :
  asked c -> conn_ok c -> no_datagram p -> poller_current c (InPoll p) ->
  Forall (fun a => poll_truthful a (g_disconnect_fd (cl_net c)) c) answers ->
  Exists (fun a => 0 <= pa_ret a) answers ->
  exists c', poll_alone answers p c = Some (true, [], c') /\ offline c'.
Proof.
  intros Ha Hc Hno Hp Ht. revert p Hno Hp. induction Ht as [|a answers Ht _ IH]; intros p Hno Hp Hex;
    [by apply Exists_nil in Hex|].
  assert (Hsettle : poll_settle p c = Leaving \/ poll_settle p c = Asked (g_disconnect_fd (cl_net c))
    \/ exists rbuf, poll_settle p c = Waiting (g_fd (cl_net c)) (g_disconnect_fd (cl_net c)) rbuf).
  { destruct p as [rbuf|fd rbuf|fd efd rbuf|efd| | | |]; try done; cbn in Hp |- *; unfold poll_loaded.
    - destruct (_ || _); eauto.
    - destruct (Z.ltb_spec fd 0); cbn [orb]; [by left|]. rewrite Hp by lia. destruct (_ <? 0); eauto.
    - destruct Hp as (H0 & -> & ->). eauto.
    - destruct Hp as [_ ->]. eauto. }
  destruct Hsettle as [E|[E|[rbuf E]]]; cbn [poll_alone]; rewrite E.
  - exists (poll_exit c). split; [done|]. by apply poll_exit_offline.
  - by apply (poll_alone_asked []).
  - unfold poll_wait. destruct (Z.ltb_spec (pa_ret a) 0) as [Hneg|Hret].
    + replace (poll_check _ _ _ _) with (AtTop rbuf)
        by (unfold poll_check; by rewrite (proj2 (Z.ltb_lt _ 0))).
      cbn [poll_rest mbind option_bind]. apply Exists_cons in Hex as [|Hex]; [lia|].
      destruct (IH (AtTop rbuf) I I Hex) as (c' & -> & Hoff). by exists c'.
    + pose proof Ha as (fd & efd & gid & n & Hon & _).
      assert (Z.land (pa_disconnect a) POLLIN <> 0).
      { apply (connected_asked c a (g_disconnect_fd (cl_net c)) Hc); try done.
        rewrite (on_fd _ _ _ _ _ Hon). apply Hon. }
      replace (poll_check _ _ _ _) with (Asked (g_disconnect_fd (cl_net c)))
        by (unfold poll_check; by rewrite (proj2 (Z.ltb_ge _ 0)), (proj2 (Z.eqb_neq _ 0))).
      cbn [poll_rest mbind option_bind].
      destruct (poll_alone_asked answers c Ha) as (c' & -> & Hoff). by exists c'.
Qed.

(** The machine after a call of [disconnect]. *)
Definition after_disconnect (m : machine) : machine :=
  {| mc_client := disconnect (mc_client m); mc_threads := mc_threads m; mc_calls := mc_calls m |}.

Lemma after_disconnect_ok m : lone_ok m -> lone_ok (after_disconnect m).
Proof.
  intros [[Hc Hf Hr Ht] Hone Hcur]. pose proof (ts_disconnect (mc_client m)) as Hs. split; [|done|].
  - split; cbn; [|apply (tstep_fds _ _ _ _ _ _ Hs)|apply (tstep_refs _ _ _ _ _ _ Hs)|]; try done.
    by apply (tstep_conn _ _ _ _ _ Hs).
  - eapply Forall_impl; [exact Hcur|]. intros t. apply poller_current_keep.
    by apply (tstep_keeps _ _ _ _ _ Hs).
Qed.

(** C11: a disconnect is never lost while one thread at a time is in [pollEvent]:
    once [disconnect] was called on a connected client while thread [i] was in the
    loop, then at any later moment at which it still is, whatever the other
    threads did in between, the thread, left to itself, gets through the datagram
    it may be working on and the first [poll] that succeeds then ends the loop:
    [pollEvent] returns without delivering another event and leaves the client
    without a connection.  And once it is not working on a datagram, no further
    event is delivered for as long as it stays in the loop. *)
Theorem disconnect_ends_poll m i t m1 p1 :
  reachable_alone m -> mc_threads m !! i = Some t -> in_loop t -> 0 <= g_fd (cl_net (mc_client m)) ->
  rtc (loop_step i) (after_disconnect m) m1 -> mc_threads m1 !! i = Some (InPoll p1) -> p1 <> Leaving ->
  (forall recv local_ref answers, recv_ok recv ->
     Forall (fun a => poll_truthful a (g_disconnect_fd (cl_net (mc_client m1))) (mc_client m1)) answers ->
     Exists (fun a => 0 <= pa_ret a) answers ->
     exists p' cbs c', poll_rest recv local_ref p1 (mc_client m1) = Some (p', cbs)
       /\ (no_datagram p1 -> cbs = [])
       /\ poll_alone answers p' (mc_client m1) = Some (true, [], c') /\ offline c')
  /\ (no_datagram p1 -> forall m2, rtc (loop_step i) m1 m2 -> mc_calls m2 = mc_calls m1).
Proof.
  intros Hr%reachable_alone_ok Hi Hin H0 Hsteps Hi1 Hp1.
  assert (Hasked : asked (mc_client (after_disconnect m))).
  { destruct (mo_conn _ (lo_ok _ Hr)) as [Ho|(fd & efd & gid & n & Hon)];
      [rewrite (off_fd _ Ho) in H0; lia|].
    exists fd, efd, gid, (n + 1). split; [by apply disconnect_online|]. destruct Hon. lia. }
  destruct (loop_steps i _ m1 Hsteps (after_disconnect_ok m Hr)) as (Hok & Ha & _);
    [by exists t|done|].
  pose proof (lo_ok _ Hok) as [Hc _ _ Ht]. eapply Forall_lookup_1 in Ht; [|exact Hi1].
  pose proof (lo_current _ Hok) as Hcur. eapply Forall_lookup_1 in Hcur; [|exact Hi1]. split.
  - intros recv local_ref answers Hrecv Htr Hex.
    destruct (poll_rest_total recv local_ref p1 (mc_client m1) Ht Hrecv) as (p' & cbs & Hrest & Hcase & Hno).
    destruct (poll_alone_ends answers p' (mc_client m1) Ha Hc (Hno Hp1)) as (c' & Halone & Hoff); [|done..|].
    + destruct Hcase as [[-> _]|(_ & rbuf & ->)]; done.
    + exists p', cbs, c'. split_and!; [done| |done..]. intros Hd. by destruct Hcase as [[_ ->]|[]].
  - intros Hd m2 Hsteps2. apply (loop_steps i m1 m2 Hsteps2 Hok); [|done|by exists p1].
    exists (InPoll p1). split; [done|]. by destruct p1.
Qed.

(** ** The calls as runs of one thread *)

(** Steps of one thread while no other thread runs. *)
Inductive thread_run : client -> thread -> client -> thread -> list callback -> Prop :=
  | run_done c t : thread_run c t c t []
  | run_step c t c1 t1 c2 t2 new calls :
      tstep c t c1 t1 new -> thread_run c1 t1 c2 t2 calls -> thread_run c t c2 t2 (new ++ calls).

Lemma thread_run_app c t c1 t1 c2 t2 calls1 calls2 :
  thread_run c t c1 t1 calls1 -> thread_run c1 t1 c2 t2 calls2 ->
  thread_run c t c2 t2 (calls1 ++ calls2).
Proof. induction 1; [done|]. intros Hr. rewrite <- app_assoc. eauto using run_step. Qed.

Lemma thread_run_one c t c' t' new : tstep c t c' t' new -> thread_run c t c' t' new.
Proof. intros Hs. rewrite <- (app_nil_r new). eauto using run_step, run_done. Qed.

(** A silent step in front. *)
Lemma thread_run_cons c t c1 t1 c2 t2 calls :
  tstep c t c1 t1 [] -> thread_run c1 t1 c2 t2 calls -> thread_run c t c2 t2 calls.
Proof. intros Hs Hr. exact (run_step _ _ _ _ _ _ [] _ Hs Hr). Qed.

(** [setCallback] is its three steps. *)
Lemma setCallback_run callback new_ref c :
  (forall x, new_ref = Some x -> x ∉ cl_refs c) ->
  thread_run c Idle (setCallback callback new_ref c) Idle [].
Proof.
  intros Hf. unfold setCallback. destruct (setCallback_new callback new_ref c) as [r c1] eqn:En.
  eapply thread_run_cons; [by apply (ts_setCallback callback new_ref c r c1)|].
  destruct r as [new_cb|]; [|apply run_done].
  destruct (setCallback_swap new_cb c1) as [old_cb c2] eqn:Es.
  eapply thread_run_cons; [by eapply ts_swap|]. apply thread_run_one, ts_delete.
Qed.

(** A request of Jni.v is its steps: the loads, the socket, the message, the
    datagram and the close. *)
Lemma request_run sys r c ok s' :
  send_request sys r (cl_net c) = Some (ok, s') ->
  (0 <= socket_ret sys -> socket_ret sys ∉ js_open (cl_net c)) ->
  thread_run c Idle (set_net s' c) Idle [].
Proof.
  rewrite send_request_pieces. intros Hs Hf. eapply thread_run_cons; [apply (ts_rq_family r)|].
  eapply thread_run_cons; [apply ts_rq_check|].
  assert (Hself : set_net (cl_net c) c = c) by (by destruct c).
  destruct (request_refused r _ _); cbn [orb] in Hs.
  { injection Hs as <- <-. rewrite Hself. apply run_done. }
  destruct (Z.ltb_spec (socket_ret sys) 0) as [|H0].
  { injection Hs as <- <-. rewrite Hself. apply thread_run_one, ts_rq_no_socket. }
  destruct (build_request r _ _) as [[built [len buf]]|] eqn:Eb; [cbn [mbind option_bind] in Hs|done].
  eapply thread_run_cons; [by apply (ts_rq_socket r _ (socket_ret sys)), Hf|].
  eapply thread_run_cons; [by eapply ts_rq_build|]. apply (inj Some) in Hs.
  eapply thread_run_cons; [apply (ts_rq_send (sendto_ret sys len))|]. apply thread_run_one.
  unfold send_and_close in Hs.
  destruct built; cbn [andb]; [destruct (0 <=? _)|]; injection Hs as _ <-; exact (ts_rq_close _ _).
Qed.

Section PollRun.
Context (c : client).

Lemma dispatch_run rbuf fuel nlh rlen cbs :
  dispatch_loop rbuf fuel (g_family_id (cl_net c)) nlh rlen = Some cbs ->
  thread_run c (InPoll (Dispatching nlh rlen rbuf)) c (InPoll (AtTop rbuf)) cbs.
Proof.
  revert nlh rlen cbs. induction fuel as [|fuel IH]; intros nlh rlen cbs; cbn [dispatch_loop];
    destruct (dispatch_step _ _ _ _) as [[[new [nlh' rlen']]|]|] eqn:Ed; cbn [mbind option_bind]; try done.
  1,3: intros [= <-]; apply thread_run_one, ts_poll_dispatch; unfold poll_dispatch; by rewrite Ed.
  destruct (dispatch_loop _ _ _ _ _) as [rest|] eqn:El; [cbn [mbind option_bind]|done]. intros [= <-].
  eapply run_step; [apply ts_poll_dispatch; unfold poll_dispatch; by rewrite Ed|]. by apply IH.
Qed.

Lemma poll_rest_run recv local_ref p p' cbs :
  recv_ok recv -> poll_rest recv local_ref p c = Some (p', cbs) ->
  thread_run c (InPoll p) c (InPoll p') cbs.
Proof.
  intros Hr. unfold poll_rest.
  set (p0 := match p with Readable _ rbuf => poll_recv recv rbuf | _ => Some p end).
  destruct p0 as [p1|] eqn:Ep0; [cbn [mbind option_bind]|done]. subst p0.
  assert (H1 : thread_run c (InPoll p) c (InPoll p1) []).
  { destruct p; try (injection Ep0 as <-; apply run_done). by eapply thread_run_one, ts_poll_recv. }
  clear Ep0. set (p2 := match p1 with Received rlen rbuf => _ | _ => p1 end).
  assert (H2 : thread_run c (InPoll p1) c (InPoll p2) []).
  { subst p2. destruct p1; try apply run_done. apply thread_run_one, ts_poll_callback. }
  intros Hcbs. apply (thread_run_app _ _ _ _ _ _ [] _ H1), (thread_run_app _ _ _ _ _ _ [] _ H2).
  destruct p2; try (injection Hcbs as <- <-; apply run_done).
  destruct (dispatch_loop _ _ _ _ _) as [cbs'|] eqn:El; [|done]. cbn [mbind option_bind] in Hcbs.
  injection Hcbs as <- <-. by eapply dispatch_run.
Qed.

(** [pollEvent] is its steps, until it returns. *)
Lemma poll_alone_run answers p cbs c' :
  Forall (fun a => recv_ok (pa_recv a) /\ forall efd, poll_truthful a efd c) answers ->
  poll_alone answers p c = Some (true, cbs, c') -> thread_run c (InPoll p) c' Idle cbs.
Proof.
  assert (Hsettle : forall p, thread_run c (InPoll p) c (InPoll (poll_settle p c)) []).
  { intros [| | | | | | |]; try apply run_done.
    - eapply thread_run_cons; [apply ts_poll_fd|]. apply thread_run_one, ts_poll_disconnect_fd.
    - apply thread_run_one, ts_poll_disconnect_fd. }
  intros Ha. revert p cbs. induction Ha as [|a answers [Hr Ht] _ IH]; intros p cbs Hp;
    apply (thread_run_app _ _ _ _ _ _ [] _ (Hsettle p)); cbn [poll_alone] in Hp;
    destruct (poll_settle p c) as [| |fd efd rbuf|efd| | | |]; try done.
  1,4: destruct (poll_read efd c) as [c1|] eqn:Er; [|done]; injection Hp as <- <-;
    eapply thread_run_cons; [by apply ts_poll_read|apply thread_run_one, ts_poll_exit].
  1,3: injection Hp as <- <-; apply thread_run_one, ts_poll_exit.
  unfold poll_wait in Hp.
  destruct (poll_rest (pa_recv a) (pa_local_ref a) _ c) as [[p1 cbs1]|] eqn:E1;
    [cbn [mbind option_bind] in Hp|done].
  destruct (poll_alone answers p1 c) as [[[returned cbs2] c2]|] eqn:E2;
    [cbn [mbind option_bind] in Hp|done].
  injection Hp as -> <- <-. eapply thread_run_cons; [by apply (ts_poll a)|].
  eapply thread_run_app; [by eapply poll_rest_run|]. by apply IH.
Qed.
End PollRun.

(** ** Connecting to the module *)

(** The system calls succeed and the controller describes the family of
    rkx_genl.c, registered as [fid] with the group [gid]. *)
Record module_answers (sys : connect_answer) (seq fid gid : Z) : Prop := {
  ma_socket : 0 <= ca_socket sys;
  ma_eventfd : 0 <= ca_eventfd sys;
  ma_bind : 0 <= ca_bind sys;
  ma_member : 0 <= ca_membership sys gid;
  ma_ids : 0 < fid < 2 ^ 16 /\ 0 < gid < 2 ^ 32;
  ma_sendto : ctrl_sendto (ca_ctrl sys) (getfamily_message seq) = 36;
  ma_recv : exists l groups hdr stale,
    ctrl_describes rkx_genl_family fid [gid] l groups
    /\ ctrl_header hdr (20 + Z.of_nat (length (attrs_bytes l)))
    /\ 20 + Z.of_nat (length (attrs_bytes l)) <= 4096
    /\ ctrl_recv (ca_ctrl sys) (getfamily_message seq)
       = (20 + Z.of_nat (length (attrs_bytes l)), hdr ++ attrs_bytes l ++ stale);
}.

(** C18: a client connects to a loaded module: when the system calls succeed and
    the controller describes the family the module registered, [connect]
    returns true with the two descriptors open, subscribes the socket to the
    module's event group, and stores the module's family id, under which events are recognised and requests are
    sent. *)
Theorem connect_subscribes sys c fid gid :
  offline c -> fds_distinct sys -> module_answers sys (g_seq (cl_net c)) fid gid ->
  exists c', connect sys c = Some (true, c')
    /\ online (ca_socket sys) (ca_eventfd sys) gid 0 c'
    /\ js_open (cl_net c') = [ca_eventfd sys; ca_socket sys] ++ js_open (cl_net c)
    /\ g_family_id (cl_net c') = fid
    /\ js_sent (cl_net c') = js_sent (cl_net c) ++ [getfamily_message (g_seq (cl_net c))].
Proof.
  intros [Hfd Hefd Hfam Hev Hgr] Hd [H1 H2 H3 H4 [Hfid Hgid] Hsend Hrecv].
  destruct Hrecv as (l & groups & hdr & stale & Hdesc & Hh & Hlen & Hrecv).
  unfold connect. rewrite Hfd. change (0 <=? -1) with false. cbv iota.
  rewrite !(proj2 (Z.ltb_ge _ 0)) by done. set (c2 := set_events _ _).
  rewrite (resolve_finds_family (ca_ctrl sys) (cl_net c2) fid gid l groups hdr stale) by done.
  cbn [mbind option_bind]. rewrite (proj2 (Z.ltb_lt 0 gid)), (proj2 (Z.ltb_ge _ 0)) by lia.
  cbn [andb]. eexists. split; [done|]. split_and!; [|done|done|done].
  split; cbn; try done.
  - split_and!; [done|done|]. specialize (Hd H1). congruence.
  - by rewrite Hev.
  - by rewrite Hgr.
Qed.

(** ** Evaluations *)

Module ClientDemo.
Definition sys : connect_answer :=
  {| ca_socket := 40; ca_eventfd := 41; ca_bind := 0; ca_ctrl := ResolveDemo.ctrl;
     ca_membership _ := 0 |}.

(** The group cannot be joined. *)
Definition sys_refused : connect_answer :=
  {| ca_socket := 40; ca_eventfd := 41; ca_bind := 0; ca_ctrl := ResolveDemo.ctrl;
     ca_membership _ := -1 |}.

Lemma initial_offline : offline initial_client.
Proof. by split. Qed.

Lemma sys_distinct : fds_distinct sys.
Proof. intros _. discriminate. Qed.

Lemma sys_answers : module_answers sys 1 30 5.
Proof.
  split; cbn [ca_socket ca_eventfd ca_bind ca_membership ca_ctrl sys]; try lia.
  - vm_compute. reflexivity.
  - exists ResolveDemo.attrs, ResolveDemo.groups, ResolveDemo.hdr, (replicate 16 NUL). split_and!.
    + exact ResolveDemo.described.
    + exact ResolveDemo.hdr_ok.
    + vm_compute. discriminate.
    + reflexivity.
Qed.

(** The client after connecting, and a thread at the top of its loop. *)
Definition connected : client :=
  {| cl_net := {| g_fd := 40; g_disconnect_fd := 41; g_family_id := 30; g_seq := 2;
                  js_open := [41; 40]; js_sent := [getfamily_message 1] |};
     cl_events := {[41 := 0]}; cl_groups := [(40, 5)]; g_cbClass := None; g_mids := [];
     g_callback := None; cl_refs := [] |}.

Definition rbuf : list byte := replicate (Z.to_nat 8192) NUL.

Lemma rbuf_size : length rbuf = Z.to_nat 8192.
Proof. apply length_replicate. Qed.

Definition wait : thread := InPoll (Waiting 40 41 rbuf).
Definition with_threads (c : client) (ths : list thread) : machine :=
  {| mc_client := c; mc_threads := ths; mc_calls := [] |}.

(** A step of thread [i]. *)
Lemma thread_step i t' c c' ths t :
  ths !! i = Some t -> tstep c t c' t' [] ->
  mstep (with_threads c ths) (with_threads c' (<[i := t']> ths)).
Proof. intros Hi Hs. exact (step_thread i t t' c c' ths [] [] Hi Hs). Qed.

(** One of the threads connects. *)
Lemma connects n :
  mstep (initial (S n)) (with_threads connected (replicate (S n) Idle)).
Proof.
  apply (thread_step 0 Idle initial_client connected (replicate (S n) Idle) Idle eq_refl).
  apply (ts_connect sys true); [split_and!; [exact sys_distinct|apply not_elem_of_nil..]|].
  vm_compute. reflexivity.
Qed.

(** A thread enters [pollEvent] and waits. *)
Lemma waits i ths :
  ths !! i = Some Idle ->
  exists m1 m2, m1 = with_threads connected (<[i := InPoll (AtTop rbuf)]> ths)
    /\ m2 = with_threads connected (<[i := InPoll (Loaded 40 rbuf)]> ths)
    /\ mstep (with_threads connected ths) m1 /\ mstep m1 m2
    /\ mstep m2 (with_threads connected (<[i := wait]> ths)).
Proof.
  intros Hi. assert (Hlt : (i < length ths)%nat) by (by eapply lookup_lt_Some).
  do 2 eexists. split_and!; [done|done|..].
  - eapply thread_step; [exact Hi|]. apply ts_poll_enter, rbuf_size.
  - rewrite <- (list_insert_insert_eq ths i (InPoll (Loaded 40 rbuf)) (InPoll (AtTop rbuf))).
    eapply thread_step; [by apply list_lookup_insert_eq|]. exact (ts_poll_fd rbuf connected).
  - rewrite <- (list_insert_insert_eq ths i wait (InPoll (Loaded 40 rbuf))).
    eapply thread_step; [by apply list_lookup_insert_eq|].
    exact (ts_poll_disconnect_fd 40 rbuf connected).
Qed.

Lemma one_poller_second c t : one_poller (with_threads c [Idle; t]).
Proof. by intros [|[|i]] [|[|j]] p q Hi Hj. Qed.

Definition polling : machine := with_threads connected [Idle; wait].

Lemma polling_alone : reachable_alone polling.
Proof.
  exists 2%nat. eapply rtc_l; [split; [exact (connects 1)|apply one_poller_second]|].
  destruct (waits 1 [Idle; Idle] eq_refl) as (m1 & m2 & -> & -> & H1 & H2 & H3).
  eapply rtc_l; [split; [exact H1|apply one_poller_second]|].
  eapply rtc_l; [split; [exact H2|apply one_poller_second]|].
  eapply rtc_l; [split; [exact H3|apply one_poller_second]|]. apply rtc_refl.
Qed.

Lemma polling_reachable : reachable polling.
Proof.
  destruct polling_alone as [n Hr]. exists n. eapply rtc_subrel; [|exact Hr]. by intros m m' [Hs _].
Qed.

(** [poll] is interrupted once and then reports the eventfd. *)
Definition ready : poll_answer :=
  {| pa_ret := 1; pa_disconnect := POLLIN; pa_socket := 0; pa_recv := None; pa_local_ref := true |}.
Definition answers : list poll_answer :=
  [{| pa_ret := -1; pa_disconnect := 0; pa_socket := 0; pa_recv := None; pa_local_ref := true |}; ready].

Lemma ready_truthful : poll_truthful ready 41 (disconnect connected).
Proof. intros _ n Hn. vm_compute in Hn. injection Hn as <-. vm_compute. done. Qed.

Lemma answers_truthful :
  Forall (fun a => poll_truthful a 41 (disconnect connected)) answers.
Proof.
  constructor; [|constructor; [exact ready_truthful|constructor]].
  unfold poll_truthful. cbn [pa_ret]. lia.
Qed.
End ClientDemo.


(** Two threads in [pollEvent]: one of them takes the disconnect and closes the
    descriptors the other stays blocked on. *)
Lemma second_poller_left_behind :
  exists m, reachable m /\ offline (mc_client m) /\ js_open (cl_net (mc_client m)) = []
    /\ mc_threads m !! 1%nat = Some ClientDemo.wait.
Proof.
  set (c1 := disconnect ClientDemo.connected).
  assert (Hread : exists c2, poll_read 41 c1 = Some c2 /\ offline (poll_exit c2)
    /\ js_open (cl_net (poll_exit c2)) = []).
  { eexists. split; [vm_compute; reflexivity|]. split; [by split|done]. }
  destruct Hread as (c2 & Hc2 & Hoff & Hopen).
  exists (ClientDemo.with_threads (poll_exit c2) [Idle; ClientDemo.wait; Idle]).
  split_and!; [|done|done|done]. exists 3%nat.
  eapply rtc_l; [exact (ClientDemo.connects 2)|].
  destruct (ClientDemo.waits 1 [Idle; Idle; Idle] eq_refl) as (m1 & m2 & _ & _ & H1 & H2 & H3).
  eapply rtc_l; [exact H1|]. eapply rtc_l; [exact H2|]. eapply rtc_l; [exact H3|].
  destruct (ClientDemo.waits 2 [Idle; ClientDemo.wait; Idle] eq_refl) as (m3 & m4 & _ & _ & H4 & H5 & H6).
  eapply rtc_l; [exact H4|]. eapply rtc_l; [exact H5|]. eapply rtc_l; [exact H6|].
  set (both := [Idle; ClientDemo.wait; ClientDemo.wait]).
  eapply rtc_l; [exact (ClientDemo.thread_step 0 Idle _ c1 both Idle eq_refl (ts_disconnect _))|].
  eapply rtc_l; [apply (ClientDemo.thread_step 2 (InPoll (Asked 41)) c1 c1 both ClientDemo.wait eq_refl)|].
  { exact (ts_poll ClientDemo.ready 40 41 ClientDemo.rbuf c1 ClientDemo.ready_truthful). }
  eapply rtc_l; [apply (ClientDemo.thread_step 2 (InPoll Leaving) c1 c2
    [Idle; ClientDemo.wait; InPoll (Asked 41)] (InPoll (Asked 41)) eq_refl); by apply ts_poll_read|].
  eapply rtc_l; [apply (ClientDemo.thread_step 2 Idle c2 (poll_exit c2)
    [Idle; ClientDemo.wait; InPoll Leaving] (InPoll Leaving) eq_refl), ts_poll_exit|].
  apply rtc_refl.
Qed.

Lemma connect_all_or_nothing_witness :
  exists c', connect ClientDemo.sys_refused initial_client = Some (false, c') /\ offline c'.
Proof.
  destruct (connect_all_or_nothing ClientDemo.sys_refused initial_client) as (ok & c' & Hc & _ & _ & H).
  - left. exact ClientDemo.initial_offline.
  - intros _. discriminate.
  - split; [|vm_compute; intros [Hc _]; apply Hc; reflexivity|intros _; vm_compute; reflexivity].
    vm_compute. split; [discriminate|reflexivity].
  - assert (Hf : fst <$> connect ClientDemo.sys_refused initial_client = Some false)
      by (vm_compute; reflexivity).
    rewrite Hc in Hf. injection Hf as ->. exists c'. split; [exact Hc|apply H].
Defined.

Lemma connect_subscribes_witness :
  exists c', connect ClientDemo.sys initial_client = Some (true, c')
    /\ online 40 41 5 0 c' /\ g_family_id (cl_net c') = 30.
Proof.
  destruct (connect_subscribes ClientDemo.sys initial_client 30 5 ClientDemo.initial_offline
    ClientDemo.sys_distinct ClientDemo.sys_answers) as (c' & Hc & Ho & _ & Hf & _). eauto.
Defined.

Lemma client_never_leaks_witness :
  (exists fd efd gid n, online fd efd gid n (mc_client ClientDemo.polling))
  /\ conn_fds (mc_client ClientDemo.polling) = [41; 40].
Proof.
  destruct (client_never_leaks ClientDemo.polling ClientDemo.polling_reachable)
    as ([Ho|Ho] & _ & _ & _ & _ & _ & H).
  - exfalso. pose proof (off_fd _ Ho) as E. vm_compute in E. discriminate.
  - split; [exact Ho|]. exact (proj1 (H ClientDemo.polling_alone) 1%nat 40 41 ClientDemo.rbuf eq_refl).
Defined.

Lemma disconnect_ends_poll_witness :
  exists c', poll_alone ClientDemo.answers (Waiting 40 41 ClientDemo.rbuf) (disconnect ClientDemo.connected)
    = Some (true, [], c') /\ offline c'.
Proof.
  destruct (disconnect_ends_poll ClientDemo.polling 1 ClientDemo.wait
    (after_disconnect ClientDemo.polling) (Waiting 40 41 ClientDemo.rbuf)
    ClientDemo.polling_alone eq_refl I) as [H _].
  - vm_compute. discriminate.
  - apply rtc_refl.
  - reflexivity.
  - discriminate.
  - destruct (H None true ClientDemo.answers) as (p' & cbs & c' & Hrest & _ & Ha & Ho).
    + intros d Hd. discriminate.
    + exact ClientDemo.answers_truthful.
    + right. left. cbn. lia.
    + injection Hrest as <- <-. eauto.
Defined.
