(* ===== verification/Lifecycle.v ===== *)
(** rkx.c and the register/unregister functions of the other files: loading and
    unloading the module.

    [k_live] is what the kernel holds on behalf of the module, [k_warn] what the
    module tried to unregister although it was not registered, [k_log] every
    action in order.  Whether a registration succeeds is a parameter. *)

From S2P Require Import Prelude HashTable Uapi Kernel NetUid FreeAsync.

Inductive resource :=
  | RGenlFamily
  | RTraceAllocBuf | RTraceReply | RTraceTrans | RTraceSignal
  | RNetHooks (net : nat)
  | RKprobeKallsyms | RKprobeProcTransaction
  | RWorkqueue.

#[export] Instance resource_eq_dec : EqDecision resource.
Proof. solve_decision. Defined.

Inductive action :=
  | Register (r : resource)
  | Unregister (r : resource)
  | SynchronizeTracepoints
  | FlushWorkqueue
  | DestroyRules
  | DestroyUids.

(** Symbols looked up through kallsyms. *)
Inductive ksym :=
  | Sym_binder_transaction_buffer_release | Sym_binder_alloc_free_buf
  | Sym_binder_alloc_copy_from_buffer | Sym_binder_stats
  | Sym_binder_proc_dec_tmpref | Sym_binder_free_proc.

(** What the kernel answers while the module loads. *)
Record kernel_env := {
  register_rc : resource -> Z;
  alloc_workqueue_ok : bool;
  kallsyms_has : ksym -> bool;
}.

Record module_state := {
  rkx_genl_registered : bool;
  rkx_alloc_buf_hooked : bool;
  rkx_reply_hooked : bool;
  rkx_trans_hooked : bool;
  rkx_signal_hooked : bool;
  rkx_netfilter_registered : bool;
  rkx_kp_registered : bool;
  rkx_free_wq : bool;
  k_live : list resource;
  k_warn : list resource;
  k_log : list action;
  m_uids : net_uid_state;
  m_rules : free_async_state;
}.

(** ** Kernel calls *)

Definition set_kernel (live warn : list resource) (log : list action) (s : module_state) :=
  {| rkx_genl_registered := rkx_genl_registered s;
     rkx_alloc_buf_hooked := rkx_alloc_buf_hooked s; rkx_reply_hooked := rkx_reply_hooked s;
     rkx_trans_hooked := rkx_trans_hooked s; rkx_signal_hooked := rkx_signal_hooked s;
     rkx_netfilter_registered := rkx_netfilter_registered s;
     rkx_kp_registered := rkx_kp_registered s; rkx_free_wq := rkx_free_wq s;
     k_live := live; k_warn := warn; k_log := log; m_uids := m_uids s; m_rules := m_rules s |}.

Definition log_action (a : action) (s : module_state) : module_state :=
  set_kernel (k_live s) (k_warn s) (k_log s ++ [a]) s.

Definition kernel_register (r : resource) (s : module_state) : module_state :=
  set_kernel (r :: k_live s) (k_warn s) (k_log s ++ [Register r]) s.

Definition kernel_unregister (r : resource) (s : module_state) : module_state :=
  if bool_decide (r ∈ k_live s)
  then set_kernel (walk_del (fun x => bool_decide (x = r)) (k_live s)) (k_warn s)
         (k_log s ++ [Unregister r]) s
  else set_kernel (k_live s) (k_warn s ++ [r]) (k_log s ++ [Unregister r]) s.

(** ** Flags *)

Definition set_genl (b : bool) (s : module_state) :=
  {| rkx_genl_registered := b;
     rkx_alloc_buf_hooked := rkx_alloc_buf_hooked s; rkx_reply_hooked := rkx_reply_hooked s;
     rkx_trans_hooked := rkx_trans_hooked s; rkx_signal_hooked := rkx_signal_hooked s;
     rkx_netfilter_registered := rkx_netfilter_registered s;
     rkx_kp_registered := rkx_kp_registered s; rkx_free_wq := rkx_free_wq s;
     k_live := k_live s; k_warn := k_warn s; k_log := k_log s;
     m_uids := m_uids s; m_rules := m_rules s |}.

Definition set_binder (alloc reply trans : bool) (s : module_state) :=
  {| rkx_genl_registered := rkx_genl_registered s;
     rkx_alloc_buf_hooked := alloc; rkx_reply_hooked := reply; rkx_trans_hooked := trans;
     rkx_signal_hooked := rkx_signal_hooked s;
     rkx_netfilter_registered := rkx_netfilter_registered s;
     rkx_kp_registered := rkx_kp_registered s; rkx_free_wq := rkx_free_wq s;
     k_live := k_live s; k_warn := k_warn s; k_log := k_log s;
     m_uids := m_uids s; m_rules := m_rules s |}.

Definition set_signal (b : bool) (s : module_state) :=
  {| rkx_genl_registered := rkx_genl_registered s;
     rkx_alloc_buf_hooked := rkx_alloc_buf_hooked s; rkx_reply_hooked := rkx_reply_hooked s;
     rkx_trans_hooked := rkx_trans_hooked s; rkx_signal_hooked := b;
     rkx_netfilter_registered := rkx_netfilter_registered s;
     rkx_kp_registered := rkx_kp_registered s; rkx_free_wq := rkx_free_wq s;
     k_live := k_live s; k_warn := k_warn s; k_log := k_log s;
     m_uids := m_uids s; m_rules := m_rules s |}.

Definition set_netfilter (b : bool) (s : module_state) :=
  {| rkx_genl_registered := rkx_genl_registered s;
     rkx_alloc_buf_hooked := rkx_alloc_buf_hooked s; rkx_reply_hooked := rkx_reply_hooked s;
     rkx_trans_hooked := rkx_trans_hooked s; rkx_signal_hooked := rkx_signal_hooked s;
     rkx_netfilter_registered := b;
     rkx_kp_registered := rkx_kp_registered s; rkx_free_wq := rkx_free_wq s;
     k_live := k_live s; k_warn := k_warn s; k_log := k_log s;
     m_uids := m_uids s; m_rules := m_rules s |}.

Definition set_kp (kp wq : bool) (s : module_state) :=
  {| rkx_genl_registered := rkx_genl_registered s;
     rkx_alloc_buf_hooked := rkx_alloc_buf_hooked s; rkx_reply_hooked := rkx_reply_hooked s;
     rkx_trans_hooked := rkx_trans_hooked s; rkx_signal_hooked := rkx_signal_hooked s;
     rkx_netfilter_registered := rkx_netfilter_registered s;
     rkx_kp_registered := kp; rkx_free_wq := wq;
     k_live := k_live s; k_warn := k_warn s; k_log := k_log s;
     m_uids := m_uids s; m_rules := m_rules s |}.

Definition set_tables (uids : net_uid_state) (rules : free_async_state) (s : module_state) :=
  {| rkx_genl_registered := rkx_genl_registered s;
     rkx_alloc_buf_hooked := rkx_alloc_buf_hooked s; rkx_reply_hooked := rkx_reply_hooked s;
     rkx_trans_hooked := rkx_trans_hooked s; rkx_signal_hooked := rkx_signal_hooked s;
     rkx_netfilter_registered := rkx_netfilter_registered s;
     rkx_kp_registered := rkx_kp_registered s; rkx_free_wq := rkx_free_wq s;
     k_live := k_live s; k_warn := k_warn s; k_log := k_log s;
     m_uids := uids; m_rules := rules |}.

Section Lifecycle.
Context `{Version} `{HashFn} `{Jhash} (env : kernel_env).
Implicit Types (s : module_state) (nets : list nat).

(** ** rkx_genl.c *)

Definition rkx_netlink_ready s : bool := rkx_genl_registered s.

Definition rkx_register_genl s : Z * module_state :=
  if negb (register_rc env RGenlFamily =? 0) then (RKX_ERROR, s)
  else (RKX_SUCCESS, set_genl true (kernel_register RGenlFamily s)).

Definition rkx_unregister_genl s : module_state :=
  if rkx_genl_registered s then set_genl false (kernel_unregister RGenlFamily s) else s.

(** ** rkx_binder.c *)

Definition rkx_unregister_binder s : module_state :=
  let s := if rkx_trans_hooked s
           then let s := kernel_unregister RTraceTrans s in
                set_binder (rkx_alloc_buf_hooked s) (rkx_reply_hooked s) false s
           else s in
  let s := if rkx_reply_hooked s
           then let s := kernel_unregister RTraceReply s in
                set_binder (rkx_alloc_buf_hooked s) false (rkx_trans_hooked s) s
           else s in
  if rkx_alloc_buf_hooked s
  then let s := kernel_unregister RTraceAllocBuf s in
       set_binder false (rkx_reply_hooked s) (rkx_trans_hooked s) s
  else s.

Definition rkx_register_binder s : Z * module_state :=
  let rc := register_rc env RTraceAllocBuf in
  if negb (rc =? RKX_SUCCESS) then (rc, rkx_unregister_binder s) else
  let s := kernel_register RTraceAllocBuf s in
  let s := set_binder true (rkx_reply_hooked s) (rkx_trans_hooked s) s in
  let rc := register_rc env RTraceReply in
  if negb (rc =? RKX_SUCCESS) then (rc, rkx_unregister_binder s) else
  let s := kernel_register RTraceReply s in
  let s := set_binder (rkx_alloc_buf_hooked s) true (rkx_trans_hooked s) s in
  let rc := register_rc env RTraceTrans in
  if negb (rc =? RKX_SUCCESS) then (rc, rkx_unregister_binder s) else
  let s := kernel_register RTraceTrans s in
  let s := set_binder (rkx_alloc_buf_hooked s) (rkx_reply_hooked s) true s in
  (RKX_SUCCESS, s).

(** ** rkx_signal.c *)

Definition rkx_register_signal s : Z * module_state :=
  let rc := register_rc env RTraceSignal in
  if negb (rc =? RKX_SUCCESS) then (rc, s)
  else (RKX_SUCCESS, set_signal true (kernel_register RTraceSignal s)).

Definition rkx_unregister_signal s : module_state :=
  if rkx_signal_hooked s then set_signal false (kernel_unregister RTraceSignal s) else s.

(** ** rkx_netfilter.c: [nets] are the namespaces [for_each_net] visits *)

Definition rkx_unregister_netfilter_hooks nets s : module_state :=
  foldl (fun s net => kernel_unregister (RNetHooks net) s) s nets.

Definition rkx_unregister_netfilter nets s : module_state :=
  if rkx_netfilter_registered s
  then set_netfilter false (rkx_unregister_netfilter_hooks nets s) else s.

Fixpoint register_nets nets s : Z * module_state :=
  match nets with
  | [] => (RKX_SUCCESS, s)
  | net :: nets =>
      let rc := register_rc env (RNetHooks net) in
      if negb (rc =? RKX_SUCCESS) then (rc, s)
      else register_nets nets (kernel_register (RNetHooks net) s)
  end.

Definition rkx_register_netfilter nets s : Z * module_state :=
  let '(rc, s) := register_nets nets s in
  if negb (rc =? RKX_SUCCESS) then (RKX_ERROR, rkx_unregister_netfilter_hooks nets s)
  else (RKX_SUCCESS, set_netfilter true s).

(** ** rkx_binder_kp.c *)

Definition rkx_unregister_binder_kp s : module_state :=
  let s := if rkx_kp_registered s
           then let s := kernel_unregister RKprobeProcTransaction s in
                set_kp false (rkx_free_wq s) s
           else s in
  if rkx_free_wq s
  then set_kp (rkx_kp_registered s) false
         (kernel_unregister RWorkqueue (log_action FlushWorkqueue s))
  else s.

Definition symbols_resolved : bool :=
  let copy := if LINUX_VERSION_CODE <? KERNEL_VERSION 6 0 0 then true
              else kallsyms_has env Sym_binder_alloc_copy_from_buffer in
  let free_proc := if LINUX_VERSION_CODE <? KERNEL_VERSION 5 15 0
                   then kallsyms_has env Sym_binder_free_proc else false in
  kallsyms_has env Sym_binder_transaction_buffer_release
  && kallsyms_has env Sym_binder_alloc_free_buf && copy && kallsyms_has env Sym_binder_stats
  && (kallsyms_has env Sym_binder_proc_dec_tmpref || free_proc).

Definition rkx_register_binder_kp s : module_state :=
  if negb (alloc_workqueue_ok env) then rkx_unregister_binder_kp s else
  let s := set_kp (rkx_kp_registered s) true (kernel_register RWorkqueue s) in
  if negb (register_rc env RKprobeKallsyms =? RKX_SUCCESS) then rkx_unregister_binder_kp s else
  let s := kernel_unregister RKprobeKallsyms (kernel_register RKprobeKallsyms s) in
  if negb symbols_resolved then rkx_unregister_binder_kp s else
  if negb (register_rc env RKprobeProcTransaction =? RKX_SUCCESS)
  then rkx_unregister_binder_kp s else
  let s := kernel_register RKprobeProcTransaction s in
  set_kp true (rkx_free_wq s) s.

(** ** rkx.c *)

(** [rkx_exit], and the [err] label of [rkx_init]. *)
Definition rkx_exit nets s : module_state :=
  let s := rkx_unregister_binder_kp s in
  let s := rkx_unregister_netfilter nets s in
  let s := rkx_unregister_signal s in
  let s := rkx_unregister_binder s in
  let s := log_action SynchronizeTracepoints s in
  let s := rkx_unregister_genl s in
  let s := log_action DestroyRules (set_tables (m_uids s) (rkx_destroy_free_async (m_rules s)) s) in
  log_action DestroyUids (set_tables (rkx_destroy_net_uid (m_uids s)) (m_rules s) s).

Definition rkx_init nets s : Z * module_state :=
  let s := set_tables (rkx_init_net_uid (m_uids s)) (rkx_init_free_async (m_rules s)) s in
  let '(rc, s) := rkx_register_genl s in
  if negb (rc =? RKX_SUCCESS) then (RKX_ERROR, rkx_exit nets s) else
  let '(rc, s) := rkx_register_binder s in
  if negb (rc =? RKX_SUCCESS) then (RKX_ERROR, rkx_exit nets s) else
  let '(rc, s) := rkx_register_signal s in
  if negb (rc =? RKX_SUCCESS) then (RKX_ERROR, rkx_exit nets s) else
  let '(rc, s) := rkx_register_netfilter nets s in
  if negb (rc =? RKX_SUCCESS) then (RKX_ERROR, rkx_exit nets s) else
  (RKX_SUCCESS, rkx_register_binder_kp s).

(** ** The flags say what is registered *)

Definition holds nets s (r : resource) : bool :=
  match r with
  | RGenlFamily => rkx_genl_registered s
  | RTraceAllocBuf => rkx_alloc_buf_hooked s
  | RTraceReply => rkx_reply_hooked s
  | RTraceTrans => rkx_trans_hooked s
  | RTraceSignal => rkx_signal_hooked s
  | RNetHooks net => rkx_netfilter_registered s && bool_decide (net ∈ nets)
  | RKprobeKallsyms => false
  | RKprobeProcTransaction => rkx_kp_registered s
  | RWorkqueue => rkx_free_wq s
  end.

Record tracks nets s : Prop := {
  tr_nodup : NoDup (k_live s);
  tr_live r : r ∈ k_live s <-> holds nets s r = true;
}.

Lemma elem_of_unregister (r r' : resource) l :
  NoDup l -> r' ∈ walk_del (fun x => bool_decide (x = r)) l <-> r' ∈ l /\ r' <> r.
Proof.
  induction 1 as [|x l Hx Hl IH]; cbn [walk_del]; [set_solver|].
  case_bool_decide as E; [subst|rewrite elem_of_cons, IH]; set_solver.
Qed.

Lemma unregister_live r s :
  r ∈ k_live s -> kernel_unregister r s
  = set_kernel (walk_del (fun x => bool_decide (x = r)) (k_live s)) (k_warn s)
      (k_log s ++ [Unregister r]) s.
Proof. intros Hr. unfold kernel_unregister. by rewrite bool_decide_eq_true_2. Qed.

Lemma tracks_register nets s s' r :
  tracks nets s -> holds nets s r = false -> k_live s' = r :: k_live s ->
  holds nets s' r = true -> (forall r', r' <> r -> holds nets s' r' = holds nets s r') ->
  tracks nets s'.
Proof.
  intros [Hnd Hlive] Hr Hl Hr' Hother. split.
  - rewrite Hl. constructor; [|done]. rewrite Hlive, Hr. done.
  - intros r'. rewrite Hl, elem_of_cons, Hlive. destruct (decide (r' = r)) as [->|Hne].
    + naive_solver.
    + rewrite Hother by done. naive_solver.
Qed.

Lemma tracks_unregister nets s s' r :
  tracks nets s -> k_live s' = walk_del (fun x => bool_decide (x = r)) (k_live s) ->
  holds nets s' r = false -> (forall r', r' <> r -> holds nets s' r' = holds nets s r') ->
  tracks nets s'.
Proof.
  intros [Hnd Hlive] Hl Hr Hother. split.
  - rewrite Hl. eapply sublist_NoDup; [done|apply walk_del_sublist].
  - intros r'. rewrite Hl, elem_of_unregister, Hlive by done.
    destruct (decide (r' = r)) as [->|Hne].
    + rewrite Hr. naive_solver.
    + rewrite Hother by done. naive_solver.
Qed.

Lemma tracks_same nets s s' :
  tracks nets s -> k_live s' = k_live s -> (forall r, holds nets s' r = holds nets s r) ->
  tracks nets s'.
Proof. intros [Hnd Hlive] Hl Hh. split; rewrite Hl; [done|]. intros r. by rewrite Hlive, Hh. Qed.

(** ** Releasing *)

Definition is_net_hooks (r : resource) : bool := match r with RNetHooks _ => true | _ => false end.

(** From [s] to [s'] the resources in [p] were released, silently, and nothing
    else changed. *)
Record releases nets (p : resource -> bool) s s' : Prop := {
  rel_tracks : tracks nets s';
  rel_warn : k_warn s' = k_warn s;
  rel_gone r : p r = true -> holds nets s' r = false;
  rel_kept r : p r = false -> holds nets s' r = holds nets s r;
  rel_netfilter : rkx_netfilter_registered s'
    = if p (RNetHooks 0) then false else rkx_netfilter_registered s;
  rel_uids : m_uids s' = m_uids s;
  rel_rules : m_rules s' = m_rules s;
}.

Lemma releases_trans nets p q s s1 s2 :
  releases nets p s s1 -> releases nets q s1 s2 ->
  releases nets (fun r => p r || q r) s s2.
Proof.
  intros R1 R2. split.
  - apply R2.
  - by rewrite (rel_warn _ _ _ _ R2), (rel_warn _ _ _ _ R1).
  - intros r Hr. destruct (q r) eqn:Eq; [by apply (rel_gone _ _ _ _ R2)|].
    rewrite orb_false_r in Hr. rewrite (rel_kept _ _ _ _ R2) by done.
    by apply (rel_gone _ _ _ _ R1).
  - intros r Hr. apply orb_false_elim in Hr as [Hp Hq].
    by rewrite (rel_kept _ _ _ _ R2), (rel_kept _ _ _ _ R1).
  - rewrite (rel_netfilter _ _ _ _ R2), (rel_netfilter _ _ _ _ R1).
    by destruct (p (RNetHooks 0)), (q (RNetHooks 0)).
  - by rewrite (rel_uids _ _ _ _ R2), (rel_uids _ _ _ _ R1).
  - by rewrite (rel_rules _ _ _ _ R2), (rel_rules _ _ _ _ R1).
Qed.

(** Nothing registered, nothing to do. *)
Lemma releases_nothing nets r s :
  tracks nets s -> holds nets s r = false -> is_net_hooks r = false ->
  releases nets (fun r' => bool_decide (r' = r)) s s.
Proof.
  intros Ht Hr Hn. split; try done.
  - intros r' Hr'. bool_facts. by subst.
  - rewrite bool_decide_eq_false_2; [done|]. by intros <-.
Qed.

(** One registered resource, its flag cleared with it. *)
Lemma releases_one nets r s s' :
  tracks nets s -> holds nets s r = true ->
  k_live s' = k_live (kernel_unregister r s) -> k_warn s' = k_warn (kernel_unregister r s) ->
  holds nets s' r = false -> (forall r', r' <> r -> holds nets s' r' = holds nets s r') ->
  is_net_hooks r = false -> rkx_netfilter_registered s' = rkx_netfilter_registered s ->
  m_uids s' = m_uids s -> m_rules s' = m_rules s ->
  releases nets (fun r' => bool_decide (r' = r)) s s'.
Proof.
  intros Ht Hr Hl Hw Hr' Hother Hn Hnf Hu Hru.
  rewrite unregister_live in Hl, Hw by (by apply (tr_live _ _ Ht)).
  split; try done.
  - by apply (tracks_unregister nets s s' r).
  - intros r0 Hr0. bool_facts. by subst.
  - intros r0 Hr0. bool_facts. by apply Hother.
  - rewrite bool_decide_eq_false_2; [done|]. by intros <-.
Qed.

(** Goals about one field of a state after a kernel call. *)
Ltac flag_frame :=
  unfold kernel_unregister, log_action; cbn [set_kernel k_live]; case_bool_decide;
  first [done | intros []; cbn; congruence].

Lemma unregister_genl_releases nets s :
  tracks nets s ->
  releases nets (fun r => bool_decide (r = RGenlFamily)) s (rkx_unregister_genl s).
Proof.
  intros Ht. unfold rkx_unregister_genl. destruct (rkx_genl_registered s) eqn:E.
  - apply releases_one; try done; flag_frame.
  - by apply releases_nothing.
Qed.

Lemma unregister_signal_releases nets s :
  tracks nets s ->
  releases nets (fun r => bool_decide (r = RTraceSignal)) s (rkx_unregister_signal s).
Proof.
  intros Ht. unfold rkx_unregister_signal. destruct (rkx_signal_hooked s) eqn:E.
  - apply releases_one; try done; flag_frame.
  - by apply releases_nothing.
Qed.

Lemma unregister_binder_releases nets s :
  tracks nets s ->
  releases nets (fun r => bool_decide (r = RTraceTrans) || bool_decide (r = RTraceReply)
                          || bool_decide (r = RTraceAllocBuf)) s (rkx_unregister_binder s).
Proof.
  intros Ht. unfold rkx_unregister_binder.
  set (s1 := if rkx_trans_hooked s then _ else s).
  assert (R1 : releases nets (fun r => bool_decide (r = RTraceTrans)) s s1).
  { subst s1. destruct (rkx_trans_hooked s) eqn:E; [|by apply releases_nothing].
    apply releases_one; try done; flag_frame. }
  set (s2 := if rkx_reply_hooked s1 then _ else s1).
  assert (R2 : releases nets (fun r => bool_decide (r = RTraceReply)) s1 s2).
  { pose proof (rel_tracks _ _ _ _ R1). subst s2.
    destruct (rkx_reply_hooked s1) eqn:E; [|by apply releases_nothing].
    apply releases_one; try done; flag_frame. }
  eapply releases_trans; [by eapply releases_trans|].
  pose proof (rel_tracks _ _ _ _ R2).
  destruct (rkx_alloc_buf_hooked s2) eqn:E; [|by apply releases_nothing].
  apply releases_one; try done; flag_frame.
Qed.

Lemma unregister_kp_releases nets s :
  tracks nets s ->
  releases nets (fun r => bool_decide (r = RKprobeProcTransaction) || bool_decide (r = RWorkqueue))
    s (rkx_unregister_binder_kp s).
Proof.
  intros Ht. unfold rkx_unregister_binder_kp.
  set (s1 := if rkx_kp_registered s then _ else s).
  assert (R1 : releases nets (fun r => bool_decide (r = RKprobeProcTransaction)) s s1).
  { subst s1. destruct (rkx_kp_registered s) eqn:E; [|by apply releases_nothing].
    apply releases_one; try done; flag_frame. }
  eapply releases_trans; [exact R1|]. pose proof (rel_tracks _ _ _ _ R1).
  destruct (rkx_free_wq s1) eqn:E; [|by apply releases_nothing].
  apply releases_one; try done; flag_frame.
Qed.

(** ** The netfilter hooks of every namespace *)

(** [s'] differs from [s] in the kernel's books only. *)
Definition same_flags s s' : Prop := s' = set_kernel (k_live s') (k_warn s') (k_log s') s.

Lemma same_flags_unregister r s : same_flags s (kernel_unregister r s).
Proof. unfold same_flags, kernel_unregister. by case_bool_decide. Qed.

Lemma same_flags_trans s s1 s2 : same_flags s s1 -> same_flags s1 s2 -> same_flags s s2.
Proof. unfold same_flags. intros E1 E2. rewrite E2 at 1. rewrite E1. done. Qed.

Lemma same_flags_holds nets s s' r : same_flags s s' -> holds nets s' r = holds nets s r.
Proof. intros ->. by destruct r. Qed.

Lemma filter_ext_in {A} (P Q : A -> Prop) `{!forall x, Decision (P x), !forall x, Decision (Q x)}
    (l : list A) : (forall x, x ∈ l -> P x <-> Q x) -> filter P l = filter Q l.
Proof.
  induction l as [|x l IH]; intros He; [done|]. rewrite !filter_cons.
  rewrite IH by (intros y Hy; apply He; by right).
  destruct (decide (P x)), (decide (Q x)); try done; exfalso; specialize (He x ltac:(by left)); tauto.
Qed.

Lemma filter_none {A} (P : A -> Prop) `{!forall x, Decision (P x)} (l : list A) :
  (forall x, x ∈ l -> ~ P x) -> filter P l = [].
Proof.
  induction l as [|x l IH]; intros Hn; [done|]. rewrite filter_cons, decide_False by (apply Hn; by left).
  apply IH. intros y Hy. apply Hn. by right.
Qed.

Lemma filter_all {A} (P : A -> Prop) `{!forall x, Decision (P x)} (l : list A) :
  (forall x, x ∈ l -> P x) -> filter P l = l.
Proof.
  induction l as [|x l IH]; intros Hn; [done|]. rewrite filter_cons, decide_True by (apply Hn; by left).
  f_equal. apply IH. intros y Hy. apply Hn. by right.
Qed.

Lemma unregister_hooks_fold nets s :
  NoDup (k_live s) ->
  let s' := rkx_unregister_netfilter_hooks nets s in
  same_flags s s' /\ NoDup (k_live s')
  /\ (forall r, r ∈ k_live s' <-> r ∈ k_live s /\ forall n, n ∈ nets -> r <> RNetHooks n)
  /\ (NoDup nets ->
      k_warn s' = k_warn s ++ (RNetHooks <$> filter (fun n => RNetHooks n ∉ k_live s) nets)).
Proof.
  unfold rkx_unregister_netfilter_hooks. revert s.
  induction nets as [|net nets IH]; intros s Hnd; cbn [foldl].
  { split_and!; try done; [by destruct s|intros r; set_solver|]. intros _. by rewrite app_nil_r. }
  assert (Hnd' : NoDup (k_live (kernel_unregister (RNetHooks net) s))
    /\ forall r, r ∈ k_live (kernel_unregister (RNetHooks net) s)
         <-> r ∈ k_live s /\ r <> RNetHooks net).
  { unfold kernel_unregister. case_bool_decide as Hin; cbn [set_kernel k_live].
    - split; [eapply sublist_NoDup; [done|apply walk_del_sublist]|]. intros r. by apply elem_of_unregister.
    - split; [done|]. intros r. split; [|tauto]. intros Hr. split; [done|]. by intros ->. }
  destruct Hnd' as [Hnd' Hlive']. destruct (IH _ Hnd') as (Hf & Hn & Hl & Hw). split_and!.
  - eapply same_flags_trans; [apply same_flags_unregister|exact Hf].
  - done.
  - intros r. rewrite Hl, Hlive'. set_solver.
  - intros [Hnew Hnets]%NoDup_cons. rewrite Hw by done.
    rewrite (filter_ext_in _ (fun n => RNetHooks n ∉ k_live s)).
    2:{ intros n Hn'. rewrite Hlive'. split; [|tauto]. intros Hno Hin. apply Hno. split; [done|].
        by intros [= ->]. }
    rewrite filter_cons. unfold kernel_unregister.
    case_bool_decide; [by rewrite decide_False by tauto|]. rewrite decide_True by done.
    cbn [set_kernel k_warn fmap list_fmap]. by rewrite <- app_assoc.
Qed.

Lemma unregister_netfilter_releases nets s :
  NoDup nets -> tracks nets s -> releases nets is_net_hooks s (rkx_unregister_netfilter nets s).
Proof.
  intros Hnets Ht. unfold rkx_unregister_netfilter. destruct (rkx_netfilter_registered s) eqn:E.
  2:{ split; try done. intros []; try done. cbn. by rewrite E. }
  destruct (unregister_hooks_fold nets s (tr_nodup _ _ Ht)) as (Hf & Hn & Hl & Hw).
  set (s' := rkx_unregister_netfilter_hooks nets s) in *.
  assert (Hflag : forall r, holds nets s' r = holds nets s r) by (intros; by apply same_flags_holds).
  assert (Hholds : forall r, holds nets (set_netfilter false s') r
    = if is_net_hooks r then false else holds nets s r).
  { intros r. rewrite <- (Hflag r). by destruct r. }
  split.
  - split; [done|]. intros r. change (k_live (set_netfilter false s')) with (k_live s').
    rewrite Hl, (tr_live _ _ Ht), Hholds. destruct r; cbn; try (split; [tauto|by split]; fail).
    all: try (split; [intros [? _]; done|intros; split; [done|by intros]]; fail).
    rewrite E. cbn. split; [|done]. intros [Hin%bool_decide_eq_true Hne]. by destruct (Hne net).
  - change (k_warn s' = k_warn s). rewrite Hw, filter_none; [by rewrite app_nil_r| |done].
    intros n Hin Hno. apply Hno, (tr_live _ _ Ht). cbn. rewrite E. by apply bool_decide_eq_true.
  - intros r Hr. by rewrite Hholds, Hr.
  - intros r Hr. by rewrite Hholds, Hr.
  - done.
  - change (m_uids s' = m_uids s). by rewrite Hf.
  - change (m_rules s' = m_rules s). by rewrite Hf.
Qed.

(** ** Unloading *)

Lemma log_releases nets a s :
  tracks nets s -> releases nets (fun _ => false) s (log_action a s).
Proof. intros Ht. split; try done; first [by apply (tracks_same nets s) | by intros []]. Qed.

Definition unregister_all nets s : module_state :=
  rkx_unregister_genl (log_action SynchronizeTracepoints (rkx_unregister_binder
    (rkx_unregister_signal (rkx_unregister_netfilter nets (rkx_unregister_binder_kp s))))).

Lemma unregister_all_releases nets s :
  NoDup nets -> tracks nets s ->
  releases nets (fun r => negb (bool_decide (r = RKprobeKallsyms))) s (unregister_all nets s).
Proof.
  intros Hnets Ht. unfold unregister_all.
  pose proof (unregister_kp_releases nets s Ht) as R1.
  pose proof (unregister_netfilter_releases nets _ Hnets (rel_tracks _ _ _ _ R1)) as R2.
  pose proof (unregister_signal_releases nets _ (rel_tracks _ _ _ _ R2)) as R3.
  pose proof (unregister_binder_releases nets _ (rel_tracks _ _ _ _ R3)) as R4.
  pose proof (log_releases nets SynchronizeTracepoints _ (rel_tracks _ _ _ _ R4)) as R5.
  pose proof (unregister_genl_releases nets _ (rel_tracks _ _ _ _ R5)) as R6.
  pose proof (releases_trans _ _ _ _ _ _ (releases_trans _ _ _ _ _ _ (releases_trans _ _ _ _ _ _
    (releases_trans _ _ _ _ _ _ (releases_trans _ _ _ _ _ _ R1 R2) R3) R4) R5) R6) as R.
  destruct R as [Rt Rw Rg Rk Rn Ru Rr]. split; try done.
  - intros r Hr. apply Rg. by destruct r.
  - intros r Hr. apply Rk. by destruct r.
Qed.

Lemma destroy_unfold s :
  (let s1 := log_action DestroyRules (set_tables (m_uids s) (rkx_destroy_free_async (m_rules s)) s) in
   log_action DestroyUids (set_tables (rkx_destroy_net_uid (m_uids s1)) (m_rules s1) s1))
  = log_action DestroyUids (log_action DestroyRules (set_tables
      (rkx_destroy_net_uid (m_uids s)) (rkx_destroy_free_async (m_rules s)) s)).
Proof. done. Qed.

Lemma exit_unfold nets s :
  rkx_exit nets s
  = log_action DestroyUids (log_action DestroyRules (set_tables
      (rkx_destroy_net_uid (m_uids (unregister_all nets s)))
      (rkx_destroy_free_async (m_rules (unregister_all nets s))) (unregister_all nets s))).
Proof. rewrite <- destroy_unfold. reflexivity. Qed.

(** Nothing is registered and no flag is set. *)
Definition all_released nets s : Prop :=
  k_live s = [] /\ rkx_netfilter_registered s = false /\ forall r, holds nets s r = false.

Lemma exit_spec nets s :
  NoDup nets -> tracks nets s ->
  all_released nets (rkx_exit nets s) /\ k_warn (rkx_exit nets s) = k_warn s
  /\ m_uids (rkx_exit nets s) = rkx_destroy_net_uid (m_uids s)
  /\ m_rules (rkx_exit nets s) = rkx_destroy_free_async (m_rules s).
Proof.
  intros Hnets Ht. rewrite exit_unfold.
  destruct (unregister_all_releases nets s Hnets Ht) as [Rt Rw Rg Rk Rn Ru Rr].
  assert (Hgone : forall r, holds nets (unregister_all nets s) r = false).
  { intros r. destruct (decide (r = RKprobeKallsyms)) as [->|Hne]; [done|].
    apply Rg. by rewrite bool_decide_eq_false_2. }
  generalize dependent (unregister_all nets s). intros u Rt Rw Rg Rk Rn Ru Rr Hgone.
  unfold log_action, set_tables, set_kernel. cbn [m_uids m_rules k_warn k_live].
  rewrite Ru, Rr. split_and!; try done. split_and!.
  - cbn [k_live]. apply elem_of_nil_inv. intros r Hr%(tr_live _ _ Rt). by rewrite Hgone in Hr.
  - exact Rn.
  - intros r. rewrite <- (Hgone r). by destruct r.
Qed.

(** ** Loading *)

(** The state in which the module is loaded. *)
Definition fresh s : Prop := forall nets, all_released nets s.

Lemma released_tracks nets s : all_released nets s -> tracks nets s.
Proof.
  intros (Hl & _ & Hh). split; rewrite Hl; [constructor|]. intros r. rewrite Hh.
  split; [by intros ?%elem_of_nil|done].
Qed.

(** From [s] to [s'] only the resources in [p] changed hands. *)
Record moves nets (p : resource -> bool) s s' : Prop := {
  mv_tracks : tracks nets s';
  mv_kept r : p r = false -> holds nets s' r = holds nets s r;
  mv_netfilter : p (RNetHooks 0) = false ->
    rkx_netfilter_registered s' = rkx_netfilter_registered s;
  mv_uids : m_uids s' = m_uids s;
  mv_rules : m_rules s' = m_rules s;
}.

Lemma releases_moves nets p s s' : releases nets p s s' -> moves nets p s s'.
Proof.
  intros R. split; try apply R. intros Hp. by rewrite (rel_netfilter _ _ _ _ R), Hp.
Qed.

Lemma moves_trans nets p q s s1 s2 :
  moves nets p s s1 -> moves nets q s1 s2 -> (forall r, q r = true -> p r = true) ->
  moves nets p s s2.
Proof.
  intros M1 M2 Hqp. split.
  - apply M2.
  - intros r Hr. rewrite (mv_kept _ _ _ _ M2); [by apply M1|].
    destruct (q r) eqn:E; [|done]. apply Hqp in E. congruence.
  - intros Hp. rewrite (mv_netfilter _ _ _ _ M2); [by apply M1|].
    destruct (q (RNetHooks 0)) eqn:E; [|done]. apply Hqp in E. congruence.
  - by rewrite (mv_uids _ _ _ _ M2), (mv_uids _ _ _ _ M1).
  - by rewrite (mv_rules _ _ _ _ M2), (mv_rules _ _ _ _ M1).
Qed.

Lemma acquires_one nets r s s' :
  tracks nets s -> holds nets s r = false -> k_live s' = r :: k_live s ->
  holds nets s' r = true -> (forall r', r' <> r -> holds nets s' r' = holds nets s r') ->
  rkx_netfilter_registered s' = rkx_netfilter_registered s ->
  m_uids s' = m_uids s -> m_rules s' = m_rules s ->
  moves nets (fun r' => bool_decide (r' = r)) s s'.
Proof.
  intros Ht Hr Hl Hr' Hother Hnf Hu Hru. split; try done.
  - by apply (tracks_register nets s s' r).
  - intros r0 Hr0. bool_facts. by apply Hother.
Qed.

Lemma register_genl_moves nets s :
  tracks nets s -> rkx_genl_registered s = false ->
  let '(rc, s') := rkx_register_genl s in
  moves nets (fun r => bool_decide (r = RGenlFamily)) s s' /\ k_warn s' = k_warn s
  /\ rkx_genl_registered s' = (rc =? RKX_SUCCESS).
Proof.
  intros Ht Hf. unfold rkx_register_genl. destruct (_ =? 0); cbn [negb]; split_and!; try done.
  apply acquires_one; try done. by intros [].
Qed.

Lemma register_signal_moves nets s :
  tracks nets s -> rkx_signal_hooked s = false ->
  let '(rc, s') := rkx_register_signal s in
  moves nets (fun r => bool_decide (r = RTraceSignal)) s s' /\ k_warn s' = k_warn s
  /\ rkx_signal_hooked s' = (rc =? RKX_SUCCESS).
Proof.
  intros Ht Hf. unfold rkx_register_signal.
  destruct (_ =? RKX_SUCCESS) eqn:E; cbn [negb]; split_and!; try done.
  - apply acquires_one; try done. by intros [].
  - by rewrite E.
Qed.

Definition is_binder_trace (r : resource) : bool :=
  match r with RTraceAllocBuf | RTraceReply | RTraceTrans => true | _ => false end.

Definition binder_flags s : list bool :=
  [rkx_alloc_buf_hooked s; rkx_reply_hooked s; rkx_trans_hooked s].

(** Unwinding from any point of the registration. *)
Lemma binder_unwind nets s s1 rc :
  moves nets is_binder_trace s s1 -> k_warn s1 = k_warn s -> (rc =? RKX_SUCCESS) = false ->
  moves nets is_binder_trace s (rkx_unregister_binder s1)
  /\ k_warn (rkx_unregister_binder s1) = k_warn s
  /\ binder_flags (rkx_unregister_binder s1) = replicate 3 (rc =? RKX_SUCCESS).
Proof.
  intros M Hw ->. pose proof (unregister_binder_releases nets s1 (mv_tracks _ _ _ _ M)) as R.
  split_and!.
  - eapply moves_trans; [exact M|apply releases_moves, R|]. by intros [].
  - by rewrite (rel_warn _ _ _ _ R).
  - unfold binder_flags. cbn [replicate].
    by rewrite (rel_gone _ _ _ _ R RTraceAllocBuf eq_refl : rkx_alloc_buf_hooked _ = false),
      (rel_gone _ _ _ _ R RTraceReply eq_refl : rkx_reply_hooked _ = false),
      (rel_gone _ _ _ _ R RTraceTrans eq_refl : rkx_trans_hooked _ = false).
Qed.

Lemma moves_binder_one nets r s s1 s' :
  is_binder_trace r = true -> moves nets is_binder_trace s s1 ->
  moves nets (fun r' => bool_decide (r' = r)) s1 s' -> moves nets is_binder_trace s s'.
Proof.
  intros Hr M1 M2. eapply moves_trans; [exact M1|exact M2|]. by intros r' ->%bool_decide_eq_true.
Qed.

Lemma moves_refl nets p s : tracks nets s -> moves nets p s s.
Proof. by split. Qed.

Lemma register_binder_moves nets s :
  tracks nets s -> binder_flags s = replicate 3 false ->
  let '(rc, s') := rkx_register_binder s in
  moves nets is_binder_trace s s' /\ k_warn s' = k_warn s
  /\ binder_flags s' = replicate 3 (rc =? RKX_SUCCESS).
Proof.
  intros Ht [= Ha Hrp Htr]. unfold rkx_register_binder.
  pose proof (moves_refl nets is_binder_trace s Ht) as M0.
  destruct (_ =? RKX_SUCCESS) eqn:E1; cbn [negb]; [|by apply binder_unwind].
  set (s1 := set_binder _ _ _ (kernel_register RTraceAllocBuf s)).
  assert (M1 : moves nets is_binder_trace s s1).
  { eapply (moves_binder_one nets RTraceAllocBuf); [done|exact M0|].
    apply acquires_one; try done. by intros []. }
  destruct (register_rc env RTraceReply =? RKX_SUCCESS) eqn:E2; cbn [negb]; [|by apply binder_unwind].
  set (s2 := set_binder _ _ _ (kernel_register RTraceReply s1)).
  assert (M2 : moves nets is_binder_trace s s2).
  { eapply (moves_binder_one nets RTraceReply); [done|exact M1|].
    apply acquires_one; try done; [apply M1|]. by intros []. }
  destruct (register_rc env RTraceTrans =? RKX_SUCCESS) eqn:E3; cbn [negb]; [|by apply binder_unwind].
  split; [|done]. eapply (moves_binder_one nets RTraceTrans); [done|exact M2|].
  apply acquires_one; try done; [apply M2|]. by intros [].
Qed.

(** The namespaces whose hooks are not registered: from the first one that
    refuses on. *)
Fixpoint nets_left nets : list nat :=
  match nets with
  | [] => []
  | net :: rest => if register_rc env (RNetHooks net) =? RKX_SUCCESS then nets_left rest else nets
  end.

Lemma register_nets_spec nets s :
  let '(rc, s') := register_nets nets s in
  same_flags s s' /\ k_warn s' = k_warn s
  /\ (rc =? RKX_SUCCESS) = bool_decide (nets_left nets = [])
  /\ exists ok, nets = ok ++ nets_left nets /\ k_live s' = reverse (RNetHooks <$> ok) ++ k_live s.
Proof.
  revert s. induction nets as [|net nets IH]; intros s; cbn [register_nets nets_left].
  { split_and!; [by destruct s|done..|]. by exists []. }
  destruct (_ =? RKX_SUCCESS) eqn:E; cbn [negb].
  - specialize (IH (kernel_register (RNetHooks net) s)).
    destruct (register_nets nets _) as [rc s']. destruct IH as (Hf & Hw & Hrc & ok & Hn & Hl).
    split_and!; [by eapply same_flags_trans; [|exact Hf]|done|done|].
    exists (net :: ok). split; [cbn; by rewrite <- Hn|].
    rewrite Hl, fmap_cons, reverse_cons. by rewrite <- app_assoc.
  - split_and!; [by destruct s|done|by rewrite E|]. by exists [].
Qed.

Lemma NoDup_app_hooks (ok : list nat) live :
  NoDup ok -> NoDup live -> (forall n, RNetHooks n ∉ live) ->
  NoDup (reverse (RNetHooks <$> ok) ++ live).
Proof.
  intros Hok Hlive Hout. apply NoDup_app. split_and!; [| |done].
  - rewrite reverse_Permutation. apply NoDup_fmap_2; [|done]. by intros ?? [= ->].
  - intros r Hr. rewrite elem_of_reverse, list_elem_of_fmap in Hr.
    destruct Hr as (n & -> & _). apply Hout.
Qed.

Lemma register_netfilter_moves nets s :
  NoDup nets -> tracks nets s -> (forall n, RNetHooks n ∉ k_live s) ->
  rkx_netfilter_registered s = false ->
  let '(rc, s') := rkx_register_netfilter nets s in
  moves nets is_net_hooks s s' /\ rkx_netfilter_registered s' = (rc =? RKX_SUCCESS)
  /\ k_warn s' = k_warn s ++ (RNetHooks <$> nets_left nets)
  /\ (rc =? RKX_SUCCESS) = bool_decide (nets_left nets = []).
Proof.
  intros Hnets Ht Hout Hf. unfold rkx_register_netfilter.
  pose proof (register_nets_spec nets s) as Hspec. destruct (register_nets nets s) as [rc s1].
  destruct Hspec as (Hsf & Hw & Hrc & ok & Hn & Hl). generalize dependent (nets_left nets).
  intros rest Hrc Hn.
  assert (Hnd : NoDup (k_live s1)).
  { rewrite Hl. apply NoDup_app_hooks; [|apply Ht|done]. subst nets. by apply NoDup_app in Hnets as [? _]. }
  assert (Hin : forall r, r ∈ k_live s1 <-> (exists n, n ∈ ok /\ r = RNetHooks n) \/ r ∈ k_live s).
  { intros r. rewrite Hl, elem_of_app, elem_of_reverse, list_elem_of_fmap. naive_solver. }
  destruct (Z.eqb_spec rc RKX_SUCCESS) as [Erc|Erc]; cbn [negb].
  - symmetry in Hrc. bool_facts. subst rest rc. rewrite app_nil_r in Hn. subst ok.
    split_and!; [|done|by rewrite app_nil_r|done]. split.
    + split; [done|]. intros r. change (k_live (set_netfilter true s1)) with (k_live s1).
      rewrite Hin, (tr_live _ _ Ht). rewrite <- (same_flags_holds nets s s1 r Hsf).
      assert (Hf1 : rkx_netfilter_registered s1 = false) by (by rewrite Hsf).
      destruct r; cbn; rewrite ?Hf1; cbn;
        try (split; [intros [(n & _ & [=])|?]; done|by right]).
      rewrite bool_decide_eq_true. naive_solver.
    + intros r Hr. rewrite <- (same_flags_holds nets s s1 r Hsf). by destruct r.
    + discriminate.
    + change (m_uids s1 = m_uids s). by rewrite Hsf.
    + change (m_rules s1 = m_rules s). by rewrite Hsf.
  - destruct (unregister_hooks_fold nets s1 Hnd) as (Hsf2 & Hnd2 & Hl2 & Hw2).
    set (s2 := rkx_unregister_netfilter_hooks nets s1) in *.
    assert (Hsf' : same_flags s s2) by (by eapply same_flags_trans).
    split_and!; [|change (rkx_netfilter_registered s2 = false); by rewrite Hsf'| |done].
    2:{ rewrite Hw2, Hw by done. do 2 f_equal. subst nets. rewrite filter_app.
        apply NoDup_app in Hnets as (_ & Hdis & _).
        rewrite filter_none by (intros n Hok Hno; apply Hno, Hin; naive_solver). apply filter_all.
        intros n Hrest [(m & Hok & [= ->])|Hold]%Hin; [by destruct (Hdis m)|by destruct (Hout n)]. }
    split.
    + split; [done|]. intros r. rewrite Hl2, Hin, (same_flags_holds nets s s2 r Hsf'), <- (tr_live _ _ Ht).
      split; [|intros Hr; split; [by right|]; intros n _ ->; by destruct (Hout n)].
      intros [[(n & Hok & ->)|Hr] Hno]; [|done]. destruct (Hno n); [|done]. subst nets. set_solver.
    + intros r _. by apply same_flags_holds.
    + discriminate.
    + by rewrite Hsf'.
    + by rewrite Hsf'.
Qed.

Definition is_kp (r : resource) : bool :=
  match r with RKprobeProcTransaction | RWorkqueue => true | _ => false end.

(** The lookup probe is gone again as soon as its address was read. *)
Lemma kallsyms_probe nets s :
  tracks nets s ->
  let s' := kernel_unregister RKprobeKallsyms (kernel_register RKprobeKallsyms s) in
  moves nets (fun _ => false) s s' /\ k_warn s' = k_warn s
  /\ rkx_kp_registered s' = rkx_kp_registered s /\ rkx_free_wq s' = rkx_free_wq s.
Proof.
  intros Ht. cbv zeta. rewrite unregister_live by (cbn; set_solver). cbn.
  split_and!; try done. split; try done; first [by apply (tracks_same nets s) | by intros []].
Qed.

Lemma kp_unwind nets s s1 :
  moves nets is_kp s s1 -> k_warn s1 = k_warn s ->
  moves nets is_kp s (rkx_unregister_binder_kp s1)
  /\ k_warn (rkx_unregister_binder_kp s1) = k_warn s.
Proof.
  intros M Hw. pose proof (unregister_kp_releases nets s1 (mv_tracks _ _ _ _ M)) as R. split.
  - eapply moves_trans; [exact M|apply releases_moves, R|]. by intros [].
  - by rewrite (rel_warn _ _ _ _ R).
Qed.

Lemma register_kp_moves nets s :
  tracks nets s -> rkx_kp_registered s = false -> rkx_free_wq s = false ->
  moves nets is_kp s (rkx_register_binder_kp s) /\ k_warn (rkx_register_binder_kp s) = k_warn s.
Proof.
  intros Ht Hkp Hwq. unfold rkx_register_binder_kp.
  pose proof (moves_refl nets is_kp s Ht) as M0.
  destruct (alloc_workqueue_ok env); cbn [negb]; [|by apply kp_unwind].
  set (s1 := set_kp (rkx_kp_registered s) true _).
  assert (M1 : moves nets is_kp s s1).
  { eapply moves_trans; [exact M0|apply (acquires_one nets RWorkqueue); try done; by intros []|].
    by intros r ->%bool_decide_eq_true. }
  destruct (register_rc env RKprobeKallsyms =? RKX_SUCCESS); cbn [negb]; [|by apply kp_unwind].
  destruct (kallsyms_probe nets s1 (mv_tracks _ _ _ _ M1)) as (M2 & Hw2 & Hk2 & Hq2).
  set (s2 := kernel_unregister RKprobeKallsyms (kernel_register RKprobeKallsyms s1)) in *.
  assert (M2' : moves nets is_kp s s2) by (by eapply moves_trans; [exact M1|exact M2|]).
  destruct symbols_resolved; cbn [negb]; [|by apply kp_unwind].
  destruct (register_rc env RKprobeProcTransaction =? RKX_SUCCESS); cbn [negb]; [|by apply kp_unwind].
  split; [|done]. eapply moves_trans; [exact M2'|
    apply (acquires_one nets RKprobeProcTransaction);
      [apply M2'|change (rkx_kp_registered s2 = false); by rewrite Hk2|done|done|by intros []|done|done|done]|].
  by intros r ->%bool_decide_eq_true.
Qed.

(** ** The whole of [rkx_init] *)

Definition tables_empty s : Prop :=
  net_uid_set (m_uids s) = ∅ /\ rules (m_rules s) = ∅.

Lemma exit_of_partial nets s :
  NoDup nets -> tracks nets s -> net_uid_wf (m_uids s) -> free_async_wf (m_rules s) ->
  all_released nets (rkx_exit nets s) /\ tables_empty (rkx_exit nets s).
Proof.
  intros Hnets Ht Hu Hr. destruct (exit_spec nets s Hnets Ht) as (Hrel & _ & Hu' & Hr').
  split; [done|]. unfold tables_empty. rewrite Hu', Hr'.
  split; [by apply destroy_spec|by apply destroy_refines].
Qed.

(** Every hook is in place and requests can be served. *)
Definition loaded nets s : Prop :=
  tracks nets s /\ rkx_netlink_ready s = true /\ binder_flags s = replicate 3 true
  /\ rkx_signal_hooked s = true /\ rkx_netfilter_registered s = true.

(** What the middle of [rkx_init] keeps: the flags of [q] as in [s0] and the
    tables. *)
Record midway nets (q : resource -> bool) s0 s : Prop := {
  mw_tracks : tracks nets s;
  mw_flags r : q r = false -> holds nets s r = holds nets s0 r;
  mw_netfilter : q (RNetHooks 0) = false ->
    rkx_netfilter_registered s = rkx_netfilter_registered s0;
  mw_uids : m_uids s = m_uids s0;
  mw_rules : m_rules s = m_rules s0;
}.

Lemma midway_step nets q p s0 s s' :
  midway nets q s0 s -> moves nets p s s' -> midway nets (fun r => q r || p r) s0 s'.
Proof.
  intros W M. split.
  - apply M.
  - intros r [Hq Hp]%orb_false_elim. by rewrite (mv_kept _ _ _ _ M), (mw_flags _ _ _ _ W).
  - intros [Hq Hp]%orb_false_elim. by rewrite (mv_netfilter _ _ _ _ M), (mw_netfilter _ _ _ _ W).
  - by rewrite (mv_uids _ _ _ _ M), (mw_uids _ _ _ _ W).
  - by rewrite (mv_rules _ _ _ _ M), (mw_rules _ _ _ _ W).
Qed.

(** The [err] label, reached from anywhere. *)
Lemma init_failed nets q s0 s :
  NoDup nets -> net_uid_wf (m_uids s0) -> free_async_wf (m_rules s0) -> midway nets q s0 s ->
  tables_empty (rkx_exit nets s) /\ all_released nets (rkx_exit nets s)
  /\ k_warn (rkx_exit nets s) = k_warn s.
Proof.
  intros Hnets Hu Hr W.
  destruct (exit_spec nets s Hnets (mw_tracks _ _ _ _ W)) as (_ & Hw & _). destruct (exit_of_partial nets s Hnets (mw_tracks _ _ _ _ W)) as [Hrel Hemp];
    [by rewrite (mw_uids _ _ _ _ W)|by rewrite (mw_rules _ _ _ _ W)|done].
Qed.

(** The later steps keep what the earlier ones registered. *)
Lemma loaded_after nets s1 s2 s3 s4 s5 :
  moves nets is_binder_trace s1 s2 ->
  moves nets (fun r => bool_decide (r = RTraceSignal)) s2 s3 -> moves nets is_net_hooks s3 s4 ->
  moves nets is_kp s4 s5 -> rkx_genl_registered s1 = true -> binder_flags s2 = replicate 3 true ->
  rkx_signal_hooked s3 = true -> rkx_netfilter_registered s4 = true -> loaded nets s5.
Proof.
  intros M2 M3 M4 M5 F1 [= Fa Fr Ft] F3 F4.
  assert (Hk : forall r, is_net_hooks r = false -> is_kp r = false -> holds nets s5 r = holds nets s3 r).
  { intros r Hn Hkp. by rewrite (mv_kept _ _ _ _ M5), (mv_kept _ _ _ _ M4). }
  assert (Hk2 : forall r, is_net_hooks r = false -> is_kp r = false -> r <> RTraceSignal ->
    holds nets s5 r = holds nets s2 r).
  { intros r Hn Hkp Hne. rewrite Hk by done. apply M3. by apply bool_decide_eq_false. }
  unfold loaded, binder_flags, rkx_netlink_ready. split_and!.
  - apply M5.
  - rewrite (Hk2 RGenlFamily eq_refl eq_refl ltac:(done) : rkx_genl_registered s5 = _).
    by rewrite (mv_kept _ _ _ _ M2).
  - by rewrite (Hk2 RTraceAllocBuf eq_refl eq_refl ltac:(done) : rkx_alloc_buf_hooked s5 = _),
      (Hk2 RTraceReply eq_refl eq_refl ltac:(done) : rkx_reply_hooked s5 = _),
      (Hk2 RTraceTrans eq_refl eq_refl ltac:(done) : rkx_trans_hooked s5 = _);
      cbn [holds]; rewrite Fa, Fr, Ft.
  - by rewrite (Hk RTraceSignal eq_refl eq_refl : rkx_signal_hooked s5 = _).
  - by rewrite (mv_netfilter _ _ _ _ M5).
Qed.

(** Everything registered before the packet hooks was accepted. *)
Definition hooks_accepted : bool :=
  forallb (fun r => register_rc env r =? 0)
    [RGenlFamily; RTraceAllocBuf; RTraceReply; RTraceTrans; RTraceSignal].

Lemma register_rcs s :
  ((rkx_register_genl s).1 =? RKX_SUCCESS) = (register_rc env RGenlFamily =? 0)
  /\ ((rkx_register_binder s).1 =? RKX_SUCCESS)
     = forallb (fun r => register_rc env r =? 0) [RTraceAllocBuf; RTraceReply; RTraceTrans]
  /\ ((rkx_register_signal s).1 =? RKX_SUCCESS) = (register_rc env RTraceSignal =? 0).
Proof.
  unfold rkx_register_genl, rkx_register_binder, rkx_register_signal. cbn [forallb].
  change RKX_SUCCESS with 0. split_and!.
  - by destruct (register_rc env RGenlFamily =? 0).
  - destruct (register_rc env RTraceAllocBuf =? 0) eqn:E1; cbn [negb andb fst]; [|done].
    destruct (register_rc env RTraceReply =? 0) eqn:E2; cbn [negb andb fst]; [|done].
    by destruct (register_rc env RTraceTrans =? 0) eqn:E3.
  - by destruct (register_rc env RTraceSignal =? 0) eqn:E.
Qed.

Lemma init_spec nets s :
  fresh s -> NoDup nets ->
  let '(rc, s') := rkx_init nets s in
  tables_empty s'
  /\ k_warn s' = k_warn s ++ (if hooks_accepted then RNetHooks <$> nets_left nets else [])
  /\ if hooks_accepted && bool_decide (nets_left nets = [])
     then rc = RKX_SUCCESS /\ loaded nets s' else rc = RKX_ERROR /\ all_released nets s'.
Proof.
  intros Hfresh Hnets. unfold rkx_init.
  set (s0 := set_tables _ _ s). pose proof (Hfresh nets) as (Hlive & Hnf & Hholds).
  assert (Hs0 : forall r, holds nets s0 r = false) by (intros r; rewrite <- (Hholds r); by destruct r).
  assert (Ht0 : tracks nets s0) by (by apply released_tracks; split).
  assert (W0 : midway nets (fun _ => false) s0 s0) by done.
  assert (Hfail : forall q s1 w b, midway nets q s0 s1 -> k_warn s1 = k_warn s ++ w -> b = false ->
    tables_empty (rkx_exit nets s1) /\ k_warn (rkx_exit nets s1) = k_warn s ++ w
    /\ if b : bool then RKX_ERROR = RKX_SUCCESS /\ loaded nets (rkx_exit nets s1)
       else RKX_ERROR = RKX_ERROR /\ all_released nets (rkx_exit nets s1)).
  { intros q s1 w b W <- ->.
    by destruct (init_failed nets q s0 s1 Hnets (init_wf _) (init_rules_wf _) W) as (? & ? & ->). }
  unfold hooks_accepted. cbn [forallb].
  destruct (register_rcs s0) as (R1 & _).
  pose proof (register_genl_moves nets s0 Ht0 (Hs0 RGenlFamily)) as G.
  destruct (rkx_register_genl s0) as [rc1 s1]. destruct G as (M1 & W1 & F1). cbn [fst] in R1.
  pose proof (midway_step _ _ _ _ _ _ W0 M1) as I1.
  rewrite <- R1. destruct (rc1 =? RKX_SUCCESS) eqn:E1; cbn [negb andb];
    [|eapply (Hfail _ _ _ false); [done| |done]; by rewrite app_nil_r].
  assert (B0 : binder_flags s1 = replicate 3 false).
  { unfold binder_flags. by rewrite (mw_flags _ _ _ _ I1 RTraceAllocBuf eq_refl : rkx_alloc_buf_hooked s1 = _),
      (mw_flags _ _ _ _ I1 RTraceReply eq_refl : rkx_reply_hooked s1 = _),
      (mw_flags _ _ _ _ I1 RTraceTrans eq_refl : rkx_trans_hooked s1 = _), !Hs0. }
  pose proof (register_binder_moves nets s1 (mv_tracks _ _ _ _ M1) B0) as B.
  destruct (register_rcs s1) as (_ & R2 & _). cbn [forallb] in R2.
  destruct (rkx_register_binder s1) as [rc2 s2]. destruct B as (M2 & W2 & F2). cbn [fst] in R2.
  pose proof (midway_step _ _ _ _ _ _ I1 M2) as I2.
  destruct (rc2 =? RKX_SUCCESS) eqn:E2; cbn [negb].
  2:{ rewrite andb_true_r in R2. rewrite !andb_assoc, <- andb_assoc in R2.
      replace (_ && (_ && _)) with false by (symmetry; rewrite !andb_assoc in *; by rewrite <- R2).
      eapply (Hfail _ _ _ false); [done| |done]. by rewrite app_nil_r, W2. }
  pose proof (register_signal_moves nets s2 (mv_tracks _ _ _ _ M2)
    (eq_trans (mw_flags _ _ _ _ I2 RTraceSignal eq_refl) (Hs0 _))) as G.
  destruct (register_rcs s2) as (_ & _ & R3).
  destruct (rkx_register_signal s2) as [rc3 s3]. destruct G as (M3 & W3 & F3). cbn [fst] in R3.
  pose proof (midway_step _ _ _ _ _ _ I2 M3) as I3.
  destruct (rc3 =? RKX_SUCCESS) eqn:E3; cbn [negb].
  2:{ rewrite <- R3. cbn [andb]. rewrite !andb_false_r. eapply (Hfail _ _ _ false); [done| |done].
      by rewrite app_nil_r, W3, W2. }
  symmetry in R2. bool_facts.
  repeat match goal with H : (register_rc env _ =? 0) = true |- _ => rewrite H; clear H end.
  rewrite <- R3. cbn [andb].
  assert (Hnf3 : rkx_netfilter_registered s3 = false)
    by (rewrite (mw_netfilter _ _ _ _ I3 eq_refl); exact Hnf).
  assert (Hout : forall n, RNetHooks n ∉ k_live s3).
  { intros n Hn%(tr_live _ _ (mv_tracks _ _ _ _ M3)). cbn in Hn. by rewrite Hnf3 in Hn. }
  pose proof (register_netfilter_moves nets s3 Hnets (mv_tracks _ _ _ _ M3) Hout Hnf3) as G.
  destruct (rkx_register_netfilter nets s3) as [rc4 s4]. destruct G as (M4 & F4 & W4 & R4).
  pose proof (midway_step _ _ _ _ _ _ I3 M4) as I4.
  rewrite <- R4. destruct (rc4 =? RKX_SUCCESS) eqn:E4; cbn [negb];
    [|eapply (Hfail _ _ _ false); [done| |done]; by rewrite W4, W3, W2, W1].
  destruct (register_kp_moves nets s4 (mv_tracks _ _ _ _ M4)) as [M5 W5].
  { exact (eq_trans (mw_flags _ _ _ _ I4 RKprobeProcTransaction eq_refl) (Hs0 _)). }
  { exact (eq_trans (mw_flags _ _ _ _ I4 RWorkqueue eq_refl) (Hs0 _)). }
  pose proof (midway_step _ _ _ _ _ _ I4 M5) as I5. split.
  { unfold tables_empty. rewrite (mw_uids _ _ _ _ I5), (mw_rules _ _ _ _ I5).
    split; [apply init_set|apply init_rules]. }
  split; [by rewrite W5, W4, W3, W2, W1|]. split; [done|].
  eapply loaded_after; eauto.
Qed.

(** ** Theorems *)

(** C8: loading is all or nothing: from a fresh state [rkx_init] succeeds exactly
    when the family, the four trace hooks and the packet hooks of every network
    namespace are accepted, with everything registered, the flags saying so and
    both tables empty; otherwise it fails with nothing left registered, every
    flag cleared and both tables empty.  A failure to set up the free-async probe
    is not one.  The kernel is asked to unregister something that is not
    registered in one case only, when a namespace refuses the packet hooks: then
    for exactly the namespaces from that one on. *)
Theorem init_all_or_nothing nets s :
  fresh s -> NoDup nets ->
  let '(rc, s') := rkx_init nets s in
  tables_empty s'
  /\ k_warn s' = k_warn s ++ (if hooks_accepted then RNetHooks <$> nets_left nets else [])
  /\ if hooks_accepted && bool_decide (nets_left nets = [])
     then rc = RKX_SUCCESS /\ loaded nets s' else rc = RKX_ERROR /\ all_released nets s'.
Proof. apply init_spec. Qed.

(** C33: unloading releases everything: from any state whose flags say what is
    registered, [rkx_exit] leaves nothing registered and no flag set, never
    unregisters what is not registered, and empties both tables. *)
Theorem exit_releases_everything nets s :
  NoDup nets -> tracks nets s -> net_uid_wf (m_uids s) -> free_async_wf (m_rules s) ->
  all_released nets (rkx_exit nets s) /\ k_warn (rkx_exit nets s) = k_warn s
  /\ tables_empty (rkx_exit nets s).
Proof.
  intros Hnets Ht Hu Hr. destruct (exit_of_partial nets s Hnets Ht Hu Hr) as [Hrel Hemp].
  by destruct (exit_spec nets s Hnets Ht) as (_ & Hw & _).
Qed.

Lemma kernel_unregister_log r s : k_log (kernel_unregister r s) = k_log s ++ [Unregister r].
Proof. unfold kernel_unregister. by case_bool_decide. Qed.

Lemma unregister_hooks_log nets s :
  k_log (rkx_unregister_netfilter_hooks nets s)
  = k_log s ++ ((fun n => Unregister (RNetHooks n)) <$> nets).
Proof.
  unfold rkx_unregister_netfilter_hooks. revert s.
  induction nets as [|n nets IH]; intros s; cbn [foldl]; [by rewrite app_nil_r|].
  rewrite IH, kernel_unregister_log, <- app_assoc. done.
Qed.

(** Kernel calls leave every flag alone. *)
Lemma same_flags_fields s s' :
  same_flags s s' ->
  binder_flags s' = binder_flags s /\ rkx_kp_registered s' = rkx_kp_registered s
  /\ rkx_free_wq s' = rkx_free_wq s.
Proof. by intros ->. Qed.

Lemma unregister_kp_log s :
  rkx_kp_registered s = true -> rkx_free_wq s = true ->
  k_log (rkx_unregister_binder_kp s)
  = k_log s ++ [Unregister RKprobeProcTransaction; FlushWorkqueue; Unregister RWorkqueue].
Proof.
  intros Hk Hw. unfold rkx_unregister_binder_kp. rewrite Hk.
  destruct (same_flags_fields s _ (same_flags_unregister RKprobeProcTransaction s)) as (_ & _ & Hq).
  set (s1 := kernel_unregister RKprobeProcTransaction s) in *.
  change (rkx_free_wq (set_kp false (rkx_free_wq s1) s1)) with (rkx_free_wq s1). rewrite Hq, Hw.
  cbn [set_kp k_log]. rewrite kernel_unregister_log. unfold log_action, set_kernel. cbn [k_log set_kp].
  subst s1. by rewrite kernel_unregister_log, <- !app_assoc.
Qed.

Lemma unregister_binder_log s :
  binder_flags s = replicate 3 true ->
  k_log (rkx_unregister_binder s)
  = k_log s ++ [Unregister RTraceTrans; Unregister RTraceReply; Unregister RTraceAllocBuf].
Proof.
  intros [= Ha Hr Ht]. unfold rkx_unregister_binder. rewrite Ht.
  destruct (same_flags_fields s _ (same_flags_unregister RTraceTrans s)) as ([= Ha1 Hr1 _] & _).
  set (s1 := kernel_unregister RTraceTrans s) in *. set (s2 := set_binder _ _ false s1).
  change (rkx_reply_hooked s2) with (rkx_reply_hooked s1). rewrite Hr1, Hr.
  destruct (same_flags_fields s2 _ (same_flags_unregister RTraceReply s2)) as ([= Ha2 _ _] & _).
  set (s3 := kernel_unregister RTraceReply s2) in *. set (s4 := set_binder _ false _ s3).
  change (rkx_alloc_buf_hooked s4) with (rkx_alloc_buf_hooked s3).
  rewrite Ha2. change (rkx_alloc_buf_hooked s2) with (rkx_alloc_buf_hooked s1). rewrite Ha1, Ha.
  cbn [set_binder k_log]. rewrite kernel_unregister_log. change (k_log s4) with (k_log s3). subst s3.
  rewrite kernel_unregister_log. change (k_log s2) with (k_log s1). subst s1.
  by rewrite kernel_unregister_log, <- !app_assoc.
Qed.

(** C34: unloading happens in an order that keeps the hooks safe: the probe goes
    first and its queued work is flushed before the queue is destroyed, every
    hook is gone and its callers have left before the netlink family they send
    through, and the tables they look up go last. *)
Theorem exit_order nets s :
  NoDup nets -> loaded nets s -> rkx_kp_registered s = true -> rkx_free_wq s = true ->
  k_log (rkx_exit nets s) = k_log s
    ++ [Unregister RKprobeProcTransaction; FlushWorkqueue; Unregister RWorkqueue]
    ++ ((fun n => Unregister (RNetHooks n)) <$> nets)
    ++ [Unregister RTraceSignal; Unregister RTraceTrans; Unregister RTraceReply;
        Unregister RTraceAllocBuf; SynchronizeTracepoints; Unregister RGenlFamily;
        DestroyRules; DestroyUids].
Proof.
  intros Hnets (Ht & Hg & Hb & Hs & Hn) Hk Hw. unfold rkx_netlink_ready in Hg.
  pose proof (unregister_kp_releases nets s Ht) as R1.
  pose proof (unregister_kp_log s Hk Hw) as L1.
  unfold rkx_exit. set (s1 := rkx_unregister_binder_kp s) in *.
  pose proof (unregister_netfilter_releases nets s1 Hnets (rel_tracks _ _ _ _ R1)) as R2.
  assert (L2 : k_log (rkx_unregister_netfilter nets s1)
    = k_log s1 ++ ((fun n => Unregister (RNetHooks n)) <$> nets)).
  { unfold rkx_unregister_netfilter. rewrite (rel_netfilter _ _ _ _ R1), Hn. apply unregister_hooks_log. }
  set (s2 := rkx_unregister_netfilter nets s1) in *.
  assert (K2 : forall r, is_kp r = false -> is_net_hooks r = false -> holds nets s2 r = holds nets s r).
  { intros r Hkp Hnh. rewrite (rel_kept _ _ _ _ R2) by done. apply R1. by destruct r. }
  pose proof (unregister_signal_releases nets s2 (rel_tracks _ _ _ _ R2)) as R3.
  assert (L3 : k_log (rkx_unregister_signal s2) = k_log s2 ++ [Unregister RTraceSignal]).
  { unfold rkx_unregister_signal. rewrite (K2 RTraceSignal eq_refl eq_refl : rkx_signal_hooked s2 = _).
    cbn [holds]. rewrite Hs. apply kernel_unregister_log. }
  set (s3 := rkx_unregister_signal s2) in *.
  assert (K3 : forall r, is_kp r = false -> is_net_hooks r = false -> r <> RTraceSignal ->
    holds nets s3 r = holds nets s r).
  { intros r Hkp Hnh Hne. rewrite (rel_kept _ _ _ _ R3); [by apply K2|by apply bool_decide_eq_false]. }
  assert (Hb3 : binder_flags s3 = replicate 3 true).
  { rewrite <- Hb. unfold binder_flags.
    by rewrite (K3 RTraceAllocBuf eq_refl eq_refl ltac:(done) : rkx_alloc_buf_hooked s3 = _),
      (K3 RTraceReply eq_refl eq_refl ltac:(done) : rkx_reply_hooked s3 = _),
      (K3 RTraceTrans eq_refl eq_refl ltac:(done) : rkx_trans_hooked s3 = _). }
  pose proof (unregister_binder_releases nets s3 (rel_tracks _ _ _ _ R3)) as R4.
  pose proof (unregister_binder_log s3 Hb3) as L4. set (s4 := rkx_unregister_binder s3) in *.
  assert (Hg4 : rkx_genl_registered (log_action SynchronizeTracepoints s4) = true).
  { rewrite <- Hg. change (holds nets s4 RGenlFamily = holds nets s RGenlFamily).
    rewrite (rel_kept _ _ _ _ R4) by done. by apply K3. }
  cbv zeta. unfold rkx_unregister_genl. rewrite Hg4. cbn [log_action set_kernel k_log set_tables set_genl].
  rewrite kernel_unregister_log. cbn [log_action set_kernel k_log].
  by rewrite L4, L3, L2, L1, <- !app_assoc.
Qed.
End Lifecycle.

(** ** Evaluations *)

Module LifecycleDemo.
Definition start : module_state :=
  {| rkx_genl_registered := false; rkx_alloc_buf_hooked := false; rkx_reply_hooked := false;
     rkx_trans_hooked := false; rkx_signal_hooked := false; rkx_netfilter_registered := false;
     rkx_kp_registered := false; rkx_free_wq := false; k_live := []; k_warn := []; k_log := [];
     m_uids := {| rkx_net_uid_map := []; nu_retired := [] |};
     m_rules := {| rkx_free_async_map := []; rkx_free_async_count := 0; fa_retired := [] |} |}.

Lemma start_fresh : fresh start.
Proof. intros nets. split_and!; try done. by intros []. Qed.

Definition env_ok : kernel_env :=
  {| register_rc _ := 0; alloc_workqueue_ok := true; kallsyms_has _ := true |}.

(** Registering in the second namespace fails. *)
Definition env_net1 : kernel_env :=
  {| register_rc r := match r with RNetHooks 1 => - ENOMEM | _ => 0 end;
     alloc_workqueue_ok := true; kallsyms_has _ := true |}.

#[export] Existing Instance Demo.version_6_6.
#[export] Existing Instance mod64.
#[export] Existing Instance sum_hash.

Definition running : module_state := (rkx_init env_ok [0; 1]%nat start).2.

Lemma two_nets : NoDup [0; 1]%nat.
Proof. repeat constructor; set_solver. Qed.

Lemma running_loaded : loaded [0; 1]%nat running.
Proof.
  pose proof (init_spec env_ok [0; 1]%nat start start_fresh two_nets) as T. unfold running.
  assert (Hrc : (rkx_init env_ok [0; 1]%nat start).1 = RKX_SUCCESS) by (vm_compute; reflexivity).
  destruct (rkx_init env_ok [0; 1]%nat start) as [rc s']. cbn [fst snd] in *. subst rc.
  destruct T as (_ & _ & T). change (hooks_accepted env_ok && _) with true in T. apply T.
Qed.

Lemma running_uids : m_uids running = rkx_init_net_uid (m_uids start).
Proof. reflexivity. Qed.
Lemma running_rules : m_rules running = rkx_init_free_async (m_rules start).
Proof. reflexivity. Qed.
End LifecycleDemo.
Import LifecycleDemo.

(** The second of two namespaces refuses the packet hooks. *)
Lemma init_all_or_nothing_witness :
  all_released [0; 1]%nat (rkx_init env_net1 [0; 1]%nat start).2
  /\ k_warn (rkx_init env_net1 [0; 1]%nat start).2 = [RNetHooks 1].
Proof.
  pose proof (init_all_or_nothing env_net1 [0; 1]%nat start start_fresh two_nets) as T.
  destruct (rkx_init env_net1 [0; 1]%nat start) as [rc s']. destruct T as (_ & Hw & T).
  change (hooks_accepted env_net1 && _) with false in T. split; [apply T|exact Hw].
Defined.

Lemma exit_releases_everything_witness :
  all_released [0; 1]%nat (rkx_exit [0; 1]%nat running)
  /\ k_warn (rkx_exit [0; 1]%nat running) = [].
Proof.
  destruct (exit_releases_everything [0; 1]%nat running) as (Hrel & Hw & _).
  - exact two_nets.
  - apply running_loaded.
  - rewrite running_uids. apply init_wf.
  - rewrite running_rules. apply init_rules_wf.
  - split; [exact Hrel|]. rewrite Hw. vm_compute. reflexivity.
Defined.

Lemma exit_order_witness :
  drop (length (k_log running)) (k_log (rkx_exit [0; 1]%nat running))
  = [Unregister RKprobeProcTransaction; FlushWorkqueue; Unregister RWorkqueue;
     Unregister (RNetHooks 0); Unregister (RNetHooks 1); Unregister RTraceSignal;
     Unregister RTraceTrans; Unregister RTraceReply; Unregister RTraceAllocBuf;
     SynchronizeTracepoints; Unregister RGenlFamily; DestroyRules; DestroyUids].
Proof.
  rewrite (exit_order [0; 1]%nat running two_nets running_loaded
    ltac:(vm_compute; reflexivity) ltac:(vm_compute; reflexivity)).
  by rewrite drop_app_length.
Defined.

(** When registering the hooks fails in the second of two network
    namespaces, the cleanup also unregisters the hooks of the namespace in which
    they were never registered, which the kernel reports as a bug. *)
Lemma netfilter_cleanup_overreaches :
  (rkx_init env_net1 [0; 1]%nat start).1 = RKX_ERROR
  /\ k_warn (rkx_init env_net1 [0; 1]%nat start).2 = [RNetHooks 1]
  /\ k_live (rkx_init env_net1 [0; 1]%nat start).2 = [].
Proof. vm_compute. split_and!; reflexivity. Qed.

(** A network namespace created after the module was loaded has no hooks,
    but unloading unregisters them there all the same. *)
Lemma exit_unregisters_new_namespace :
  k_warn (rkx_exit [0; 1; 2]%nat running) = [RNetHooks 2]
  /\ k_live (rkx_exit [0; 1; 2]%nat running) = [].
Proof. vm_compute. split_and!; reflexivity. Qed.
