(* ===== verification/System.v ===== *)
(** The module and the client as one system.

    The two places of the module that read an interface token agree; a rule
    applies to every interface the extraction can name and to no other; and
    whatever a hook of the module reports arrives at the Java callback of a
    connected client. *)

From S2P Require Import Prelude HashTable Uapi NetUid FreeAsync Kernel Frozen Token BinderHooks.
From S2P Require Import Signal Netfilter Binder BinderKp BinderKpSpec Nla Genl Jni Resolve Transport Client.

(** ** One name per interface *)

Section Names.
Context `{HashFn} `{Jhash} `{BinderCopy}.

(** The array the trace hook fills when the sender's data is [d] and the copy of
    as many bytes as the hook asks for succeeds. *)
Definition hook_array (d : list byte) : option (list byte) :=
  let n := buf_data_size (Z.of_nat (length d)) in trans_token (take n d) n.

(** The answer and the array of the probe for the buffer [b]. *)
Definition probe_array proc b (s : bstate) : option (bool * list byte * bstate) :=
  rkx_parse_interface_token true (Some proc) (Some b)
    (replicate RKX_INTERFACETOKEN_BUFF_SIZE NUL) RKX_INTERFACETOKEN_BUFF_SIZE s.

(** C13: the two extraction loops are equivalent: for every transaction data,
    however long or malformed, the array the trace hook of rkx_binder.c fills
    from the bytes it copied from the sender equals the array
    [rkx_parse_interface_token] of rkx_binder_kp.c fills from the buffer binder
    copied them to, and the latter reports success exactly when there is a name;
    so a rule set for the name a client was told about is looked up under that
    name. *)
Theorem hook_and_probe_agree s proc p b d :
  b_procs s !! proc = Some p -> bc_data (pr_alloc p) (b_bufs s) b = Some d ->
  exists arr name, hook_array d = Some arr
    /\ probe_array proc b s = Some ((negb (bool_decide (name = [])), arr), s)
    /\ c_string arr = Some name.
Proof.
  intros Hp Hd. unfold hook_array, probe_array. exists (char_array RKX_INTERFACETOKEN_BUFF_SIZE (token_name d)), (token_name d).
  split_and!.
  - rewrite buf_data_size_min, Nat2Z.id. cbv zeta.
    rewrite trans_token_spec by (rewrite ?length_take; lia).
    destruct (Nat.min_spec (length d) RKX_INTERFACETOKEN_BUFF_SIZE) as [[? ->]|[? ->]];
      [by rewrite take_ge by lia|by rewrite window_take].
  - by eapply parse_interface_token_spec.
  - apply c_string_char_array; [apply token_name_no_nul|].
    pose proof (token_name_length d). unfold token_max, RKX_INTERFACETOKEN_BUFF_SIZE in *. lia.
Qed.

(** ** Rules for long names *)

Lemma strategy_for_long m name code st d c :
  (token_max < length name)%nat ->
  strategy_for (<[(name, code) := st]> m) d c = strategy_for m d c.
Proof.
  intros Hlen. unfold strategy_for, rule_lookup. pose proof (token_name_length d) as Ht.
  assert (Hne : name <> token_name d) by (intros ->; lia).
  by rewrite !lookup_insert_ne by congruence.
Qed.

(** With either table of rules the probe chooses the same strategy for every
    transaction whose data binder has copied. *)
Definition probe_chooses_alike (fa fa' : free_async_state) : Prop :=
  forall s proc p b d code,
    b_procs s !! proc = Some p -> bc_data (pr_alloc p) (b_bufs s) b = Some d ->
    kp_strategy true fa' proc b code s = kp_strategy true fa proc b code s.

(** C39: a rule whose interface name has more than 62 characters (and fewer than
    140, which [rkx_add_free_async] refuses) is accepted and stored, so that a
    lookup of that name and code finds it, but never applies: the probe cuts
    every name at 62 characters, so adding the rule changes the strategy of no
    transaction. *)
Theorem long_rule_never_applies fa name code st :
  free_async_wf fa -> Z.of_nat (size (rules fa)) < 2 ^ 31 - 1 ->
  (62 < length name < 140)%nat -> -1 <= code -> st = 1 \/ st = 2 \/ st = 3 ->
  let '(rc, fa') := rkx_add_free_async true (Some name) code st fa in
  rc = 0
  /\ (forall out, rkx_free_async_lookup_rcu (Some name) code (Some out) fa' = (true, Some st))
  /\ probe_chooses_alike fa fa'.
Proof.
  intros Hwf Hsz Hlen Hcode Hst. pose proof (add_refines true name code st fa Hwf) as Hadd.
  destruct (rkx_add_free_async true (Some name) code st fa) as [rc fa'].
  destruct Hadd as [Hwf' Hr].
  assert (Hok : rule_args_ok name code st = true).
  { unfold rule_args_ok. destruct name; [cbn in Hlen; lia|]. rewrite bool_decide_eq_false_2 by done.
    rewrite (proj2 (Nat.ltb_lt _ _)), (proj2 (Z.leb_le _ _)) by (unfold RKX_INTERFACETOKEN_BUFF_SIZE; lia).
    by destruct Hst as [-> | [-> | ->]]. }
  assert (Hrc : rc = 0 /\ rules fa' = <[(name, code) := st]> (rules fa)).
  { unfold add_rule_spec in Hr. rewrite Hok in Hr.
    destruct (rules fa !! (name, code)); injection Hr; tauto. }
  destruct Hrc as [-> Hrules].
  assert (Hsz' : Z.of_nat (size (rules fa')) < 2 ^ 31).
  { rewrite Hrules, map_size_insert. destruct (rules fa !! (name, code)); cbn; lia. }
  split_and!; [done| |].
  - intros out. rewrite lookup_spec by done. unfold rule_lookup.
    by rewrite Hrules, lookup_insert_eq.
  - intros s proc p b d c Hp Hd. rewrite (kp_strategy_spec s fa' proc p b d c Hwf' Hsz' Hp Hd).
    rewrite (kp_strategy_spec s fa proc p b d c Hwf ltac:(lia) Hp Hd).
    by rewrite Hrules, strategy_for_long by (unfold token_max; lia).
Qed.
End Names.

(** ** From a hook to the callback *)

Section Delivery.
Context `{Version} {task : Type} `{TaskApi task} `{PidTable task} `{UserMem} `{StructSizes}.
Context `{SkbApi} {S : Type} `{UidMonitor S} (CONFIG_IPV6 : bool).
Context {skb : Type} `{GenlSkb skb}.

(** What the network stack guarantees about a packet. *)
Definition packet_ok (pkt : option sk_buff) : Prop :=
  forall b, pkt = Some b -> skb_wf b /\ (skb_pkt b = [] \/ (1 <= skb_linear b)%nat)
    /\ forall sk uid, skb_sk b = Some sk -> sk_socket_uid sk = Some uid -> in_u 32 uid.

(** Everything the module passes to [rkx_send_message] once it is loaded. *)
Inductive module_emits : rkx_event -> Prop :=
  | emits_binder e : binder_emits true e -> module_emits e
  | emits_signal sig (killer dst : option task) e :
      e ∈ rkx_do_send_sig_info_vh true sig killer dst -> module_emits e
  | emits_network (st : S) pkt state verdict evs e :
      um_wf st -> packet_ok pkt ->
      rkx_nf_local_in CONFIG_IPV6 true st pkt state = Some (verdict, evs) -> e ∈ evs ->
      module_emits e.

Lemma module_emits_wf e : module_emits e -> event_wf e.
Proof.
  destruct 1 as [e Hb|sig killer dst e Hs|st pkt state verdict evs e Hst Hpkt Hnf Hin].
  - by apply binder_emits_sound in Hb as (_ & ? & _).
  - by apply signal_events_wf in Hs as [_ ?].
  - destruct (nf_local_in_sound CONFIG_IPV6 true st pkt state Hst Hpkt) as (evs' & Hnf' & _ & Hall).
    rewrite Hnf in Hnf'. injection Hnf' as -> ->. by apply Hall.
Qed.

(** [poll] says that the event socket and nothing else is readable, and
    [recvfrom] delivers [msg]. *)
Record delivers (a : poll_answer) (msg : list byte) : Prop := {
  dl_ret : 0 <= pa_ret a;
  dl_quiet : Z.land (pa_disconnect a) POLLIN = 0;
  dl_readable : Z.land (pa_socket a) (Z.lor POLLIN POLLERR) <> 0;
  dl_recv : pa_recv a = Some msg;
  dl_ref : pa_local_ref a = true;
}.

(** C2: what a hook reports, Java sees: whenever any hook of the module reports
    an event and the event is multicast, a connected client with a callback
    that receives the datagram makes exactly one call, of the method for the
    kind of the event, with the event's own values; the client's state does not
    change and its poller goes back to the top of its loop. *)
Theorem hook_event_reaches_java e rc msg a fd efd rbuf c cb :
  module_emits e -> 16 <= family_id < 2 ^ 16 ->
  rkx_send_message e = Some (rc, Multicast msg) ->
  g_family_id (cl_net c) = family_id -> g_callback c = Some cb ->
  length rbuf = Z.to_nat 8192 -> delivers a msg ->
  exists rbuf', poll_wait a fd efd rbuf c = Some (AtTop rbuf', [event_callback e], c)
    /\ length rbuf' = Z.to_nat 8192.
Proof.
  intros He%module_emits_wf Hfam Hsend Hfid Hcb Hrbuf [Hret Hquiet Hread Hrecv Href].
  pose proof (sent_event_length e rc msg He Hsend) as Hlen.
  assert (Hcheck : poll_check a fd efd rbuf = Readable fd rbuf).
  { unfold poll_check. rewrite (proj2 (Z.ltb_ge _ 0)), Hquiet by done. cbn [Z.eqb negb].
    by rewrite (proj2 (Z.eqb_neq _ 0)). }
  unfold poll_wait, poll_rest. rewrite Hcheck, Hrecv, Href. destruct msg as [|x msg]; [cbn in Hlen; lia|].
  cbn [poll_recv]. rewrite mem_write_Some by lia. cbn [mbind option_bind]. rewrite take_0, app_nil_l.
  unfold poll_callback. rewrite Hcb, Hfid.
  change (dispatch_loop ?m (length ?m) ?f 0 ?r) with (dispatch m f r).
  rewrite (sent_event_dispatched e rc (x :: msg)) by done. cbn [mbind option_bind].
  eexists. split; [done|]. rewrite length_app, length_drop. lia.
Qed.
End Delivery.

(** ** Evaluations *)

Import KpDemo.

(** A name of 100 characters. *)
Definition long_name : list byte := replicate 100 Byte.x61.

Lemma hook_and_probe_agree_witness :
  exists arr name, hook_array KpDemo.data = Some arr
    /\ probe_array 1%positive 1%positive KpDemo.state
       = Some ((negb (bool_decide (name = [])), arr), KpDemo.state)
    /\ c_string arr = Some name.
Proof.
  apply (hook_and_probe_agree KpDemo.state 1 KpDemo.proc 1 KpDemo.data); [reflexivity|].
  vm_compute. reflexivity.
Defined.

Lemma long_rule_never_applies_witness :
  let '(rc, fa') := rkx_add_free_async true (Some long_name) 3 RKX_FREE_ASYNC_SKIP demo_state in
  rc = 0 /\ kp_strategy true fa' 1 1 3 KpDemo.state = kp_strategy true demo_state 1 1 3 KpDemo.state.
Proof.
  pose proof (long_rule_never_applies demo_state long_name 3 RKX_FREE_ASYNC_SKIP demo_state_wf) as T.
  destruct (rkx_add_free_async true (Some long_name) 3 RKX_FREE_ASYNC_SKIP demo_state) as [rc fa'].
  destruct T as (Hrc & _ & Hk).
  - vm_compute. reflexivity.
  - split; apply Nat.ltb_lt; vm_compute; reflexivity.
  - discriminate.
  - left. reflexivity.
  - split; [exact Hrc|]. apply (Hk KpDemo.state 1%positive KpDemo.proc 1%positive KpDemo.data 3);
      [reflexivity|vm_compute; reflexivity].
Defined.

#[local] Existing Instance Demo.struct_sizes.
#[local] Existing Instance DemoNet.skb_api.
#[local] Existing Instance GenlDemo.genl.
#[local] Instance demo_user_mem : UserMem := Demo.user_mem [].
#[local] Instance demo_no_pids : PidTable Demo.task := fun _ => None.

Definition kill_event : rkx_event :=
  {| ev_type := RKX_EVT_SIGNAL; ev_u := U_signal {| se_signal := 9;
       se_killer_pid := 1500; se_killer_uid := 1000; se_dst_pid := 4321; se_dst_uid := 10123 |} |}.

(** A connected client with a callback. *)
Definition listening : client := set_callback (Some 7) [7] ClientDemo.connected.

Definition delivery (msg : list byte) : poll_answer :=
  {| pa_ret := 1; pa_disconnect := 0; pa_socket := POLLIN; pa_recv := Some msg; pa_local_ref := true |}.

Lemma hook_event_reaches_java_witness :
  exists msg, rkx_send_message (skb := GenlDemo.skb) kill_event = Some (RKX_SUCCESS, Multicast msg)
  /\ exists rbuf', poll_wait (delivery msg) 40 41 ClientDemo.rbuf listening
     = Some (AtTop rbuf', [CbSignal 9 1000 1500 10123 4321], listening).
Proof.
  eexists. split; [vm_compute; reflexivity|]. set (msg := cons _ _).
  destruct (hook_event_reaches_java (task := Demo.task) (S := net_uid_state) (skb := GenlDemo.skb)
    true kill_event RKX_SUCCESS msg (delivery msg) 40 41 ClientDemo.rbuf listening 7)
    as (rbuf' & Hw & _).
  - eapply (emits_signal true SIGKILL (Some Demo.system_server) (Some Demo.app)). left.
  - cbn. lia.
  - vm_compute. reflexivity.
  - reflexivity.
  - reflexivity.
  - apply length_replicate.
  - split; (reflexivity || discriminate || (cbn; lia)).
  - exists rbuf'. exact Hw.
Defined.
